(** * CSG portal MCP server: per-user session, cache and registry layer

    A shallow embedding of the TypeScript sources that hold per-user
    state: [mongodb-cache.ts] ([MongoSearchCache]), [mongodb-credentials.ts]
    ([MongoCredentialStore], and the file-based [SearchCache] that follows
    it in the same file), the [UserManager] class (third part of
    [directory.ts]), the three revisions of [VeracrossAuth] (two in
    [auth.ts], the latest in [unnamed/part_001]) and [browser-auth.ts]
    ([BrowserAuthServer]); then the properties the specification states
    about them.

    Conventions of the embedding.
    - A JavaScript string is a Rocq [string], read as the UTF-8 byte
      sequence that [createHash(..).update(s)] and [Buffer.from(s)] see.
      [toLowerCase] and the order of [sort] act on bytes, which is what
      JavaScript does on ASCII text.
    - Time is the millisecond count of [Date.now()] / [Date#getTime()], a [Z].
    - A MongoDB collection is the list of its documents in natural order;
      the driver calls the code uses are the functions of [Module Mongo].
    - An [async] method is a function from the state before to a result
      (returned or thrown) and the state after; calls run one at a time.
    - The request log of an object ([sent]) holds the requests that object
      makes itself.  What the listener of the interactive login flow sends
      while a flow runs is logged by [BrowserAuthServer], not by the
      [VeracrossAuth] that started the flow.
    - Everything the code obtains from outside the repository (SHA-256,
      AES-256-CBC, [JSON.parse], [new URL(..).hostname], the cookie jar of
      [tough-cookie], the network, the browser) is a [Variable] of the
      enclosing section or a field of [Platform.t], so every theorem holds
      for each behaviour of it.  [Module Toy] gives one small behaviour on
      which the definitions can be run. *)

From Stdlib Require Import ZArith Lia Bool Ascii String List Permutation.
From Stdlib Require Import Sorting.Sorted.
Import ListNotations.

Local Open Scope list_scope.
Local Open Scope string_scope.

(* ------------------------------------------------------------------ *)
(** * JavaScript string primitives used by the sources *)
(* ------------------------------------------------------------------ *)

Module JsString.

(** [c.toLowerCase()] on one byte: the ASCII capitals move down, every
    other byte is kept. *)
Definition lower_ascii (c : ascii) : ascii :=
  let n := nat_of_ascii c in
  if (65 <=? n)%nat && (n <=? 90)%nat then ascii_of_nat (n + 32) else c.

(** [s.toLowerCase()] *)
Fixpoint toLowerCase (s : string) : string :=
  match s with
  | EmptyString => EmptyString
  | String c r => String (lower_ascii c) (toLowerCase r)
  end.

(** [hay.includes(needle)] *)
Fixpoint includes (needle hay : string) : bool :=
  if String.prefix needle hay then true
  else match hay with
       | EmptyString => false
       | String _ r => includes needle r
       end.

(** [s] without its prefix [p]; [None] unless [s.startsWith(p)]. *)
Fixpoint strip_prefix (p s : string) : option string :=
  match p, s with
  | EmptyString, _ => Some s
  | String a p', String b s' => if Ascii.eqb a b then strip_prefix p' s' else None
  | String _ _, EmptyString => None
  end.

(** [s.substring(0, n)] *)
Definition substring0 (n : nat) (s : string) : string := String.substring 0 n s.

(** JavaScript truthiness of a string: only the empty string is falsy. *)
Definition truthy (s : string) : bool :=
  match s with EmptyString => false | _ => true end.

(** [s.split(sep)] for a one-character separator: never empty,
    [''.split(sep)] is [['']]. *)
Fixpoint split (sep : ascii) (s : string) : list string :=
  match s with
  | EmptyString => [EmptyString]
  | String c r =>
      if Ascii.eqb c sep then EmptyString :: split sep r
      else match split sep r with
           | x :: l => String c x :: l
           | [] => [String c EmptyString]
           end
  end.

(** [parts.join(sep)] *)
Fixpoint join (sep : string) (parts : list string) : string :=
  match parts with
  | [] => EmptyString
  | [x] => x
  | x :: r => x ++ sep ++ join sep r
  end.

(** [s.replace(c, '')] for a one-character pattern: the first occurrence
    is removed. *)
Fixpoint remove_first (c : ascii) (s : string) : string :=
  match s with
  | EmptyString => EmptyString
  | String a r => if Ascii.eqb a c then r else String a (remove_first c r)
  end.

Lemma lower_ascii_idem c : lower_ascii (lower_ascii c) = lower_ascii c.
Proof.
  destruct c as [[] [] [] [] [] [] [] []]; reflexivity.
Qed.

Lemma toLowerCase_idem s : toLowerCase (toLowerCase s) = toLowerCase s.
Proof.
  induction s as [|c r IH]; simpl; [reflexivity|].
  now rewrite lower_ascii_idem, IH.
Qed.

Lemma toLowerCase_app s t :
  toLowerCase (s ++ t) = toLowerCase s ++ toLowerCase t.
Proof.
  induction s as [|c r IH]; simpl; [reflexivity|]. now rewrite IH.
Qed.

End JsString.

(* ------------------------------------------------------------------ *)
(** * The MongoDB driver calls the sources make *)
(* ------------------------------------------------------------------ *)

Module Mongo.
Section Collection.
Variable Doc : Type.

(** A collection, in natural (insertion) order. *)
Definition collection := list Doc.

(** [collection.findOne(filter)]: the first matching document. *)
Definition findOne (filter : Doc -> bool) (c : collection) : option Doc :=
  List.find filter c.

(** Replace the first matching document; [None] when nothing matches. *)
Fixpoint replaceFirst (filter : Doc -> bool) (d : Doc) (c : collection)
  : option collection :=
  match c with
  | [] => None
  | x :: r =>
      if filter x then Some (d :: r)
      else match replaceFirst filter d r with
           | Some r' => Some (x :: r')
           | None => None
           end
  end.

(** [collection.replaceOne(filter, d, { upsert: true })] *)
Definition replaceOne_upsert (filter : Doc -> bool) (d : Doc) (c : collection)
  : collection :=
  match replaceFirst filter d c with
  | Some c' => c'
  | None => (c ++ [d])%list
  end.

(** [collection.deleteOne(filter)] *)
Fixpoint deleteOne (filter : Doc -> bool) (c : collection) : collection :=
  match c with
  | [] => []
  | x :: r => if filter x then r else x :: deleteOne filter r
  end.

(** [collection.deleteMany(filter)] *)
Definition deleteMany (filter : Doc -> bool) (c : collection) : collection :=
  List.filter (fun x => negb (filter x)) c.

(** [collection.updateMany(filter, { $set: .. })], the [$set] given as
    the function it applies to a document. *)
Definition updateMany (filter : Doc -> bool) (set : Doc -> Doc) (c : collection)
  : collection :=
  List.map (fun x => if filter x then set x else x) c.

(** [collection.updateOne(filter, { $set: .. })]: the new collection and
    [result.matchedCount]. *)
Fixpoint updateOne (filter : Doc -> bool) (set : Doc -> Doc) (c : collection)
  : collection * nat :=
  match c with
  | [] => ([], 0%nat)
  | x :: r =>
      if filter x then (set x :: r, 1%nat)
      else let '(r', n) := updateOne filter set r in (x :: r', n)
  end.

(** [collection.countDocuments(filter)] *)
Definition countDocuments (filter : Doc -> bool) (c : collection) : nat :=
  List.length (List.filter filter c).

(** [collection.findOne({}, { sort: { k: -1 } })]: a document whose [k] is
    greatest.  MongoDB does not say which of several documents with the
    greatest key it returns; the model takes the first in natural order.
    What is proved of this read holds for any choice: it speaks of a
    document of greatest key, or assumes that the keys are distinct. *)
Fixpoint findOne_sort_desc (key : Doc -> Z) (c : collection) : option Doc :=
  match c with
  | [] => None
  | x :: r =>
      match findOne_sort_desc key r with
      | Some y => if (key x <? key y)%Z then Some y else Some x
      | None => Some x
      end
  end.

Fixpoint insert_desc (key : Doc -> Z) (x : Doc) (l : list Doc) : list Doc :=
  match l with
  | [] => [x]
  | y :: r => if (key x <? key y)%Z then y :: insert_desc key x r else x :: y :: r
  end.

(** [collection.find({}).sort({ k: -1 }).toArray()]: greatest [k] first.
    The order among equal keys, which MongoDB leaves open, is the natural
    order here; with distinct keys the list is the only one there is
    ([descending_listing_unique]). *)
Fixpoint find_sort_desc (key : Doc -> Z) (c : collection) : list Doc :=
  match c with
  | [] => []
  | x :: r => insert_desc key x (find_sort_desc key r)
  end.

(** ** Frame lemmas: a write selected by [f] is invisible to a read
    selected by [g] when no document satisfies both and the written
    document does not satisfy [g]. *)

Section Frame.
Variables f g : Doc -> bool.
Hypothesis disjoint : forall x, f x = true -> g x = false.

Lemma filter_replaceFirst d c c' :
  g d = false ->
  replaceFirst f d c = Some c' ->
  List.filter g c' = List.filter g c.
Proof.
  intros Hd. revert c'. induction c as [|x r IH]; intros c'; simpl.
  - discriminate.
  - destruct (f x) eqn:Hf.
    + intros [= <-]. simpl. now rewrite Hd, (disjoint _ Hf).
    + destruct (replaceFirst f d r) as [r'|]; [|discriminate].
      intros [= <-]. simpl. now rewrite (IH r' eq_refl).
Qed.

Lemma filter_replaceOne_upsert d c :
  g d = false ->
  List.filter g (replaceOne_upsert f d c) = List.filter g c.
Proof.
  intros Hd. unfold replaceOne_upsert.
  destruct (replaceFirst f d c) as [c'|] eqn:E.
  - eapply filter_replaceFirst; eauto.
  - rewrite List.filter_app. simpl. rewrite Hd. apply app_nil_r.
Qed.

Lemma filter_deleteOne c :
  List.filter g (deleteOne f c) = List.filter g c.
Proof.
  induction c as [|x r IH]; simpl; [reflexivity|].
  destruct (f x) eqn:Hf.
  - now rewrite (disjoint _ Hf).
  - simpl. now rewrite IH.
Qed.

Lemma filter_deleteMany c :
  List.filter g (deleteMany f c) = List.filter g c.
Proof.
  unfold deleteMany.
  induction c as [|x r IH]; simpl; [reflexivity|].
  destruct (f x) eqn:Hf; simpl.
  - now rewrite (disjoint _ Hf).
  - now rewrite IH.
Qed.
End Frame.

(** [findOne] sees a collection only through the documents that satisfy
    a weaker filter. *)
Lemma findOne_filter (g h : Doc -> bool) c :
  (forall x, h x = true -> g x = true) ->
  findOne h (List.filter g c) = findOne h c.
Proof.
  intros Hgh. unfold findOne.
  induction c as [|x r IH]; simpl; [reflexivity|].
  destruct (g x) eqn:Hg; simpl.
  - now rewrite IH.
  - destruct (h x) eqn:Hh; [|exact IH].
    apply Hgh in Hh. congruence.
Qed.

Lemma countDocuments_filter (g h : Doc -> bool) c :
  (forall x, h x = true -> g x = true) ->
  countDocuments h (List.filter g c) = countDocuments h c.
Proof.
  intros Hgh. unfold countDocuments. f_equal.
  induction c as [|x r IH]; simpl; [reflexivity|].
  destruct (g x) eqn:Hg; simpl.
  - now rewrite IH.
  - destruct (h x) eqn:Hh; [|exact IH].
    apply Hgh in Hh. congruence.
Qed.

(** After an upsert selected by [f], the first document a stronger filter
    [g] finds is the one written, when [g] accepts it. *)
Lemma findOne_replaceOne_upsert (f g : Doc -> bool) d c :
  (forall x, g x = true -> f x = true) ->
  g d = true ->
  findOne g (replaceOne_upsert f d c) = Some d.
Proof.
  intros Hgf Hd. unfold replaceOne_upsert, findOne.
  assert (Hnf : forall x, f x = false -> g x = false).
  { intros x Hx. destruct (g x) eqn:E; [|reflexivity].
    apply Hgf in E. congruence. }
  destruct (replaceFirst f d c) as [c'|] eqn:E.
  - revert c' E. induction c as [|x r IH]; intros c'; simpl; [discriminate|].
    destruct (f x) eqn:Hx.
    + intros [= <-]. simpl. now rewrite Hd.
    + destruct (replaceFirst f d r) as [r'|]; [|discriminate].
      intros [= <-]. simpl. rewrite (Hnf x Hx). now apply IH.
  - revert E. induction c as [|x r IH]; simpl.
    + intros _. now rewrite Hd.
    + destruct (f x) eqn:Hx; [discriminate|].
      destruct (replaceFirst f d r); [discriminate|].
      intros _. rewrite (Hnf x Hx). now apply IH.
Qed.

Lemma findOne_ext (g h : Doc -> bool) c :
  (forall x, g x = h x) -> findOne g c = findOne h c.
Proof.
  intros E. unfold findOne. induction c as [|x r IH]; simpl; [reflexivity|].
  now rewrite E, IH.
Qed.

Lemma findOne_Some (h : Doc -> bool) c d :
  findOne h c = Some d -> In d c /\ h d = true.
Proof. apply List.find_some. Qed.

Lemma findOne_None (h : Doc -> bool) c :
  findOne h c = None -> forall d, In d c -> h d = false.
Proof. apply List.find_none. Qed.

End Collection.

Arguments findOne {Doc} filter c.
Arguments replaceFirst {Doc} filter d c.
Arguments replaceOne_upsert {Doc} filter d c.
Arguments deleteOne {Doc} filter c.
Arguments deleteMany {Doc} filter c.
Arguments updateMany {Doc} filter set c.
Arguments updateOne {Doc} filter set c.
Arguments countDocuments {Doc} filter c.
Arguments findOne_sort_desc {Doc} key c.
Arguments insert_desc {Doc} key x l.
Arguments find_sort_desc {Doc} key c.

End Mongo.

(* ------------------------------------------------------------------ *)
(** * JavaScript objects and [JSON.stringify] *)
(* ------------------------------------------------------------------ *)

Module Json.

(** The values a field of [DirectorySearchParams] (or of the calendar's
    cache-key object) can hold: the fields are optional strings, [refresh]
    is an optional boolean. *)
Inductive jsval : Type :=
| JUndefined
| JBool (b : bool)
| JString (s : string).

(** A plain object: its own enumerable properties in insertion order. *)
Definition object := list (string * jsval).

(** The property names of an object are pairwise different. *)
Definition wf_object (o : object) : Prop := NoDup (List.map fst o).

Definition keys (o : object) : list string := List.map fst o.

(** [o.k]: [undefined] when [o] has no property [k]. *)
Fixpoint get (o : object) (k : string) : jsval :=
  match o with
  | [] => JUndefined
  | (k', v) :: r => if String.eqb k' k then v else get r k
  end.

(** [delete o.k] *)
Definition delete (k : string) (o : object) : object :=
  List.filter (fun e => negb (String.eqb (fst e) k)) o.

(** [v || ''] *)
Definition or_empty (v : jsval) : jsval :=
  match v with
  | JString s => if JsString.truthy s then JString s else JString EmptyString
  | JBool true => JBool true
  | JBool false => JString EmptyString
  | JUndefined => JString EmptyString
  end.

Definition dquote : ascii := ascii_of_nat 34.
Definition backslash : ascii := ascii_of_nat 92.

Definition hex_digit (n : nat) : ascii :=
  match String.get n "0123456789abcdef" with
  | Some c => c
  | None => "0"%char
  end.

(** One code unit of [QuoteJSONString] (ECMA-262, 25.5.2.3). *)
Definition escape_char (c : ascii) : string :=
  let n := nat_of_ascii c in
  let esc (e : ascii) := String backslash (String e EmptyString) in
  match n with
  | 8 => esc "b"%char
  | 9 => esc "t"%char
  | 10 => esc "n"%char
  | 12 => esc "f"%char
  | 13 => esc "r"%char
  | 34 => esc dquote
  | 92 => esc backslash
  | _ =>
      if (n <? 32)%nat then
        String backslash
          (String "u"%char (String "0"%char (String "0"%char
            (String (hex_digit (n / 16)) (String (hex_digit (n mod 16)) EmptyString)))))
      else String c EmptyString
  end.

Fixpoint escape (s : string) : string :=
  match s with
  | EmptyString => EmptyString
  | String c r => escape_char c ++ escape r
  end.

(** [QuoteJSONString(s)] *)
Definition quote (s : string) : string :=
  String dquote (escape s ++ String dquote EmptyString).

(** The character a two-character escape [\e] stands for. *)
Definition short_escape (e : ascii) : option ascii :=
  match nat_of_ascii e with
  | 98 => Some (ascii_of_nat 8)
  | 116 => Some (ascii_of_nat 9)
  | 110 => Some (ascii_of_nat 10)
  | 102 => Some (ascii_of_nat 12)
  | 114 => Some (ascii_of_nat 13)
  | 34 => Some dquote
  | 92 => Some backslash
  | _ => None
  end.

Definition hex_value (c : ascii) : option nat :=
  let n := nat_of_ascii c in
  if (48 <=? n)%nat && (n <=? 57)%nat then Some (n - 48)
  else if (97 <=? n)%nat && (n <=? 102)%nat then Some (n - 87)
  else if (65 <=? n)%nat && (n <=? 70)%nat then Some (n - 55)
  else None.

(** Reads the rest of a JSON string literal after its opening quote: the
    string denoted and the text after the closing quote.  Inverse of
    [escape]; of the [\u] escapes it reads those below [0x100]. *)
Fixpoint unquote_body (s : string) : option (string * string) :=
  match s with
  | EmptyString => None
  | String c r =>
      if Ascii.eqb c dquote then Some (EmptyString, r)
      else if Ascii.eqb c backslash then
        match r with
        | EmptyString => None
        | String e r1 =>
            match short_escape e with
            | Some d =>
                match unquote_body r1 with
                | Some (x, rest) => Some (String d x, rest)
                | None => None
                end
            | None =>
                match r1 with
                | String a (String b (String h (String l r2))) =>
                    if Ascii.eqb e "u"%char && Ascii.eqb a "0"%char && Ascii.eqb b "0"%char
                    then
                      match hex_value h, hex_value l with
                      | Some hv, Some lv =>
                          match unquote_body r2 with
                          | Some (x, rest) =>
                              Some (String (ascii_of_nat (hv * 16 + lv)) x, rest)
                          | None => None
                          end
                      | _, _ => None
                      end
                    else None
                | _ => None
                end
            end
        end
      else
        match unquote_body r with
        | Some (x, rest) => Some (String c x, rest)
        | None => None
        end
  end.

(** Reads a JSON string literal at the head of [s]. *)
Definition unquote (s : string) : option (string * string) :=
  match s with
  | String c r => if Ascii.eqb c dquote then unquote_body r else None
  | EmptyString => None
  end.

(** [SerializeJSONProperty]: [None] is the [undefined] result that makes
    [JSON.stringify] skip the property. *)
Definition serialize (v : jsval) : option string :=
  match v with
  | JUndefined => None
  | JBool true => Some "true"
  | JBool false => Some "false"
  | JString s => Some (quote s)
  end.

(** The [partial] list of [SerializeJSONObject] for the property list [ks]. *)
Fixpoint partial (ks : list string) (o : object) : list string :=
  match ks with
  | [] => []
  | k :: r =>
      match serialize (get o k) with
      | Some t => (quote k ++ ":" ++ t) :: partial r o
      | None => partial r o
      end
  end.

Fixpoint join_comma (l : list string) : string :=
  match l with
  | [] => EmptyString
  | [x] => x
  | x :: r => x ++ "," ++ join_comma r
  end.

(** [JSON.stringify(o, ks)] with an array replacer [ks] (a property
    list without repetitions) and no indentation. *)
Definition stringify_with (o : object) (ks : list string) : string :=
  "{" ++ join_comma (partial ks o) ++ "}".

(** [JSON.stringify(o)] *)
Definition stringify (o : object) : string := stringify_with o (keys o).

(** [Array.prototype.sort()] on strings: ascending code-unit order. *)
Fixpoint insert_sorted (k : string) (l : list string) : list string :=
  match l with
  | [] => [k]
  | x :: r => if String.leb k x then k :: l else x :: insert_sorted k r
  end.

Fixpoint sort (l : list string) : list string :=
  match l with
  | [] => []
  | k :: r => insert_sorted k (sort r)
  end.

(** JSON white space: space, tab, line feed and carriage return. *)
Definition is_ws (c : ascii) : bool :=
  let n := nat_of_ascii c in
  (n =? 32)%nat || (n =? 9)%nat || (n =? 10)%nat || (n =? 13)%nat.

Fixpoint skip_ws (s : string) : string :=
  match s with
  | String c r => if is_ws c then skip_ws r else s
  | EmptyString => EmptyString
  end.

(** [JSON.parse(text) === null]: the text is the literal [null], with
    nothing but JSON white space around it.  [null] is the one value
    [JSON.parse] returns whose properties cannot be read. *)
Definition parses_to_null (text : string) : bool :=
  match skip_ws text with
  | String "n" (String "u" (String "l" (String "l" rest))) =>
      match skip_ws rest with
      | EmptyString => true
      | _ => false
      end
  | _ => false
  end.

End Json.

(* ------------------------------------------------------------------ *)
(** * Encodings: hexadecimal and base64 *)
(* ------------------------------------------------------------------ *)

Module Encoding.

(** [buf.toString('hex')] *)
Fixpoint hex (s : string) : string :=
  match s with
  | EmptyString => EmptyString
  | String c r =>
      let n := nat_of_ascii c in
      String (Json.hex_digit (n / 16)) (String (Json.hex_digit (n mod 16)) (hex r))
  end.

(** [Buffer.from(s, 'hex')]: decoding stops at the first pair that is not
    two hexadecimal digits. *)
Fixpoint unhex (s : string) : string :=
  match s with
  | String a (String b r) =>
      match Json.hex_value a, Json.hex_value b with
      | Some h, Some l => String (ascii_of_nat (h * 16 + l)) (unhex r)
      | _, _ => EmptyString
      end
  | _ => EmptyString
  end.

Definition b64_digit (n : nat) : ascii :=
  match String.get n
          "ABCDEFGHIJKLMNOPQRSTUVWXYZabcdefghijklmnopqrstuvwxyz0123456789+/" with
  | Some c => c
  | None => "="%char
  end.

(** [buf.toString('base64')] *)
Fixpoint base64 (s : string) : string :=
  match s with
  | EmptyString => EmptyString
  | String a EmptyString =>
      let a := nat_of_ascii a in
      String (b64_digit (a / 4)) (String (b64_digit ((a mod 4) * 16)) "==")
  | String a (String b EmptyString) =>
      let a := nat_of_ascii a in
      let b := nat_of_ascii b in
      String (b64_digit (a / 4))
        (String (b64_digit ((a mod 4) * 16 + b / 16))
           (String (b64_digit ((b mod 16) * 4)) "="))
  | String a (String b (String c r)) =>
      let a := nat_of_ascii a in
      let b := nat_of_ascii b in
      let c := nat_of_ascii c in
      String (b64_digit (a / 4))
        (String (b64_digit ((a mod 4) * 16 + b / 16))
           (String (b64_digit ((b mod 16) * 4 + c / 64))
              (String (b64_digit (c mod 64)) (base64 r))))
  end.

(** [s.replace(/[/+=]/g, '_')] *)
Fixpoint filename_safe (s : string) : string :=
  match s with
  | EmptyString => EmptyString
  | String c r =>
      let c' :=
        if Ascii.eqb c "/"%char || Ascii.eqb c "+"%char || Ascii.eqb c "="%char
        then "_"%char else c in
      String c' (filename_safe r)
  end.

End Encoding.

Lemma unhex_hex s : Encoding.unhex (Encoding.hex s) = s.
Proof.
  induction s as [|c r IH]; [reflexivity|].
  cbn [Encoding.hex Encoding.unhex]. rewrite IH.
  destruct c as [[] [] [] [] [] [] [] []]; reflexivity.
Qed.

Example base64_sample : Encoding.base64 "Man is" = "TWFuIGlz".
Proof. reflexivity. Qed.
Example base64_pad : Encoding.base64 "Ma" = "TWE=".
Proof. reflexivity. Qed.
Example stringify_sample :
  Json.stringify [("a", Json.JString "x"); ("b", Json.JUndefined); ("c", Json.JBool true)]
  = String "{" (String Json.dquote (String "a" (String Json.dquote (String ":"
      (String Json.dquote (String "x" (String Json.dquote (String ","
      (String Json.dquote (String "c" (String Json.dquote ":true}"))))))))))).
Proof. reflexivity. Qed.

(* ------------------------------------------------------------------ *)
(** * [mongodb-credentials.ts]: class [MongoCredentialStore] *)
(* ------------------------------------------------------------------ *)

(** [interface Credentials].  In the browser flow the [password] field
    holds [JSON.stringify(sessionData)] instead of a password. *)
Record Credentials : Type := mkCredentials {
  username : string;
  password : string
}.

Module MongoCredentialStore.

(** [interface EncryptedCredentialDocument] *)
Record EncryptedCredentialDocument : Type := mkDoc {
  userHash : string;
  encryptedCredentials : string;
  iv : string;
  createdAt : Z;
  updatedAt : Z
}.

(** The fields of a [MongoCredentialStore] instance the methods read. *)
Record t : Type := mkStore {
  userEmail : string;
  store_userHash : string;
  encryptionKey : string
}.

Section WithCrypto.

(** [createHash('sha256').update(s).digest()], the 32 raw bytes. *)
Variable sha256 : string -> string.
(** AES-256-CBC under [key] and [iv]: [cipher.update(text,'utf8','hex') +
    cipher.final('hex')], and the inverse direction, which throws
    ([None]) on bad padding or malformed input. *)
Variable aes_encrypt : string -> string -> string -> string.
Variable aes_decrypt : string -> string -> string -> option string.
(** [JSON.parse(text) as Credentials]; [None] when it throws. *)
Variable JSON_parse_credentials : string -> option Credentials.
(** [process.env.ENCRYPTION_MASTER_KEY] *)
Variable ENCRYPTION_MASTER_KEY : option string.

(** [createHash('sha256').update(s).digest('hex')] *)
Definition sha256_hex (s : string) : string := Encoding.hex (sha256 s).

(** [hashEmail], lines 48-50 *)
Definition hashEmail (email : string) : string :=
  JsString.substring0 16 (sha256_hex (JsString.toLowerCase email)).

(** [deriveKey], lines 52-56 *)
Definition deriveKey (masterKey userEmail : string) : string :=
  let combined := masterKey ++ userEmail in
  sha256 combined.

(** [process.env.ENCRYPTION_MASTER_KEY || 'default-key-change-in-production'] *)
Definition masterKey : string :=
  match ENCRYPTION_MASTER_KEY with
  | Some k => if JsString.truthy k then k else "default-key-change-in-production"
  | None => "default-key-change-in-production"
  end.

(** [constructor(userEmail)], lines 35-46 *)
Definition new (email : string) : t :=
  {| userEmail := email;
     store_userHash := hashEmail email;
     encryptionKey := deriveKey masterKey email |}.

(** [JSON.stringify(credentials)] *)
Definition credentialsJson (c : Credentials) : string :=
  Json.stringify [("username", Json.JString (username c));
                  ("password", Json.JString (password c))].

(** The filter [{ userHash: this.userHash }]. *)
Definition byUser (s : t) (d : EncryptedCredentialDocument) : bool :=
  String.eqb (userHash d) (store_userHash s).

(** [saveCredentials], lines 93-112.  [rnd] is the value of
    [randomBytes(16)], [now] that of [new Date()]. *)
Definition saveCredentials (s : t) (c : Credentials) (rnd : string) (now : Z)
  (coll : list EncryptedCredentialDocument) : list EncryptedCredentialDocument :=
  let encrypted := aes_encrypt (encryptionKey s) rnd (credentialsJson c) in
  let document :=
    {| userHash := store_userHash s;
       encryptedCredentials := encrypted;
       iv := Encoding.hex rnd;
       createdAt := now;
       updatedAt := now |} in
  Mongo.replaceOne_upsert (byUser s) document coll.

(** [decrypt], lines 83-91, composed with the [JSON.parse] of line 125. *)
Definition decryptDocument (s : t) (d : EncryptedCredentialDocument)
  : option Credentials :=
  match aes_decrypt (encryptionKey s) (Encoding.unhex (iv d)) (encryptedCredentials d) with
  | Some decrypted => JSON_parse_credentials decrypted
  | None => None
  end.

(** [loadCredentials], lines 114-130: the [catch] turns every failure of
    decryption or parsing into [null]. *)
Definition loadCredentials (s : t) (coll : list EncryptedCredentialDocument)
  : option Credentials :=
  match Mongo.findOne (byUser s) coll with
  | None => None
  | Some document => decryptDocument s document
  end.

(** [hasCredentials], lines 132-136 *)
Definition hasCredentials (s : t) (coll : list EncryptedCredentialDocument) : bool :=
  (0 <? Mongo.countDocuments (byUser s) coll)%nat.

(** [clearCredentials], lines 138-141 *)
Definition clearCredentials (s : t) (coll : list EncryptedCredentialDocument)
  : list EncryptedCredentialDocument :=
  Mongo.deleteOne (byUser s) coll.

End WithCrypto.
End MongoCredentialStore.

(** The object [getCacheInfo] returns in both caches,
    [{ exists, age?, expiresIn? }]; a field left out is [None]. *)
Module CacheInfo.

Record t : Type := mk {
  exists_ : bool;
  age : option Z;
  expiresIn : option Z
}.

(** [{ exists: false }] *)
Definition absent : t := {| exists_ := false; age := None; expiresIn := None |}.

(** [Math.floor(ms / 1000 / 60)].  On integers in the range of a clock
    reading both divisions are exact enough that the floor of the quotient
    is the quotient of the floor divisions. *)
Definition minutes (ms : Z) : Z := (ms / 1000 / 60)%Z.

(** The object built from an entry's two stamps at clock reading [now]. *)
Definition of_stamps (timestamp expiresAt now : Z) : t :=
  {| exists_ := true;
     age := Some (minutes (now - timestamp));
     expiresIn := Some (Z.max 0 (minutes (expiresAt - now))) |}.

End CacheInfo.

(* ------------------------------------------------------------------ *)
(** * [mongodb-cache.ts]: class [MongoSearchCache] *)
(* ------------------------------------------------------------------ *)

Module MongoSearchCache.
Section WithHash.

Variable sha256 : string -> string.
(** The cached payload, [DirectoryEntry[]] (or the calendar's events). *)
Variable T : Type.

(** [interface CacheEntry<T>] *)
Record CacheEntry : Type := mkEntry {
  userHash : string;
  searchHash : string;
  data : T;
  timestamp : Z;
  expiresAt : Z
}.

Record t : Type := mkCache {
  userEmail : string;
  cache_userHash : string
}.

Definition sha256_hex (s : string) : string := Encoding.hex (sha256 s).

(** [hashEmail], lines 39-41 *)
Definition hashEmail (email : string) : string :=
  JsString.substring0 16 (sha256_hex (JsString.toLowerCase email)).

(** [constructor(userEmail)], lines 30-37 *)
Definition new (email : string) : t :=
  {| userEmail := email; cache_userHash := hashEmail email |}.

(** The object hashed by [getCacheKey]: a copy of [params] without
    [userEmail] and [refresh] (lines 45-47). *)
Definition searchParams (params : Json.object) : Json.object :=
  Json.delete "refresh" (Json.delete "userEmail" params).

(** The string hashed by [getCacheKey] (line 49). *)
Definition cacheKeyString (params : Json.object) : string :=
  let sp := searchParams params in
  Json.stringify_with sp (Json.sort (Json.keys sp)).

(** [getCacheKey], lines 43-51 *)
Definition getCacheKey (params : Json.object) : string :=
  sha256_hex (cacheKeyString params).

(** The filter [{ userHash: this.userHash, searchHash }]. *)
Definition bySlot (c : t) (h : string) (d : CacheEntry) : bool :=
  String.eqb (userHash d) (cache_userHash c) && String.eqb (searchHash d) h.

(** The filter of [get]: the slot, and [expiresAt: { $gt: new Date() }]. *)
Definition bySlotLive (c : t) (h : string) (now : Z) (d : CacheEntry) : bool :=
  bySlot c h d && (now <? expiresAt d)%Z.

(** The filter [{ userHash: this.userHash }]. *)
Definition byUser (c : t) (d : CacheEntry) : bool :=
  String.eqb (userHash d) (cache_userHash c).

(** [get], lines 66-81; [now] is the value of [new Date()]. *)
Definition get (c : t) (params : Json.object) (now : Z) (coll : list CacheEntry)
  : option T :=
  let h := getCacheKey params in
  match Mongo.findOne (bySlotLive c h now) coll with
  | None => None
  | Some document => Some (data document)
  end.

(** [set], lines 83-103 *)
Definition set (c : t) (params : Json.object) (d : T) (lifetimeHours : Z) (now : Z)
  (coll : list CacheEntry) : list CacheEntry :=
  let h := getCacheKey params in
  let expires := (now + lifetimeHours * 60 * 60 * 1000)%Z in
  let cacheEntry :=
    {| userHash := cache_userHash c;
       searchHash := h;
       data := d;
       timestamp := now;
       expiresAt := expires |} in
  Mongo.replaceOne_upsert (bySlot c h) cacheEntry coll.

(** [clear], lines 105-119 *)
Definition clear (c : t) (params : option Json.object) (coll : list CacheEntry)
  : list CacheEntry :=
  match params with
  | Some p => Mongo.deleteOne (bySlot c (getCacheKey p)) coll
  | None => Mongo.deleteMany (byUser c) coll
  end.

(** [getCacheInfo], lines 121-143: the filter has no expiry condition. *)
Definition getCacheInfo (c : t) (params : Json.object) (now : Z)
  (coll : list CacheEntry) : CacheInfo.t :=
  let h := getCacheKey params in
  match Mongo.findOne (bySlot c h) coll with
  | None => CacheInfo.absent
  | Some document =>
      CacheInfo.of_stamps (timestamp document) (expiresAt document) now
  end.

End WithHash.

Arguments userHash {T} c.
Arguments searchHash {T} c.
Arguments data {T} c.
Arguments timestamp {T} c.
Arguments expiresAt {T} c.
Arguments bySlot {T} c h d.
Arguments bySlotLive {T} c h now d.
Arguments byUser {T} c d.
Arguments get sha256 {T} c params now coll.
Arguments set sha256 {T} c params d lifetimeHours now coll.
Arguments clear sha256 {T} c params coll.
Arguments getCacheInfo sha256 {T} c params now coll.

End MongoSearchCache.

(* ------------------------------------------------------------------ *)
(** * The file-based [SearchCache] (second part of [mongodb-credentials.ts]) *)
(* ------------------------------------------------------------------ *)

Module SearchCache.
Section WithFs.

Variable sha256 : string -> string.
Variable T : Type.
(** [os.homedir()] *)
Variable homedir : string.

(** [interface CacheEntry<T>] of the file cache. *)
Record CacheEntry : Type := mkEntry {
  data : T;
  timestamp : Z;
  expiresAt : Z
}.

(** [JSON.parse(fileContent)] read as a [CacheEntry]; [None] when it throws. *)
Variable JSON_parse_entry : string -> option CacheEntry.
(** [JSON.stringify(cacheEntry, null, 2)] *)
Variable JSON_stringify_entry : CacheEntry -> string.

(** The file system: the content of the file at a path, if there is one. *)
Definition fs := string -> option string.

Definition writeFileSync (path content : string) (f : fs) : fs :=
  fun p => if String.eqb p path then Some content else f p.

(** [path.join(a, b)] on clean components. *)
Definition join (a b : string) : string := a ++ "/" ++ b.

Record t : Type := mkCache { cacheDir : string }.

(** [hashEmail], lines 197-200 *)
Definition hashEmail (email : string) : string :=
  JsString.substring0 16 (Encoding.hex (sha256 (JsString.toLowerCase email))).

(** [constructor(userEmail)], lines 184-195 *)
Definition new (email : string) : t :=
  let userHash := hashEmail email in
  let baseDir := join homedir ".csg-portal-users" in
  let userDir := join baseDir userHash in
  {| cacheDir := join userDir "cache" |}.

(** The object literal of [getCacheKey], lines 210-216. *)
Definition keyObject (params : Json.object) : Json.object :=
  [("firstName", Json.or_empty (Json.get params "firstName"));
   ("lastName", Json.or_empty (Json.get params "lastName"));
   ("city", Json.or_empty (Json.get params "city"));
   ("postalCode", Json.or_empty (Json.get params "postalCode"));
   ("gradeLevel", Json.or_empty (Json.get params "gradeLevel"))].

(** [getCacheKey], lines 208-220 *)
Definition getCacheKey (params : Json.object) : string :=
  let key := Json.stringify (keyObject params) in
  Encoding.filename_safe (Encoding.base64 key).

(** [getCacheFilePath], lines 222-225 *)
Definition getCacheFilePath (c : t) (params : Json.object) : string :=
  let key := getCacheKey params in
  join (cacheDir c) ("directory_" ++ key ++ ".json").

(** [get], lines 227-249; [now] is the value of [Date.now()]. *)
Definition get (c : t) (params : Json.object) (now : Z) (f : fs) : option T :=
  let filePath := getCacheFilePath c params in
  match f filePath with
  | None => None
  | Some fileContent =>
      match JSON_parse_entry fileContent with
      | None => None
      | Some cacheEntry =>
          if (now >? expiresAt cacheEntry)%Z then None
          else Some (data cacheEntry)
      end
  end.

(** [set], lines 251-268 *)
Definition set (c : t) (params : Json.object) (d : T) (lifetimeHours : Z) (now : Z)
  (f : fs) : fs :=
  let filePath := getCacheFilePath c params in
  let expires := (now + lifetimeHours * 60 * 60 * 1000)%Z in
  let cacheEntry := {| data := d; timestamp := now; expiresAt := expires |} in
  writeFileSync filePath (JSON_stringify_entry cacheEntry) f.

(** [clear], lines 270-286: the file of the entry is overwritten with the
    empty string, not removed; without [params] nothing is done. *)
Definition clear (c : t) (params : option Json.object) (f : fs) : fs :=
  match params with
  | Some p =>
      let filePath := getCacheFilePath c p in
      match f filePath with
      | Some _ => writeFileSync filePath EmptyString f
      | None => f
      end
  | None => f
  end.

(** [getCacheInfo], lines 288-308 *)
Definition getCacheInfo (c : t) (params : Json.object) (now : Z) (f : fs)
  : CacheInfo.t :=
  let filePath := getCacheFilePath c params in
  match f filePath with
  | None => CacheInfo.absent
  | Some fileContent =>
      match JSON_parse_entry fileContent with
      | Some cacheEntry =>
          CacheInfo.of_stamps (timestamp cacheEntry) (expiresAt cacheEntry) now
      | None => CacheInfo.absent
      end
  end.

End WithFs.

Arguments data {T} c.
Arguments timestamp {T} c.
Arguments expiresAt {T} c.
Arguments get {T} JSON_parse_entry c params now f.
Arguments set {T} JSON_stringify_entry c params d lifetimeHours now f.
Arguments getCacheInfo {T} JSON_parse_entry c params now f.

End SearchCache.

(* ------------------------------------------------------------------ *)
(** * [user-manager.ts]: class [UserManager] *)
(* ------------------------------------------------------------------ *)

Module UserManager.

(** [interface UserConfig] *)
Record UserConfig : Type := mkUser {
  userHash : string;
  email : string;
  isDefault : bool;
  createdAt : Z;
  lastUsed : Z
}.

Definition set_isDefault (b : bool) (u : UserConfig) : UserConfig :=
  {| userHash := userHash u; email := email u; isDefault := b;
     createdAt := createdAt u; lastUsed := lastUsed u |}.

Definition set_lastUsed (t : Z) (u : UserConfig) : UserConfig :=
  {| userHash := userHash u; email := email u; isDefault := isDefault u;
     createdAt := createdAt u; lastUsed := t |}.

Section WithHash.

Variable sha256 : string -> string.

(** [hashEmail] *)
Definition hashEmail (e : string) : string :=
  JsString.substring0 16 (Encoding.hex (sha256 (JsString.toLowerCase e))).

Definition byHash (h : string) (u : UserConfig) : bool := String.eqb (userHash u) h.

(** [addUser(email, isDefault)]; [now] is the value of [new Date()]. *)
Definition addUser (e : string) (dflt : bool) (now : Z) (coll : list UserConfig)
  : list UserConfig :=
  let h := hashEmail e in
  let userConfig :=
    {| userHash := h;
       email := JsString.toLowerCase e;
       isDefault := dflt;
       createdAt := now;
       lastUsed := now |} in
  let coll1 :=
    if dflt then Mongo.updateMany isDefault (set_isDefault false) coll else coll in
  Mongo.replaceOne_upsert (byHash h) userConfig coll1.

(** [setDefaultUser(email)] *)
Definition setDefaultUser (e : string) (now : Z) (coll : list UserConfig)
  : list UserConfig :=
  let h := hashEmail e in
  let coll1 := Mongo.updateMany (fun _ => true) (set_isDefault false) coll in
  let '(coll2, matchedCount) :=
    Mongo.updateOne (byHash h)
      (fun u => set_lastUsed now (set_isDefault true u)) coll1 in
  if (matchedCount =? 0)%nat then addUser e true now coll2 else coll2.

(** [getDefaultUser()]: the address found, and the collection with that
    user's [lastUsed] refreshed. *)
Definition getDefaultUser (now : Z) (coll : list UserConfig)
  : option string * list UserConfig :=
  match Mongo.findOne isDefault coll with
  | Some defaultUser =>
      (Some (email defaultUser),
       fst (Mongo.updateOne (byHash (userHash defaultUser)) (set_lastUsed now) coll))
  | None => (None, coll)
  end.

(** [removeUser(email)] *)
Definition removeUser (e : string) (coll : list UserConfig) : list UserConfig :=
  Mongo.deleteOne (byHash (hashEmail e)) coll.

(** The number of records whose [isDefault] is [true]. *)
Definition defaults (coll : list UserConfig) : nat :=
  Mongo.countDocuments isDefault coll.

(** [getMostRecentUser()] *)
Definition getMostRecentUser (coll : list UserConfig) : option string :=
  match Mongo.findOne_sort_desc lastUsed coll with
  | Some recentUser => Some (email recentUser)
  | None => None
  end.

(** [getAllUsers()]: [{ email, isDefault, lastUsed }] of every record. *)
Definition getAllUsers (coll : list UserConfig) : list (string * bool * Z) :=
  List.map (fun user => (email user, isDefault user, lastUsed user))
    (Mongo.find_sort_desc lastUsed coll).

(** [updateLastUsed(email)] *)
Definition updateLastUsed (e : string) (now : Z) (coll : list UserConfig)
  : list UserConfig :=
  fst (Mongo.updateOne (byHash (hashEmail e)) (set_lastUsed now) coll).

(** [hasUsers()] *)
Definition hasUsers (coll : list UserConfig) : bool :=
  (0 <? Mongo.countDocuments (fun _ => true) coll)%nat.

(** [if (email) return email] *)
Definition found (email : option string) : bool :=
  match email with
  | Some e => JsString.truthy e
  | None => false
  end.

(** [detectUserEmail()]: the default user, else the most recently used
    one, else [null]; with the collection the reads leave. *)
Definition detectUserEmail (now : Z) (coll : list UserConfig)
  : option string * list UserConfig :=
  let '(email, coll1) := getDefaultUser now coll in
  if found email then (email, coll1)
  else
    let email := getMostRecentUser coll1 in
    if found email then (email, coll1)
    else (None, coll1).

End WithHash.
End UserManager.

(* ------------------------------------------------------------------ *)
(** * HTTP requests and responses as [node-fetch] shows them *)
(* ------------------------------------------------------------------ *)

Module Http.

(** The [options] argument of [fetch] / [makeRequest]. *)
Record Options : Type := mkOptions {
  o_method : option string;
  o_headers : list (string * string);
  o_body : option string;
  o_redirect : option string
}.

(** [{}] *)
Definition no_options : Options :=
  {| o_method := None; o_headers := []; o_body := None; o_redirect := None |}.

(** One call [fetch(url, init)]. *)
Record Request : Type := mkRequest {
  url : string;
  init : Options
}.

(** The fields of a [Response] the sources read. *)
Record Response : Type := mkResponse {
  status : nat;
  (** [response.url], the address after the redirects [fetch] followed *)
  finalUrl : string;
  (** [response.headers.get('location')] *)
  location : option string;
  (** [response.headers.raw()['set-cookie']] *)
  setCookie : list string;
  (** [await response.text()] *)
  text : string
}.

(** [response.ok] *)
Definition ok (r : Response) : bool :=
  (200 <=? status r)%nat && (status r <? 300)%nat.

Fixpoint has_key (k : string) (h : list (string * string)) : bool :=
  match h with
  | [] => false
  | (k', _) :: r => String.eqb k' k || has_key k r
  end.

Fixpoint set_key (k v : string) (h : list (string * string)) : list (string * string) :=
  match h with
  | [] => [(k, v)]
  | (k', v') :: r => if String.eqb k' k then (k', v) :: r else (k', v') :: set_key k v r
  end.

(** [{ ...base, ...extra }] on string-valued objects. *)
Fixpoint spread (base extra : list (string * string)) : list (string * string) :=
  match extra with
  | [] => base
  | (k, v) :: r => spread (set_key k v base) r
  end.

(** [h[k]] *)
Fixpoint header (k : string) (h : list (string * string)) : option string :=
  match h with
  | [] => None
  | (k', v) :: r => if String.eqb k' k then Some v else header k r
  end.

(** [{ ...options, headers: h }] *)
Definition with_headers (o : Options) (h : list (string * string)) : Options :=
  {| o_method := o_method o; o_headers := h; o_body := o_body o;
     o_redirect := o_redirect o |}.

Lemma header_set_key k v h : header k (set_key k v h) = Some v.
Proof.
  induction h as [|[k' v'] r IH]; simpl.
  - now rewrite String.eqb_refl.
  - destruct (String.eqb k' k) eqn:E; simpl; rewrite E; auto.
Qed.

Lemma header_set_key_ne k k' v h :
  k <> k' -> header k (set_key k' v h) = header k h.
Proof.
  intros Hne. induction h as [|[k0 v0] r IH]; simpl.
  - destruct (String.eqb_spec k' k); [congruence|reflexivity].
  - destruct (String.eqb_spec k0 k'); simpl.
    + subst. destruct (String.eqb_spec k' k); [congruence|reflexivity].
    + destruct (String.eqb_spec k0 k); [reflexivity|exact IH].
Qed.

Lemma has_key_false_header k h : has_key k h = false -> header k h = None.
Proof.
  induction h as [|[k' v'] r IH]; simpl; [reflexivity|].
  destruct (String.eqb k' k); simpl; [discriminate|exact IH].
Qed.

(** A key the caller's headers do not mention keeps the base value. *)
Lemma header_spread k base extra :
  has_key k extra = false -> header k (spread base extra) = header k base.
Proof.
  revert base. induction extra as [|[k' v'] r IH]; intros base; simpl.
  - reflexivity.
  - destruct (String.eqb_spec k' k); simpl; [discriminate|].
    intros H. rewrite (IH _ H). apply header_set_key_ne. congruence.
Qed.

End Http.

(** The [CookieJar] of [tough-cookie], as the interface the sources use. *)
Module CookieJar.

Record ops : Type := mkOps {
  (** the state of a jar *)
  jar : Type;
  (** [new CookieJar()] *)
  empty : jar;
  (** [jar.setCookie(cookie, url)]; [None] when the promise rejects *)
  setCookie : string -> string -> jar -> option jar;
  (** [jar.getCookieString(url)] *)
  getCookieString : jar -> string -> string
}.

End CookieJar.

(** [throw] and [return] of an [async] method. *)
Inductive result (A : Type) : Type :=
| Ok (a : A)
| Throw (msg : string).
Arguments Ok {A} a.
Arguments Throw {A} msg.

(** [cookieString.split(';').map(c => c.trim())] *)
Module CookieString.

Definition is_space (c : ascii) : bool :=
  let n := nat_of_ascii c in
  (n =? 32)%nat || ((9 <=? n)%nat && (n <=? 13)%nat).

Fixpoint trim_start (s : string) : string :=
  match s with
  | String c r => if is_space c then trim_start r else s
  | EmptyString => EmptyString
  end.

(** Removes trailing blanks: a blank is dropped when only blanks follow. *)
Fixpoint trim_end (s : string) : string :=
  match s with
  | String c r =>
      match trim_end r with
      | EmptyString => if is_space c then EmptyString else String c EmptyString
      | r' => String c r'
      end
  | EmptyString => EmptyString
  end.

Definition trim (s : string) : string := trim_end (trim_start s).

(** [s.split(';')]: never empty, [''.split(';')] is [['']]. *)
Fixpoint split (s : string) : list string :=
  match s with
  | EmptyString => [EmptyString]
  | String c r =>
      if Ascii.eqb c ";"%char then EmptyString :: split r
      else match split r with
           | x :: l => String c x :: l
           | [] => [String c EmptyString]
           end
  end.

Definition pieces (s : string) : list string := List.map trim (split s).

End CookieString.

Example includes_sample :
  JsString.includes "login" "https://portals.veracross.com/csg/login?return=1" = true
  /\ JsString.includes "login" "https://portals.veracross.com/csg/parent" = false
  /\ JsString.includes EmptyString "abc" = true.
Proof. repeat split. Qed.

Example split_sample :
  CookieString.pieces "a=1; b=2 ;c=3" = ["a=1"; "b=2"; "c=3"].
Proof. reflexivity. Qed.

(* ------------------------------------------------------------------ *)
(** * [async] methods: state passing with exceptions *)
(* ------------------------------------------------------------------ *)

(** An [async] method of an object with state [S]: run to completion from
    a state, it returns or throws, and leaves a state.  [await] is
    sequencing; the model runs one call at a time. *)
Definition M (S A : Type) : Type := S -> result A * S.

Definition ret {S A} (a : A) : M S A := fun s => (Ok a, s).

Definition throw {S A} (msg : string) : M S A := fun s => (Throw msg, s).

Definition bind {S A B} (m : M S A) (k : A -> M S B) : M S B :=
  fun s =>
    match m s with
    | (Ok a, s') => k a s'
    | (Throw e, s') => (Throw e, s')
    end.

(** [try { m } catch (error) { h }] *)
Definition try_catch {S A} (m : M S A) (h : M S A) : M S A :=
  fun s =>
    match m s with
    | (Ok a, s') => (Ok a, s')
    | (Throw _, s') => h s'
    end.

Definition modify {S} (f : S -> S) : M S unit := fun s => (Ok tt, f s).

Definition gets {S A} (f : S -> A) : M S A := fun s => (Ok (f s), s).

Declare Scope async_scope.
Delimit Scope async_scope with async.
Notation "x <- m ;; k" := (bind m (fun x => k))
  (at level 61, m at next level, right associativity) : async_scope.
Notation "m ;;; k" := (bind m (fun _ => k))
  (at level 61, right associativity) : async_scope.
Local Open Scope async_scope.

(** The session object stored, JSON-encoded, in the [password] field
    ([interface SessionData] of [browser-auth.ts]).  A field is [None]
    when the parsed object lacks it; the dates are millisecond counts, and
    an unparsable date ([NaN]) is [None]. *)
Record SessionData : Type := mkSession {
  cookies : option string;
  userAgent : option string;
  timestamp : option Z;
  expiresAt : option Z
}.

(** JavaScript truthiness of an optional string. *)
Definition truthy_opt (o : option string) : bool :=
  match o with
  | Some s => JsString.truthy s
  | None => false
  end.

(** The libraries and the outside world a [VeracrossAuth] runs against. *)
Module Platform.

Record t : Type := mk {
  jarOps : CookieJar.ops;
  sha256 : string -> string;
  aes_encrypt : string -> string -> string -> string;
  aes_decrypt : string -> string -> string -> option string;
  JSON_parse_credentials : string -> option Credentials;
  ENCRYPTION_MASTER_KEY : option string;
  (** [JSON.parse(credentials.password)] read as a [SessionData]: [None]
      when it throws (a raw password is not JSON) and when it yields
      [null], whose properties cannot be read.  Where the source treats
      the two differently, [Json.parses_to_null] tells them apart. *)
  JSON_parse_session : string -> option SessionData;
  JSON_stringify_session : SessionData -> string;
  (** [new URL(u).hostname]; [None] when the constructor throws. *)
  hostname : string -> option string;
  (** [fetch(request)] after the requests already sent; [None] when the
      promise rejects (network error). *)
  fetch : list Http.Request -> Http.Request -> option Http.Response;
  (** [new BrowserAuthServer(email).startAuthFlow()] against the stored
      credentials: its result and the collection it leaves. *)
  startAuthFlow :
    string -> list MongoCredentialStore.EncryptedCredentialDocument ->
    bool * list MongoCredentialStore.EncryptedCredentialDocument;
  encodeURIComponent : string -> string;
  (** the hidden [<input>] fields the regular expressions find *)
  extractHiddenFields : string -> list (string * string);
  (** [new URLSearchParams(fields).toString()] *)
  URLSearchParams_toString : list (string * string) -> string;
  (** [new Date()] and [randomBytes(16)] *)
  now : Z;
  randomBytes16 : string
}.

End Platform.

(* ------------------------------------------------------------------ *)
(** * [VeracrossAuth], latest revision ([unnamed/part_001]) *)
(* ------------------------------------------------------------------ *)

Module VeracrossAuth.
Section WithPlatform.

Variable P : Platform.t.
(** [this.baseUrl], fixed by the constructor. *)
Variable baseUrl : string.

Local Abbreviation Jar := (CookieJar.jar (Platform.jarOps P)).
Local Abbreviation Doc := MongoCredentialStore.EncryptedCredentialDocument.

(** The fields of the object, then the world it acts on: the credentials
    collection, the requests this object has sent so far through
    [makeRequest] or the cross-domain [fetch] (oldest first), and the
    users on whose server the interactive login flow has been started. *)
Record state : Type := mkState {
  cookieJar : Jar;
  isAuthenticated : bool;
  currentUserEmail : option string;
  browserAuthServer : option string;
  credentialStore : option MongoCredentialStore.t;
  db : list Doc;
  sent : list Http.Request;
  flows : list string
}.

(** [new VeracrossAuth(baseUrl)] over a credentials collection. *)
Definition new (coll : list Doc) : state :=
  {| cookieJar := CookieJar.empty (Platform.jarOps P);
     isAuthenticated := false;
     currentUserEmail := None;
     browserAuthServer := None;
     credentialStore := None;
     db := coll; sent := []; flows := [] |}.

Definition set_cookieJar (j : Jar) (s : state) : state :=
  {| cookieJar := j; isAuthenticated := isAuthenticated s;
     currentUserEmail := currentUserEmail s;
     browserAuthServer := browserAuthServer s;
     credentialStore := credentialStore s;
     db := db s; sent := sent s; flows := flows s |}.

Definition set_isAuthenticated (b : bool) (s : state) : state :=
  {| cookieJar := cookieJar s; isAuthenticated := b;
     currentUserEmail := currentUserEmail s;
     browserAuthServer := browserAuthServer s;
     credentialStore := credentialStore s;
     db := db s; sent := sent s; flows := flows s |}.

Definition set_db (d : list Doc) (s : state) : state :=
  {| cookieJar := cookieJar s; isAuthenticated := isAuthenticated s;
     currentUserEmail := currentUserEmail s;
     browserAuthServer := browserAuthServer s;
     credentialStore := credentialStore s;
     db := d; sent := sent s; flows := flows s |}.

Definition log_request (r : Http.Request) (s : state) : state :=
  {| cookieJar := cookieJar s; isAuthenticated := isAuthenticated s;
     currentUserEmail := currentUserEmail s;
     browserAuthServer := browserAuthServer s;
     credentialStore := credentialStore s;
     db := db s; sent := (sent s ++ [r])%list; flows := flows s |}.

Definition log_flow (e : string) (s : state) : state :=
  {| cookieJar := cookieJar s; isAuthenticated := isAuthenticated s;
     currentUserEmail := currentUserEmail s;
     browserAuthServer := browserAuthServer s;
     credentialStore := credentialStore s;
     db := db s; sent := sent s; flows := (flows s ++ [e])%list |}.

(** [this.currentUserEmail !== userEmail] *)
Definition other_user (s : state) (userEmail : string) : bool :=
  match currentUserEmail s with
  | Some e => negb (String.eqb e userEmail)
  | None => true
  end.

Definition is_none {A} (o : option A) : bool :=
  match o with None => true | Some _ => false end.

(** [ensureBrowserAuthServer], lines 19-26 *)
Definition ensureBrowserAuthServer (userEmail : string) (s : state) : state :=
  if is_none (browserAuthServer s) || other_user s userEmail then
    {| cookieJar := cookieJar s;
       isAuthenticated := false;
       currentUserEmail := Some userEmail;
       browserAuthServer := Some userEmail;
       credentialStore := credentialStore s;
       db := db s; sent := sent s; flows := flows s |}
  else s.

Definition newStore (userEmail : string) : MongoCredentialStore.t :=
  MongoCredentialStore.new (Platform.sha256 P) (Platform.ENCRYPTION_MASTER_KEY P)
    userEmail.

(** [ensureCredentialStore], lines 28-35 *)
Definition ensureCredentialStore (userEmail : string) (s : state) : state :=
  if is_none (credentialStore s) || other_user s userEmail then
    {| cookieJar := cookieJar s;
       isAuthenticated := false;
       currentUserEmail := Some userEmail;
       browserAuthServer := browserAuthServer s;
       credentialStore := Some (newStore userEmail);
       db := db s; sent := sent s; flows := flows s |}
  else s.

(** [await this.credentialStore!.loadCredentials()] *)
Definition loadCredentials (s : state) : option Credentials :=
  match credentialStore s with
  | Some cs =>
      MongoCredentialStore.loadCredentials (Platform.aes_decrypt P)
        (Platform.JSON_parse_credentials P) cs (db s)
  | None => None
  end.

Definition userAgent91 : string :=
  "Mozilla/5.0 (Macintosh; Intel Mac OS X 10_15_7) AppleWebKit/537.36 (KHTML, like Gecko) Chrome/91.0.4472.124 Safari/537.36".

Definition userAgent120 : string :=
  "Mozilla/5.0 (Macintosh; Intel Mac OS X 10_15_7) AppleWebKit/537.36 (KHTML, like Gecko) Chrome/120.0.0.0 Safari/537.36".

(** [for (const cookie of l) await jar.setCookie(cookie, url)], skipping
    the pieces [keep] rejects.  The jar is updated in place, so a rejected
    [setCookie] leaves the cookies set before it. *)
Fixpoint setCookies (keep : string -> bool) (l : list string) (url : string) (j : Jar)
  : result unit * Jar :=
  match l with
  | [] => (Ok tt, j)
  | c :: r =>
      if keep c then
        match CookieJar.setCookie (Platform.jarOps P) c url j with
        | Some j' => setCookies keep r url j'
        | None => (Throw "Cookie failed to parse", j)
        end
      else setCookies keep r url j
  end.

(** The request [makeRequest(url, options)] sends from jar [j]. *)
Definition request_of (j : Jar) (url : string) (options : Http.Options)
  : Http.Request :=
  let cookies := CookieJar.getCookieString (Platform.jarOps P) j url in
  {| Http.url := url;
     Http.init :=
       Http.with_headers options
         (Http.spread [("Cookie", cookies); ("User-Agent", userAgent91)]
            (Http.o_headers options)) |}.

(** [makeRequest], lines 37-58 *)
Definition makeRequest (url : string) (options : Http.Options)
  : M state Http.Response :=
  fun s =>
    let req := request_of (cookieJar s) url options in
    let s1 := log_request req s in
    match Platform.fetch P (sent s) req with
    | None => (Throw "FetchError", s1)
    | Some response =>
        match setCookies (fun _ => true) (Http.setCookie response) url (cookieJar s1) with
        | (Ok _, j) => (Ok response, set_cookieJar j s1)
        | (Throw e, j) => (Throw e, set_cookieJar j s1)
        end
    end.

(** The test of the probe response, lines 72 and 237:
    [testResponse.ok && !testResponse.url.includes('login')]. *)
Definition probe_accepts (r : Http.Response) : bool :=
  Http.ok r && negb (JsString.includes "login" (Http.finalUrl r)).

(** [loadStoredSession], lines 189-220 *)
Definition loadStoredSession (userEmail : string) : M state bool :=
  fun s =>
    let s1 := ensureCredentialStore userEmail s in
    match loadCredentials s1 with
    | Some credentials =>
        if JsString.truthy (password credentials) then
          match Platform.JSON_parse_session P (password credentials) with
          | Some sessionData =>
              match cookies sessionData with
              | Some cookieString =>
                  if JsString.truthy cookieString then
                    match setCookies JsString.truthy
                            (CookieString.pieces cookieString) baseUrl (cookieJar s1) with
                    | (Ok _, j) => (Ok true, set_isAuthenticated true (set_cookieJar j s1))
                    | (Throw _, j) => (Ok false, set_cookieJar j s1)
                    end
                  else (Ok false, s1)
              | None => (Ok false, s1)
              end
          | None => (Ok false, s1)
          end
        else (Ok false, s1)
    | None => (Ok false, s1)
    end.

(** [hasStoredSession], lines 332-349 *)
Definition hasStoredSession (userEmail : string) : M state bool :=
  fun s =>
    let s1 := ensureCredentialStore userEmail s in
    match loadCredentials s1 with
    | Some credentials =>
        if JsString.truthy (password credentials) then
          match Platform.JSON_parse_session P (password credentials) with
          | Some sessionData => (Ok (truthy_opt (cookies sessionData)), s1)
          | None => (Ok false, s1)
          end
        else (Ok false, s1)
    | None => (Ok false, s1)
    end.

(** The probe of a hydrated session, lines 70-78 and 235-241: [true]
    when the response passes the test, [false] when it does not or the
    request throws. *)
Definition probe : M state bool :=
  try_catch
    (testResponse <- makeRequest (baseUrl ++ "/parent") Http.no_options ;;
     ret (probe_accepts testResponse))
    (ret false).

(** [this.browserAuthServer!.startAuthFlow()]: the result of the flow and
    the collection it leaves.  The requests the listener sends to the
    portal while the flow runs ([handleLoginSubmission]) are not requests
    of this object and do not enter [sent]. *)
Definition startAuthFlow : M state bool :=
  fun s =>
    match browserAuthServer s with
    | Some e =>
        let '(authResult, coll) := Platform.startAuthFlow P e (db s) in
        (Ok authResult, set_db coll (log_flow e s))
    | None => (Throw "TypeError", s)
    end.

(** [authenticateWithBrowser], lines 63-97 *)
Definition authenticateWithBrowser (userEmail : string) : M state bool :=
  try_catch
    (hasSession <- hasStoredSession userEmail ;;
     valid <- (if hasSession
               then loadStoredSession userEmail ;;; probe
               else ret false) ;;
     if valid then
       modify (set_isAuthenticated true) ;;; ret true
     else
       modify (ensureBrowserAuthServer userEmail) ;;;
       authResult <- startAuthFlow ;;
       if authResult
       then modify (set_isAuthenticated true) ;;; ret true
       else ret false)
    (ret false).

(** [{ redirect: 'manual' }] *)
Definition manual : Http.Options :=
  {| Http.o_method := None; Http.o_headers := []; Http.o_body := None;
     Http.o_redirect := Some "manual" |}.

(** [this.credentialStore!.saveCredentials(c)] *)
Definition saveCredentials (c : Credentials) : M state unit :=
  fun s =>
    match credentialStore s with
    | Some cs =>
        (Ok tt,
         set_db (MongoCredentialStore.saveCredentials (Platform.aes_encrypt P) cs c
                   (Platform.randomBytes16 P) (Platform.now P) (db s)) s)
    | None => (Throw "TypeError", s)
    end.

(** [attemptPasswordLogin], lines 102-184 *)
Definition attemptPasswordLogin (userEmail pass : string) : M state bool :=
  try_catch
    (let encodedUsername := Platform.encodeURIComponent P userEmail in
     let passwordPageUrl := baseUrl ++ "/login/password?username=" ++ encodedUsername in
     passwordPageResponse <- makeRequest passwordPageUrl Http.no_options ;;
     if negb (Http.ok passwordPageResponse) then throw "Password page request failed"
     else
       let hiddenFields := Platform.extractHiddenFields P (Http.text passwordPageResponse) in
       let loginData :=
         Http.spread [("username", userEmail); ("password", pass)] hiddenFields in
       loginResponse <-
         makeRequest (baseUrl ++ "/login/password")
           {| Http.o_method := Some "POST";
              Http.o_headers :=
                [("Content-Type", "application/x-www-form-urlencoded");
                 ("Referer", passwordPageUrl)];
              Http.o_body := Some (Platform.URLSearchParams_toString P loginData);
              Http.o_redirect := Some "manual" |} ;;
       if (300 <=? Http.status loginResponse)%nat && (Http.status loginResponse <? 400)%nat
       then
         match Http.location loginResponse with
         | Some redirectUrl =>
             if JsString.truthy redirectUrl then
               let fullRedirectUrl :=
                 if String.prefix "http" redirectUrl then redirectUrl
                 else baseUrl ++ redirectUrl in
               redirectResponse <- makeRequest fullRedirectUrl manual ;;
               if Http.ok redirectResponse then
                 cookieString <-
                   gets (fun s =>
                     CookieJar.getCookieString (Platform.jarOps P) (cookieJar s) baseUrl) ;;
                 let sessionData :=
                   {| userAgent := Some userAgent120;
                      timestamp := Some (Platform.now P);
                      expiresAt := Some (Platform.now P + 24 * 60 * 60 * 1000)%Z;
                      cookies := Some cookieString |} in
                 modify (ensureCredentialStore userEmail) ;;;
                 saveCredentials
                   {| username := userEmail;
                      password := Platform.JSON_stringify_session P sessionData |} ;;;
                 modify (set_isAuthenticated true) ;;;
                 ret true
               else ret false
             else ret false
         | None => ret false
         end
       else ret false)
    (ret false).

(** The cheap path of [ensureAuthenticated], line 227:
    [this.isAuthenticated && this.currentUserEmail === userEmail]. *)
Definition trusted_for (s : state) (userEmail : string) : bool :=
  isAuthenticated s && negb (other_user s userEmail).

(** Lines 244-260 of [ensureAuthenticated]: what follows a missing or
    rejected stored session. *)
Definition reauthenticate (userEmail : string) : M state bool :=
  modify (ensureCredentialStore userEmail) ;;;
  credentials <- gets loadCredentials ;;
  match credentials with
  | Some c =>
      if JsString.truthy (password c) then
        match Platform.JSON_parse_session P (password c) with
        | Some _ => authenticateWithBrowser userEmail
        | None =>
            (* [JSON.parse] is all the [try] holds: [null] parses *)
            if Json.parses_to_null (password c) then authenticateWithBrowser userEmail
            else attemptPasswordLogin userEmail (password c)
        end
      else authenticateWithBrowser userEmail
  | None => authenticateWithBrowser userEmail
  end.

(** [ensureAuthenticated], lines 225-261 *)
Definition ensureAuthenticated (userEmail : string) : M state bool :=
  fun s =>
    if trusted_for s userEmail then (Ok true, s)
    else
      (sessionLoaded <- loadStoredSession userEmail ;;
       valid <- (if sessionLoaded then probe else ret false) ;;
       if valid then ret true else reauthenticate userEmail) s.

(** The request of the cross-domain branch, lines 296-303. *)
Definition crossDomainRequest (url : string) (options : Http.Options)
  (sessionCookies : string) (sessionData : SessionData) : Http.Request :=
  let ua := if truthy_opt (userAgent sessionData)
            then match userAgent sessionData with Some u => u | None => userAgent120 end
            else userAgent120 in
  {| Http.url := url;
     Http.init :=
       Http.with_headers options
         (Http.spread [("Cookie", sessionCookies); ("User-Agent", ua)]
            (Http.o_headers options)) |}.

(** [makeAuthenticatedRequest], lines 263-309 *)
Definition makeAuthenticatedRequest (url : string) (options : Http.Options)
  : M state Http.Response :=
  fun s =>
    match currentUserEmail s with
    | None => (Throw "No user email set. Please authenticate first.", s)
    | Some current =>
        if negb (JsString.truthy current)
        then (Throw "No user email set. Please authenticate first.", s)
        else
        match Platform.hostname P url, Platform.hostname P baseUrl with
        | Some urlHost, Some baseUrlHost =>
            if negb (String.eqb urlHost baseUrlHost) then
              let s1 := ensureCredentialStore current s in
              match loadCredentials s1 with
              | None => (Throw "No stored credentials found for cross-domain request", s1)
              | Some credentials =>
                  if negb (JsString.truthy (password credentials)) then
                    (Throw "No stored credentials found for cross-domain request", s1)
                  else
                    match Platform.JSON_parse_session P (password credentials) with
                    | None =>
                        (* [sessionData.cookies] is read after the [try]: on
                           [null] it throws a [TypeError] nothing relabels *)
                        if Json.parses_to_null (password credentials) then
                          (Throw "TypeError: Cannot read properties of null (reading 'cookies')",
                           s1)
                        else (Throw "Invalid session data for cross-domain request", s1)
                    | Some sessionData =>
                        match cookies sessionData with
                        | Some c =>
                            if JsString.truthy c then
                              let req := crossDomainRequest url options c sessionData in
                              let s2 := log_request req s1 in
                              match Platform.fetch P (sent s1) req with
                              | Some response => (Ok response, s2)
                              | None => (Throw "FetchError", s2)
                              end
                            else
                              (Throw "No session cookies found for cross-domain request", s1)
                        | None =>
                            (Throw "No session cookies found for cross-domain request", s1)
                        end
                    end
              end
            else
              (ensureAuthenticated current ;;; makeRequest url options) s
        | _, _ => (Throw "TypeError [ERR_INVALID_URL]: Invalid URL", s)
        end
    end.

(** [logout], lines 311-314 *)
Definition logout (s : state) : state :=
  set_cookieJar (CookieJar.empty (Platform.jarOps P)) (set_isAuthenticated false s).

(** [clearStoredCredentials], lines 316-321 *)
Definition clearStoredCredentials (s : state) : state :=
  let s1 :=
    match credentialStore s with
    | Some cs => set_db (MongoCredentialStore.clearCredentials cs (db s)) s
    | None => s
    end in
  logout s1.

End WithPlatform.
End VeracrossAuth.

(* ------------------------------------------------------------------ *)
(** * [browser-auth.ts]: class [BrowserAuthServer] *)
(* ------------------------------------------------------------------ *)

Module BrowserAuthServer.

(** What a handler answers to the browser. *)
Inductive reply : Type :=
| Page (name : string)
| Json (status : nat) (success : bool) (message : string)
| Plain (status : nat) (message : string).

(** A request that reaches the express application while it listens. *)
Inductive event : Type :=
(** [GET /callback]: the [Cookie], [User-Agent] and [Referer] headers, and
    whether the database accepts the write a capture makes *)
| GetCallback (cookieHeader userAgentHeader referer : option string) (storeOk : bool)
(** [POST /login]: the body fields, the [User-Agent] header, and whether
    the database accepts the write *)
| PostLogin (user pass userAgentHeader : option string) (storeOk : bool)
(** [GET /], [GET /health], [GET /redirect-check] *)
| GetOther
(** a [setTimeout(() => this.close(), ..)] scheduled earlier fires *)
| CloseTimer.

(** One invocation of [startAuthFlow] as the outside world drives it:
    what [getPort] answers ([None]: it throws), whether [open] succeeds,
    and the requests that arrive, in order, before the ten-minute timer
    fires. *)
Record script : Type := mkScript {
  getPort : option nat;
  openOk : bool;
  events : list event
}.

(** How one invocation ends. *)
Inductive outcome : Type :=
| SessionCaptured
| CallbackFailed
| TimedOut
| StartFailed.

Section WithPlatform.

Variable P : Platform.t.

Local Abbreviation Jar := (CookieJar.jar (Platform.jarOps P)).
Local Abbreviation Doc := MongoCredentialStore.EncryptedCredentialDocument.

(** The fields of the object, then the world: the credentials collection,
    the requests sent to the portal, and the [close] timers pending. *)
Record state : Type := mkState {
  userEmail : string;
  credentialStore : MongoCredentialStore.t;
  (** [this.server]: the port of the listener, [None] for [null] *)
  server : option nat;
  (** [this.authResolve !== null] *)
  authResolve : bool;
  (** what [this.authPromise] has been resolved with, if it has *)
  settled : option bool;
  db : list Doc;
  sent : list Http.Request;
  closeTimers : nat
}.

(** [new BrowserAuthServer(userEmail)], lines 24-29 *)
Definition new (email : string) (coll : list Doc) : state :=
  {| userEmail := email;
     credentialStore :=
       MongoCredentialStore.new (Platform.sha256 P) (Platform.ENCRYPTION_MASTER_KEY P) email;
     server := None; authResolve := false; settled := None;
     db := coll; sent := []; closeTimers := 0 |}.

Definition set_server (v : option nat) (s : state) : state :=
  {| userEmail := userEmail s; credentialStore := credentialStore s;
     server := v; authResolve := authResolve s; settled := settled s;
     db := db s; sent := sent s; closeTimers := closeTimers s |}.

Definition set_db (d : list Doc) (s : state) : state :=
  {| userEmail := userEmail s; credentialStore := credentialStore s;
     server := server s; authResolve := authResolve s; settled := settled s;
     db := d; sent := sent s; closeTimers := closeTimers s |}.

Definition set_sent (l : list Http.Request) (s : state) : state :=
  {| userEmail := userEmail s; credentialStore := credentialStore s;
     server := server s; authResolve := authResolve s; settled := settled s;
     db := db s; sent := l; closeTimers := closeTimers s |}.

Definition set_closeTimers (n : nat) (s : state) : state :=
  {| userEmail := userEmail s; credentialStore := credentialStore s;
     server := server s; authResolve := authResolve s; settled := settled s;
     db := db s; sent := sent s; closeTimers := n |}.

(** [this.authPromise = new Promise(resolve => { this.authResolve = resolve })] *)
Definition newPromise (s : state) : state :=
  {| userEmail := userEmail s; credentialStore := credentialStore s;
     server := server s; authResolve := true; settled := None;
     db := db s; sent := sent s; closeTimers := closeTimers s |}.

(** [if (this.authResolve) this.authResolve(v)]: only the first
    resolution of a promise counts. *)
Definition resolve (v : bool) (s : state) : state :=
  if authResolve s then
    match settled s with
    | Some _ => s
    | None =>
        {| userEmail := userEmail s; credentialStore := credentialStore s;
           server := server s; authResolve := true; settled := Some v;
           db := db s; sent := sent s; closeTimers := closeTimers s |}
    end
  else s.

(** [close], lines 636-641 *)
Definition close (s : state) : state :=
  match server s with
  | Some _ => set_server None s
  | None => s
  end.

(** [setTimeout(() => this.close(), ..)] *)
Definition scheduleClose (s : state) : state :=
  set_closeTimers (S (closeTimers s)) s.

(** [isValidVeracrossSession], lines 585-592 *)
Definition isValidVeracrossSession (cookieHeader : string) : bool :=
  JsString.includes "session" cookieHeader
  || JsString.includes "auth" cookieHeader
  || JsString.includes "_veracross" cookieHeader
  || JsString.includes "JSESSIONID" cookieHeader.

(** Step 3 of [handleLoginSubmission], lines 464-479: the value of
    [loginSuccessful] for the portal's answer to the credentials. *)
Definition loginSuccessful (loginResponse : Http.Response) : bool :=
  if (Http.status loginResponse =? 302)%nat then
    match Http.location loginResponse with
    | Some location =>
        JsString.truthy location && negb (JsString.includes "login" location)
    | None => false
    end
  else if (Http.status loginResponse =? 200)%nat then
    let responseText := Http.text loginResponse in
    negb (JsString.includes "Invalid" responseText)
    && negb (JsString.includes "incorrect" responseText)
    && negb (JsString.includes "error" responseText)
    && JsString.includes "parent" responseText
  else false.

Definition defaultUserAgent : string := "Mozilla/5.0 (compatible; CSG-Portal-MCP)".

(** [req.headers['user-agent'] || 'Mozilla/5.0 (compatible; CSG-Portal-MCP)'] *)
Definition userAgentOf (h : option string) : string :=
  match h with
  | Some u => if JsString.truthy u then u else defaultUserAgent
  | None => defaultUserAgent
  end.

(** The [SessionData] both handlers build. *)
Definition capturedSession (cookieString : string) (ua : option string) : SessionData :=
  {| cookies := Some cookieString;
     userAgent := Some (userAgentOf ua);
     timestamp := Some (Platform.now P);
     expiresAt := Some (Platform.now P + 24 * 60 * 60 * 1000)%Z |}.

(** [await this.credentialStore.saveCredentials({ username: this.userEmail,
    password: JSON.stringify(sessionData) })]; it throws when the database
    refuses the write. *)
Definition saveSession (sessionData : SessionData) (storeOk : bool) : M state unit :=
  fun s =>
    if storeOk then
      (Ok tt,
       set_db
         (MongoCredentialStore.saveCredentials (Platform.aes_encrypt P)
            (credentialStore s)
            {| username := userEmail s;
               password := Platform.JSON_stringify_session P sessionData |}
            (Platform.randomBytes16 P) (Platform.now P) (db s)) s)
    else (Throw "MongoError", s).

(** [handleCallback], lines 252-422 *)
Definition handleCallback (cookieHeader ua referer : option string) (storeOk : bool)
  : M state reply :=
  let referer := match referer with Some r => r | None => EmptyString end in
  let fromVeracross :=
    JsString.includes "veracross.com" referer
    || JsString.includes "portals.veracross.com" referer in
  match cookieHeader with
  | Some cookieHeader =>
      if JsString.truthy cookieHeader then
        if negb (isValidVeracrossSession cookieHeader) then ret (Page "Invalid Session")
        else
          saveSession (capturedSession cookieHeader ua) storeOk ;;;
          modify (resolve true) ;;;
          modify scheduleClose ;;;
          ret (Page "Authentication Successful")
      else
        ret (Page (if fromVeracross then "Complete Veracross Login"
                   else "Authentication Needed"))
  | None =>
      ret (Page (if fromVeracross then "Complete Veracross Login"
                 else "Authentication Needed"))
  end.

(** The route [app.get('/callback', ..)], lines 50-60 *)
Definition callbackRoute (cookieHeader ua referer : option string) (storeOk : bool)
  : M state reply :=
  try_catch (handleCallback cookieHeader ua referer storeOk)
    (modify (resolve false) ;;;
     ret (Plain 500 "Authentication failed. Please try again.")).

Definition portalUrl : string := "https://portals.veracross.com/csg".

Definition userAgent91 : string :=
  "Mozilla/5.0 (Macintosh; Intel Mac OS X 10_15_7) AppleWebKit/537.36 (KHTML, like Gecko) Chrome/91.0.4472.124 Safari/537.36".

Fixpoint setCookies (l : list string) (url : string) (j : Jar) : option Jar :=
  match l with
  | [] => Some j
  | c :: r =>
      match CookieJar.setCookie (Platform.jarOps P) c url j with
      | Some j' => setCookies r url j'
      | None => None
      end
  end.

(** [makeRequestWithJar], lines 545-566 *)
Definition makeRequestWithJar (j : Jar) (url : string) (options : Http.Options)
  : M state (Http.Response * Jar) :=
  fun s =>
    let cookies := CookieJar.getCookieString (Platform.jarOps P) j url in
    let req :=
      {| Http.url := url;
         Http.init :=
           Http.with_headers options
             (Http.spread [("Cookie", cookies); ("User-Agent", userAgent91)]
                (Http.o_headers options)) |} in
    let s1 := set_sent (sent s ++ [req])%list s in
    match Platform.fetch P (sent s) req with
    | None => (Throw "FetchError", s1)
    | Some response =>
        match setCookies (Http.setCookie response) url j with
        | Some j' => (Ok (response, j'), s1)
        | None => (Throw "Cookie failed to parse", s1)
        end
    end.

(** [handleLoginSubmission], lines 424-543 *)
Definition handleLoginSubmission (user pass ua : option string) (storeOk : bool)
  : M state reply :=
  if negb (truthy_opt user) || negb (truthy_opt pass) then
    ret (Json 400 false "Username and password are required")
  else
    let user := match user with Some u => u | None => EmptyString end in
    let pass := match pass with Some p => p | None => EmptyString end in
    let loginUrl := portalUrl ++ "/login" in
    try_catch
      (let tempCookieJar := CookieJar.empty (Platform.jarOps P) in
       bind (makeRequestWithJar tempCookieJar loginUrl Http.no_options)
         (fun '(loginPageResponse, jar1) =>
       let hiddenFields := Platform.extractHiddenFields P (Http.text loginPageResponse) in
       let loginData := Http.spread [("username", user); ("password", pass)] hiddenFields in
       bind (makeRequestWithJar jar1 loginUrl
               {| Http.o_method := Some "POST";
                  Http.o_headers :=
                    [("Content-Type", "application/x-www-form-urlencoded");
                     ("Referer", loginUrl)];
                  Http.o_body := Some (Platform.URLSearchParams_toString P loginData);
                  Http.o_redirect := Some "manual" |})
         (fun '(loginResponse, jar2) =>
       if negb (loginSuccessful loginResponse) then
         ret (Json 401 false "Invalid username or password")
       else
         let cookieString :=
           CookieJar.getCookieString (Platform.jarOps P) jar2 portalUrl in
         if negb (JsString.truthy cookieString)
            || negb (isValidVeracrossSession cookieString)
         then ret (Json 500 false "Login succeeded but failed to capture session")
         else
           saveSession (capturedSession cookieString ua) storeOk ;;;
           pending <- gets authResolve ;;
           (if pending
            then modify (resolve true) ;;; modify scheduleClose
            else ret tt) ;;;
           ret (Json 200 true "Login successful and session stored"))))
      (ret (Json 500 false "Failed to connect to Veracross. Please try again.")).

(** The route [app.post('/login', ..)], lines 37-47 *)
Definition loginRoute (user pass ua : option string) (storeOk : bool) : M state reply :=
  try_catch (handleLoginSubmission user pass ua storeOk)
    (ret (Json 500 false "Internal server error during login")).

(** The application serving one request. *)
Definition serve (e : event) : M state reply :=
  match e with
  | GetCallback c ua r ok => callbackRoute c ua r ok
  | PostLogin u p ua ok => loginRoute u p ua ok
  | GetOther => ret (Page "other")
  | CloseTimer =>
      fun s =>
        match closeTimers s with
        | S n => (Ok (Page "timer"), close (set_closeTimers n s))
        | O => (Ok (Page "timer"), s)
        end
  end.

(** [await Promise.race([this.authPromise, timeoutPromise])], lines 613-622:
    requests are served until one resolves the promise; when the list is
    exhausted the ten-minute timer fires and the race yields [false]. *)
Fixpoint awaitAuth (evs : list event) (s : state) : bool * state :=
  match settled s with
  | Some v => (v, s)
  | None =>
      match evs with
      | [] => (false, s)
      | e :: r => awaitAuth r (snd (serve e s))
      end
  end.

(** [startAuthFlow], lines 594-634 *)
Definition startAuthFlow (sc : script) (s : state) : bool * state :=
  match getPort sc with
  | None => (false, close s)
  | Some port =>
      let s1 := newPromise (set_server (Some port) s) in
      if openOk sc then
        let '(result, s2) := awaitAuth (events sc) s1 in
        (result, close s2)
      else (false, close s1)
  end.

(** The terminal state the invocation reaches. *)
Definition outcomeOf (sc : script) (s : state) : outcome :=
  match getPort sc with
  | None => StartFailed
  | Some port =>
      if openOk sc then
        let '(_, s2) := awaitAuth (events sc) (newPromise (set_server (Some port) s)) in
        match settled s2 with
        | Some true => SessionCaptured
        | Some false => CallbackFailed
        | None => TimedOut
        end
      else StartFailed
  end.

(** [getStoredSession], lines 643-663 *)
Definition getStoredSession (s : state) : option SessionData :=
  match MongoCredentialStore.loadCredentials (Platform.aes_decrypt P)
          (Platform.JSON_parse_credentials P) (credentialStore s) (db s) with
  | None => None
  | Some credentials =>
      if negb (JsString.truthy (password credentials)) then None
      else
        match Platform.JSON_parse_session P (password credentials) with
        | None => None
        | Some sessionData =>
            match expiresAt sessionData with
            | Some e => if (Platform.now P >? e)%Z then None else Some sessionData
            | None => Some sessionData
            end
        end
  end.

(** [for (const cookie of cookies) try { await jar.setCookie(..) } catch {}] *)
Fixpoint setCookiesLenient (l : list string) (url : string) (j : Jar) : Jar :=
  match l with
  | [] => j
  | c :: r =>
      match CookieJar.setCookie (Platform.jarOps P) c url j with
      | Some j' => setCookiesLenient r url j'
      | None => setCookiesLenient r url j
      end
  end.

(** [createCookieJar], lines 665-684: [Throw] is the [TypeError] of
    [sessionData.cookies.split] on a session without cookies. *)
Definition createCookieJar (s : state) : result (option Jar) :=
  match getStoredSession s with
  | None => Ok None
  | Some sessionData =>
      match cookies sessionData with
      | None => Throw "TypeError"
      | Some c =>
          Ok (Some (setCookiesLenient (CookieString.pieces c) portalUrl
                      (CookieJar.empty (Platform.jarOps P))))
      end
  end.

End WithPlatform.
End BrowserAuthServer.

(* ------------------------------------------------------------------ *)
(** * [VeracrossAuth], browser-session revision ([auth.ts], second part) *)
(* ------------------------------------------------------------------ *)

(** This revision has the fields of the latest one except
    [credentialStore], which stays [None] here; the state record and
    [makeRequest] (lines 201-222, letter for letter lines 37-58 of the
    latest revision) are shared. *)
Module VeracrossAuthBrowser.
Section WithPlatform.

Variable P : Platform.t.
Variable baseUrl : string.

Local Abbreviation state := (VeracrossAuth.state P).

(** [ensureBrowserAuthServer], lines 192-199 *)
Definition ensureBrowserAuthServer (userEmail : string) (s : state) : state :=
  VeracrossAuth.ensureBrowserAuthServer P userEmail s.

(** [await this.browserAuthServer!.createCookieJar()] *)
Definition createCookieJar (s : state)
  : result (option (CookieJar.jar (Platform.jarOps P))) :=
  match VeracrossAuth.browserAuthServer P s with
  | Some e =>
      BrowserAuthServer.createCookieJar P
        (BrowserAuthServer.new P e (VeracrossAuth.db P s))
  | None => Throw "TypeError"
  end.

(** [loadStoredSession], lines 251-267 *)
Definition loadStoredSession (userEmail : string) : M state bool :=
  fun s =>
    let s1 := ensureBrowserAuthServer userEmail s in
    match createCookieJar s1 with
    | Ok (Some cookieJar) =>
        (Ok true,
         VeracrossAuth.set_isAuthenticated P true
           (VeracrossAuth.set_cookieJar P cookieJar s1))
    | Ok None => (Ok false, s1)
    | Throw _ => (Ok false, s1)
    end.

(** [authenticateWithBrowser], lines 227-246 *)
Definition authenticateWithBrowser (userEmail : string) : M state bool :=
  try_catch
    (modify (ensureBrowserAuthServer userEmail) ;;;
     success <- VeracrossAuth.startAuthFlow P ;;
     if success then
       loadStoredSession userEmail ;;;
       modify (VeracrossAuth.set_isAuthenticated P true) ;;;
       ret true
     else ret false)
    (ret false).

(** [ensureAuthenticated], lines 272-294 *)
Definition ensureAuthenticated (userEmail : string) : M state bool :=
  fun s =>
    if VeracrossAuth.trusted_for P s userEmail then (Ok true, s)
    else
      (sessionLoaded <- loadStoredSession userEmail ;;
       valid <- (if sessionLoaded then VeracrossAuth.probe P baseUrl else ret false) ;;
       if valid then ret true
       else
         throw "Browser authentication required. Please use the authenticate_browser tool first.")
        s.

(** [makeAuthenticatedRequest], lines 296-304 *)
Definition makeAuthenticatedRequest (url : string) (options : Http.Options)
  : M state Http.Response :=
  fun s =>
    match VeracrossAuth.currentUserEmail P s with
    | None => (Throw "No user email set. Please authenticate first.", s)
    | Some current =>
        if negb (JsString.truthy current)
        then (Throw "No user email set. Please authenticate first.", s)
        else
          (ensureAuthenticated current ;;; VeracrossAuth.makeRequest P url options) s
    end.

(** [logout], lines 306-309 *)
Definition logout (s : state) : state := VeracrossAuth.logout P s.

End WithPlatform.
End VeracrossAuthBrowser.

(* ------------------------------------------------------------------ *)
(** * [credentials.ts]: the file-based [CredentialStore] *)
(* ------------------------------------------------------------------ *)

Module CredentialStore.
Section WithFs.

Variable sha256 : string -> string.
(** [os.homedir()] *)
Variable homedir : string.
(** AES-256-CBC on bytes under a 32-byte key and a 16-byte [iv]:
    [cipher.update(text) + cipher.final()], and the inverse direction,
    [None] when [decipher.final] throws. *)
Variable aes_encrypt_raw : string -> string -> string -> string.
Variable aes_decrypt_raw : string -> string -> string -> option string.
(** [JSON.parse(text) as Credentials]; [None] when it throws. *)
Variable JSON_parse_credentials : string -> option Credentials.

Local Abbreviation fs := SearchCache.fs.
Local Abbreviation join := SearchCache.join.

(** The three paths an instance holds. *)
Record t : Type := mkStore {
  userDir : string;
  credentialsPath : string;
  keyPath : string
}.

(** [hashEmail], lines 30-33 *)
Definition hashEmail (email : string) : string :=
  JsString.substring0 16 (Encoding.hex (sha256 (JsString.toLowerCase email))).

(** [constructor(userEmail)], lines 15-28 *)
Definition new (userEmail : string) : t :=
  let userHash := hashEmail userEmail in
  let baseDir := join homedir ".csg-portal-users" in
  let userDir := join baseDir userHash in
  {| userDir := userDir;
     credentialsPath := join userDir "credentials";
     keyPath := join userDir "key" |}.

(** [getOrCreateEncryptionKey], lines 49-57; [rnd32] is the value of
    [randomBytes(32)]. *)
Definition getOrCreateEncryptionKey (s : t) (rnd32 : string) (f : fs) : string * fs :=
  match f (keyPath s) with
  | Some key => (key, f)
  | None => (rnd32, SearchCache.writeFileSync (keyPath s) rnd32 f)
  end.

(** [createCipheriv] and [createDecipheriv] throw unless the key has 32
    bytes and the initialisation vector 16. *)
Definition cipher_accepts (key iv : string) : bool :=
  (String.length key =? 32)%nat && (String.length iv =? 16)%nat.

(** [encrypt], lines 59-68; [rnd16] is the value of [randomBytes(16)]. *)
Definition encrypt (s : t) (text : string) (rnd32 rnd16 : string) (f : fs)
  : result string * fs :=
  let '(key, f1) := getOrCreateEncryptionKey s rnd32 f in
  if cipher_accepts key rnd16 then
    let encrypted := Encoding.hex (aes_encrypt_raw key rnd16 text) in
    (Ok (Encoding.hex rnd16 ++ ":" ++ encrypted), f1)
  else (Throw "Invalid key length", f1).

(** [decrypt], lines 70-80.  [encrypted] is [undefined] when the text
    holds no colon, and [decipher.update] then throws. *)
Definition decrypt (s : t) (encryptedText : string) (rnd32 : string) (f : fs)
  : result string * fs :=
  let '(key, f1) := getOrCreateEncryptionKey s rnd32 f in
  let parts := JsString.split ":" encryptedText in
  let ivHex := List.nth 0 parts EmptyString in
  let iv := Encoding.unhex ivHex in
  if cipher_accepts key iv then
    match List.nth_error parts 1 with
    | Some encrypted =>
        match aes_decrypt_raw key iv (Encoding.unhex encrypted) with
        | Some decrypted => (Ok decrypted, f1)
        | None => (Throw "bad decrypt", f1)
        end
    | None => (Throw "TypeError [ERR_INVALID_ARG_TYPE]", f1)
    end
  else (Throw "Invalid initialization vector", f1).

(** [saveCredentials], lines 82-85 *)
Definition saveCredentials (s : t) (credentials : Credentials) (rnd32 rnd16 : string)
  : M fs unit :=
  fun f =>
    match encrypt s (MongoCredentialStore.credentialsJson credentials) rnd32 rnd16 f with
    | (Ok encrypted, f1) =>
        (Ok tt, SearchCache.writeFileSync (credentialsPath s) encrypted f1)
    | (Throw e, f1) => (Throw e, f1)
    end.

(** [loadCredentials], lines 87-101 *)
Definition loadCredentials (s : t) (rnd32 : string) (f : fs)
  : option Credentials * fs :=
  match f (credentialsPath s) with
  | None => (None, f)
  | Some encrypted =>
      match decrypt s encrypted rnd32 f with
      | (Ok decrypted, f1) => (JSON_parse_credentials decrypted, f1)
      | (Throw _, f1) => (None, f1)
      end
  end.

(** [hasCredentials], lines 103-105 *)
Definition hasCredentials (s : t) (f : fs) : bool :=
  match f (credentialsPath s) with
  | Some _ => true
  | None => false
  end.

(** [clearCredentials], lines 107-111 *)
Definition clearCredentials (s : t) (f : fs) : fs :=
  match f (credentialsPath s) with
  | Some _ => SearchCache.writeFileSync (credentialsPath s) EmptyString f
  | None => f
  end.

End WithFs.
End CredentialStore.

(* ------------------------------------------------------------------ *)
(** * [VeracrossAuth], password revision ([auth.ts], first part) *)
(* ------------------------------------------------------------------ *)

Module VeracrossAuthLegacy.

(** Lines 104-121 of [login]: whether the portal's answer to the posted
    credentials makes [login] set [isAuthenticated] and return [true]. *)
Definition loginAccepted (loginResponse : Http.Response) : bool :=
  let redirected :=
    if (Http.status loginResponse =? 302)%nat || (Http.status loginResponse =? 200)%nat
    then
      match Http.location loginResponse with
      | Some location =>
          JsString.truthy location && negb (JsString.includes "login" location)
      | None => false
      end
    else false in
  if redirected then true
  else
    let responseText := Http.text loginResponse in
    negb (JsString.includes "Invalid" responseText)
    && negb (JsString.includes "error" responseText).

Section WithPlatform.

Variable P : Platform.t.
(** [this.baseUrl], fixed by the constructor. *)
Variable baseUrl : string.
Variable homedir : string.
Variable aes_encrypt_raw : string -> string -> string -> string.
Variable aes_decrypt_raw : string -> string -> string -> option string.
(** [randomBytes(32)] *)
Variable randomBytes32 : string.

Local Abbreviation Jar := (CookieJar.jar (Platform.jarOps P)).

(** The fields of the object, then the world it acts on: the files under
    the home directory and the requests sent so far (oldest first). *)
Record state : Type := mkState {
  cookieJar : Jar;
  credentialStore : option CredentialStore.t;
  isAuthenticated : bool;
  currentUserEmail : option string;
  files : SearchCache.fs;
  sent : list Http.Request
}.

(** [new VeracrossAuth(baseUrl)] over a file system. *)
Definition new (f : SearchCache.fs) : state :=
  {| cookieJar := CookieJar.empty (Platform.jarOps P);
     credentialStore := None;
     isAuthenticated := false;
     currentUserEmail := None;
     files := f; sent := [] |}.

Definition set_cookieJar (j : Jar) (s : state) : state :=
  {| cookieJar := j; credentialStore := credentialStore s;
     isAuthenticated := isAuthenticated s; currentUserEmail := currentUserEmail s;
     files := files s; sent := sent s |}.

Definition set_isAuthenticated (b : bool) (s : state) : state :=
  {| cookieJar := cookieJar s; credentialStore := credentialStore s;
     isAuthenticated := b; currentUserEmail := currentUserEmail s;
     files := files s; sent := sent s |}.

Definition set_files (f : SearchCache.fs) (s : state) : state :=
  {| cookieJar := cookieJar s; credentialStore := credentialStore s;
     isAuthenticated := isAuthenticated s; currentUserEmail := currentUserEmail s;
     files := f; sent := sent s |}.

Definition log_request (r : Http.Request) (s : state) : state :=
  {| cookieJar := cookieJar s; credentialStore := credentialStore s;
     isAuthenticated := isAuthenticated s; currentUserEmail := currentUserEmail s;
     files := files s; sent := (sent s ++ [r])%list |}.

(** [this.currentUserEmail !== userEmail] *)
Definition other_user (s : state) (userEmail : string) : bool :=
  match currentUserEmail s with
  | Some e => negb (String.eqb e userEmail)
  | None => true
  end.

Definition newStore (userEmail : string) : CredentialStore.t :=
  CredentialStore.new (Platform.sha256 P) homedir userEmail.

(** [ensureCredentialStore], lines 18-25 *)
Definition ensureCredentialStore (userEmail : string) (s : state) : state :=
  if VeracrossAuth.is_none (credentialStore s) || other_user s userEmail then
    {| cookieJar := cookieJar s;
       credentialStore := Some (newStore userEmail);
       isAuthenticated := false;
       currentUserEmail := Some userEmail;
       files := files s; sent := sent s |}
  else s.

(** [makeRequest], lines 27-48 *)
Definition makeRequest (url : string) (options : Http.Options)
  : M state Http.Response :=
  fun s =>
    let req := VeracrossAuth.request_of P (cookieJar s) url options in
    let s1 := log_request req s in
    match Platform.fetch P (sent s) req with
    | None => (Throw "FetchError", s1)
    | Some response =>
        match VeracrossAuth.setCookies P (fun _ => true) (Http.setCookie response) url
                (cookieJar s1) with
        | (Ok _, j) => (Ok response, set_cookieJar j s1)
        | (Throw e, j) => (Throw e, set_cookieJar j s1)
        end
    end.

(** [await this.credentialStore!.saveCredentials(credentials)] *)
Definition saveCredentials (credentials : Credentials) : M state unit :=
  fun s =>
    match credentialStore s with
    | Some cs =>
        let '(r, f) :=
          CredentialStore.saveCredentials aes_encrypt_raw cs credentials
            randomBytes32 (Platform.randomBytes16 P) (files s) in
        (r, set_files f s)
    | None => (Throw "TypeError", s)
    end.

(** [await this.credentialStore!.loadCredentials()] *)
Definition loadCredentials : M state (option Credentials) :=
  fun s =>
    match credentialStore s with
    | Some cs =>
        let '(c, f) :=
          CredentialStore.loadCredentials aes_decrypt_raw
            (Platform.JSON_parse_credentials P) cs randomBytes32 (files s) in
        (Ok c, set_files f s)
    | None => (Throw "TypeError", s)
    end.

(** Lines 53-60 of [login]: the address the login is made for. *)
Definition loginEmail (username userEmail : option string) : option string :=
  if truthy_opt userEmail then userEmail
  else
    match username with
    | Some u => if JsString.truthy u && JsString.includes "@" u then Some u else None
    | None => None
    end.

(** [login(username?, password?, userEmail?)], lines 50-127 *)
Definition login (user pass userEmail : option string) : M state bool :=
  try_catch
    (match loginEmail user userEmail with
     | None => throw "User email is required for authentication"
     | Some email =>
         modify (ensureCredentialStore email) ;;;
         credentials <-
           (match user, pass with
            | Some u, Some p =>
                if JsString.truthy u && JsString.truthy p then
                  let c := {| username := u; password := p |} in
                  saveCredentials c ;;; ret (Some c)
                else loadCredentials
            | _, _ => loadCredentials
            end) ;;
         match credentials with
         | None => throw "No credentials available"
         | Some credentials =>
             let loginPageUrl := baseUrl ++ "/login" in
             loginPageResponse <- makeRequest loginPageUrl Http.no_options ;;
             let hiddenFields :=
               Platform.extractHiddenFields P (Http.text loginPageResponse) in
             let loginData :=
               Http.spread [("username", username credentials);
                            ("password", password credentials)] hiddenFields in
             loginResponse <-
               makeRequest loginPageUrl
                 {| Http.o_method := Some "POST";
                    Http.o_headers :=
                      [("Content-Type", "application/x-www-form-urlencoded");
                       ("Referer", loginPageUrl)];
                    Http.o_body := Some (Platform.URLSearchParams_toString P loginData);
                    Http.o_redirect := Some "manual" |} ;;
             if loginAccepted loginResponse
             then modify (set_isAuthenticated true) ;;; ret true
             else ret false
         end
     end)
    (ret false).

(** [ensureAuthenticated(userEmail?)], lines 146-158 *)
Definition ensureAuthenticated (userEmail : option string) : M state bool :=
  fun s =>
    if negb (truthy_opt (currentUserEmail s)) && negb (truthy_opt userEmail) then
      (Throw "User email required for authentication", s)
    else if negb (isAuthenticated s)
            || match userEmail with
               | Some e => JsString.truthy e && other_user s e
               | None => false
               end
    then login None None userEmail s
    else (Ok true, s).

(** [makeAuthenticatedRequest], lines 160-163: [ensureAuthenticated] is
    called without an argument and its result is not looked at. *)
Definition makeAuthenticatedRequest (url : string) (options : Http.Options)
  : M state Http.Response :=
  ensureAuthenticated None ;;; makeRequest url options.

(** [logout], lines 165-168 *)
Definition logout (s : state) : state :=
  set_cookieJar (CookieJar.empty (Platform.jarOps P)) (set_isAuthenticated false s).

(** [clearStoredCredentials], lines 170-175 *)
Definition clearStoredCredentials (s : state) : state :=
  let s1 :=
    match credentialStore s with
    | Some cs => set_files (CredentialStore.clearCredentials cs (files s)) s
    | None => s
    end in
  logout s1.

End WithPlatform.

End VeracrossAuthLegacy.

(* ------------------------------------------------------------------ *)
(** * [CSGPortalMCPServer] ([unnamed/part_003]): resolving the user *)
(* ------------------------------------------------------------------ *)

Module CSGPortalMCPServer.
Section WithHash.

Variable sha256 : string -> string.

Local Abbreviation Users := (list UserManager.UserConfig).

Definition noUserMessage : string :=
  "No user email provided and no default user configured. Please use set_default_user first or provide userEmail parameter.".

(** [resolveUserEmail], lines 260-274, over the users collection: the
    address and [isAutoDetected]. *)
Definition resolveUserEmail (providedEmail : option string) (now : Z)
  : M Users (string * bool) :=
  fun coll =>
    if UserManager.found providedEmail then
      match providedEmail with
      | Some e => (Ok (e, false), UserManager.updateLastUsed sha256 e now coll)
      | None => (Throw noUserMessage, coll)
      end
    else
      let '(detectedEmail, coll1) := UserManager.detectUserEmail now coll in
      if UserManager.found detectedEmail then
        match detectedEmail with
        | Some e => (Ok (e, true), coll1)
        | None => (Throw noUserMessage, coll1)
        end
      else (Throw noUserMessage, coll1).

(** Lines 343-346 of [handleBrowserAuthentication]: before the login the
    resolved user is added to the registry, as the default user exactly
    when the registry is empty. *)
Definition registerForLogin (providedEmail : option string) (now : Z)
  : M Users string :=
  r <- resolveUserEmail providedEmail now ;;
  let email := fst r in
  fun coll =>
    (Ok email,
     UserManager.addUser sha256 email (negb (UserManager.hasUsers coll)) now coll).

End WithHash.
End CSGPortalMCPServer.

(* ------------------------------------------------------------------ *)
(** * [encodeURIComponent] *)
(* ------------------------------------------------------------------ *)

Module Uri.

(** The characters [encodeURIComponent] leaves as they are: letters,
    digits and [- _ . ! ~ * ' ( )]. *)
Definition unreserved (c : ascii) : bool :=
  let n := nat_of_ascii c in
  ((65 <=? n)%nat && (n <=? 90)%nat)
  || ((97 <=? n)%nat && (n <=? 122)%nat)
  || ((48 <=? n)%nat && (n <=? 57)%nat)
  || Ascii.eqb c "-" || Ascii.eqb c "_" || Ascii.eqb c "." || Ascii.eqb c "!"
  || Ascii.eqb c "~" || Ascii.eqb c "*" || Ascii.eqb c "'" || Ascii.eqb c "("
  || Ascii.eqb c ")".

Definition upper_hex_digit (n : nat) : ascii :=
  match String.get n "0123456789ABCDEF" with
  | Some c => c
  | None => "0"%char
  end.

(** One byte of the UTF-8 text: kept, or written as [%XX]. *)
Definition encode_byte (c : ascii) : string :=
  if unreserved c then String c EmptyString
  else
    let n := nat_of_ascii c in
    String "%" (String (upper_hex_digit (n / 16))
                  (String (upper_hex_digit (n mod 16)) EmptyString)).

(** [encodeURIComponent(s)] on well-formed text. *)
Fixpoint encodeURIComponent (s : string) : string :=
  match s with
  | EmptyString => EmptyString
  | String c r => encode_byte c ++ encodeURIComponent r
  end.

End Uri.

(* ------------------------------------------------------------------ *)
(** * [directory.ts]: class [DirectorySearch] *)
(* ------------------------------------------------------------------ *)

Module DirectorySearch.

(** The object [parseAddress] returns; a field left out is [None]. *)
Record Address : Type := mkAddress {
  street : option string;
  city : option string;
  state : option string;
  postalCode : option string
}.

(** [parseAddress], lines 439-456.  [trim] acts on ASCII white space. *)
Definition parseAddress (addressText : string) : Address :=
  if negb (JsString.truthy addressText) then
    {| street := None; city := None; state := None; postalCode := None |}
  else
    let parts := List.map CookieString.trim (JsString.split "," addressText) in
    if (3 <=? List.length parts)%nat then
      let street := List.nth 0 parts EmptyString in
      let city := List.nth 1 parts EmptyString in
      let stateZip := JsString.split " " (List.nth 2 parts EmptyString) in
      let state := List.nth 0 stateZip EmptyString in
      let postalCode :=
        JsString.remove_first "-" (JsString.join " " (List.skipn 1 stateZip)) in
      {| street := Some street; city := Some city; state := Some state;
         postalCode := Some postalCode |}
    else
      {| street := Some addressText; city := None; state := None; postalCode := None |}.

(** JavaScript truthiness of a field. *)
Definition truthy (v : Json.jsval) : bool :=
  match v with
  | Json.JUndefined => false
  | Json.JBool b => b
  | Json.JString s => JsString.truthy s
  end.

(** [String(v)] of what [v || ''] yields. *)
Definition text (v : Json.jsval) : string :=
  match v with
  | Json.JString s => s
  | Json.JBool true => "true"
  | Json.JBool false => "false"
  | Json.JUndefined => "undefined"
  end.

(** [encodeURIComponent(params.k || '')] *)
Definition encoded (params : Json.object) (k : string) : string :=
  Uri.encodeURIComponent (text (Json.or_empty (Json.get params k))).

Section WithPlatform.

Variable P : Platform.t.
(** The [baseUrl] of the [VeracrossAuth] object the search uses. *)
Variable baseUrl : string.
(** [process.env.VERACROSS_SCHOOL_CODE] *)
Variable VERACROSS_SCHOOL_CODE : option string.
(** [interface DirectoryEntry], and the entries [cheerio] finds in a page. *)
Variable DirectoryEntry : Type.
Variable parseDirectoryResults : string -> list DirectoryEntry.

Local Abbreviation Row := (MongoSearchCache.CacheEntry (list DirectoryEntry)).

(** [process.env.VERACROSS_SCHOOL_CODE || 'csg'] *)
Definition schoolCode : string :=
  match VERACROSS_SCHOOL_CODE with
  | Some c => if JsString.truthy c then c else "csg"
  | None => "csg"
  end.

(** The [queryParams] array of [buildSearchUrl]. *)
Definition queryParams (params : Json.object) : list string :=
  ["directory_entry%5Bfirst_name%5D=" ++ encoded params "firstName";
   "directory_entry%5Blast_name%5D=" ++ encoded params "lastName";
   "directory_entry%5Bcity%5D=" ++ encoded params "city";
   "directory_entry%5Blocation%5D=" ++ Uri.encodeURIComponent EmptyString;
   "directory_entry%5Bpostal_code%5D=" ++ encoded params "postalCode";
   "directory_entry%5Bgrade_level%5D=" ++ encoded params "gradeLevel";
   "commit=Search"].

(** [buildSearchUrl], lines 327-343 *)
Definition buildSearchUrl (params : Json.object) : string :=
  let baseUrl := "https://portals.veracross.com/" ++ schoolCode ++ "/parent/directory/1" in
  baseUrl ++ "?" ++ JsString.join "&" (queryParams params).

(** The fields of the object, with the state of its [VeracrossAuth] and
    the cache collection. *)
Record instance : Type := mkInstance {
  auth : VeracrossAuth.state P;
  cache : option MongoSearchCache.t;
  currentUserEmail : option string;
  rows : list Row
}.

Definition set_auth (a : VeracrossAuth.state P) (s : instance) : instance :=
  {| auth := a; cache := cache s; currentUserEmail := currentUserEmail s; rows := rows s |}.

Definition set_rows (r : list Row) (s : instance) : instance :=
  {| auth := auth s; cache := cache s; currentUserEmail := currentUserEmail s; rows := r |}.

(** [this.currentUserEmail !== userEmail] *)
Definition other_user (s : instance) (userEmail : string) : bool :=
  match currentUserEmail s with
  | Some e => negb (String.eqb e userEmail)
  | None => true
  end.

(** [ensureCache], lines 266-271 *)
Definition ensureCache (userEmail : string) (s : instance) : instance :=
  if VeracrossAuth.is_none (cache s) || other_user s userEmail then
    {| auth := auth s;
       cache := Some (MongoSearchCache.new (Platform.sha256 P) userEmail);
       currentUserEmail := Some userEmail;
       rows := rows s |}
  else s.

(** A method of [this.auth] run from the search. *)
Definition onAuth {A} (m : M (VeracrossAuth.state P) A) : M instance A :=
  fun s => let '(r, a) := m (auth s) in (r, set_auth a s).

(** [await this.cache!.get(params)]; [now] is the value of [new Date()]. *)
Definition cacheGet (params : Json.object) (now : Z)
  : M instance (option (list DirectoryEntry)) :=
  fun s =>
    match cache s with
    | Some c => (Ok (MongoSearchCache.get (Platform.sha256 P) c params now (rows s)), s)
    | None => (Throw "TypeError", s)
    end.

(** [await this.cache!.set(params, results, 24)] *)
Definition cacheSet (params : Json.object) (results : list DirectoryEntry) (now : Z)
  : M instance unit :=
  fun s =>
    match cache s with
    | Some c =>
        (Ok tt,
         set_rows (MongoSearchCache.set (Platform.sha256 P) c params results 24 now (rows s)) s)
    | None => (Throw "TypeError", s)
    end.

(** [params.userEmail], when it is a non-empty string. *)
Definition userEmailOf (params : Json.object) : option string :=
  match Json.get params "userEmail" with
  | Json.JString e => if JsString.truthy e then Some e else None
  | _ => None
  end.

(** [search], lines 273-325; [now] is the clock reading of the cache
    calls.  The status code that ends the message of a failed request is
    left out. *)
Definition search (params : Json.object) (now : Z) : M instance (list DirectoryEntry) :=
  match userEmailOf params with
  | None => throw "User email is required for directory search"
  | Some userEmail =>
      modify (ensureCache userEmail) ;;;
      cachedResults <-
        (if truthy (Json.get params "refresh") then ret None
         else cacheGet params now) ;;
      match cachedResults with
      | Some cachedResults => ret cachedResults
      | None =>
          onAuth (VeracrossAuth.ensureAuthenticated P baseUrl userEmail) ;;;
          let searchParams := Json.delete "userEmail" (Json.delete "refresh" params) in
          let searchUrl := buildSearchUrl searchParams in
          response <-
            onAuth (VeracrossAuth.makeAuthenticatedRequest P baseUrl searchUrl
                      Http.no_options) ;;
          if negb (Http.ok response) then throw "Directory search request failed"
          else
            let html := Http.text response in
            let results := parseDirectoryResults html in
            cacheSet params results now ;;;
            ret results
      end
  end.

End WithPlatform.

Arguments auth {P DirectoryEntry} _.
Arguments cache {P DirectoryEntry} _.
Arguments currentUserEmail {P DirectoryEntry} _.
Arguments rows {P DirectoryEntry} _.

End DirectorySearch.

(* ------------------------------------------------------------------ *)
(** * A small platform on which the definitions run *)
(* ------------------------------------------------------------------ *)

(** Stand-ins for the libraries, used only to evaluate the model on
    examples: an injective "hash", a cipher that prefixes the key, a
    cookie jar scoped by host, and parsers for the two JSON shapes the
    code writes. *)
Module Toy.

Definition sha256 (s : string) : string := s.

Definition strip_prefix := JsString.strip_prefix.

Definition aes_encrypt (key iv text : string) : string := key ++ "|" ++ iv ++ "|" ++ text.

Definition aes_decrypt (key iv cipher : string) : option string :=
  strip_prefix (key ++ "|" ++ iv ++ "|") cipher.

Definition field (k : string) : string := Json.quote k ++ ":".

(** Reads [{"username":"..","password":".."}]. *)
Definition JSON_parse_credentials (text : string) : option Credentials :=
  match strip_prefix ("{" ++ field "username") text with
  | Some r1 =>
      match Json.unquote r1 with
      | Some (u, r2) =>
          match strip_prefix ("," ++ field "password") r2 with
          | Some r3 =>
              match Json.unquote r3 with
              | Some (p, "}") => Some {| username := u; password := p |}
              | _ => None
              end
          | None => None
          end
      | None => None
      end
  | None => None
  end.

Definition or_blank (o : option string) : string :=
  match o with Some s => s | None => EmptyString end.

(** Writes [{"cookies":"..","userAgent":".."}]; the dates are left out. *)
Definition JSON_stringify_session (sd : SessionData) : string :=
  Json.stringify [("cookies", Json.JString (or_blank (cookies sd)));
                  ("userAgent", Json.JString (or_blank (userAgent sd)))].

Definition JSON_parse_session (text : string) : option SessionData :=
  match strip_prefix ("{" ++ field "cookies") text with
  | Some r1 =>
      match Json.unquote r1 with
      | Some (c, r2) =>
          match strip_prefix ("," ++ field "userAgent") r2 with
          | Some r3 =>
              match Json.unquote r3 with
              | Some (ua, "}") =>
                  Some {| cookies := Some c; userAgent := Some ua;
                          timestamp := None; expiresAt := None |}
              | _ => None
              end
          | None => None
          end
      | None => None
      end
  | None => None
  end.

Fixpoint until_delim (s : string) : string :=
  match s with
  | EmptyString => EmptyString
  | String c r =>
      if Ascii.eqb c "/"%char || Ascii.eqb c ":"%char
         || Ascii.eqb c "?"%char || Ascii.eqb c "#"%char
      then EmptyString else String c (until_delim r)
  end.

(** The host of an [http(s)://host/..] address. *)
Definition hostname (u : string) : option string :=
  match strip_prefix "https://" u with
  | Some r => Some (until_delim r)
  | None =>
      match strip_prefix "http://" u with
      | Some r => Some (until_delim r)
      | None => None
      end
  end.

Record cookie : Type := mkCookie { c_host : string; c_name : string; c_value : string }.

Fixpoint split_eq (s : string) : option (string * string) :=
  match s with
  | EmptyString => None
  | String c r =>
      if Ascii.eqb c "="%char then Some (EmptyString, r)
      else match split_eq r with
           | Some (n, v) => Some (String c n, v)
           | None => None
           end
  end.

Fixpoint put (c : cookie) (j : list cookie) : list cookie :=
  match j with
  | [] => [c]
  | x :: r =>
      if String.eqb (c_host x) (c_host c) && String.eqb (c_name x) (c_name c)
      then c :: r else x :: put c r
  end.

Definition setCookie (text url : string) (j : list cookie) : option (list cookie) :=
  match hostname url, split_eq text with
  | Some h, Some (n, v) => Some (put {| c_host := h; c_name := n; c_value := v |} j)
  | _, _ => None
  end.

Fixpoint join_semi (l : list string) : string :=
  match l with
  | [] => EmptyString
  | [x] => x
  | x :: r => x ++ "; " ++ join_semi r
  end.

Definition getCookieString (j : list cookie) (url : string) : string :=
  match hostname url with
  | Some h =>
      join_semi
        (List.map (fun c => c_name c ++ "=" ++ c_value c)
           (List.filter (fun c => String.eqb (c_host c) h) j))
  | None => EmptyString
  end.

Definition jarOps : CookieJar.ops :=
  {| CookieJar.jar := list cookie;
     CookieJar.empty := [];
     CookieJar.setCookie := setCookie;
     CookieJar.getCookieString := getCookieString |}.

(** The platform with a given network and a given interactive flow. *)
Definition platform
  (fetch : list Http.Request -> Http.Request -> option Http.Response)
  (flow : string -> list MongoCredentialStore.EncryptedCredentialDocument ->
          bool * list MongoCredentialStore.EncryptedCredentialDocument)
  : Platform.t :=
  {| Platform.jarOps := jarOps;
     Platform.sha256 := sha256;
     Platform.aes_encrypt := aes_encrypt;
     Platform.aes_decrypt := aes_decrypt;
     Platform.JSON_parse_credentials := JSON_parse_credentials;
     Platform.ENCRYPTION_MASTER_KEY := None;
     Platform.JSON_parse_session := JSON_parse_session;
     Platform.JSON_stringify_session := JSON_stringify_session;
     Platform.hostname := hostname;
     Platform.fetch := fetch;
     Platform.startAuthFlow := flow;
     Platform.encodeURIComponent := fun s => s;
     Platform.extractHiddenFields := fun _ => [];
     Platform.URLSearchParams_toString :=
       fun l => String.concat "&" (List.map (fun kv => fst kv ++ "=" ++ snd kv) l);
     Platform.now := 1000;
     Platform.randomBytes16 := "0123456789abcdef" |}.

(** A successful [200 OK] page at [url]. *)
Definition page (url body : string) : Http.Response :=
  {| Http.status := 200; Http.finalUrl := url; Http.location := None;
     Http.setCookie := []; Http.text := body |}.

(** The session blob the browser flow stores for a cookie header. *)
Definition sessionBlob (cookieHeader : string) : string :=
  JSON_stringify_session
    {| cookies := Some cookieHeader; userAgent := Some "agent";
       timestamp := None; expiresAt := None |}.

(** The collection after [saveCredentials] of a session for [email]. *)
Definition storedSession (email cookieHeader : string)
  (coll : list MongoCredentialStore.EncryptedCredentialDocument)
  : list MongoCredentialStore.EncryptedCredentialDocument :=
  MongoCredentialStore.saveCredentials aes_encrypt
    (MongoCredentialStore.new sha256 None email)
    {| username := email; password := sessionBlob cookieHeader |}
    "0123456789abcdef" 1000 coll.

End Toy.

Example toy_roundtrip :
  MongoCredentialStore.loadCredentials Toy.aes_decrypt Toy.JSON_parse_credentials
    (MongoCredentialStore.new Toy.sha256 None "b@x.com")
    (Toy.storedSession "b@x.com" "tok=bob" [])
  = Some {| username := "b@x.com"; password := Toy.sessionBlob "tok=bob" |}.
Proof. vm_compute. reflexivity. Qed.

Example toy_session_roundtrip :
  Toy.JSON_parse_session (Toy.sessionBlob "tok=bob; auth=1")
  = Some {| cookies := Some "tok=bob; auth=1"; userAgent := Some "agent";
            timestamp := None; expiresAt := None |}.
Proof. vm_compute. reflexivity. Qed.

Example toy_hostname :
  Toy.hostname "https://portals.veracross.com/csg/parent" = Some "portals.veracross.com".
Proof. reflexivity. Qed.

(* ================================================================== *)
(** * Properties *)
(* ================================================================== *)

(* ------------------------------------------------------------------ *)
(** ** Expiry at read time *)
(* ------------------------------------------------------------------ *)

Section CacheExpiry.

Variable sha256 : string -> string.
Variable T : Type.

Local Abbreviation MEntry := (MongoSearchCache.CacheEntry T).

(** A hit of [MongoSearchCache.get] is the payload of a row of the slot
    that has not expired. *)
Lemma mongo_get_hit_is_live (c : MongoSearchCache.t) params now (coll : list MEntry) d :
  MongoSearchCache.get sha256 c params now coll = Some d ->
  exists row,
    In row coll
    /\ MongoSearchCache.bySlot c (MongoSearchCache.getCacheKey sha256 params) row = true
    /\ MongoSearchCache.data row = d
    /\ (now < MongoSearchCache.expiresAt row)%Z.
Proof.
  unfold MongoSearchCache.get.
  destruct (Mongo.findOne _ coll) as [row|] eqn:E; [|discriminate].
  intros [= <-]. apply Mongo.findOne_Some in E. destruct E as [Hin Hf].
  unfold MongoSearchCache.bySlotLive in Hf.
  apply andb_true_iff in Hf. destruct Hf as [Hs Hl].
  exists row. repeat split; auto. now apply Z.ltb_lt.
Qed.

(** When every row of the slot has reached its expiry, the read misses,
    whether or not the rows are still stored. *)
Lemma mongo_get_expired (c : MongoSearchCache.t) params now (coll : list MEntry) :
  (forall row, In row coll ->
     MongoSearchCache.bySlot c (MongoSearchCache.getCacheKey sha256 params) row = true ->
     (MongoSearchCache.expiresAt row <= now)%Z) ->
  MongoSearchCache.get sha256 c params now coll = None.
Proof.
  intros Hexp.
  destruct (MongoSearchCache.get sha256 c params now coll) as [d|] eqn:E; [|reflexivity].
  apply mongo_get_hit_is_live in E. destruct E as (row & Hin & Hs & _ & Hlt).
  specialize (Hexp row Hin Hs). lia.
Qed.

(** Before its expiry, what [set] stored is what [get] returns. *)
Lemma mongo_set_then_get (c : MongoSearchCache.t) params d h now now'
      (coll : list MEntry) :
  (now' < now + h * 60 * 60 * 1000)%Z ->
  MongoSearchCache.get sha256 c params now'
    (MongoSearchCache.set sha256 c params d h now coll) = Some d.
Proof.
  intros Hlive. unfold MongoSearchCache.get, MongoSearchCache.set.
  rewrite Mongo.findOne_replaceOne_upsert; [reflexivity| |].
  - intros x Hx. unfold MongoSearchCache.bySlotLive in Hx.
    apply andb_true_iff in Hx. tauto.
  - unfold MongoSearchCache.bySlotLive, MongoSearchCache.bySlot. simpl.
    rewrite !String.eqb_refl. simpl. now apply Z.ltb_lt.
Qed.

Variable homedir : string.
Variable JSON_parse_entry : string -> option (SearchCache.CacheEntry T).

(** The file cache: a file whose entry has expired reads as a miss. *)
Lemma file_get_expired (c : SearchCache.t) params now (f : SearchCache.fs)
      content entry :
  f (SearchCache.getCacheFilePath c params) = Some content ->
  JSON_parse_entry content = Some entry ->
  (SearchCache.expiresAt entry < now)%Z ->
  SearchCache.get JSON_parse_entry c params now f = None.
Proof.
  intros Hf Hp Hlt. unfold SearchCache.get. rewrite Hf, Hp.
  destruct (Z.gtb_spec now (SearchCache.expiresAt entry)); [reflexivity|lia].
Qed.

(** The file cache still serves an entry at the very millisecond of its
    expiry; the database cache does not. *)
Lemma file_get_at_expiry (c : SearchCache.t) params (f : SearchCache.fs)
      content entry :
  f (SearchCache.getCacheFilePath c params) = Some content ->
  JSON_parse_entry content = Some entry ->
  SearchCache.get JSON_parse_entry c params (SearchCache.expiresAt entry) f
  = Some (SearchCache.data entry).
Proof.
  intros Hf Hp. unfold SearchCache.get. rewrite Hf, Hp.
  destruct (Z.gtb_spec (SearchCache.expiresAt entry) (SearchCache.expiresAt entry));
    [lia|reflexivity].
Qed.

End CacheExpiry.

(** C8.  A cached result read after its absolute expiry timestamp has
    passed is a miss, although the expired row (or file) is still stored:
    for the database cache whenever the rows of the slot present in the
    collection have expired, for the file cache whenever the file present
    at the slot's path holds an expired entry. *)
Theorem C8_expired_read_is_miss :
  forall (sha256 : string -> string) (T : Type),
    (forall (c : MongoSearchCache.t) params now
            (coll : list (MongoSearchCache.CacheEntry T)) row,
        In row coll ->
        MongoSearchCache.bySlot c (MongoSearchCache.getCacheKey sha256 params) row = true ->
        (forall row', In row' coll ->
           MongoSearchCache.bySlot c (MongoSearchCache.getCacheKey sha256 params) row' = true ->
           (MongoSearchCache.expiresAt row' < now)%Z) ->
        MongoSearchCache.get sha256 c params now coll = None)
    /\
    (forall (parse : string -> option (SearchCache.CacheEntry T))
            (c : SearchCache.t) params now (f : SearchCache.fs) content entry,
        f (SearchCache.getCacheFilePath c params) = Some content ->
        parse content = Some entry ->
        (SearchCache.expiresAt entry < now)%Z ->
        SearchCache.get parse c params now f = None).
Proof.
  intros sha256 T. split.
  - intros c params now coll row _ _ Hexp.
    apply mongo_get_expired. intros r Hin Hs.
    specialize (Hexp r Hin Hs). lia.
  - intros parse c params now f content entry.
    apply file_get_expired.
Qed.

(** An expired row that is still stored, and an expired cache file. *)
Definition staleRow : MongoSearchCache.CacheEntry nat :=
  {| MongoSearchCache.userHash := MongoSearchCache.hashEmail Toy.sha256 "a@x.com";
     MongoSearchCache.searchHash :=
       MongoSearchCache.getCacheKey Toy.sha256 [("lastName", Json.JString "Smith")];
     MongoSearchCache.data := 7%nat;
     MongoSearchCache.timestamp := 0;
     MongoSearchCache.expiresAt := 86400000 |}.

(** C8 on a concrete row and a concrete file, one millisecond after expiry
    (and, for contrast, the same row read one millisecond before). *)
Lemma C8_expired_read_is_miss_witness :
  MongoSearchCache.get Toy.sha256 (MongoSearchCache.new Toy.sha256 "a@x.com")
    [("lastName", Json.JString "Smith")] 86400001 [staleRow] = None
  /\ MongoSearchCache.get Toy.sha256 (MongoSearchCache.new Toy.sha256 "a@x.com")
       [("lastName", Json.JString "Smith")] 86399999 [staleRow] = Some 7%nat
  /\ SearchCache.get
       (fun _ => Some {| SearchCache.data := 7%nat; SearchCache.timestamp := 0;
                         SearchCache.expiresAt := 86400000 |})
       (SearchCache.new Toy.sha256 "/home/u" "a@x.com")
       [("lastName", Json.JString "Smith")] 86400001
       (fun _ => Some "entry") = None.
Proof.
  split; [|split].
  - apply (proj1 (C8_expired_read_is_miss Toy.sha256 nat)
             (MongoSearchCache.new Toy.sha256 "a@x.com")
             [("lastName", Json.JString "Smith")] 86400001%Z [staleRow] staleRow).
    + left. reflexivity.
    + vm_compute. reflexivity.
    + intros row' [<-|[]] _. vm_compute. reflexivity.
  - vm_compute. reflexivity.
  - apply (proj2 (C8_expired_read_is_miss Toy.sha256 nat)
             (fun _ => Some {| SearchCache.data := 7%nat; SearchCache.timestamp := 0;
                               SearchCache.expiresAt := 86400000 |})
             (SearchCache.new Toy.sha256 "/home/u" "a@x.com")
             [("lastName", Json.JString "Smith")] 86400001%Z
             (fun _ => Some "entry") "entry"
             {| SearchCache.data := 7%nat; SearchCache.timestamp := 0;
                SearchCache.expiresAt := 86400000 |}).
    + reflexivity.
    + reflexivity.
    + vm_compute. reflexivity.
Defined.

(* ------------------------------------------------------------------ *)
(** ** Partition isolation of the cache and of the credential store *)
(* ------------------------------------------------------------------ *)

(** The writes a [MongoSearchCache] instance can make. *)
Inductive cache_op (T : Type) : Type :=
| CacheSet (params : Json.object) (d : T) (lifetimeHours now : Z)
| CacheClear (params : option Json.object).
Arguments CacheSet {T} params d lifetimeHours now.
Arguments CacheClear {T} params.

(** The writes a [MongoCredentialStore] instance can make. *)
Inductive store_op : Type :=
| StoreSave (c : Credentials) (rnd : string) (now : Z)
| StoreClear.

Section CacheIsolation.

Variable sha256 : string -> string.
Variable T : Type.

Local Abbreviation MEntry := (MongoSearchCache.CacheEntry T).

Definition run_cache_op (c : MongoSearchCache.t) (o : cache_op T) (coll : list MEntry)
  : list MEntry :=
  match o with
  | CacheSet p d h now => MongoSearchCache.set sha256 c p d h now coll
  | CacheClear p => MongoSearchCache.clear sha256 c p coll
  end.

Definition run_cache_ops (c : MongoSearchCache.t) (ops : list (cache_op T))
  (coll : list MEntry) : list MEntry :=
  List.fold_left (fun acc o => run_cache_op c o acc) ops coll.

Variables A B : string.
Hypothesis handles_differ :
  MongoSearchCache.hashEmail sha256 A <> MongoSearchCache.hashEmail sha256 B.

Let cacheA := MongoSearchCache.new sha256 A.
Let cacheB := MongoSearchCache.new sha256 B.

Lemma cache_rows_disjoint (row : MEntry) :
  MongoSearchCache.byUser cacheA row = true ->
  MongoSearchCache.byUser cacheB row = false.
Proof.
  unfold MongoSearchCache.byUser, cacheA, cacheB, MongoSearchCache.new.
  cbn [MongoSearchCache.cache_userHash]. intros HA.
  apply String.eqb_eq in HA. apply String.eqb_neq. congruence.
Qed.

Lemma cache_slot_of_user h (row : MEntry) :
  MongoSearchCache.bySlot cacheA h row = true ->
  MongoSearchCache.byUser cacheA row = true.
Proof.
  unfold MongoSearchCache.bySlot, MongoSearchCache.byUser.
  intros H. apply andb_true_iff in H. tauto.
Qed.

(** A write through [A]'s cache leaves the rows of [B] as they are. *)
Lemma cache_op_frame (o : cache_op T) (coll : list MEntry) :
  List.filter (MongoSearchCache.byUser cacheB) (run_cache_op cacheA o coll)
  = List.filter (MongoSearchCache.byUser cacheB) coll.
Proof.
  destruct o as [p d h now|[p|]]; simpl.
  - unfold MongoSearchCache.set.
    apply Mongo.filter_replaceOne_upsert.
    + intros x Hx. apply cache_rows_disjoint. eapply cache_slot_of_user; eauto.
    + apply cache_rows_disjoint. unfold MongoSearchCache.byUser. simpl.
      apply String.eqb_refl.
  - apply Mongo.filter_deleteOne.
    intros x Hx. apply cache_rows_disjoint. eapply cache_slot_of_user; eauto.
  - apply Mongo.filter_deleteMany.
    intros x Hx. now apply cache_rows_disjoint.
Qed.

Lemma cache_ops_frame (ops : list (cache_op T)) (coll : list MEntry) :
  List.filter (MongoSearchCache.byUser cacheB) (run_cache_ops cacheA ops coll)
  = List.filter (MongoSearchCache.byUser cacheB) coll.
Proof.
  unfold run_cache_ops. revert coll.
  induction ops as [|o r IH]; intros coll; simpl; [reflexivity|].
  rewrite IH. apply cache_op_frame.
Qed.

(** A read through [B]'s cache depends on the rows of [B] only. *)
Lemma cache_get_own_rows params now (coll : list MEntry) :
  MongoSearchCache.get sha256 cacheB params now
    (List.filter (MongoSearchCache.byUser cacheB) coll)
  = MongoSearchCache.get sha256 cacheB params now coll.
Proof.
  unfold MongoSearchCache.get. rewrite Mongo.findOne_filter; [reflexivity|].
  intros x Hx. unfold MongoSearchCache.bySlotLive, MongoSearchCache.bySlot in Hx.
  unfold MongoSearchCache.byUser.
  apply andb_true_iff in Hx. destruct Hx as [Hx _].
  apply andb_true_iff in Hx. tauto.
Qed.

End CacheIsolation.

Arguments run_cache_op sha256 {T} c o coll.
Arguments run_cache_ops sha256 {T} c ops coll.

Section StoreIsolation.

Variable sha256 : string -> string.
Variable aes_encrypt : string -> string -> string -> string.
Variable aes_decrypt : string -> string -> string -> option string.
Variable JSON_parse_credentials : string -> option Credentials.
Variable ENCRYPTION_MASTER_KEY : option string.

Local Abbreviation Doc := MongoCredentialStore.EncryptedCredentialDocument.

Definition run_store_op (s : MongoCredentialStore.t) (o : store_op) (coll : list Doc)
  : list Doc :=
  match o with
  | StoreSave c rnd now =>
      MongoCredentialStore.saveCredentials aes_encrypt s c rnd now coll
  | StoreClear => MongoCredentialStore.clearCredentials s coll
  end.

Definition run_store_ops (s : MongoCredentialStore.t) (ops : list store_op)
  (coll : list Doc) : list Doc :=
  List.fold_left (fun acc o => run_store_op s o acc) ops coll.

Variables A B : string.
Hypothesis handles_differ :
  MongoCredentialStore.hashEmail sha256 A <> MongoCredentialStore.hashEmail sha256 B.

Let storeA := MongoCredentialStore.new sha256 ENCRYPTION_MASTER_KEY A.
Let storeB := MongoCredentialStore.new sha256 ENCRYPTION_MASTER_KEY B.

Lemma store_rows_disjoint (d : Doc) :
  MongoCredentialStore.byUser storeA d = true ->
  MongoCredentialStore.byUser storeB d = false.
Proof.
  unfold MongoCredentialStore.byUser, storeA, storeB, MongoCredentialStore.new.
  cbn [MongoCredentialStore.store_userHash]. intros HA.
  apply String.eqb_eq in HA. apply String.eqb_neq. congruence.
Qed.

(** A write through [A]'s store leaves the document of [B] as it is. *)
Lemma store_op_frame (o : store_op) (coll : list Doc) :
  List.filter (MongoCredentialStore.byUser storeB) (run_store_op storeA o coll)
  = List.filter (MongoCredentialStore.byUser storeB) coll.
Proof.
  destruct o as [c rnd now|]; simpl.
  - unfold MongoCredentialStore.saveCredentials.
    apply Mongo.filter_replaceOne_upsert.
    + apply store_rows_disjoint.
    + apply store_rows_disjoint. unfold MongoCredentialStore.byUser. simpl.
      apply String.eqb_refl.
  - apply Mongo.filter_deleteOne. apply store_rows_disjoint.
Qed.

Lemma store_ops_frame (ops : list store_op) (coll : list Doc) :
  List.filter (MongoCredentialStore.byUser storeB) (run_store_ops storeA ops coll)
  = List.filter (MongoCredentialStore.byUser storeB) coll.
Proof.
  unfold run_store_ops. revert coll.
  induction ops as [|o r IH]; intros coll; simpl; [reflexivity|].
  rewrite IH. apply store_op_frame.
Qed.

Lemma store_load_own_rows (coll : list Doc) :
  MongoCredentialStore.loadCredentials aes_decrypt JSON_parse_credentials storeB
    (List.filter (MongoCredentialStore.byUser storeB) coll)
  = MongoCredentialStore.loadCredentials aes_decrypt JSON_parse_credentials storeB coll.
Proof.
  unfold MongoCredentialStore.loadCredentials.
  rewrite Mongo.findOne_filter; auto.
Qed.

Lemma store_has_own_rows (coll : list Doc) :
  MongoCredentialStore.hasCredentials storeB
    (List.filter (MongoCredentialStore.byUser storeB) coll)
  = MongoCredentialStore.hasCredentials storeB coll.
Proof.
  unfold MongoCredentialStore.hasCredentials.
  rewrite Mongo.countDocuments_filter; auto.
Qed.

End StoreIsolation.

(** The two store classes keep their partitions apart.  Let [A] and [B]
    be identities with different user handles ([hashEmail], the partition
    key).  Whatever sequence of writes is made through the cache and the
    credential store of [A], the rows of [B] in both collections stay
    exactly as they were, so every cache [get] and every
    [loadCredentials] / [hasCredentials] through the instances of [B]
    returns what it returned before.  This is about writes that go
    through the instance of the user they are made for; which instance a
    login writes through is decided by [VeracrossAuth], see the login for
    another user on the same object below. *)
Lemma store_classes_partition_isolation :
  forall (sha256 : string -> string) (T : Type)
         (aes_encrypt : string -> string -> string -> string)
         (aes_decrypt : string -> string -> string -> option string)
         (parse : string -> option Credentials)
         (masterKey : option string)
         (A B : string),
    MongoSearchCache.hashEmail sha256 A <> MongoSearchCache.hashEmail sha256 B ->
    let cacheA := MongoSearchCache.new sha256 A in
    let cacheB := MongoSearchCache.new sha256 B in
    let storeA := MongoCredentialStore.new sha256 masterKey A in
    let storeB := MongoCredentialStore.new sha256 masterKey B in
    (forall (ops : list (cache_op T)) (coll : list (MongoSearchCache.CacheEntry T)),
        let coll' := run_cache_ops sha256 cacheA ops coll in
        List.filter (MongoSearchCache.byUser cacheB) coll'
        = List.filter (MongoSearchCache.byUser cacheB) coll
        /\ (forall params now,
               MongoSearchCache.get sha256 cacheB params now coll'
               = MongoSearchCache.get sha256 cacheB params now coll)
        /\ (forall params now,
               List.filter (MongoSearchCache.byUser cacheB) coll = [] ->
               MongoSearchCache.get sha256 cacheB params now coll' = None))
    /\
    (forall (ops : list store_op)
            (coll : list MongoCredentialStore.EncryptedCredentialDocument),
        let coll' := run_store_ops aes_encrypt storeA ops coll in
        List.filter (MongoCredentialStore.byUser storeB) coll'
        = List.filter (MongoCredentialStore.byUser storeB) coll
        /\ MongoCredentialStore.loadCredentials aes_decrypt parse storeB coll'
           = MongoCredentialStore.loadCredentials aes_decrypt parse storeB coll
        /\ MongoCredentialStore.hasCredentials storeB coll'
           = MongoCredentialStore.hasCredentials storeB coll
        /\ (List.filter (MongoCredentialStore.byUser storeB) coll = [] ->
            MongoCredentialStore.loadCredentials aes_decrypt parse storeB coll' = None)).
Proof.
  intros sha256 T enc dec parse mk A B Hne cacheA cacheB storeA storeB.
  split.
  - intros ops coll coll'.
    pose proof (cache_ops_frame sha256 T A B Hne ops coll) as Hframe.
    subst cacheA cacheB coll'.
    split; [exact Hframe|]. split.
    + intros params now.
      rewrite <- (cache_get_own_rows sha256 T B params now (run_cache_ops _ _ _ _)).
      rewrite <- (cache_get_own_rows sha256 T B params now coll).
      now rewrite Hframe.
    + intros params now Hempty.
      rewrite <- (cache_get_own_rows sha256 T B params now (run_cache_ops _ _ _ _)).
      rewrite Hframe, Hempty. reflexivity.
  - intros ops coll coll'.
    pose proof (store_ops_frame sha256 enc mk A B Hne ops coll) as Hframe.
    subst storeA storeB coll'.
    split; [exact Hframe|]. split; [|split].
    + rewrite <- (store_load_own_rows sha256 dec parse mk B (run_store_ops _ _ _ _)).
      rewrite <- (store_load_own_rows sha256 dec parse mk B coll).
      now rewrite Hframe.
    + rewrite <- (store_has_own_rows sha256 mk B (run_store_ops _ _ _ _)).
      rewrite <- (store_has_own_rows sha256 mk B coll).
      now rewrite Hframe.
    + intros Hempty.
      rewrite <- (store_load_own_rows sha256 dec parse mk B (run_store_ops _ _ _ _)).
      rewrite Hframe, Hempty. reflexivity.
Qed.

(** Two concrete users and empty collections. *)
Example store_classes_partition_isolation_sample :
  MongoSearchCache.get Toy.sha256 (MongoSearchCache.new Toy.sha256 "b@x.com")
    [("lastName", Json.JString "Smith")] 5
    (run_cache_ops Toy.sha256 (MongoSearchCache.new Toy.sha256 "a@x.com")
       [CacheSet [("lastName", Json.JString "Smith")] 7%nat 24 0] [])
  = None
  /\ MongoCredentialStore.loadCredentials Toy.aes_decrypt Toy.JSON_parse_credentials
       (MongoCredentialStore.new Toy.sha256 None "b@x.com")
       (run_store_ops Toy.aes_encrypt (MongoCredentialStore.new Toy.sha256 None "a@x.com")
          [StoreSave {| username := "a@x.com"; password := Toy.sessionBlob "sid=alice" |}
             "0123456789abcdef" 0]
          [])
     = None.
Proof.
  assert (Hne : MongoSearchCache.hashEmail Toy.sha256 "a@x.com"
                <> MongoSearchCache.hashEmail Toy.sha256 "b@x.com")
    by (vm_compute; discriminate).
  pose proof (store_classes_partition_isolation Toy.sha256 nat Toy.aes_encrypt
                Toy.aes_decrypt Toy.JSON_parse_credentials None "a@x.com" "b@x.com" Hne)
    as [Hc Hs].
  split.
  - apply (proj2 (proj2 (Hc _ []))). reflexivity.
  - apply (proj2 (proj2 (proj2 (Hs _ [])))). reflexivity.
Qed.

(* ------------------------------------------------------------------ *)
(** ** The default user of the registry *)
(* ------------------------------------------------------------------ *)

Section DefaultUser.

Variable sha256 : string -> string.

Local Abbreviation User := UserManager.UserConfig.
Local Abbreviation clear := (UserManager.set_isDefault false).

(** What [setDefaultUser] does to the record it selects. *)
Definition promote (now : Z) (u : User) : User :=
  UserManager.set_lastUsed now (UserManager.set_isDefault true u).

(** The record [setDefaultUser] inserts for an unknown user. *)
Definition fresh (e : string) (now : Z) : User :=
  {| UserManager.userHash := UserManager.hashEmail sha256 e;
     UserManager.email := JsString.toLowerCase e;
     UserManager.isDefault := true;
     UserManager.createdAt := now;
     UserManager.lastUsed := now |}.

(** [setDefaultUser] in one pass: the first record of the user is promoted,
    every other record loses the flag, and an unknown user is appended. *)
Fixpoint mark (e : string) (now : Z) (coll : list User) : list User :=
  match coll with
  | [] => [fresh e now]
  | u :: r =>
      if UserManager.byHash (UserManager.hashEmail sha256 e) u
      then promote now (clear u) :: List.map clear r
      else clear u :: mark e now r
  end.

Lemma defaults_cleared (coll : list User) :
  UserManager.defaults (List.map clear coll) = 0%nat.
Proof.
  unfold UserManager.defaults, Mongo.countDocuments.
  induction coll as [|u r IH]; simpl; auto.
Qed.

Lemma updateMany_all_is_map (coll : list User) :
  Mongo.updateMany (fun _ => true) clear coll = List.map clear coll.
Proof. reflexivity. Qed.

Lemma updateMany_defaults_cleared (coll : list User) :
  Mongo.updateMany UserManager.isDefault clear (List.map clear coll)
  = List.map clear coll.
Proof.
  unfold Mongo.updateMany. rewrite List.map_map.
  apply List.map_ext. intros u. reflexivity.
Qed.

Lemma replaceFirst_no_match h (d : User) (coll : list User) :
  (forall u, In u coll -> UserManager.byHash h u = false) ->
  Mongo.replaceFirst (UserManager.byHash h) d coll = None.
Proof.
  induction coll as [|u r IH]; intros Hno; simpl; [reflexivity|].
  rewrite (Hno u (or_introl eq_refl)).
  rewrite IH; [reflexivity|]. intros v Hv. apply Hno. now right.
Qed.

Lemma setDefaultUser_is_mark e now (coll : list User) :
  UserManager.setDefaultUser sha256 e now coll = mark e now coll.
Proof.
  unfold UserManager.setDefaultUser. rewrite updateMany_all_is_map.
  set (h := UserManager.hashEmail sha256 e).
  assert (Hgen : forall c,
    let '(c2, n) := Mongo.updateOne (UserManager.byHash h)
                      (fun u => UserManager.set_lastUsed now
                                  (UserManager.set_isDefault true u))
                      (List.map clear c) in
    (n = 1%nat /\ c2 = mark e now c)
    \/ (n = 0%nat /\ c2 = List.map clear c
        /\ (forall u, In u (List.map clear c) -> UserManager.byHash h u = false)
        /\ mark e now c = (List.map clear c ++ [fresh e now])%list)).
  { induction c as [|u r IH]; simpl.
    - right. split; [reflexivity|]. split; [reflexivity|].
      split; [intros u []|reflexivity].
    - fold h. change (UserManager.byHash h (clear u)) with (UserManager.byHash h u).
      destruct (UserManager.byHash h u) eqn:Hu.
      + left. split; reflexivity.
      + destruct (Mongo.updateOne _ _ (List.map clear r)) as [c2 n].
        destruct IH as [[Hn Hc]|(Hn & Hc & Hno & Hm)].
        * left. subst. split; reflexivity.
        * right. subst. split; [reflexivity|]. split; [reflexivity|]. split.
          -- intros v [<-|Hv]; [exact Hu|now apply Hno].
          -- simpl. now rewrite Hm. }
  specialize (Hgen coll).
  destruct (Mongo.updateOne _ _ (List.map clear coll)) as [c2 n].
  destruct Hgen as [[-> ->]|(-> & -> & Hno & Hm)]; simpl; [reflexivity|].
  unfold UserManager.addUser. rewrite updateMany_defaults_cleared.
  unfold Mongo.replaceOne_upsert. fold h.
  rewrite replaceFirst_no_match by exact Hno.
  now rewrite Hm.
Qed.

Lemma byHash_clear h u : UserManager.byHash h (clear u) = UserManager.byHash h u.
Proof. reflexivity. Qed.

Lemma byHash_promote h now u :
  UserManager.byHash h (promote now u) = UserManager.byHash h u.
Proof. reflexivity. Qed.

Lemma mark_idempotent e now (coll : list User) :
  mark e now (mark e now coll) = mark e now coll.
Proof.
  induction coll as [|u r IH]; simpl.
  - unfold UserManager.byHash at 1. simpl. rewrite String.eqb_refl. reflexivity.
  - destruct (UserManager.byHash _ u) eqn:Hu; simpl.
    + rewrite byHash_promote, byHash_clear, Hu.
      rewrite List.map_map. reflexivity.
    + rewrite byHash_clear, Hu. now rewrite IH.
Qed.

(** A record without its [lastUsed] stamp. *)
Definition unstamped (u : User) : string * string * bool * Z :=
  (UserManager.userHash u, UserManager.email u, UserManager.isDefault u,
   UserManager.createdAt u).

Lemma mark_repeat_later e t1 t2 (coll : list User) :
  List.map unstamped (mark e t2 (mark e t1 coll))
  = List.map unstamped (mark e t1 coll).
Proof.
  induction coll as [|u r IH]; simpl.
  - unfold UserManager.byHash at 1. simpl. rewrite String.eqb_refl. reflexivity.
  - destruct (UserManager.byHash _ u) eqn:Hu; simpl.
    + rewrite byHash_promote, byHash_clear, Hu. simpl.
      rewrite !List.map_map. reflexivity.
    + rewrite byHash_clear, Hu. simpl. now rewrite IH.
Qed.

Lemma defaults_mark e now (coll : list User) :
  UserManager.defaults (mark e now coll) = 1%nat.
Proof.
  induction coll as [|u r IH]; simpl; [reflexivity|].
  destruct (UserManager.byHash _ u); simpl.
  - unfold UserManager.defaults, Mongo.countDocuments. simpl.
    f_equal. apply (defaults_cleared r).
  - exact IH.
Qed.

Lemma defaults_replaceFirst (f : User -> bool) (d : User) coll c' :
  UserManager.isDefault d = true ->
  UserManager.defaults coll = 0%nat ->
  Mongo.replaceFirst f d coll = Some c' ->
  UserManager.defaults c' = 1%nat.
Proof.
  unfold UserManager.defaults, Mongo.countDocuments.
  intros Hd. revert c'. induction coll as [|u r IH]; intros c'; simpl.
  - discriminate.
  - destruct (UserManager.isDefault u) eqn:Hu; simpl; [discriminate|].
    intros H0. destruct (f u).
    + intros [= <-]. simpl. rewrite Hd. simpl. now rewrite H0.
    + destruct (Mongo.replaceFirst f d r) as [r'|]; [|discriminate].
      intros [= <-]. simpl. rewrite Hu. now apply IH.
Qed.

Lemma defaults_after_clearing (coll : list User) :
  UserManager.defaults (Mongo.updateMany UserManager.isDefault clear coll) = 0%nat.
Proof.
  unfold UserManager.defaults, Mongo.countDocuments, Mongo.updateMany.
  induction coll as [|u r IH]; simpl; [reflexivity|].
  destruct (UserManager.isDefault u) eqn:Hu; simpl; [exact IH|].
  rewrite Hu. exact IH.
Qed.

Lemma defaults_addUser_default e now (coll : list User) :
  UserManager.defaults (UserManager.addUser sha256 e true now coll) = 1%nat.
Proof.
  unfold UserManager.addUser, Mongo.replaceOne_upsert.
  set (c1 := Mongo.updateMany UserManager.isDefault clear coll).
  pose proof (defaults_after_clearing coll) as H0. fold c1 in H0.
  destruct (Mongo.replaceFirst _ _ c1) as [c'|] eqn:E.
  - eapply defaults_replaceFirst; [|exact H0|exact E]. reflexivity.
  - unfold UserManager.defaults, Mongo.countDocuments in *.
    rewrite List.filter_app, List.length_app, H0. reflexivity.
Qed.

(** [addUser] without the flag never raises the number of defaults. *)
Lemma defaults_addUser_plain e now (coll : list User) :
  (UserManager.defaults (UserManager.addUser sha256 e false now coll)
   <= UserManager.defaults coll)%nat.
Proof.
  unfold UserManager.addUser, Mongo.replaceOne_upsert.
  destruct (Mongo.replaceFirst _ _ coll) as [c'|] eqn:E.
  - unfold UserManager.defaults, Mongo.countDocuments.
    revert c' E. induction coll as [|u r IH]; intros c'; simpl; [discriminate|].
    destruct (UserManager.byHash _ u).
    + intros [= <-]. simpl. destruct (UserManager.isDefault u); simpl; lia.
    + destruct (Mongo.replaceFirst _ _ r) as [r'|]; [|discriminate].
      intros [= <-]. simpl. specialize (IH r' eq_refl).
      destruct (UserManager.isDefault u); simpl; lia.
  - unfold UserManager.defaults, Mongo.countDocuments.
    rewrite List.filter_app, List.length_app. simpl. lia.
Qed.

End DefaultUser.

(** C10.  [setDefaultUser] is idempotent: repeating the call at the same
    clock reading leaves the collection as the first call left it, and
    repeating it later changes nothing but the [lastUsed] stamp.  After
    any call of [setDefaultUser], and after any call of [addUser] with the
    default flag, exactly one record has [isDefault = true]; the collection
    is then never empty, so this is both "at most one" and "exactly one
    when a record exists". *)
Theorem C10_single_default :
  forall (sha256 : string -> string) (e : string) (now : Z)
         (coll : list UserManager.UserConfig),
    UserManager.setDefaultUser sha256 e now
      (UserManager.setDefaultUser sha256 e now coll)
    = UserManager.setDefaultUser sha256 e now coll
    /\ (forall later,
          List.map unstamped
            (UserManager.setDefaultUser sha256 e later
               (UserManager.setDefaultUser sha256 e now coll))
          = List.map unstamped (UserManager.setDefaultUser sha256 e now coll))
    /\ UserManager.defaults (UserManager.setDefaultUser sha256 e now coll) = 1%nat
    /\ UserManager.defaults (UserManager.addUser sha256 e true now coll) = 1%nat
    /\ UserManager.setDefaultUser sha256 e now coll <> []
    /\ UserManager.addUser sha256 e true now coll <> [].
Proof.
  intros sha256 e now coll.
  rewrite !setDefaultUser_is_mark. split; [apply mark_idempotent|].
  split; [intros later; rewrite !setDefaultUser_is_mark; apply mark_repeat_later|].
  split; [apply defaults_mark|]. split; [apply defaults_addUser_default|].
  split.
  - intros H. pose proof (defaults_mark sha256 e now coll) as D.
    rewrite H in D. discriminate.
  - intros H. pose proof (defaults_addUser_default sha256 e now coll) as D.
    rewrite H in D. discriminate.
Qed.

(* ------------------------------------------------------------------ *)
(** ** Key derivation and letter case *)
(* ------------------------------------------------------------------ *)

Section KeyDerivation.

Variable sha256 : string -> string.
Variable aes_encrypt : string -> string -> string -> string.
Variable aes_decrypt : string -> string -> string -> option string.
Variable JSON_parse_credentials : string -> option Credentials.
Variable ENCRYPTION_MASTER_KEY : option string.

Local Abbreviation Doc := MongoCredentialStore.EncryptedCredentialDocument.
Local Abbreviation newStore := (MongoCredentialStore.new sha256 ENCRYPTION_MASTER_KEY).

(** The handle ignores letter case. *)
Lemma hashEmail_lowercase e :
  MongoCredentialStore.hashEmail sha256 (JsString.toLowerCase e)
  = MongoCredentialStore.hashEmail sha256 e.
Proof.
  unfold MongoCredentialStore.hashEmail. now rewrite JsString.toLowerCase_idem.
Qed.

(** What [loadCredentials] of one instance makes of a document another
    instance with the same handle has just written. *)
Lemma load_after_save (s1 s2 : MongoCredentialStore.t) c rnd now (coll : list Doc) :
  MongoCredentialStore.store_userHash s1 = MongoCredentialStore.store_userHash s2 ->
  MongoCredentialStore.loadCredentials aes_decrypt JSON_parse_credentials s2
    (MongoCredentialStore.saveCredentials aes_encrypt s1 c rnd now coll)
  = match aes_decrypt (MongoCredentialStore.encryptionKey s2) rnd
            (aes_encrypt (MongoCredentialStore.encryptionKey s1) rnd
               (MongoCredentialStore.credentialsJson c)) with
    | Some text => JSON_parse_credentials text
    | None => None
    end.
Proof.
  intros Hh. unfold MongoCredentialStore.loadCredentials,
    MongoCredentialStore.saveCredentials.
  assert (Hf : forall d, MongoCredentialStore.byUser s2 d = MongoCredentialStore.byUser s1 d).
  { intros d. unfold MongoCredentialStore.byUser. now rewrite Hh. }
  rewrite (Mongo.findOne_ext _ (MongoCredentialStore.byUser s2)
             (MongoCredentialStore.byUser s1) _ Hf).
  rewrite Mongo.findOne_replaceOne_upsert.
  - unfold MongoCredentialStore.decryptDocument. simpl. now rewrite unhex_hex.
  - auto.
  - unfold MongoCredentialStore.byUser. simpl. apply String.eqb_refl.
Qed.

End KeyDerivation.

(** C5 (the code departs from the claim).  The key is the hash of the
    master key followed by the identity as given, not lower-cased, while
    the handle that selects the document is computed from the lower-cased
    identity.  Two spellings [e1], [e2] of one identity therefore share the
    document but not the key: when the cipher rejects the other key, the
    session saved under [e1] does not load under [e2]. *)
Theorem C5_other_casing_fails_to_decrypt :
  forall (sha256 : string -> string)
         (enc : string -> string -> string -> string)
         (dec : string -> string -> string -> option string)
         (parse : string -> option Credentials)
         (mk : option string) (e1 e2 : string) c rnd now
         (coll : list MongoCredentialStore.EncryptedCredentialDocument),
    let s1 := MongoCredentialStore.new sha256 mk e1 in
    let s2 := MongoCredentialStore.new sha256 mk e2 in
    JsString.toLowerCase e1 = JsString.toLowerCase e2 ->
    dec (MongoCredentialStore.encryptionKey s2) rnd
        (enc (MongoCredentialStore.encryptionKey s1) rnd
           (MongoCredentialStore.credentialsJson c)) = None ->
    MongoCredentialStore.store_userHash s1 = MongoCredentialStore.store_userHash s2
    /\ MongoCredentialStore.encryptionKey s1
       = sha256 (MongoCredentialStore.masterKey mk ++ e1)
    /\ MongoCredentialStore.encryptionKey s2
       = sha256 (MongoCredentialStore.masterKey mk ++ e2)
    /\ MongoCredentialStore.loadCredentials dec parse s2
         (MongoCredentialStore.saveCredentials enc s1 c rnd now coll) = None.
Proof.
  intros sha256 enc dec parse mk e1 e2 c rnd now coll s1 s2 Hlow Hdec.
  assert (Hh : MongoCredentialStore.store_userHash s1
               = MongoCredentialStore.store_userHash s2).
  { unfold s1, s2, MongoCredentialStore.new. simpl.
    unfold MongoCredentialStore.hashEmail. now rewrite Hlow. }
  split; [exact Hh|]. split; [reflexivity|]. split; [reflexivity|].
  rewrite (load_after_save enc dec parse s1 s2 c rnd now coll Hh).
  now rewrite Hdec.
Qed.

(** C5 on two spellings of one address, with a cipher that checks its key. *)
Lemma C5_other_casing_fails_to_decrypt_witness :
  let saved :=
    MongoCredentialStore.saveCredentials Toy.aes_encrypt
      (MongoCredentialStore.new Toy.sha256 None "Parent@Example.com")
      {| username := "Parent@Example.com"; password := Toy.sessionBlob "sid=1" |}
      "0123456789abcdef" 0 [] in
  MongoCredentialStore.loadCredentials Toy.aes_decrypt Toy.JSON_parse_credentials
    (MongoCredentialStore.new Toy.sha256 None "parent@example.com") saved = None
  /\ MongoCredentialStore.loadCredentials Toy.aes_decrypt Toy.JSON_parse_credentials
       (MongoCredentialStore.new Toy.sha256 None "Parent@Example.com") saved
     = Some {| username := "Parent@Example.com"; password := Toy.sessionBlob "sid=1" |}.
Proof.
  split.
  - apply (C5_other_casing_fails_to_decrypt Toy.sha256 Toy.aes_encrypt Toy.aes_decrypt
             Toy.JSON_parse_credentials None "Parent@Example.com" "parent@example.com").
    + reflexivity.
    + vm_compute. reflexivity.
  - vm_compute. reflexivity.
Defined.

(* ------------------------------------------------------------------ *)
(** ** Classification of the portal's answer to a login submission *)
(* ------------------------------------------------------------------ *)

(** An HTTP redirect: a 3xx status with a target. *)
Definition is_redirect (r : Http.Response) : bool :=
  (300 <=? Http.status r)%nat && (Http.status r <? 400)%nat
  && truthy_opt (Http.location r).

Definition target_avoids_login (r : Http.Response) : bool :=
  match Http.location r with
  | Some l => negb (JsString.includes "login" l)
  | None => false
  end.

(** No failure marker the code recognises occurs in the body. *)
Definition lacks_failure_markers (r : Http.Response) : bool :=
  negb (JsString.includes "Invalid" (Http.text r))
  && negb (JsString.includes "incorrect" (Http.text r))
  && negb (JsString.includes "error" (Http.text r)).

(** Success as the specification words it: a redirect away from any
    address containing "login", or a 200 response whose body lacks the
    failure markers. *)
Definition spec_login_success (r : Http.Response) : bool :=
  (is_redirect r && target_avoids_login r)
  || ((Http.status r =? 200)%nat && lacks_failure_markers r).

(** An ambiguous response as the specification words it: no redirect and
    no clear failure marker. *)
Definition spec_ambiguous (r : Http.Response) : bool :=
  negb (is_redirect r) && lacks_failure_markers r.

(** A 200 page without redirect, failure marker or portal content. *)
Definition blankPage : Http.Response :=
  Toy.page "https://portals.veracross.com/csg/login" "Welcome".

(** C3, as stated, fails on [blankPage].  The specification's success
    rule accepts it (a 200 body without failure markers) and its ambiguity
    rule rejects it (no redirect, no failure marker).  The browser flow's
    handler rejects it, against the first rule; the password revision's
    [login] accepts it, against the second. *)
Lemma C3_counterexample :
  spec_login_success blankPage = true
  /\ spec_ambiguous blankPage = true
  /\ BrowserAuthServer.loginSuccessful blankPage = false
  /\ VeracrossAuthLegacy.loginAccepted blankPage = true.
Proof. vm_compute. repeat split. Qed.

Lemma andb4_true a b c d :
  a && b && c && d = true <-> a = true /\ b = true /\ c = true /\ d = true.
Proof. destruct a, b, c, d; simpl; intuition discriminate. Qed.

(** C3, amended.  [handleLoginSubmission] classifies the attempt as
    successful exactly when the portal answers 302 with a non-empty
    [Location] that does not contain "login", or answers 200 with a body
    that contains none of "Invalid", "incorrect", "error" and does contain
    "parent".  Every other response is a failure; in particular a response
    that is not a 302 with a target and shows no "parent" marker is never a
    success. *)
Theorem C3_login_classification :
  forall r : Http.Response,
    (BrowserAuthServer.loginSuccessful r = true <->
       (Http.status r = 302%nat
        /\ exists l, Http.location r = Some l
                     /\ l <> EmptyString
                     /\ JsString.includes "login" l = false)
       \/ (Http.status r = 200%nat
           /\ JsString.includes "Invalid" (Http.text r) = false
           /\ JsString.includes "incorrect" (Http.text r) = false
           /\ JsString.includes "error" (Http.text r) = false
           /\ JsString.includes "parent" (Http.text r) = true))
    /\ (truthy_opt (Http.location r) = false ->
        JsString.includes "parent" (Http.text r) = false ->
        BrowserAuthServer.loginSuccessful r = false).
Proof.
  intros r. unfold BrowserAuthServer.loginSuccessful.
  destruct (Nat.eqb_spec (Http.status r) 302) as [E302|N302].
  - split.
    + split.
      * intros H. left. split; [exact E302|].
        destruct (Http.location r) as [l|]; [|discriminate].
        exists l. apply andb_true_iff in H. destruct H as [Ht Hl].
        split; [reflexivity|]. split.
        -- intros ->. discriminate.
        -- now apply negb_true_iff.
      * intros [[_ (l & -> & Hne & Hl)]|[E200 _]].
        -- rewrite Hl. destruct l; [congruence|reflexivity].
        -- rewrite E302 in E200. discriminate.
    + intros Hloc _. destruct (Http.location r) as [l|]; [|reflexivity].
      simpl in Hloc. now rewrite Hloc.
  - destruct (Nat.eqb_spec (Http.status r) 200) as [E200|N200].
    + split.
      * rewrite andb4_true, !negb_true_iff. split.
        -- intros H. right. tauto.
        -- intros [[E _]|[_ H]]; [congruence|tauto].
      * intros _ Hp. rewrite Hp. apply andb_false_r.
    + split; [|reflexivity]. split; [discriminate|].
      intros [[E _]|[E _]]; congruence.
Qed.

(** C3, amended, on the blank page. *)
Lemma C3_login_classification_witness :
  BrowserAuthServer.loginSuccessful blankPage = false.
Proof.
  apply (proj2 (C3_login_classification blankPage)); reflexivity.
Defined.

(** The password revision's [login] takes every response whose body shows
    neither "Invalid" nor "error" for a success, whatever its status. *)
Lemma legacy_login_defaults_to_success (r : Http.Response) :
  JsString.includes "Invalid" (Http.text r) = false ->
  JsString.includes "error" (Http.text r) = false ->
  VeracrossAuthLegacy.loginAccepted r = true.
Proof.
  intros H1 H2. unfold VeracrossAuthLegacy.loginAccepted.
  rewrite H1, H2.
  destruct ((Http.status r =? 302)%nat || (Http.status r =? 200)%nat);
    [destruct (Http.location r) as [l|]|]; simpl;
    try reflexivity.
  destruct (JsString.truthy l && negb (JsString.includes "login" l)); reflexivity.
Qed.

(* ------------------------------------------------------------------ *)
(** ** The listener of the interactive login flow *)
(* ------------------------------------------------------------------ *)

Section Listener.

Variable P : Platform.t.

Local Abbreviation state := (BrowserAuthServer.state).

Lemma close_closes (s : state) :
  BrowserAuthServer.server (BrowserAuthServer.close s) = None.
Proof.
  unfold BrowserAuthServer.close.
  destruct (BrowserAuthServer.server s) eqn:E; [reflexivity|exact E].
Qed.

(** While the promise is pending the race ends only by a resolution or by
    the timer; what it returns is what the promise was resolved with. *)
Lemma awaitAuth_result evs (s : state) :
  let '(r, s') := BrowserAuthServer.awaitAuth P evs s in
  match BrowserAuthServer.settled s' with
  | Some v => r = v
  | None => r = false
  end.
Proof.
  revert s. induction evs as [|e evs IH]; intros s; simpl.
  - destruct (BrowserAuthServer.settled s) eqn:E; simpl; now rewrite E.
  - destruct (BrowserAuthServer.settled s) eqn:E; simpl.
    + now rewrite E.
    + apply IH.
Qed.

(** A callback without cookies is answered with a page and changes
    nothing: the listener stays up and the flow keeps waiting. *)
Lemma rejected_callback_keeps_listening ua referer ok (s : state) :
  snd (BrowserAuthServer.callbackRoute P None ua referer ok s) = s.
Proof. reflexivity. Qed.

(** So does a callback whose cookies carry no session marker. *)
Lemma unmarked_callback_keeps_listening c ua referer ok (s : state) :
  BrowserAuthServer.isValidVeracrossSession c = false ->
  snd (BrowserAuthServer.callbackRoute P (Some c) ua referer ok s) = s.
Proof.
  intros H. unfold BrowserAuthServer.callbackRoute, BrowserAuthServer.handleCallback,
    try_catch.
  destruct (JsString.truthy c); [rewrite H|]; reflexivity.
Qed.

End Listener.

(** C7.  Every invocation of [startAuthFlow] returns, and when it returns
    the listener is closed ([this.server] is [null]), whichever way the
    invocation ended: session captured, callback failed with a thrown
    error, the ten-minute timer fired (also after rejected attempts, which
    leave the listener up until then), or the start itself threw.  The
    result is [true] exactly when a session was captured. *)
Theorem C7_listener_torn_down :
  forall (P : Platform.t) (sc : BrowserAuthServer.script)
         (s : BrowserAuthServer.state),
    BrowserAuthServer.server (snd (BrowserAuthServer.startAuthFlow P sc s)) = None
    /\ (fst (BrowserAuthServer.startAuthFlow P sc s) = true
        <-> BrowserAuthServer.outcomeOf P sc s = BrowserAuthServer.SessionCaptured).
Proof.
  intros P sc s. unfold BrowserAuthServer.startAuthFlow, BrowserAuthServer.outcomeOf.
  destruct (BrowserAuthServer.getPort sc) as [port|].
  - destruct (BrowserAuthServer.openOk sc).
    + pose proof (awaitAuth_result P (BrowserAuthServer.events sc)
                    (BrowserAuthServer.newPromise
                       (BrowserAuthServer.set_server (Some port) s))) as H.
      destruct (BrowserAuthServer.awaitAuth P _ _) as [r s2]. cbn [fst snd].
      split; [apply close_closes|].
      destruct (BrowserAuthServer.settled s2) as [[|]|]; subst r;
        split; intros; congruence.
    + cbn [fst snd]. split; [apply close_closes|]. split; intros; discriminate.
  - cbn [fst snd]. split; [apply close_closes|]. split; intros; discriminate.
Qed.

(* ------------------------------------------------------------------ *)
(** ** Requests to another host *)
(* ------------------------------------------------------------------ *)

Section CrossDomain.

Variable P : Platform.t.
Variable baseUrl : string.

Local Abbreviation state := (VeracrossAuth.state P).

(** The stored session cookies available to the object's credential
    store: the raw cookie string of the stored session, with the session,
    when there is one. *)
Definition storedSessionCookies (s : state) : option (string * SessionData) :=
  match VeracrossAuth.loadCredentials P s with
  | Some credentials =>
      if JsString.truthy (password credentials) then
        match Platform.JSON_parse_session P (password credentials) with
        | Some sessionData =>
            match cookies sessionData with
            | Some c => if JsString.truthy c then Some (c, sessionData) else None
            | None => None
            end
        | None => None
        end
      else None
  | None => None
  end.

(** The errors of the cross-domain branch. *)
Definition crossDomainErrors : list string :=
  ["No stored credentials found for cross-domain request";
   "Invalid session data for cross-domain request";
   "No session cookies found for cross-domain request"].

Lemma crossDomainRequest_cookie url options c sd :
  Http.has_key "Cookie" (Http.o_headers options) = false ->
  Http.header "Cookie"
    (Http.o_headers (Http.init (VeracrossAuth.crossDomainRequest url options c sd)))
  = Some c.
Proof.
  intros H. unfold VeracrossAuth.crossDomainRequest. simpl.
  rewrite Http.header_spread by exact H. reflexivity.
Qed.

End CrossDomain.

(** The error of reading [sessionData.cookies] on [null]. *)
Definition nullSessionError : string :=
  "TypeError: Cannot read properties of null (reading 'cookies')".

Lemma parses_to_null_truthy text :
  Json.parses_to_null text = true -> JsString.truthy text = true.
Proof. destruct text; [discriminate|reflexivity]. Qed.

(** Let the object have a current user and let the target's host differ
    from the host of [baseUrl].  If the stored session of the current
    user carries cookies, [makeAuthenticatedRequest] sends exactly one
    request, to the target, built without consulting the cookie jar: its
    [Cookie] header is the stored raw cookie string (the caller's options
    not setting that header themselves), the jar is left as it was, and
    the result is that of [fetch].  If no stored session cookies are
    available, it sends nothing and throws: one of three errors naming the
    cross-domain request, except that a stored text that parses to [null]
    gives the [TypeError] of reading a property of [null]. *)
Lemma cross_domain_request_outcomes :
  forall (P : Platform.t) (baseUrl url : string) (options : Http.Options)
         (s : VeracrossAuth.state P) (current urlHost baseUrlHost : string),
    VeracrossAuth.currentUserEmail P s = Some current ->
    JsString.truthy current = true ->
    Platform.hostname P url = Some urlHost ->
    Platform.hostname P baseUrl = Some baseUrlHost ->
    urlHost <> baseUrlHost ->
    let s1 := VeracrossAuth.ensureCredentialStore P current s in
    let out := VeracrossAuth.makeAuthenticatedRequest P baseUrl url options s in
    match storedSessionCookies P s1 with
    | Some (c, sessionData) =>
        let req := VeracrossAuth.crossDomainRequest url options c sessionData in
        VeracrossAuth.sent P (snd out) = (VeracrossAuth.sent P s ++ [req])%list
        /\ Http.url req = url
        /\ (Http.has_key "Cookie" (Http.o_headers options) = false ->
            Http.header "Cookie" (Http.o_headers (Http.init req)) = Some c)
        /\ VeracrossAuth.cookieJar P (snd out) = VeracrossAuth.cookieJar P s
        /\ fst out = match Platform.fetch P (VeracrossAuth.sent P s) req with
                     | Some response => Ok response
                     | None => Throw "FetchError"
                     end
    | None =>
        VeracrossAuth.sent P (snd out) = VeracrossAuth.sent P s
        /\ exists msg,
             fst out = Throw msg
             /\ ((In msg crossDomainErrors
                  /\ JsString.includes "cross-domain request" msg = true)
                 \/ (msg = nullSessionError
                     /\ exists credentials,
                          VeracrossAuth.loadCredentials P s1 = Some credentials
                          /\ Json.parses_to_null (password credentials) = true))
    end.
Proof.
  intros P baseUrl url options s current urlHost baseUrlHost
         Hcur Htruthy Hurl Hbase Hne s1 out.
  assert (Hsent1 : VeracrossAuth.sent P s1 = VeracrossAuth.sent P s).
  { unfold s1, VeracrossAuth.ensureCredentialStore.
    destruct (_ || _); reflexivity. }
  assert (Hjar1 : VeracrossAuth.cookieJar P s1 = VeracrossAuth.cookieJar P s).
  { unfold s1, VeracrossAuth.ensureCredentialStore.
    destruct (_ || _); reflexivity. }
  unfold out, VeracrossAuth.makeAuthenticatedRequest.
  rewrite Hcur, Htruthy, Hurl, Hbase. cbn [negb].
  destruct (String.eqb_spec urlHost baseUrlHost) as [E|_]; [contradiction|].
  cbn [negb]. fold s1. unfold storedSessionCookies.
  destruct (VeracrossAuth.loadCredentials P s1) as [credentials|] eqn:Hload.
  2:{ cbn. split; [exact Hsent1|]. eexists. split; [reflexivity|].
      left. split; [left; reflexivity|reflexivity]. }
  destruct (JsString.truthy (password credentials)).
  2:{ cbn. split; [exact Hsent1|]. eexists. split; [reflexivity|].
      left. split; [left; reflexivity|reflexivity]. }
  cbn [negb].
  destruct (Platform.JSON_parse_session P (password credentials)) as [sessionData|].
  2:{ destruct (Json.parses_to_null (password credentials)) eqn:Hnull.
      - cbn. split; [exact Hsent1|]. eexists. split; [reflexivity|].
        right. split; [reflexivity|]. exists credentials. auto.
      - cbn. split; [exact Hsent1|]. eexists. split; [reflexivity|].
        left. split; [right; left; reflexivity|reflexivity]. }
  destruct (cookies sessionData) as [c|].
  2:{ cbn. split; [exact Hsent1|]. eexists. split; [reflexivity|].
      left. split; [right; right; left; reflexivity|reflexivity]. }
  destruct (JsString.truthy c).
  2:{ cbn. split; [exact Hsent1|]. eexists. split; [reflexivity|].
      left. split; [right; right; left; reflexivity|reflexivity]. }
  cbn zeta.
  split; [|split; [reflexivity|split; [apply crossDomainRequest_cookie|]]].
  - destruct (Platform.fetch P _ _); cbn; now rewrite Hsent1.
  - rewrite Hsent1. destruct (Platform.fetch P _ _); cbn; (split; [exact Hjar1|reflexivity]).
Qed.

(** C6.  The cross-domain branch of [makeAuthenticatedRequest] labels the
    ways of lacking stored session cookies, but reads [sessionData.cookies]
    after the [try] that guards [JSON.parse].  When the stored text of the
    current user parses to [null], no stored session cookies are available
    and the call sends nothing, yet what it throws is the [TypeError] of
    the property read: none of the labelled errors, and no mention of the
    cross-domain request. *)
Theorem C6_null_session_error_is_unlabelled :
  forall (P : Platform.t) (baseUrl url : string) (options : Http.Options)
         (s : VeracrossAuth.state P) (current urlHost baseUrlHost : string)
         (credentials : Credentials),
    VeracrossAuth.currentUserEmail P s = Some current ->
    JsString.truthy current = true ->
    Platform.hostname P url = Some urlHost ->
    Platform.hostname P baseUrl = Some baseUrlHost ->
    urlHost <> baseUrlHost ->
    let s1 := VeracrossAuth.ensureCredentialStore P current s in
    VeracrossAuth.loadCredentials P s1 = Some credentials ->
    Json.parses_to_null (password credentials) = true ->
    Platform.JSON_parse_session P (password credentials) = None ->
    let out := VeracrossAuth.makeAuthenticatedRequest P baseUrl url options s in
    storedSessionCookies P s1 = None
    /\ fst out = Throw nullSessionError
    /\ ~ In nullSessionError crossDomainErrors
    /\ JsString.includes "cross-domain request" nullSessionError = false
    /\ VeracrossAuth.sent P (snd out) = VeracrossAuth.sent P s.
Proof.
  intros P baseUrl url options s current urlHost baseUrlHost credentials
         Hcur Htruthy Hurl Hbase Hne s1 Hload Hnull Hparse out.
  assert (Hsent1 : VeracrossAuth.sent P s1 = VeracrossAuth.sent P s).
  { unfold s1, VeracrossAuth.ensureCredentialStore.
    destruct (_ || _); reflexivity. }
  assert (Hout : out = (Throw nullSessionError, s1)).
  { unfold out, VeracrossAuth.makeAuthenticatedRequest.
    rewrite Hcur, Htruthy, Hurl, Hbase. cbn [negb].
    destruct (String.eqb_spec urlHost baseUrlHost) as [E|_]; [contradiction|].
    cbn [negb]. fold s1. rewrite Hload, (parses_to_null_truthy _ Hnull).
    cbn [negb]. rewrite Hparse, Hnull. reflexivity. }
  rewrite Hout. cbn [fst snd].
  split.
  - unfold storedSessionCookies.
    rewrite Hload, (parses_to_null_truthy _ Hnull), Hparse. reflexivity.
  - split; [reflexivity|]. split; [|split; [reflexivity|exact Hsent1]].
    unfold crossDomainErrors, nullSessionError.
    intros [H|[H|[H|[]]]]; discriminate.
Qed.

(** A portal that answers every request with a page, and a browser flow
    nobody completes. *)
Definition calmPlatform : Platform.t :=
  Toy.platform (fun _ req => Some (Toy.page (Http.url req) "ok"))
    (fun _ coll => (false, coll)).

Definition portalBase : string := "https://portals.veracross.com/csg".

(** An object whose current user is [b@x.com], over a collection. *)
Definition servingBob (coll : list MongoCredentialStore.EncryptedCredentialDocument)
  : VeracrossAuth.state calmPlatform :=
  {| VeracrossAuth.cookieJar := ([] : CookieJar.jar (Platform.jarOps calmPlatform));
     VeracrossAuth.isAuthenticated := true;
     VeracrossAuth.currentUserEmail := Some "b@x.com";
     VeracrossAuth.browserAuthServer := None;
     VeracrossAuth.credentialStore := Some (VeracrossAuth.newStore calmPlatform "b@x.com");
     VeracrossAuth.db := coll;
     VeracrossAuth.sent := [];
     VeracrossAuth.flows := [] |}.

(** A stored document of [email] whose password text is [text]. *)
Definition storedPassword (email text : string)
  : list MongoCredentialStore.EncryptedCredentialDocument :=
  MongoCredentialStore.saveCredentials Toy.aes_encrypt
    (MongoCredentialStore.new Toy.sha256 None email)
    {| username := email; password := text |}
    "0123456789abcdef" 1000 [].

(** A request to the accounts host with a stored session, with no stored
    document, and with a stored text that is not JSON. *)
Example cross_domain_request_samples :
  (let out :=
     VeracrossAuth.makeAuthenticatedRequest calmPlatform portalBase
       "https://accounts.veracross.com/csg/household" Http.no_options
       (servingBob (Toy.storedSession "b@x.com" "tok=bob; session=1" [])) in
   List.map (fun r => (Http.url r, Http.header "Cookie" (Http.o_headers (Http.init r))))
     (VeracrossAuth.sent calmPlatform (snd out))
   = [("https://accounts.veracross.com/csg/household", Some "tok=bob; session=1")])
  /\
  (let out :=
     VeracrossAuth.makeAuthenticatedRequest calmPlatform portalBase
       "https://accounts.veracross.com/csg/household" Http.no_options (servingBob []) in
   VeracrossAuth.sent calmPlatform (snd out) = []
   /\ fst out = Throw "No stored credentials found for cross-domain request")
  /\
  (let out :=
     VeracrossAuth.makeAuthenticatedRequest calmPlatform portalBase
       "https://accounts.veracross.com/csg/household" Http.no_options
       (servingBob (storedPassword "b@x.com" "hunter2")) in
   fst out = Throw "Invalid session data for cross-domain request").
Proof. vm_compute. repeat split; reflexivity. Qed.

(** C6 on the current user [b@x.com] whose stored password text is
    [null], and a request to the accounts host. *)
Lemma C6_null_session_error_is_unlabelled_witness :
  let out :=
    VeracrossAuth.makeAuthenticatedRequest calmPlatform portalBase
      "https://accounts.veracross.com/csg/household" Http.no_options
      (servingBob (storedPassword "b@x.com" "null")) in
  fst out = Throw "TypeError: Cannot read properties of null (reading 'cookies')"
  /\ VeracrossAuth.sent calmPlatform (snd out) = [].
Proof.
  intros out.
  assert (Hne : "accounts.veracross.com" <> "portals.veracross.com") by discriminate.
  destruct (C6_null_session_error_is_unlabelled calmPlatform portalBase
              "https://accounts.veracross.com/csg/household" Http.no_options
              (servingBob (storedPassword "b@x.com" "null"))
              "b@x.com" "accounts.veracross.com" "portals.veracross.com"
              {| username := "b@x.com"; password := "null" |}
              eq_refl eq_refl eq_refl eq_refl Hne eq_refl eq_refl eq_refl)
    as (_ & Hthrow & _ & _ & Hsent).
  split; [exact Hthrow|exact Hsent].
Defined.

(** The same two stored texts under [ensureAuthenticated]: [null] is
    valid JSON, so it counts as session data and leads to the login flow;
    a text that is not JSON is taken for a password and tried. *)
Example null_is_session_data_not_a_password :
  (let out :=
     VeracrossAuth.ensureAuthenticated calmPlatform portalBase "b@x.com"
       (VeracrossAuth.new calmPlatform (storedPassword "b@x.com" "null")) in
   VeracrossAuth.sent calmPlatform (snd out) = []
   /\ VeracrossAuth.flows calmPlatform (snd out) = ["b@x.com"])
  /\
  (let out :=
     VeracrossAuth.ensureAuthenticated calmPlatform portalBase "b@x.com"
       (VeracrossAuth.new calmPlatform (storedPassword "b@x.com" "hunter2")) in
   List.map Http.url (VeracrossAuth.sent calmPlatform (snd out))
   = ["https://portals.veracross.com/csg/login/password?username=b@x.com";
      "https://portals.veracross.com/csg/login/password"]
   /\ VeracrossAuth.flows calmPlatform (snd out) = []).
Proof. vm_compute. repeat split; reflexivity. Qed.

Example parses_to_null_samples :
  Json.parses_to_null "null" = true
  /\ Json.parses_to_null " null " = true
  /\ Json.parses_to_null "nulll" = false
  /\ Json.parses_to_null "Null" = false
  /\ Json.parses_to_null EmptyString = false.
Proof. repeat split; reflexivity. Qed.

(* ------------------------------------------------------------------ *)
(** ** The probe of a stored session *)
(* ------------------------------------------------------------------ *)

Section Probe.

Variable P : Platform.t.
Variable baseUrl : string.

Local Abbreviation state := (VeracrossAuth.state P).
Local Abbreviation probeRequest j :=
  (VeracrossAuth.request_of P j (baseUrl ++ "/parent") Http.no_options).

(** The probe passes: the portal answers the probe request, the answer's
    cookies are stored, and the answer is accepted. *)
Definition probe_passes (s : state) : bool :=
  match Platform.fetch P (VeracrossAuth.sent P s) (probeRequest (VeracrossAuth.cookieJar P s)) with
  | Some response =>
      match VeracrossAuth.setCookies P (fun _ => true) (Http.setCookie response)
              (baseUrl ++ "/parent") (VeracrossAuth.cookieJar P s) with
      | (Ok _, _) => VeracrossAuth.probe_accepts response
      | (Throw _, _) => false
      end
  | None => false
  end.

Lemma makeRequest_keeps_flags url options (s : state) :
  let s' := snd (VeracrossAuth.makeRequest P url options s) in
  VeracrossAuth.isAuthenticated P s' = VeracrossAuth.isAuthenticated P s
  /\ VeracrossAuth.currentUserEmail P s' = VeracrossAuth.currentUserEmail P s
  /\ VeracrossAuth.sent P s'
     = (VeracrossAuth.sent P s
        ++ [VeracrossAuth.request_of P (VeracrossAuth.cookieJar P s) url options])%list.
Proof.
  unfold VeracrossAuth.makeRequest.
  destruct (Platform.fetch P _ _) as [response|]; [|cbn; auto].
  cbn [VeracrossAuth.cookieJar VeracrossAuth.log_request].
  destruct (VeracrossAuth.setCookies P _ _ _ _) as [[[]|e] j]; cbn; auto.
Qed.

(** The probe sends one request, built from the jar as it stands, and
    touches neither the trusted flag nor the current user. *)
Lemma probe_effect (s : state) :
  let out := VeracrossAuth.probe P baseUrl s in
  fst out = Ok (probe_passes s)
  /\ VeracrossAuth.isAuthenticated P (snd out) = VeracrossAuth.isAuthenticated P s
  /\ VeracrossAuth.currentUserEmail P (snd out) = VeracrossAuth.currentUserEmail P s
  /\ VeracrossAuth.sent P (snd out)
     = (VeracrossAuth.sent P s ++ [probeRequest (VeracrossAuth.cookieJar P s)])%list.
Proof.
  pose proof (makeRequest_keeps_flags (baseUrl ++ "/parent") Http.no_options s) as H.
  unfold VeracrossAuth.probe, try_catch, bind, ret, probe_passes.
  unfold VeracrossAuth.makeRequest in *.
  destruct (Platform.fetch P _ _) as [response|]; [|exact (conj eq_refl H)].
  cbn [VeracrossAuth.cookieJar VeracrossAuth.log_request] in *.
  destruct (VeracrossAuth.setCookies P _ _ _ _) as [[[]|e] j];
    exact (conj eq_refl H).
Qed.

(** The browser-session revision, first call for a user whose stored
    session hydrates: it returns [true] exactly when the probe passes, and
    throws otherwise; the state it leaves is the one the probe leaves. *)
Lemma browser_ensureAuthenticated_by_probe userEmail (s : state) jar :
  VeracrossAuth.trusted_for P s userEmail = false ->
  VeracrossAuthBrowser.createCookieJar P
    (VeracrossAuthBrowser.ensureBrowserAuthServer P userEmail s) = Ok (Some jar) ->
  let hydrated :=
    VeracrossAuth.set_isAuthenticated P true
      (VeracrossAuth.set_cookieJar P jar
         (VeracrossAuthBrowser.ensureBrowserAuthServer P userEmail s)) in
  VeracrossAuthBrowser.ensureAuthenticated P baseUrl userEmail s
  = (if probe_passes hydrated then Ok true
     else Throw "Browser authentication required. Please use the authenticate_browser tool first.",
     snd (VeracrossAuth.probe P baseUrl hydrated)).
Proof.
  intros Hnot Hjar hydrated.
  unfold VeracrossAuthBrowser.ensureAuthenticated. rewrite Hnot.
  unfold bind at 1. unfold VeracrossAuthBrowser.loadStoredSession. rewrite Hjar.
  fold hydrated. unfold bind at 1.
  pose proof (probe_effect hydrated) as (Hr & _).
  destruct (VeracrossAuth.probe P baseUrl hydrated) as [r s']. cbn in Hr. subst r.
  destruct (probe_passes hydrated); reflexivity.
Qed.

(** After [ensureBrowserAuthServer] the current user is the one asked for. *)
Lemma ensureBrowserAuthServer_current userEmail (s : state) :
  VeracrossAuth.currentUserEmail P (VeracrossAuth.ensureBrowserAuthServer P userEmail s)
  = Some userEmail.
Proof.
  unfold VeracrossAuth.ensureBrowserAuthServer.
  destruct (VeracrossAuth.is_none _ || VeracrossAuth.other_user P s userEmail) eqn:E;
    [reflexivity|].
  apply orb_false_iff in E. destruct E as [_ E].
  unfold VeracrossAuth.other_user in E.
  destruct (VeracrossAuth.currentUserEmail P s) as [e|]; [|discriminate].
  apply negb_false_iff, String.eqb_eq in E. now subst.
Qed.

End Probe.

(** C2 (the code departs from the claim).  In the browser-session
    revision, let the stored session of [userEmail] hydrate and let its
    probe be rejected (the portal answers with a page the test does not
    accept, such as a 200 whose final address contains "login", or the
    request fails).  The call throws, as the claim requires, but the
    trusted flag set at hydration stays set: the next call for the same
    user returns [true] at once, without any request. *)
Theorem C2_rejected_session_stays_trusted :
  forall (P : Platform.t) (baseUrl userEmail : string)
         (s : VeracrossAuth.state P) jar,
    VeracrossAuth.trusted_for P s userEmail = false ->
    VeracrossAuthBrowser.createCookieJar P
      (VeracrossAuthBrowser.ensureBrowserAuthServer P userEmail s) = Ok (Some jar) ->
    probe_passes P baseUrl
      (VeracrossAuth.set_isAuthenticated P true
         (VeracrossAuth.set_cookieJar P jar
            (VeracrossAuthBrowser.ensureBrowserAuthServer P userEmail s))) = false ->
    let first := VeracrossAuthBrowser.ensureAuthenticated P baseUrl userEmail s in
    let second := VeracrossAuthBrowser.ensureAuthenticated P baseUrl userEmail (snd first) in
    fst first
    = Throw "Browser authentication required. Please use the authenticate_browser tool first."
    /\ VeracrossAuth.isAuthenticated P (snd first) = true
    /\ fst second = Ok true
    /\ VeracrossAuth.sent P (snd second) = VeracrossAuth.sent P (snd first).
Proof.
  intros P baseUrl userEmail s jar Hnot Hjar Hprobe first second.
  pose proof (browser_ensureAuthenticated_by_probe P baseUrl userEmail s jar Hnot Hjar)
    as Hfirst.
  cbv zeta in Hfirst. rewrite Hprobe in Hfirst. fold first in Hfirst.
  set (hydrated := VeracrossAuth.set_isAuthenticated P true _) in *.
  pose proof (probe_effect P baseUrl hydrated) as (_ & Hflag & Hcur & _).
  cbv zeta in Hflag, Hcur.
  assert (Hflag' : VeracrossAuth.isAuthenticated P (snd first) = true).
  { rewrite Hfirst. cbn [snd]. rewrite Hflag. reflexivity. }
  assert (Hcur' : VeracrossAuth.currentUserEmail P (snd first) = Some userEmail).
  { rewrite Hfirst. cbn [snd]. rewrite Hcur. unfold hydrated. cbn.
    apply ensureBrowserAuthServer_current. }
  split; [rewrite Hfirst; reflexivity|]. split; [exact Hflag'|].
  assert (Htrusted : VeracrossAuth.trusted_for P (snd first) userEmail = true).
  { unfold VeracrossAuth.trusted_for, VeracrossAuth.other_user.
    rewrite Hflag', Hcur', String.eqb_refl. reflexivity. }
  unfold second, VeracrossAuthBrowser.ensureAuthenticated. rewrite Htrusted.
  split; reflexivity.
Qed.

(** A portal that has invalidated every session: whatever is asked, the
    answer is a 200 page at the login address. *)
Definition loginWall : Platform.t :=
  Toy.platform
    (fun _ _ => Some (Toy.page "https://portals.veracross.com/csg/login" "Please log in"))
    (fun _ coll => (false, coll)).

(** C2 on a concrete stale session behind the login wall. *)
Lemma C2_rejected_session_stays_trusted_witness :
  let s0 := VeracrossAuth.new loginWall (Toy.storedSession "b@x.com" "session=stale" []) in
  let first := VeracrossAuthBrowser.ensureAuthenticated loginWall portalBase "b@x.com" s0 in
  let second :=
    VeracrossAuthBrowser.ensureAuthenticated loginWall portalBase "b@x.com" (snd first) in
  fst first
  = Throw "Browser authentication required. Please use the authenticate_browser tool first."
  /\ VeracrossAuth.isAuthenticated loginWall (snd first) = true
  /\ fst second = Ok true
  /\ List.length (VeracrossAuth.sent loginWall (snd second)) = 1%nat.
Proof.
  intros s0 first second.
  pose proof (C2_rejected_session_stays_trusted loginWall portalBase "b@x.com" s0
                [{| Toy.c_host := "portals.veracross.com"; Toy.c_name := "session";
                    Toy.c_value := "stale" |}]
                eq_refl eq_refl eq_refl) as (H1 & H2 & H3 & H4).
  fold first in H1, H2, H3, H4. fold second in H3, H4.
  split; [exact H1|]. split; [exact H2|]. split; [exact H3|].
  rewrite H4. vm_compute. reflexivity.
Defined.

(** The latest revision shows the same residue once its
    [BrowserAuthServer] exists: after a logout, a stored session the portal
    rejects and a login flow nobody completes, [ensureAuthenticated]
    returns [false] and the next call returns [true]. *)
Example latest_rejected_session_stays_trusted :
  let s0 : VeracrossAuth.state loginWall :=
    {| VeracrossAuth.cookieJar := ([] : CookieJar.jar (Platform.jarOps loginWall));
       VeracrossAuth.isAuthenticated := false;
       VeracrossAuth.currentUserEmail := Some "b@x.com";
       VeracrossAuth.browserAuthServer := Some "b@x.com";
       VeracrossAuth.credentialStore := Some (VeracrossAuth.newStore loginWall "b@x.com");
       VeracrossAuth.db := Toy.storedSession "b@x.com" "session=stale" [];
       VeracrossAuth.sent := [];
       VeracrossAuth.flows := [] |} in
  let first := VeracrossAuth.ensureAuthenticated loginWall portalBase "b@x.com" s0 in
  let second := VeracrossAuth.ensureAuthenticated loginWall portalBase "b@x.com" (snd first) in
  fst first = Ok false
  /\ VeracrossAuth.flows loginWall (snd first) = ["b@x.com"]
  /\ VeracrossAuth.isAuthenticated loginWall (snd first) = true
  /\ fst second = Ok true
  /\ VeracrossAuth.sent loginWall (snd second) = VeracrossAuth.sent loginWall (snd first).
Proof. vm_compute. repeat split. Qed.

(* ------------------------------------------------------------------ *)
(** ** Switching users on one [VeracrossAuth] object *)
(* ------------------------------------------------------------------ *)

Section UserSwitch.

Variable P : Platform.t.
Variable baseUrl : string.

Local Abbreviation state := (VeracrossAuth.state P).

(** A method only ever appends to the log of requests sent. *)
Definition appends {A} (m : M state A) : Prop :=
  forall s, exists rest,
    VeracrossAuth.sent P (snd (m s)) = (VeracrossAuth.sent P s ++ rest)%list.

Lemma appends_ret {A} (a : A) : appends (ret a).
Proof. intros s. exists []. cbn. now rewrite app_nil_r. Qed.

Lemma appends_throw {A} msg : appends (throw (A := A) msg).
Proof. intros s. exists []. cbn. now rewrite app_nil_r. Qed.

Lemma appends_bind {A B} (m : M state A) (k : A -> M state B) :
  appends m -> (forall a, appends (k a)) -> appends (bind m k).
Proof.
  intros Hm Hk s. unfold bind. destruct (Hm s) as [r1 H1].
  destruct (m s) as [[a|e] s1]; cbn in *.
  - destruct (Hk a s1) as [r2 H2]. exists (r1 ++ r2)%list.
    now rewrite H2, H1, app_assoc.
  - exists r1. exact H1.
Qed.

Lemma appends_try_catch {A} (m h : M state A) :
  appends m -> appends h -> appends (try_catch m h).
Proof.
  intros Hm Hh s. unfold try_catch. destruct (Hm s) as [r1 H1].
  destruct (m s) as [[a|e] s1]; cbn in *.
  - exists r1. exact H1.
  - destruct (Hh s1) as [r2 H2]. exists (r1 ++ r2)%list.
    now rewrite H2, H1, app_assoc.
Qed.

Lemma appends_modify (f : state -> state) :
  (forall s, VeracrossAuth.sent P (f s) = VeracrossAuth.sent P s) ->
  appends (modify f).
Proof. intros Hf s. exists []. cbn. now rewrite Hf, app_nil_r. Qed.

Lemma appends_gets {A} (f : state -> A) : appends (gets f).
Proof. intros s. exists []. cbn. now rewrite app_nil_r. Qed.

Lemma sent_ensureCredentialStore e (s : state) :
  VeracrossAuth.sent P (VeracrossAuth.ensureCredentialStore P e s) = VeracrossAuth.sent P s.
Proof. unfold VeracrossAuth.ensureCredentialStore. destruct (_ || _); reflexivity. Qed.

Lemma sent_ensureBrowserAuthServer e (s : state) :
  VeracrossAuth.sent P (VeracrossAuth.ensureBrowserAuthServer P e s) = VeracrossAuth.sent P s.
Proof. unfold VeracrossAuth.ensureBrowserAuthServer. destruct (_ || _); reflexivity. Qed.

Lemma appends_makeRequest url options : appends (VeracrossAuth.makeRequest P url options).
Proof.
  intros s. eexists. apply (makeRequest_keeps_flags P url options s).
Qed.

Lemma appends_probe : appends (VeracrossAuth.probe P baseUrl).
Proof.
  unfold VeracrossAuth.probe. apply appends_try_catch.
  - apply appends_bind; [apply appends_makeRequest|intros; apply appends_ret].
  - apply appends_ret.
Qed.

Lemma appends_loadStoredSession e : appends (VeracrossAuth.loadStoredSession P baseUrl e).
Proof.
  intros s. exists []. rewrite app_nil_r.
  unfold VeracrossAuth.loadStoredSession.
  repeat match goal with
         | |- context [match ?x with _ => _ end] => destruct x
         end; cbn; apply sent_ensureCredentialStore.
Qed.

Lemma appends_hasStoredSession e : appends (VeracrossAuth.hasStoredSession P e).
Proof.
  intros s. exists []. rewrite app_nil_r.
  unfold VeracrossAuth.hasStoredSession.
  repeat match goal with
         | |- context [match ?x with _ => _ end] => destruct x
         end; cbn; apply sent_ensureCredentialStore.
Qed.

Lemma appends_startAuthFlow : appends (VeracrossAuth.startAuthFlow P).
Proof.
  intros s. exists []. rewrite app_nil_r. unfold VeracrossAuth.startAuthFlow.
  destruct (VeracrossAuth.browserAuthServer P s); [|reflexivity].
  destruct (Platform.startAuthFlow P _ _). reflexivity.
Qed.

Lemma appends_saveCredentials c : appends (VeracrossAuth.saveCredentials P c).
Proof.
  intros s. exists []. rewrite app_nil_r. unfold VeracrossAuth.saveCredentials.
  destruct (VeracrossAuth.credentialStore P s); reflexivity.
Qed.

Lemma appends_authenticateWithBrowser e :
  appends (VeracrossAuth.authenticateWithBrowser P baseUrl e).
Proof.
  unfold VeracrossAuth.authenticateWithBrowser.
  apply appends_try_catch; [|apply appends_ret].
  apply appends_bind; [apply appends_hasStoredSession|]. intros hasSession.
  apply appends_bind.
  - destruct hasSession; [|apply appends_ret].
    apply appends_bind; [apply appends_loadStoredSession|intros; apply appends_probe].
  - intros [|].
    + apply appends_bind; [now apply appends_modify|intros; apply appends_ret].
    + apply appends_bind;
        [apply appends_modify; intros; apply sent_ensureBrowserAuthServer|].
      intros _. apply appends_bind; [apply appends_startAuthFlow|].
      intros [|]; [|apply appends_ret].
      apply appends_bind; [now apply appends_modify|intros; apply appends_ret].
Qed.

Lemma appends_attemptPasswordLogin e pw :
  appends (VeracrossAuth.attemptPasswordLogin P baseUrl e pw).
Proof.
  unfold VeracrossAuth.attemptPasswordLogin.
  apply appends_try_catch; [|apply appends_ret].
  apply appends_bind; [apply appends_makeRequest|]. intros r1.
  destruct (negb (Http.ok r1)); [apply appends_throw|].
  apply appends_bind; [apply appends_makeRequest|]. intros r2.
  destruct (_ && _); [|apply appends_ret].
  destruct (Http.location r2) as [l|]; [|apply appends_ret].
  destruct (JsString.truthy l); [|apply appends_ret].
  apply appends_bind; [apply appends_makeRequest|]. intros r3.
  destruct (Http.ok r3); [|apply appends_ret].
  apply appends_bind; [apply appends_gets|]. intros cs.
  apply appends_bind;
    [apply appends_modify; intros; apply sent_ensureCredentialStore|]. intros _.
  apply appends_bind; [apply appends_saveCredentials|]. intros _.
  apply appends_bind; [now apply appends_modify|intros; apply appends_ret].
Qed.

Lemma appends_reauthenticate e : appends (VeracrossAuth.reauthenticate P baseUrl e).
Proof.
  unfold VeracrossAuth.reauthenticate.
  apply appends_bind;
    [apply appends_modify; intros; apply sent_ensureCredentialStore|]. intros _.
  apply appends_bind; [apply appends_gets|]. intros [c|];
    [|apply appends_authenticateWithBrowser].
  destruct (JsString.truthy (password c)); [|apply appends_authenticateWithBrowser].
  destruct (Platform.JSON_parse_session P (password c));
    [apply appends_authenticateWithBrowser|].
  destruct (Json.parses_to_null (password c));
    [apply appends_authenticateWithBrowser|apply appends_attemptPasswordLogin].
Qed.

(** Hydration for another user: the stored cookies of [B] are added to
    the jar as it stands; nothing is removed from it. *)
Lemma loadStoredSession_merges B (s : state) credentials sessionData cookieString jar' :
  let s1 := VeracrossAuth.ensureCredentialStore P B s in
  VeracrossAuth.loadCredentials P s1 = Some credentials ->
  JsString.truthy (password credentials) = true ->
  Platform.JSON_parse_session P (password credentials) = Some sessionData ->
  cookies sessionData = Some cookieString ->
  JsString.truthy cookieString = true ->
  VeracrossAuth.setCookies P JsString.truthy (CookieString.pieces cookieString) baseUrl
    (VeracrossAuth.cookieJar P s) = (Ok tt, jar') ->
  VeracrossAuth.loadStoredSession P baseUrl B s
  = (Ok true, VeracrossAuth.set_isAuthenticated P true (VeracrossAuth.set_cookieJar P jar' s1)).
Proof.
  intros s1 Hload Hpw Hparse Hc Hcs Hset.
  unfold VeracrossAuth.loadStoredSession. fold s1.
  rewrite Hload, Hpw, Hparse, Hc, Hcs.
  assert (Hjar : VeracrossAuth.cookieJar P s1 = VeracrossAuth.cookieJar P s).
  { unfold s1, VeracrossAuth.ensureCredentialStore. destruct (_ || _); reflexivity. }
  rewrite Hjar, Hset. reflexivity.
Qed.

End UserSwitch.

(** C4 (the code departs from the claim).  Let the object belong to [A]
    and let [ensureAuthenticated] be called for another user [B] who has a
    stored session.  The switch resets the trusted flag and the current
    user, but the cookie jar is not replaced: the stored cookies of [B] are
    set into the jar [A] left behind, and the first request made for [B],
    the probe, takes its [Cookie] header from that jar. *)
Theorem C4_switch_keeps_cookie_jar :
  forall (P : Platform.t) (baseUrl A B : string) (s : VeracrossAuth.state P)
         credentials sessionData cookieString jar',
    VeracrossAuth.currentUserEmail P s = Some A ->
    A <> B ->
    let s1 := VeracrossAuth.ensureCredentialStore P B s in
    VeracrossAuth.loadCredentials P s1 = Some credentials ->
    JsString.truthy (password credentials) = true ->
    Platform.JSON_parse_session P (password credentials) = Some sessionData ->
    cookies sessionData = Some cookieString ->
    JsString.truthy cookieString = true ->
    VeracrossAuth.setCookies P JsString.truthy (CookieString.pieces cookieString) baseUrl
      (VeracrossAuth.cookieJar P s) = (Ok tt, jar') ->
    let out := VeracrossAuth.ensureAuthenticated P baseUrl B s in
    VeracrossAuth.isAuthenticated P s1 = false
    /\ VeracrossAuth.currentUserEmail P s1 = Some B
    /\ VeracrossAuth.cookieJar P s1 = VeracrossAuth.cookieJar P s
    /\ exists rest,
         VeracrossAuth.sent P (snd out)
         = (VeracrossAuth.sent P s
            ++ VeracrossAuth.request_of P jar' (baseUrl ++ "/parent") Http.no_options
            :: rest)%list.
Proof.
  intros P baseUrl A B s credentials sessionData cookieString jar'
         Hcur Hne s1 Hload Hpw Hparse Hc Hcs Hset out.
  assert (Hother : VeracrossAuth.other_user P s B = true).
  { unfold VeracrossAuth.other_user. rewrite Hcur.
    apply negb_true_iff, String.eqb_neq. exact Hne. }
  assert (Hs1 : s1 = VeracrossAuth.ensureCredentialStore P B s) by reflexivity.
  unfold VeracrossAuth.ensureCredentialStore in Hs1.
  rewrite Hother, orb_true_r in Hs1.
  split; [rewrite Hs1; reflexivity|]. split; [rewrite Hs1; reflexivity|].
  split; [rewrite Hs1; reflexivity|].
  unfold out, VeracrossAuth.ensureAuthenticated.
  assert (Hnot : VeracrossAuth.trusted_for P s B = false).
  { unfold VeracrossAuth.trusted_for. rewrite Hother. apply andb_false_r. }
  rewrite Hnot. unfold bind at 1.
  rewrite (loadStoredSession_merges P baseUrl B s credentials sessionData cookieString jar'
             Hload Hpw Hparse Hc Hcs Hset).
  fold s1. set (s2 := VeracrossAuth.set_isAuthenticated P true _).
  unfold bind at 1.
  pose proof (probe_effect P baseUrl s2) as (Hr & _ & _ & Hsent).
  destruct (VeracrossAuth.probe P baseUrl s2) as [r s3].
  cbv zeta in Hr, Hsent. cbn [fst snd] in Hr, Hsent. subst r.
  assert (Hsent2 : VeracrossAuth.sent P s2 = VeracrossAuth.sent P s).
  { unfold s2. cbn. rewrite Hs1. reflexivity. }
  assert (Hjar2 : VeracrossAuth.cookieJar P s2 = jar') by reflexivity.
  rewrite Hsent2, Hjar2 in Hsent.
  destruct (probe_passes P baseUrl s2).
  - exists []. cbn. exact Hsent.
  - destruct (appends_reauthenticate P baseUrl B s3) as [rest Hrest].
    exists rest. rewrite Hrest, Hsent, <- app_assoc. reflexivity.
Qed.

(** The object as [a@x.com] left it: trusted, with her session cookie in
    the jar. *)
Definition servingAlice (coll : list MongoCredentialStore.EncryptedCredentialDocument)
  : VeracrossAuth.state calmPlatform :=
  {| VeracrossAuth.cookieJar :=
       ([{| Toy.c_host := "portals.veracross.com"; Toy.c_name := "sid";
            Toy.c_value := "alice" |}] : CookieJar.jar (Platform.jarOps calmPlatform));
     VeracrossAuth.isAuthenticated := true;
     VeracrossAuth.currentUserEmail := Some "a@x.com";
     VeracrossAuth.browserAuthServer := Some "a@x.com";
     VeracrossAuth.credentialStore := Some (VeracrossAuth.newStore calmPlatform "a@x.com");
     VeracrossAuth.db := coll;
     VeracrossAuth.sent := [];
     VeracrossAuth.flows := [] |}.

(** C4 on two concrete users: the probe for [b@x.com] carries the cookie
    of [a@x.com]. *)
Lemma C4_switch_keeps_cookie_jar_witness :
  let out :=
    VeracrossAuth.ensureAuthenticated calmPlatform portalBase "b@x.com"
      (servingAlice (Toy.storedSession "b@x.com" "tok=bob" [])) in
  fst out = Ok true
  /\ List.map (fun r => (Http.url r, Http.header "Cookie" (Http.o_headers (Http.init r))))
       (VeracrossAuth.sent calmPlatform (snd out))
     = [("https://portals.veracross.com/csg/parent", Some "sid=alice; tok=bob")].
Proof.
  intros out.
  pose proof (C4_switch_keeps_cookie_jar calmPlatform portalBase "a@x.com" "b@x.com"
                (servingAlice (Toy.storedSession "b@x.com" "tok=bob" []))
                {| username := "b@x.com"; password := Toy.sessionBlob "tok=bob" |}
                {| cookies := Some "tok=bob"; userAgent := Some "agent";
                   timestamp := None; expiresAt := None |}
                "tok=bob"
                [{| Toy.c_host := "portals.veracross.com"; Toy.c_name := "sid";
                    Toy.c_value := "alice" |};
                 {| Toy.c_host := "portals.veracross.com"; Toy.c_name := "tok";
                    Toy.c_value := "bob" |}]
                eq_refl) as H.
  assert (Hne : "a@x.com" <> "b@x.com") by discriminate.
  specialize (H Hne eq_refl eq_refl eq_refl eq_refl eq_refl eq_refl).
  destruct H as (_ & _ & _ & rest & Hsent). fold out in Hsent.
  split; [vm_compute; reflexivity|].
  rewrite Hsent. vm_compute in Hsent.
  injection Hsent as <-. vm_compute. reflexivity.
Defined.

(* ------------------------------------------------------------------ *)
(** ** The cache signature *)
(* ------------------------------------------------------------------ *)

(** *** Sorting the property names *)

Lemma ascii_compare_trans_le a b c :
  Ascii.compare a b <> Gt -> Ascii.compare b c <> Gt -> Ascii.compare a c <> Gt.
Proof.
  unfold Ascii.compare. rewrite !N.compare_le_iff. intros. etransitivity; eauto.
Qed.

Lemma ascii_compare_eq_l a b c :
  Ascii.compare a b = Eq -> Ascii.compare a c = Ascii.compare b c.
Proof. intros H. apply Ascii.compare_eq_iff in H. now subst. Qed.

Lemma ascii_compare_lt_trans a b c :
  Ascii.compare a b = Lt -> Ascii.compare b c = Lt -> Ascii.compare a c = Lt.
Proof.
  unfold Ascii.compare. rewrite !N.compare_lt_iff. intros. etransitivity; eauto.
Qed.

Lemma string_compare_refl s : String.compare s s = Eq.
Proof.
  induction s as [|c r IH]; simpl; [reflexivity|].
  unfold Ascii.compare. now rewrite N.compare_refl.
Qed.

Lemma string_leb_trans s1 s2 s3 :
  String.leb s1 s2 = true -> String.leb s2 s3 = true -> String.leb s1 s3 = true.
Proof.
  unfold String.leb. revert s2 s3.
  induction s1 as [|a r1 IH]; intros [|b r2] [|c r3]; simpl; try congruence.
  destruct (Ascii.compare a b) eqn:Eab; try congruence.
  - rewrite (ascii_compare_eq_l a b c Eab).
    destruct (Ascii.compare b c) eqn:Ebc; try congruence. apply IH.
  - destruct (Ascii.compare b c) eqn:Ebc; try congruence.
    + apply Ascii.compare_eq_iff in Ebc. subst. now rewrite Eab.
    + now rewrite (ascii_compare_lt_trans a b c Eab Ebc).
Qed.

Lemma string_leb_false s1 s2 : String.leb s1 s2 = false -> String.leb s2 s1 = true.
Proof.
  intros H. destruct (String.leb_total s1 s2) as [E|E]; [congruence|exact E].
Qed.

Definition key_le (a b : string) : Prop := String.leb a b = true.

Lemma insert_sorted_perm k l : Permutation (k :: l) (Json.insert_sorted k l).
Proof.
  induction l as [|x r IH]; simpl; [reflexivity|].
  destruct (String.leb k x); [reflexivity|].
  rewrite perm_swap. now apply perm_skip.
Qed.

Lemma sort_perm l : Permutation l (Json.sort l).
Proof.
  induction l as [|k r IH]; simpl; [reflexivity|].
  rewrite <- insert_sorted_perm. now apply perm_skip.
Qed.

Lemma insert_sorted_sorted k l :
  StronglySorted key_le l -> StronglySorted key_le (Json.insert_sorted k l).
Proof.
  induction 1 as [|x r Hr IH Hx]; simpl.
  - repeat constructor.
  - destruct (String.leb k x) eqn:E.
    + constructor; [now constructor|].
      constructor; [exact E|].
      eapply Forall_impl; [|exact Hx]. intros y Hy.
      eapply string_leb_trans; eauto.
    + constructor; [exact IH|].
      eapply Permutation_Forall; [apply insert_sorted_perm|].
      constructor; [now apply string_leb_false|exact Hx].
Qed.

Lemma sort_sorted l : StronglySorted key_le (Json.sort l).
Proof.
  induction l as [|k r IH]; simpl; [constructor|now apply insert_sorted_sorted].
Qed.

(** Two sorted lists with the same elements are the same list. *)
Lemma sorted_perm_eq l1 l2 :
  StronglySorted key_le l1 -> StronglySorted key_le l2 ->
  Permutation l1 l2 -> l1 = l2.
Proof.
  intros H1. revert l2. induction H1 as [|a r1 Hr1 IH Ha]; intros l2 H2 Hp.
  - apply Permutation_nil in Hp. now subst.
  - destruct H2 as [|b r2 Hr2 Hb].
    + apply Permutation_sym, Permutation_nil in Hp. discriminate.
    + assert (a = b).
      { assert (Hin_a : In a (b :: r2)) by (eapply Permutation_in; [exact Hp|now left]).
        assert (Hin_b : In b (a :: r1))
          by (eapply Permutation_in; [apply Permutation_sym; exact Hp|now left]).
        destruct Hin_a as [->|Hin_a]; [reflexivity|].
        destruct Hin_b as [->|Hin_b]; [reflexivity|].
        rewrite Forall_forall in Ha, Hb.
        apply String.leb_antisym; [now apply Ha|now apply Hb]. }
      subst b. f_equal. apply IH; [exact Hr2|].
      eapply Permutation_cons_inv; eauto.
Qed.

Lemma sort_of_perm l1 l2 : Permutation l1 l2 -> Json.sort l1 = Json.sort l2.
Proof.
  intros Hp. apply sorted_perm_eq; try apply sort_sorted.
  rewrite <- !sort_perm. exact Hp.
Qed.

(** *** Reading properties *)

Lemma get_not_key (o : Json.object) k :
  ~ In k (Json.keys o) -> Json.get o k = Json.JUndefined.
Proof.
  induction o as [|[k' v] r IH]; simpl; [reflexivity|].
  intros Hn. destruct (String.eqb_spec k' k) as [->|_]; [tauto|].
  apply IH. tauto.
Qed.

Lemma get_in (o : Json.object) k v :
  Json.wf_object o -> In (k, v) o -> Json.get o k = v.
Proof.
  unfold Json.wf_object.
  induction o as [|[k' v'] r IH]; simpl; [tauto|].
  intros Hnd [[= -> ->]|Hin].
  - now rewrite String.eqb_refl.
  - inversion Hnd as [|? ? Hnot Hnd']; subst.
    destruct (String.eqb_spec k' k) as [->|_]; [|now apply IH].
    exfalso. apply Hnot. change k with (fst (k, v)). now apply in_map.
Qed.

(** Reading a property does not depend on the order of the properties. *)
Lemma get_perm (o1 o2 : Json.object) k :
  Json.wf_object o1 -> Json.wf_object o2 -> Permutation o1 o2 ->
  Json.get o1 k = Json.get o2 k.
Proof.
  intros W1 W2 Hp.
  destruct (in_dec string_dec k (Json.keys o1)) as [Hin|Hn].
  - unfold Json.keys in Hin. apply in_map_iff in Hin.
    destruct Hin as ([k' v] & <- & Hin). simpl.
    rewrite (get_in o1 k' v W1 Hin).
    symmetry. apply get_in; [exact W2|]. eapply Permutation_in; eauto.
  - rewrite (get_not_key o1 k Hn). symmetry. apply get_not_key.
    intros Hin. apply Hn. unfold Json.keys in *.
    eapply Permutation_in; [apply Permutation_sym, Permutation_map; exact Hp|exact Hin].
Qed.

Lemma wf_delete k (o : Json.object) : Json.wf_object o -> Json.wf_object (Json.delete k o).
Proof.
  unfold Json.wf_object, Json.delete.
  induction o as [|[k' v] r IH]; simpl; [auto|].
  intros Hnd. inversion Hnd as [|? ? Hnot Hnd']; subst.
  destruct (negb (String.eqb k' k)); simpl; [|now apply IH].
  constructor; [|now apply IH].
  intros Hin. apply Hnot. apply in_map_iff in Hin.
  destruct Hin as (e & He & Hin). apply filter_In in Hin.
  apply in_map_iff. exists e. tauto.
Qed.

Lemma get_delete_ne k k' (o : Json.object) :
  k <> k' -> Json.get (Json.delete k' o) k = Json.get o k.
Proof.
  intros Hne. unfold Json.delete.
  induction o as [|[k0 v] r IH]; simpl; [reflexivity|].
  destruct (String.eqb_spec k0 k') as [->|N]; simpl.
  - destruct (String.eqb_spec k' k); [congruence|exact IH].
  - destruct (String.eqb_spec k0 k); [reflexivity|exact IH].
Qed.

Lemma wf_searchParams (p : Json.object) :
  Json.wf_object p -> Json.wf_object (MongoSearchCache.searchParams p).
Proof. intros W. unfold MongoSearchCache.searchParams. now apply wf_delete, wf_delete. Qed.

Lemma partial_ext ks (o1 o2 : Json.object) :
  (forall k, Json.get o1 k = Json.get o2 k) -> Json.partial ks o1 = Json.partial ks o2.
Proof.
  intros E. induction ks as [|k r IH]; simpl; [reflexivity|].
  now rewrite E, IH.
Qed.

(** The string the database cache hashes does not depend on the order of
    the properties. *)
Lemma cacheKeyString_perm (p q : Json.object) :
  Json.wf_object p -> Json.wf_object q ->
  Permutation (MongoSearchCache.searchParams p) (MongoSearchCache.searchParams q) ->
  MongoSearchCache.cacheKeyString p = MongoSearchCache.cacheKeyString q.
Proof.
  intros Wp Wq Hp. unfold MongoSearchCache.cacheKeyString, Json.stringify_with.
  set (sp := MongoSearchCache.searchParams p) in *.
  set (sq := MongoSearchCache.searchParams q) in *.
  assert (Hk : Json.sort (Json.keys sp) = Json.sort (Json.keys sq)).
  { apply sort_of_perm. unfold Json.keys. now apply Permutation_map. }
  rewrite Hk. rewrite (partial_ext _ sp sq); [reflexivity|].
  intros k. apply get_perm; [now apply wf_searchParams..|exact Hp].
Qed.

(** Neither does the key of the file cache, which reads five fields. *)
Lemma fileCacheKey_perm (p q : Json.object) :
  Json.wf_object p -> Json.wf_object q ->
  Permutation (MongoSearchCache.searchParams p) (MongoSearchCache.searchParams q) ->
  SearchCache.getCacheKey p = SearchCache.getCacheKey q.
Proof.
  intros Wp Wq Hp.
  assert (E : forall k, k <> "refresh" -> k <> "userEmail" ->
                        Json.get p k = Json.get q k).
  { intros k H1 H2.
    rewrite <- (get_delete_ne k "userEmail" p H2).
    rewrite <- (get_delete_ne k "refresh" (Json.delete "userEmail" p) H1).
    rewrite <- (get_delete_ne k "userEmail" q H2).
    rewrite <- (get_delete_ne k "refresh" (Json.delete "userEmail" q) H1).
    apply get_perm; [now apply wf_searchParams..|exact Hp]. }
  unfold SearchCache.getCacheKey, SearchCache.keyObject.
  rewrite !E by discriminate. reflexivity.
Qed.

(** *** Reading back what [JSON.stringify] wrote *)

Lemma string_app_assoc (a b c : string) : (a ++ b) ++ c = a ++ (b ++ c).
Proof. induction a as [|x r IH]; simpl; [reflexivity|now rewrite IH]. Qed.

Lemma unquote_escape_char c X :
  Json.unquote_body (Json.escape_char c ++ X)
  = match Json.unquote_body X with
    | Some (x, rest) => Some (String c x, rest)
    | None => None
    end.
Proof.
  destruct c as [[] [] [] [] [] [] [] []]; reflexivity.
Qed.

Lemma unquote_body_escape s X :
  Json.unquote_body (Json.escape s ++ String Json.dquote X) = Some (s, X).
Proof.
  induction s as [|c r IH]; [reflexivity|].
  cbn [Json.escape]. rewrite string_app_assoc, unquote_escape_char, IH. reflexivity.
Qed.

Lemma unquote_quote s X : Json.unquote (Json.quote s ++ X) = Some (s, X).
Proof.
  unfold Json.quote. cbn [append Json.unquote]. rewrite Ascii.eqb_refl.
  rewrite string_app_assoc. cbn [append]. apply unquote_body_escape.
Qed.

(** A parser for one serialized value and for one serialized property. *)
Definition parse_value (s : string) : option (Json.jsval * string) :=
  match Json.unquote s with
  | Some (x, rest) => Some (Json.JString x, rest)
  | None =>
      match JsString.strip_prefix "true" s with
      | Some rest => Some (Json.JBool true, rest)
      | None =>
          match JsString.strip_prefix "false" s with
          | Some rest => Some (Json.JBool false, rest)
          | None => None
          end
      end
  end.

Definition parse_entry (s : string) : option ((string * Json.jsval) * string) :=
  match Json.unquote s with
  | Some (k, rest) =>
      match JsString.strip_prefix ":" rest with
      | Some rest' =>
          match parse_value rest' with
          | Some (v, rest'') => Some ((k, v), rest'')
          | None => None
          end
      | None => None
      end
  | None => None
  end.

Lemma parse_value_serialize v t X :
  Json.serialize v = Some t -> parse_value (t ++ X) = Some (v, X).
Proof.
  destruct v as [|[|]|s]; simpl; intros [= <-].
  - reflexivity.
  - reflexivity.
  - unfold parse_value. now rewrite unquote_quote.
Qed.

(** The text of one property. *)
Definition render (e : string * Json.jsval) : string :=
  Json.quote (fst e) ++ ":" ++
  match Json.serialize (snd e) with Some t => t | None => EmptyString end.

Definition is_defined (e : string * Json.jsval) : bool :=
  match snd e with Json.JUndefined => false | _ => true end.

Lemma parse_entry_render e X :
  is_defined e = true -> parse_entry (render e ++ X) = Some (e, X).
Proof.
  destruct e as [k v]. unfold is_defined, render. cbn [fst snd]. intros Hd.
  unfold parse_entry. rewrite string_app_assoc, unquote_quote.
  rewrite string_app_assoc. cbn [append JsString.strip_prefix]. rewrite Ascii.eqb_refl.
  destruct (Json.serialize v) as [t|] eqn:E.
  - now rewrite (parse_value_serialize v t X E).
  - destruct v as [|[|]|]; discriminate.
Qed.

Lemma render_inj e1 e2 X1 X2 :
  is_defined e1 = true -> is_defined e2 = true ->
  render e1 ++ X1 = render e2 ++ X2 -> e1 = e2 /\ X1 = X2.
Proof.
  intros D1 D2 E. apply (f_equal parse_entry) in E.
  rewrite !parse_entry_render in E by assumption.
  now inversion E.
Qed.

Lemma render_head e X : exists Y, render e ++ X = String Json.dquote Y.
Proof. unfold render, Json.quote. cbn. eauto. Qed.

(** The properties [JSON.stringify] writes for the property list [ks]. *)
Definition written (ks : list string) (o : Json.object) : list (string * Json.jsval) :=
  List.filter is_defined (List.map (fun k => (k, Json.get o k)) ks).

Lemma partial_written ks o : Json.partial ks o = List.map render (written ks o).
Proof.
  unfold written. induction ks as [|k r IH]; simpl; [reflexivity|].
  unfold is_defined at 1. cbn [snd].
  destruct (Json.get o k) as [|[|]|s] eqn:E; simpl; rewrite IH; try reflexivity;
    unfold render; cbn [fst snd]; rewrite E; reflexivity.
Qed.

Lemma join_comma_cons x r Y :
  Json.join_comma (x :: r) ++ Y
  = x ++ match r with
         | [] => Y
         | _ :: _ => "," ++ Json.join_comma r ++ Y
         end.
Proof.
  destruct r as [|y r]; [reflexivity|].
  cbn [Json.join_comma]. now rewrite !string_app_assoc.
Qed.

Lemma comma_inj s1 s2 : "," ++ s1 = "," ++ s2 -> s1 = s2.
Proof. cbn. now intros [= H]. Qed.

(** The text between the braces determines the properties written. *)
Lemma join_rendered_inj es1 es2 X1 X2 :
  Forall (fun e => is_defined e = true) es1 ->
  Forall (fun e => is_defined e = true) es2 ->
  Json.join_comma (List.map render es1) ++ "}" ++ X1
  = Json.join_comma (List.map render es2) ++ "}" ++ X2 ->
  es1 = es2.
Proof.
  intros D1. revert es2 X1 X2.
  induction D1 as [|e1 r1 He1 Hr1 IH]; intros es2 X1 X2 D2 E.
  - destruct D2 as [|e2 r2 He2 Hr2]; [reflexivity|].
    cbn [List.map] in E. rewrite join_comma_cons in E.
    destruct (render_head e2 (match List.map render r2 with
                              | [] => "}" ++ X2
                              | _ :: _ => "," ++ Json.join_comma (List.map render r2)
                                          ++ "}" ++ X2
                              end)) as [Y HY].
    rewrite HY in E. discriminate.
  - destruct D2 as [|e2 r2 He2 Hr2].
    + cbn [List.map] in E. rewrite join_comma_cons in E.
      destruct (render_head e1 (match List.map render r1 with
                                | [] => "}" ++ X1
                                | _ :: _ => "," ++ Json.join_comma (List.map render r1)
                                            ++ "}" ++ X1
                                end)) as [Y HY].
      rewrite HY in E. discriminate.
    + cbn [List.map] in E. rewrite !join_comma_cons in E.
      apply render_inj in E; [|assumption..]. destruct E as [<- E].
      f_equal.
      destruct r1 as [|a1 r1], r2 as [|a2 r2]; cbn [List.map] in E.
      * reflexivity.
      * discriminate.
      * discriminate.
      * apply comma_inj in E. eapply IH; [exact Hr2|exact E].
Qed.

Lemma written_defined ks o : Forall (fun e => is_defined e = true) (written ks o).
Proof.
  unfold written. apply Forall_forall. intros e He.
  apply filter_In in He. tauto.
Qed.

Lemma stringify_with_inj o1 ks1 o2 ks2 :
  Json.stringify_with o1 ks1 = Json.stringify_with o2 ks2 ->
  written ks1 o1 = written ks2 o2.
Proof.
  unfold Json.stringify_with. rewrite !partial_written.
  intros E. cbn [append] in E. injection E as E.
  apply (join_rendered_inj _ _ EmptyString EmptyString); auto using written_defined.
Qed.

Lemma filter_perm {A} (f : A -> bool) l1 l2 :
  Permutation l1 l2 -> Permutation (List.filter f l1) (List.filter f l2).
Proof.
  induction 1 as [|x l1 l2 _ IH|x y l|l1 l2 l3 _ IH1 _ IH2]; simpl.
  - constructor.
  - destruct (f x); [now constructor|exact IH].
  - destruct (f x), (f y); try reflexivity. apply perm_swap.
  - etransitivity; eauto.
Qed.

Lemma map_get_keys (o : Json.object) :
  Json.wf_object o -> List.map (fun k => (k, Json.get o k)) (Json.keys o) = o.
Proof.
  intros W. unfold Json.keys. rewrite List.map_map.
  rewrite <- (List.map_id o) at 2. apply List.map_ext_in.
  intros [k v] Hin. cbn [fst]. now rewrite (get_in o k v W Hin).
Qed.

(** With the sorted property names as the property list, what is written
    is, up to order, the properties of the object that are defined. *)
Lemma written_sorted_keys (o : Json.object) :
  Json.wf_object o ->
  Permutation (written (Json.sort (Json.keys o)) o) (List.filter is_defined o).
Proof.
  intros W. unfold written. apply filter_perm.
  etransitivity; [apply Permutation_map, Permutation_sym, sort_perm|].
  now rewrite (map_get_keys o W).
Qed.

(** Two objects with the same string to hash have, up to order, the same
    defined properties besides [refresh] and [userEmail]. *)
Lemma cacheKeyString_inj (p q : Json.object) :
  Json.wf_object p -> Json.wf_object q ->
  MongoSearchCache.cacheKeyString p = MongoSearchCache.cacheKeyString q ->
  Permutation (List.filter is_defined (MongoSearchCache.searchParams p))
              (List.filter is_defined (MongoSearchCache.searchParams q)).
Proof.
  intros Wp Wq E. unfold MongoSearchCache.cacheKeyString in E.
  apply stringify_with_inj in E.
  rewrite <- (written_sorted_keys _ (wf_searchParams p Wp)).
  rewrite <- (written_sorted_keys _ (wf_searchParams q Wq)).
  now rewrite E.
Qed.

(** C9, as stated, fails for the file cache.  It reads an absent field
    as the empty string, so an object without [firstName] and one whose
    [firstName] is empty have one signature.  And two queries that differ
    in the first name (">" against "?") have one signature too: the two
    JSON texts differ in one byte, whose base64 digits are "+" and "/", and
    [getCacheKey] replaces both by "_". *)
Lemma C9_counterexample :
  (Json.get [] "firstName" <> Json.get [("firstName", Json.JString EmptyString)] "firstName"
   /\ SearchCache.getCacheKey []
      = SearchCache.getCacheKey [("firstName", Json.JString EmptyString)])
  /\
  (Json.get [("firstName", Json.JString ">")] "firstName"
   <> Json.get [("firstName", Json.JString "?")] "firstName"
   /\ SearchCache.getCacheKey [("firstName", Json.JString ">")]
      = SearchCache.getCacheKey [("firstName", Json.JString "?")]).
Proof.
  split; (split; [discriminate|vm_compute; reflexivity]).
Qed.

Example fileCacheKey_sample :
  SearchCache.getCacheKey [("firstName", Json.JString ">")]
  = "eyJmaXJzdE5hbWUiOiI_IiwibGFzdE5hbWUiOiIiLCJjaXR5IjoiIiwicG9zdGFsQ29kZSI6IiIsImdyYWRlTGV2ZWwiOiIifQ__".
Proof. vm_compute. reflexivity. Qed.

(** C9, amended.  Two query-parameter objects that differ only in the
    order of their properties, or only in the presence or value of
    [refresh] or [userEmail], have the same signature, in the database
    cache and in the file cache.  In the database cache, two objects with
    the same signature have, up to order, the same defined properties
    besides those two, unless SHA-256 collides on their canonical strings:
    absent a collision, objects that differ in any other defined property
    have different signatures. *)
Theorem C9_cache_signature :
  forall (sha256 : string -> string) (p q : Json.object),
    Json.wf_object p -> Json.wf_object q ->
    (Permutation (MongoSearchCache.searchParams p) (MongoSearchCache.searchParams q) ->
     MongoSearchCache.getCacheKey sha256 p = MongoSearchCache.getCacheKey sha256 q
     /\ SearchCache.getCacheKey p = SearchCache.getCacheKey q)
    /\
    ((MongoSearchCache.sha256_hex sha256 (MongoSearchCache.cacheKeyString p)
      = MongoSearchCache.sha256_hex sha256 (MongoSearchCache.cacheKeyString q) ->
      MongoSearchCache.cacheKeyString p = MongoSearchCache.cacheKeyString q) ->
     MongoSearchCache.getCacheKey sha256 p = MongoSearchCache.getCacheKey sha256 q ->
     Permutation (List.filter is_defined (MongoSearchCache.searchParams p))
                 (List.filter is_defined (MongoSearchCache.searchParams q))).
Proof.
  intros sha256 p q Wp Wq. split.
  - intros Hp. split.
    + unfold MongoSearchCache.getCacheKey.
      now rewrite (cacheKeyString_perm p q Wp Wq Hp).
    + now apply fileCacheKey_perm.
  - intros Hinj E. apply cacheKeyString_inj; auto.
Qed.

Lemma hex_injective s1 s2 : Encoding.hex s1 = Encoding.hex s2 -> s1 = s2.
Proof.
  intros H. apply (f_equal Encoding.unhex) in H. now rewrite !unhex_hex in H.
Qed.

(** C9, amended, on concrete queries. *)
Lemma C9_cache_signature_witness :
  (MongoSearchCache.getCacheKey Toy.sha256
     [("lastName", Json.JString "Smith"); ("refresh", Json.JBool true);
      ("firstName", Json.JString "Ann")]
   = MongoSearchCache.getCacheKey Toy.sha256
       [("firstName", Json.JString "Ann"); ("userEmail", Json.JString "a@x.com");
        ("lastName", Json.JString "Smith")])
  /\ MongoSearchCache.getCacheKey Toy.sha256 [("lastName", Json.JString "Smith")]
     <> MongoSearchCache.getCacheKey Toy.sha256 [("lastName", Json.JString "Smyth")].
Proof.
  assert (nodup3 : forall a b c : string * Json.jsval,
             fst a <> fst b -> fst a <> fst c -> fst b <> fst c ->
             Json.wf_object [a; b; c]).
  { intros a b c H1 H2 H3. unfold Json.wf_object. simpl.
    repeat constructor; simpl; intuition congruence. }
  assert (nodup1 : forall a : string * Json.jsval, Json.wf_object [a]).
  { intros a. unfold Json.wf_object. simpl. repeat constructor. simpl. tauto. }
  split.
  - refine (proj1 (proj1 (C9_cache_signature Toy.sha256 _ _ _ _) _)).
    + apply nodup3; discriminate.
    + apply nodup3; discriminate.
    + vm_compute. apply perm_swap.
  - intros E.
    pose proof (proj2 (C9_cache_signature Toy.sha256
                         [("lastName", Json.JString "Smith")]
                         [("lastName", Json.JString "Smyth")]
                         (nodup1 _) (nodup1 _))) as H.
    assert (Hp : Permutation [("lastName", Json.JString "Smith")]
                             [("lastName", Json.JString "Smyth")]).
    { apply H; [|exact E]. apply hex_injective. }
    apply Permutation_length_1 in Hp. discriminate.
Defined.

(* ================================================================== *)
(** * Further properties of the same code *)
(* ================================================================== *)

(* ------------------------------------------------------------------ *)
(** ** Collections with a unique key *)
(* ------------------------------------------------------------------ *)

(** The collections carry a unique index ([userHash] for credentials and
    users, [userHash] with [searchHash] for the cache).  The lemmas below
    say that the driver calls the code makes keep a collection free of
    duplicate keys, provided the filter selects by that key. *)
Section UniqueKeys.

Variables (Doc K : Type) (key : Doc -> K).

Definition unique_by (c : list Doc) : Prop := NoDup (List.map key c).

Lemma replaceFirst_keys (f : Doc -> bool) d c c' :
  (forall x, f x = true -> key x = key d) ->
  Mongo.replaceFirst f d c = Some c' ->
  List.map key c' = List.map key c.
Proof.
  intros Hf. revert c'. induction c as [|x r IH]; intros c'; simpl; [discriminate|].
  destruct (f x) eqn:E.
  - intros [= <-]. simpl. now rewrite (Hf x E).
  - destruct (Mongo.replaceFirst f d r) as [r'|]; [|discriminate].
    intros [= <-]. simpl. now rewrite (IH r' eq_refl).
Qed.

Lemma replaceFirst_length (f : Doc -> bool) d c c' :
  Mongo.replaceFirst f d c = Some c' -> List.length c' = List.length c.
Proof.
  revert c'. induction c as [|x r IH]; intros c'; simpl; [discriminate|].
  destruct (f x).
  - intros [= <-]. reflexivity.
  - destruct (Mongo.replaceFirst f d r) as [r'|]; [|discriminate].
    intros [= <-]. simpl. now rewrite (IH r' eq_refl).
Qed.

Lemma replaceFirst_None (f : Doc -> bool) d c :
  Mongo.replaceFirst f d c = None -> forall x, In x c -> f x = false.
Proof.
  induction c as [|y r IH]; simpl; [intros _ x []|].
  destruct (f y) eqn:E; [discriminate|].
  destruct (Mongo.replaceFirst f d r); [discriminate|].
  intros _ x [<-|Hx]; [exact E|now apply IH].
Qed.

Lemma replaceFirst_Some (f : Doc -> bool) d c c' :
  Mongo.replaceFirst f d c = Some c' -> exists x, In x c /\ f x = true.
Proof.
  revert c'. induction c as [|y r IH]; intros c'; simpl; [discriminate|].
  destruct (f y) eqn:E.
  - intros _. exists y. auto.
  - destruct (Mongo.replaceFirst f d r) as [r'|]; [|discriminate].
    intros _. destruct (IH r' eq_refl) as (x & Hx & Hfx). exists x. auto.
Qed.

Lemma unique_replaceOne_upsert (f : Doc -> bool) d c :
  (forall x, f x = true <-> key x = key d) ->
  unique_by c -> unique_by (Mongo.replaceOne_upsert f d c).
Proof.
  intros Hf Hu. unfold unique_by, Mongo.replaceOne_upsert in *.
  destruct (Mongo.replaceFirst f d c) as [c'|] eqn:E.
  - rewrite (replaceFirst_keys f d c c'); [exact Hu| |exact E].
    intros x Hx. now apply Hf.
  - rewrite List.map_app. simpl.
    apply NoDup_app; [exact Hu|repeat constructor; simpl; tauto|].
    intros k Hk [<-|[]]. apply List.in_map_iff in Hk.
    destruct Hk as (x & Hkx & Hx).
    pose proof (replaceFirst_None f d c E x Hx) as Hfx.
    apply Hf in Hkx. congruence.
Qed.

Lemma deleteOne_incl (f : Doc -> bool) c x :
  In x (Mongo.deleteOne f c) -> In x c.
Proof.
  induction c as [|y r IH]; simpl; [tauto|].
  destruct (f y); simpl; tauto.
Qed.

Lemma unique_deleteOne (f : Doc -> bool) c :
  unique_by c -> unique_by (Mongo.deleteOne f c).
Proof.
  unfold unique_by. induction c as [|y r IH]; simpl; [auto|].
  intros Hu. inversion Hu as [|? ? Hn Hr]; subst.
  destruct (f y); simpl; [exact Hr|].
  constructor; [|now apply IH].
  intros Hin. apply Hn. apply List.in_map_iff in Hin.
  destruct Hin as (x & Hkx & Hx). apply List.in_map_iff. exists x.
  split; [exact Hkx|]. eapply deleteOne_incl; eauto.
Qed.

Lemma unique_deleteMany (f : Doc -> bool) c :
  unique_by c -> unique_by (Mongo.deleteMany f c).
Proof.
  unfold unique_by, Mongo.deleteMany. induction c as [|y r IH]; simpl; [auto|].
  intros Hu. inversion Hu as [|? ? Hn Hr]; subst.
  destruct (f y); simpl; [now apply IH|].
  constructor; [|now apply IH].
  intros Hin. apply Hn. apply List.in_map_iff in Hin.
  destruct Hin as (x & Hkx & Hx). apply List.in_map_iff. exists x.
  split; [exact Hkx|]. apply List.filter_In in Hx. tauto.
Qed.

Lemma updateOne_keys (f : Doc -> bool) (set : Doc -> Doc) c :
  (forall x, key (set x) = key x) ->
  List.map key (fst (Mongo.updateOne f set c)) = List.map key c.
Proof.
  intros Hs. induction c as [|y r IH]; simpl; [reflexivity|].
  destruct (f y); simpl; [now rewrite Hs|].
  destruct (Mongo.updateOne f set r) as [r' n]. simpl in *. now rewrite IH.
Qed.

Lemma updateMany_keys (f : Doc -> bool) (set : Doc -> Doc) c :
  (forall x, key (set x) = key x) ->
  List.map key (Mongo.updateMany f set c) = List.map key c.
Proof.
  intros Hs. unfold Mongo.updateMany. rewrite List.map_map.
  apply List.map_ext. intros x. destruct (f x); [apply Hs|reflexivity].
Qed.

(** In a collection without duplicate keys, [deleteOne] by key leaves no
    document of that key. *)
Lemma deleteOne_removes (f : Doc -> bool) k c :
  (forall x, f x = true <-> key x = k) ->
  unique_by c ->
  forall x, In x (Mongo.deleteOne f c) -> f x = false.
Proof.
  intros Hf. unfold unique_by. induction c as [|y r IH]; simpl; [intros _ x []|].
  intros Hu. inversion Hu as [|? ? Hn Hr]; subst.
  destruct (f y) eqn:E.
  - intros x Hx. destruct (f x) eqn:Ex; [|reflexivity].
    exfalso. apply Hn. apply Hf in E, Ex. rewrite E, <- Ex.
    now apply List.in_map.
  - intros x [<-|Hx]; [exact E|now apply IH].
Qed.

Lemma findOne_none_of (f : Doc -> bool) c :
  (forall x, In x c -> f x = false) -> Mongo.findOne f c = None.
Proof.
  intros H. unfold Mongo.findOne. induction c as [|y r IH]; simpl; [reflexivity|].
  rewrite (H y (or_introl eq_refl)). apply IH. intros x Hx. apply H. now right.
Qed.

Lemma countDocuments_none_of (f : Doc -> bool) c :
  (forall x, In x c -> f x = false) -> Mongo.countDocuments f c = 0%nat.
Proof.
  intros H. unfold Mongo.countDocuments. induction c as [|y r IH]; simpl; [reflexivity|].
  rewrite (H y (or_introl eq_refl)). apply IH. intros x Hx. apply H. now right.
Qed.

Lemma countDocuments_pos (f : Doc -> bool) c x :
  In x c -> f x = true -> (0 < Mongo.countDocuments f c)%nat.
Proof.
  intros Hx Hf. unfold Mongo.countDocuments.
  assert (Hin : In x (List.filter f c)) by (apply List.filter_In; auto).
  destruct (List.filter f c); [destruct Hin|simpl; lia].
Qed.

End UniqueKeys.

Arguments unique_by {Doc K} key c.

(* ------------------------------------------------------------------ *)
(** ** The credential store: what is saved loads back, what is cleared
       is gone *)
(* ------------------------------------------------------------------ *)

Section StoredCredentials.

Variable sha256 : string -> string.
Variable aes_encrypt : string -> string -> string -> string.
Variable aes_decrypt : string -> string -> string -> option string.
Variable JSON_parse_credentials : string -> option Credentials.

Local Abbreviation Doc := MongoCredentialStore.EncryptedCredentialDocument.

Lemma byUser_key (s : MongoCredentialStore.t) (d : Doc) :
  MongoCredentialStore.byUser s d = true
  <-> MongoCredentialStore.userHash d = MongoCredentialStore.store_userHash s.
Proof. unfold MongoCredentialStore.byUser. apply String.eqb_eq. Qed.

Lemma saveCredentials_length (s : MongoCredentialStore.t) c rnd now (coll : list Doc) :
  List.length (MongoCredentialStore.saveCredentials aes_encrypt s c rnd now coll)
  = if MongoCredentialStore.hasCredentials s coll then List.length coll
    else S (List.length coll).
Proof.
  unfold MongoCredentialStore.saveCredentials, Mongo.replaceOne_upsert,
    MongoCredentialStore.hasCredentials.
  destruct (Mongo.replaceFirst _ _ coll) as [c'|] eqn:E.
  - rewrite (replaceFirst_length Doc _ _ _ _ E).
    destruct (replaceFirst_Some Doc _ _ _ _ E) as (x & Hx & Hfx).
    pose proof (countDocuments_pos Doc _ _ x Hx Hfx) as Hpos.
    apply Nat.ltb_lt in Hpos. now rewrite Hpos.
  - rewrite (countDocuments_none_of Doc _ _ (replaceFirst_None Doc _ _ _ E)).
    rewrite List.length_app. simpl. lia.
Qed.

Lemma hasCredentials_after_save (s : MongoCredentialStore.t) c rnd now (coll : list Doc) :
  MongoCredentialStore.hasCredentials s
    (MongoCredentialStore.saveCredentials aes_encrypt s c rnd now coll) = true.
Proof.
  unfold MongoCredentialStore.hasCredentials. apply Nat.ltb_lt.
  set (d := {| MongoCredentialStore.userHash := MongoCredentialStore.store_userHash s;
               MongoCredentialStore.encryptedCredentials :=
                 aes_encrypt (MongoCredentialStore.encryptionKey s) rnd
                   (MongoCredentialStore.credentialsJson c);
               MongoCredentialStore.iv := Encoding.hex rnd;
               MongoCredentialStore.createdAt := now;
               MongoCredentialStore.updatedAt := now |}).
  assert (Hd : MongoCredentialStore.byUser s d = true)
    by (apply byUser_key; reflexivity).
  pose proof (Mongo.findOne_replaceOne_upsert Doc (MongoCredentialStore.byUser s)
                (MongoCredentialStore.byUser s) d coll (fun x H => H) Hd) as Hfind.
  apply Mongo.findOne_Some in Hfind. destruct Hfind as [Hin _].
  eapply countDocuments_pos; [exact Hin|exact Hd].
Qed.

Lemma clearCredentials_none (s : MongoCredentialStore.t) (coll : list Doc) :
  unique_by MongoCredentialStore.userHash coll ->
  forall x, In x (MongoCredentialStore.clearCredentials s coll) ->
            MongoCredentialStore.byUser s x = false.
Proof.
  intros Hu.
  apply (deleteOne_removes _ _ MongoCredentialStore.userHash _
           (MongoCredentialStore.store_userHash s)); [|exact Hu].
  intros x. apply byUser_key.
Qed.

Lemma loadCredentials_after_clear (s : MongoCredentialStore.t) (coll : list Doc) :
  unique_by MongoCredentialStore.userHash coll ->
  MongoCredentialStore.loadCredentials aes_decrypt JSON_parse_credentials s
    (MongoCredentialStore.clearCredentials s coll) = None.
Proof.
  intros Hu. unfold MongoCredentialStore.loadCredentials.
  now rewrite (findOne_none_of _ _ _ (clearCredentials_none s coll Hu)).
Qed.

End StoredCredentials.

(** X1.  Credentials saved through a store load back through the same
    store, whatever the collection held before: given that the cipher
    decrypts under the same key and initialisation vector what it
    encrypted, and that [JSON.parse] reads back what [JSON.stringify]
    wrote.  The save overwrites the user's document in place: the
    collection grows by one document only when the user had none. *)
Theorem saved_credentials_load_back :
  forall (sha256 : string -> string)
         (enc : string -> string -> string -> string)
         (dec : string -> string -> string -> option string)
         (parse : string -> option Credentials)
         (mk : option string) (email : string) (c : Credentials) (rnd : string) (now : Z)
         (coll : list MongoCredentialStore.EncryptedCredentialDocument),
    let s := MongoCredentialStore.new sha256 mk email in
    dec (MongoCredentialStore.encryptionKey s) rnd
      (enc (MongoCredentialStore.encryptionKey s) rnd
         (MongoCredentialStore.credentialsJson c))
    = Some (MongoCredentialStore.credentialsJson c) ->
    parse (MongoCredentialStore.credentialsJson c) = Some c ->
    let coll' := MongoCredentialStore.saveCredentials enc s c rnd now coll in
    MongoCredentialStore.loadCredentials dec parse s coll' = Some c
    /\ MongoCredentialStore.hasCredentials s coll' = true
    /\ List.length coll'
       = (if MongoCredentialStore.hasCredentials s coll then List.length coll
          else S (List.length coll)).
Proof.
  intros sha256 enc dec parse mk email c rnd now coll s Hdec Hparse coll'.
  split; [|split].
  - unfold coll'. rewrite (load_after_save enc dec parse s s c rnd now coll eq_refl).
    now rewrite Hdec.
  - apply hasCredentials_after_save.
  - apply saveCredentials_length.
Qed.

(** X1 on a concrete user, over a collection that holds another user's
    document. *)
Lemma saved_credentials_load_back_witness :
  let other := Toy.storedSession "a@x.com" "sid=alice" [] in
  let s := MongoCredentialStore.new Toy.sha256 None "b@x.com" in
  let c := {| username := "b@x.com"; password := Toy.sessionBlob "tok=bob" |} in
  let coll' := MongoCredentialStore.saveCredentials Toy.aes_encrypt s c "fedcba9876543210" 5 other in
  MongoCredentialStore.loadCredentials Toy.aes_decrypt Toy.JSON_parse_credentials s coll'
  = Some c
  /\ MongoCredentialStore.hasCredentials s coll' = true
  /\ List.length coll' = 2%nat.
Proof.
  intros other s c coll'.
  pose proof (saved_credentials_load_back Toy.sha256 Toy.aes_encrypt Toy.aes_decrypt
                Toy.JSON_parse_credentials None "b@x.com" c "fedcba9876543210" 5 other
                eq_refl eq_refl) as (H1 & H2 & H3).
  split; [exact H1|]. split; [exact H2|]. vm_compute. reflexivity.
Defined.

(** X2.  Whatever saves and clears are made, through stores of whatever
    users, a credentials collection that holds at most one document per
    user handle keeps holding at most one: the upsert of [saveCredentials]
    never adds a second document for a user. *)
Theorem credential_writes_keep_one_document_per_user :
  forall (enc : string -> string -> string -> string)
         (script : list (MongoCredentialStore.t * store_op))
         (coll : list MongoCredentialStore.EncryptedCredentialDocument),
    unique_by MongoCredentialStore.userHash coll ->
    unique_by MongoCredentialStore.userHash
      (List.fold_left (fun acc so => run_store_op enc (fst so) (snd so) acc) script coll).
Proof.
  intros enc script. induction script as [|[s o] r IH]; intros coll Hu; simpl; [exact Hu|].
  apply IH. destruct o as [c rnd now|]; simpl.
  - unfold MongoCredentialStore.saveCredentials.
    apply unique_replaceOne_upsert; [|exact Hu].
    intros x. simpl. apply byUser_key.
  - apply unique_deleteOne. exact Hu.
Qed.

(** X2 from the empty collection: two users save, one of them twice. *)
Lemma credential_writes_keep_one_document_per_user_witness :
  unique_by MongoCredentialStore.userHash
    (List.fold_left
       (fun acc so => run_store_op Toy.aes_encrypt (fst so) (snd so) acc)
       [(MongoCredentialStore.new Toy.sha256 None "a@x.com",
         StoreSave {| username := "a@x.com"; password := "one" |} "0123456789abcdef" 1);
        (MongoCredentialStore.new Toy.sha256 None "b@x.com",
         StoreSave {| username := "b@x.com"; password := "two" |} "0123456789abcdef" 2);
        (MongoCredentialStore.new Toy.sha256 None "A@x.com",
         StoreSave {| username := "A@x.com"; password := "three" |} "0123456789abcdef" 3)]
       []).
Proof.
  apply credential_writes_keep_one_document_per_user. constructor.
Defined.

(** X3.  In a collection with at most one document per user handle,
    [clearCredentials] leaves the user without credentials:
    [hasCredentials] answers [false] and [loadCredentials] [null], and the
    documents of the other users are the ones that were there. *)
Theorem cleared_credentials_are_gone :
  forall (dec : string -> string -> string -> option string)
         (parse : string -> option Credentials)
         (s : MongoCredentialStore.t)
         (coll : list MongoCredentialStore.EncryptedCredentialDocument),
    unique_by MongoCredentialStore.userHash coll ->
    let coll' := MongoCredentialStore.clearCredentials s coll in
    MongoCredentialStore.hasCredentials s coll' = false
    /\ MongoCredentialStore.loadCredentials dec parse s coll' = None
    /\ List.filter (fun d => negb (MongoCredentialStore.byUser s d)) coll'
       = List.filter (fun d => negb (MongoCredentialStore.byUser s d)) coll.
Proof.
  intros dec parse s coll Hu coll'.
  split; [|split].
  - unfold coll', MongoCredentialStore.hasCredentials.
    now rewrite (countDocuments_none_of _ _ _ (clearCredentials_none s coll Hu)).
  - now apply loadCredentials_after_clear.
  - unfold coll', MongoCredentialStore.clearCredentials.
    apply Mongo.filter_deleteOne. intros x Hx. now rewrite Hx.
Qed.

(** X3 on the collection two users saved into. *)
Lemma cleared_credentials_are_gone_witness :
  let coll := Toy.storedSession "b@x.com" "tok=bob" (Toy.storedSession "a@x.com" "sid=alice" []) in
  let s := MongoCredentialStore.new Toy.sha256 None "a@x.com" in
  MongoCredentialStore.hasCredentials s (MongoCredentialStore.clearCredentials s coll) = false
  /\ MongoCredentialStore.loadCredentials Toy.aes_decrypt Toy.JSON_parse_credentials s
       (MongoCredentialStore.clearCredentials s coll) = None
  /\ List.length (MongoCredentialStore.clearCredentials s coll) = 1%nat.
Proof.
  intros coll s.
  assert (Hu : unique_by MongoCredentialStore.userHash coll).
  { unfold unique_by. vm_compute. repeat constructor; simpl; intuition discriminate. }
  pose proof (cleared_credentials_are_gone Toy.aes_decrypt Toy.JSON_parse_credentials
                s coll Hu) as (H1 & H2 & _).
  split; [exact H1|]. split; [exact H2|]. vm_compute. reflexivity.
Defined.

(* ------------------------------------------------------------------ *)
(** ** The database cache: slots, clearing, and [getCacheInfo] *)
(* ------------------------------------------------------------------ *)

Section CacheSlots.

Variable sha256 : string -> string.
Variable T : Type.

Local Abbreviation MEntry := (MongoSearchCache.CacheEntry T).

(** The compound key of the cache's unique index. *)
Definition slot_key (row : MEntry) : string * string :=
  (MongoSearchCache.userHash row, MongoSearchCache.searchHash row).

Lemma bySlot_key (c : MongoSearchCache.t) h (row : MEntry) :
  MongoSearchCache.bySlot c h row = true
  <-> slot_key row = (MongoSearchCache.cache_userHash c, h).
Proof.
  unfold MongoSearchCache.bySlot, slot_key. rewrite andb_true_iff, !String.eqb_eq.
  split; [intros [-> ->]; reflexivity|intros [= -> ->]; auto].
Qed.

Lemma cache_op_unique (c : MongoSearchCache.t) (o : cache_op T) (coll : list MEntry) :
  unique_by slot_key coll -> unique_by slot_key (run_cache_op sha256 c o coll).
Proof.
  intros Hu. destruct o as [p d h now|[p|]]; simpl.
  - unfold MongoSearchCache.set. apply unique_replaceOne_upsert; [|exact Hu].
    intros x. apply bySlot_key.
  - now apply unique_deleteOne.
  - now apply unique_deleteMany.
Qed.

Lemma get_none_of (c : MongoSearchCache.t) params now (coll : list MEntry) :
  (forall x, In x coll ->
     MongoSearchCache.bySlot c (MongoSearchCache.getCacheKey sha256 params) x = false) ->
  MongoSearchCache.get sha256 c params now coll = None
  /\ MongoSearchCache.getCacheInfo sha256 c params now coll = CacheInfo.absent.
Proof.
  intros H. unfold MongoSearchCache.get, MongoSearchCache.getCacheInfo.
  rewrite (findOne_none_of _ _ _ H).
  rewrite (findOne_none_of _ (MongoSearchCache.bySlotLive c _ now) coll); [auto|].
  intros x Hx. unfold MongoSearchCache.bySlotLive. now rewrite (H x Hx).
Qed.

Lemma deleteMany_none (c : MongoSearchCache.t) (coll : list MEntry) x :
  In x (Mongo.deleteMany (MongoSearchCache.byUser c) coll) ->
  MongoSearchCache.byUser c x = false.
Proof.
  unfold Mongo.deleteMany. intros H. apply List.filter_In in H.
  destruct H as [_ H]. now apply negb_true_iff in H.
Qed.

Lemma minutes_of_hours h : CacheInfo.minutes (h * 60 * 60 * 1000) = (h * 60)%Z.
Proof.
  unfold CacheInfo.minutes.
  rewrite Z.div_mul by lia. rewrite Z.div_mul by lia. reflexivity.
Qed.

End CacheSlots.

Arguments slot_key {T} row.

(** X4.  Whatever [set] and [clear] calls are made, through caches of
    whatever users, a cache collection with at most one row per slot
    (user handle and search signature) keeps at most one row per slot: a
    repeated query overwrites its row. *)
Theorem cache_writes_keep_one_row_per_slot :
  forall (sha256 : string -> string) (T : Type)
         (script : list (MongoSearchCache.t * cache_op T))
         (coll : list (MongoSearchCache.CacheEntry T)),
    unique_by slot_key coll ->
    unique_by slot_key
      (List.fold_left (fun acc co => run_cache_op sha256 (fst co) (snd co) acc) script coll).
Proof.
  intros sha256 T script. induction script as [|[c o] r IH]; intros coll Hu; simpl;
    [exact Hu|].
  apply IH. now apply cache_op_unique.
Qed.

(** X4 from the empty collection: the same query cached twice, with its
    fields in another order the second time. *)
Lemma cache_writes_keep_one_row_per_slot_witness :
  let coll :=
    List.fold_left
      (fun acc co => run_cache_op Toy.sha256 (fst co) (snd co) acc)
      [(MongoSearchCache.new Toy.sha256 "a@x.com",
        CacheSet [("lastName", Json.JString "Smith"); ("city", Json.JString "Bexley")]
          1%nat 24 0);
       (MongoSearchCache.new Toy.sha256 "a@x.com",
        CacheSet [("city", Json.JString "Bexley"); ("lastName", Json.JString "Smith")]
          2%nat 24 5)]
      [] in
  unique_by slot_key coll /\ List.length coll = 1%nat.
Proof.
  intros coll. split.
  - apply cache_writes_keep_one_row_per_slot. constructor.
  - vm_compute. reflexivity.
Defined.

(** X5.  [clear()] without an argument empties the user's cache: every
    later [get] misses and [getCacheInfo] reports no entry.  [clear(params)]
    does the same for the slot of [params], in a collection with at most
    one row per slot, and leaves every other query of the user as it
    was. *)
Theorem cleared_cache_misses :
  forall (sha256 : string -> string) (T : Type) (c : MongoSearchCache.t)
         (coll : list (MongoSearchCache.CacheEntry T)),
    (forall params now,
        MongoSearchCache.get sha256 c params now
          (MongoSearchCache.clear sha256 c None coll) = None
        /\ MongoSearchCache.getCacheInfo sha256 c params now
             (MongoSearchCache.clear sha256 c None coll) = CacheInfo.absent)
    /\
    (unique_by slot_key coll ->
     forall p now,
       let coll' := MongoSearchCache.clear sha256 c (Some p) coll in
       MongoSearchCache.get sha256 c p now coll' = None
       /\ MongoSearchCache.getCacheInfo sha256 c p now coll' = CacheInfo.absent
       /\ (forall q,
              MongoSearchCache.getCacheKey sha256 q <> MongoSearchCache.getCacheKey sha256 p ->
              MongoSearchCache.get sha256 c q now coll'
              = MongoSearchCache.get sha256 c q now coll)).
Proof.
  intros sha256 T c coll. split.
  - intros params now. apply get_none_of. intros x Hx.
    apply deleteMany_none in Hx. unfold MongoSearchCache.bySlot.
    unfold MongoSearchCache.byUser in Hx. now rewrite Hx.
  - intros Hu p now coll'.
    assert (Hnone : forall x, In x coll' ->
              MongoSearchCache.bySlot c (MongoSearchCache.getCacheKey sha256 p) x = false).
    { apply (deleteOne_removes _ _ slot_key _
               (MongoSearchCache.cache_userHash c, MongoSearchCache.getCacheKey sha256 p));
        [|exact Hu].
      intros x. apply bySlot_key. }
    destruct (get_none_of sha256 T c p now coll' Hnone) as [Hg Hi].
    split; [exact Hg|]. split; [exact Hi|].
    intros q Hq. unfold MongoSearchCache.get.
    set (g := MongoSearchCache.bySlotLive c (MongoSearchCache.getCacheKey sha256 q) now).
    rewrite <- (Mongo.findOne_filter _ g g coll' (fun x H => H)).
    rewrite <- (Mongo.findOne_filter _ g g coll (fun x H => H)).
    unfold coll', MongoSearchCache.clear.
    rewrite (Mongo.filter_deleteOne _ _ g); [reflexivity|].
    intros x Hx. unfold g, MongoSearchCache.bySlotLive.
    apply bySlot_key in Hx. 
    destruct (MongoSearchCache.bySlot c (MongoSearchCache.getCacheKey sha256 q) x) eqn:E;
      [|reflexivity].
    apply bySlot_key in E. congruence.
Qed.

(** X5 on a cache that holds two queries of one user. *)
Lemma cleared_cache_misses_witness :
  let c := MongoSearchCache.new Toy.sha256 "a@x.com" in
  let smith := [("lastName", Json.JString "Smith")] in
  let jones := [("lastName", Json.JString "Jones")] in
  let coll :=
    MongoSearchCache.set Toy.sha256 c jones 2%nat 24 0
      (MongoSearchCache.set Toy.sha256 c smith 1%nat 24 0 []) in
  MongoSearchCache.get Toy.sha256 c smith 5
    (MongoSearchCache.clear Toy.sha256 c (Some smith) coll) = None
  /\ MongoSearchCache.get Toy.sha256 c jones 5
       (MongoSearchCache.clear Toy.sha256 c (Some smith) coll) = Some 2%nat
  /\ MongoSearchCache.get Toy.sha256 c jones 5
       (MongoSearchCache.clear Toy.sha256 c None coll) = None.
Proof.
  intros c smith jones coll.
  pose proof (cleared_cache_misses Toy.sha256 nat c coll) as [Hall Hone].
  assert (Hu : unique_by slot_key coll).
  { unfold unique_by. vm_compute. repeat constructor; simpl; intuition discriminate. }
  destruct (Hone Hu smith 5%Z) as (H1 & _ & H3).
  split; [exact H1|]. split.
  - rewrite H3; [vm_compute; reflexivity|vm_compute; discriminate].
  - apply Hall.
Defined.

(** X6.  What [getCacheInfo] reports agrees with what [get] does.  The
    minutes left are never negative; a hit of [get] is reported as an
    existing entry; when minutes are left, [get] hits; and right after
    [set] the entry is reported with age zero and the whole lifetime
    left. *)
Theorem cache_info_agrees_with_get :
  forall (sha256 : string -> string) (T : Type) (c : MongoSearchCache.t)
         (params : Json.object) (now : Z) (coll : list (MongoSearchCache.CacheEntry T)),
    let info := MongoSearchCache.getCacheInfo sha256 c params now coll in
    (forall m, CacheInfo.expiresIn info = Some m -> (0 <= m)%Z)
    /\ (forall d, MongoSearchCache.get sha256 c params now coll = Some d ->
                  CacheInfo.exists_ info = true)
    /\ (forall m, CacheInfo.expiresIn info = Some m -> (0 < m)%Z ->
                  exists d, MongoSearchCache.get sha256 c params now coll = Some d)
    /\ (forall d h, (0 <= h)%Z ->
          MongoSearchCache.getCacheInfo sha256 c params now
            (MongoSearchCache.set sha256 c params d h now coll)
          = {| CacheInfo.exists_ := true;
               CacheInfo.age := Some 0%Z;
               CacheInfo.expiresIn := Some (h * 60)%Z |}).
Proof.
  intros sha256 T c params now coll info. unfold info.
  split; [|split; [|split]].
  - intros m. unfold MongoSearchCache.getCacheInfo.
    destruct (Mongo.findOne _ coll); simpl; [|discriminate].
    intros [= <-]. apply Z.le_max_l.
  - intros d Hget. apply mongo_get_hit_is_live in Hget.
    destruct Hget as (row & Hin & Hs & _ & _).
    unfold MongoSearchCache.getCacheInfo.
    destruct (Mongo.findOne _ coll) eqn:E; [reflexivity|].
    pose proof (Mongo.findOne_None _ _ _ E row Hin). congruence.
  - intros m. unfold MongoSearchCache.getCacheInfo, MongoSearchCache.get.
    destruct (Mongo.findOne (MongoSearchCache.bySlot c _) coll) as [row|] eqn:E;
      simpl; [|discriminate].
    intros [= <-] Hpos.
    assert (Hlive : (now < MongoSearchCache.expiresAt row)%Z).
    { destruct (Z.ltb_spec now (MongoSearchCache.expiresAt row)) as [|Hle]; [assumption|].
      exfalso. unfold CacheInfo.minutes in Hpos.
      assert ((MongoSearchCache.expiresAt row - now) / 1000 / 60 <= 0)%Z.
      { rewrite Z.div_div by lia. apply Z.div_le_upper_bound; lia. }
      lia. }
    exists (MongoSearchCache.data row).
    assert (Hfind : Mongo.findOne
                      (MongoSearchCache.bySlotLive c (MongoSearchCache.getCacheKey sha256 params) now)
                      coll = Some row).
    { unfold Mongo.findOne in *. clear Hpos.
      induction coll as [|x r IH]; simpl in *; [discriminate|].
      unfold MongoSearchCache.bySlotLive at 1.
      destruct (MongoSearchCache.bySlot c _ x) eqn:Hx.
      - injection E as ->. simpl. apply Z.ltb_lt in Hlive. now rewrite Hlive.
      - simpl. now apply IH. }
    now rewrite Hfind.
  - intros d h Hh. unfold MongoSearchCache.getCacheInfo, MongoSearchCache.set.
    rewrite Mongo.findOne_replaceOne_upsert.
    + unfold CacheInfo.of_stamps. simpl.
      replace (now - now)%Z with 0%Z by lia.
      replace (now + h * 60 * 60 * 1000 - now)%Z with (h * 60 * 60 * 1000)%Z by lia.
      rewrite minutes_of_hours. rewrite Z.max_r by lia. reflexivity.
    + auto.
    + apply bySlot_key. reflexivity.
Qed.

(** X6 on the stale row of the expiry example, and on a fresh entry. *)
Lemma cache_info_agrees_with_get_witness :
  let c := MongoSearchCache.new Toy.sha256 "a@x.com" in
  let smith := [("lastName", Json.JString "Smith")] in
  MongoSearchCache.getCacheInfo Toy.sha256 c smith 86400001 [staleRow]
  = {| CacheInfo.exists_ := true; CacheInfo.age := Some 1440%Z;
       CacheInfo.expiresIn := Some 0%Z |}
  /\ (exists d, MongoSearchCache.get Toy.sha256 c smith 120000 [staleRow] = Some d)
  /\ MongoSearchCache.getCacheInfo Toy.sha256 c smith 7
       (MongoSearchCache.set Toy.sha256 c smith 3%nat 24 7 [staleRow])
     = {| CacheInfo.exists_ := true; CacheInfo.age := Some 0%Z;
          CacheInfo.expiresIn := Some 1440%Z |}.
Proof.
  intros c smith. split; [vm_compute; reflexivity|]. split.
  - apply (proj1 (proj2 (proj2 (cache_info_agrees_with_get Toy.sha256 nat c smith
                                  120000%Z [staleRow]))) 1438%Z).
    + vm_compute. reflexivity.
    + lia.
  - apply (proj2 (proj2 (proj2 (cache_info_agrees_with_get Toy.sha256 nat c smith
                                  7%Z [staleRow]))) 3%nat 24%Z).
    lia.
Defined.

(* ------------------------------------------------------------------ *)
(** ** The file cache: round trip, clearing, and separation by path *)
(* ------------------------------------------------------------------ *)

Lemma writeFileSync_same path content (f : SearchCache.fs) :
  SearchCache.writeFileSync path content f path = Some content.
Proof. unfold SearchCache.writeFileSync. now rewrite String.eqb_refl. Qed.

Lemma writeFileSync_other path content (f : SearchCache.fs) p :
  p <> path -> SearchCache.writeFileSync path content f p = f p.
Proof.
  intros H. unfold SearchCache.writeFileSync.
  destruct (String.eqb_spec p path); [contradiction|reflexivity].
Qed.

(** X7.  The file cache.  An entry written by [set] is returned by [get]
    up to and including the millisecond of its expiry, given that
    [JSON.parse] reads back what [JSON.stringify] wrote for it.
    [clear(params)] makes the entry unreadable ([get] misses and
    [getCacheInfo] reports no entry, given that [JSON.parse] rejects the
    empty string) but the file stays, empty; [clear()] without an argument
    changes nothing, so every entry is still served. *)
Theorem file_cache_set_get_clear :
  forall (T : Type)
         (parse : string -> option (SearchCache.CacheEntry T))
         (stringify : SearchCache.CacheEntry T -> string)
         (c : SearchCache.t) (p : Json.object) (d : T) (h now now' : Z)
         (f : SearchCache.fs),
    let entry :=
      {| SearchCache.data := d; SearchCache.timestamp := now;
         SearchCache.expiresAt := (now + h * 60 * 60 * 1000)%Z |} in
    parse (stringify entry) = Some entry ->
    parse EmptyString = None ->
    (now' <= now + h * 60 * 60 * 1000)%Z ->
    let f' := SearchCache.set stringify c p d h now f in
    SearchCache.get parse c p now' f' = Some d
    /\ SearchCache.get parse c p now' (SearchCache.clear c None f') = Some d
    /\ SearchCache.get parse c p now' (SearchCache.clear c (Some p) f') = None
    /\ SearchCache.getCacheInfo parse c p now' (SearchCache.clear c (Some p) f')
       = CacheInfo.absent
    /\ SearchCache.clear c (Some p) f' (SearchCache.getCacheFilePath c p)
       = Some EmptyString.
Proof.
  intros T parse stringify c p d h now now' f entry Hrt Hempty Hlive f'.
  assert (Hget : SearchCache.get parse c p now' f' = Some d).
  { unfold f', SearchCache.get, SearchCache.set.
    rewrite writeFileSync_same. fold entry. rewrite Hrt. simpl.
    destruct (Z.gtb_spec now' (now + h * 60 * 60 * 1000)); [lia|reflexivity]. }
  assert (Hfile : f' (SearchCache.getCacheFilePath c p) = Some (stringify entry)).
  { unfold f', SearchCache.set. apply writeFileSync_same. }
  split; [exact Hget|]. split; [exact Hget|].
  unfold SearchCache.get, SearchCache.getCacheInfo, SearchCache.clear.
  rewrite Hfile, writeFileSync_same, Hempty. auto.
Qed.

(** X7 with a one-entry serialisation. *)
Lemma file_cache_set_get_clear_witness :
  let parse := fun s : string =>
    if String.eqb s "entry"
    then Some {| SearchCache.data := 7%nat; SearchCache.timestamp := 0;
                 SearchCache.expiresAt := 86400000 |}
    else None in
  let stringify := fun _ : SearchCache.CacheEntry nat => "entry" in
  let c := SearchCache.new Toy.sha256 "/home/u" "a@x.com" in
  let smith := [("lastName", Json.JString "Smith")] in
  let f := SearchCache.set stringify c smith 7%nat 24 0 (fun _ => None) in
  SearchCache.get parse c smith 86400000 f = Some 7%nat
  /\ SearchCache.get parse c smith 86400000 (SearchCache.clear c None f) = Some 7%nat
  /\ SearchCache.get parse c smith 86400000 (SearchCache.clear c (Some smith) f) = None.
Proof.
  intros parse stringify c smith f.
  pose proof (file_cache_set_get_clear nat parse stringify c smith 7%nat 24 0 86400000
                (fun _ => None) eq_refl eq_refl) as H.
  assert (Hle : (86400000 <= 0 + 24 * 60 * 60 * 1000)%Z) by lia.
  destruct (H Hle) as (H1 & H2 & H3 & _).
  split; [exact H1|]. split; [exact H2|exact H3].
Defined.

(** *** Paths of different users *)

Fixpoint has_slash (s : string) : bool :=
  match s with
  | EmptyString => false
  | String c r => Ascii.eqb c "/"%char || has_slash r
  end.

Lemma hex_digit_no_slash n : Ascii.eqb (Json.hex_digit n) "/"%char = false.
Proof.
  unfold Json.hex_digit.
  do 16 (destruct n as [|n]; [reflexivity|]). reflexivity.
Qed.

Lemma hex_no_slash s : has_slash (Encoding.hex s) = false.
Proof.
  induction s as [|c r IH]; simpl; [reflexivity|].
  now rewrite !hex_digit_no_slash, IH.
Qed.

Lemma substring_no_slash n s : has_slash s = false -> has_slash (String.substring 0 n s) = false.
Proof.
  revert s. induction n as [|n IH]; intros [|c r]; simpl; auto.
  intros H. apply orb_false_iff in H. destruct H as [Hc Hr].
  rewrite Hc. simpl. now apply IH.
Qed.

Lemma string_app_inv_head (p a b : string) : p ++ a = p ++ b -> a = b.
Proof. induction p as [|c r IH]; simpl; [auto|]. intros [= H]. auto. Qed.

(** Two path components without a slash that are followed by a slash
    start the same text only when they are equal. *)
Lemma component_inj (a b x y : string) :
  has_slash a = false -> has_slash b = false ->
  a ++ String "/" x = b ++ String "/" y -> a = b.
Proof.
  revert b. induction a as [|c r IH]; intros [|c' r']; simpl; intros Ha Hb E.
  - reflexivity.
  - injection E as <- _. simpl in Hb. discriminate.
  - injection E as -> _. simpl in Ha. discriminate.
  - injection E as <- E. apply orb_false_iff in Ha, Hb.
    f_equal. apply (IH r'); tauto.
Qed.

Section FileCachePaths.

Variable sha256 : string -> string.
Variable homedir : string.

Lemma file_hash_no_slash e : has_slash (SearchCache.hashEmail sha256 e) = false.
Proof.
  unfold SearchCache.hashEmail, JsString.substring0.
  apply substring_no_slash, hex_no_slash.
Qed.

(** The cache files of users with different handles are different files. *)
Lemma cache_paths_differ A B (p q : Json.object) :
  SearchCache.hashEmail sha256 A <> SearchCache.hashEmail sha256 B ->
  SearchCache.getCacheFilePath (SearchCache.new sha256 homedir A) p
  <> SearchCache.getCacheFilePath (SearchCache.new sha256 homedir B) q.
Proof.
  intros Hne E. apply Hne.
  unfold SearchCache.getCacheFilePath, SearchCache.new, SearchCache.join in E.
  cbn [SearchCache.cacheDir] in E.
  rewrite !string_app_assoc in E. apply string_app_inv_head in E.
  simpl in E. injection E as E.
  eapply component_inj; [apply file_hash_no_slash|apply file_hash_no_slash|exact E].
Qed.

End FileCachePaths.

(** The writes of the file cache, run through one instance. *)
Definition run_file_cache_op {T} (stringify : SearchCache.CacheEntry T -> string)
  (c : SearchCache.t) (o : cache_op T) (f : SearchCache.fs) : SearchCache.fs :=
  match o with
  | CacheSet p d h now => SearchCache.set stringify c p d h now f
  | CacheClear p => SearchCache.clear c p f
  end.

(** X8.  The file cache keeps users apart by directory.  When the handles
    of [A] and [B] differ, no sequence of [set] and [clear] calls through
    [A]'s cache touches a cache file of [B], so every [get] and
    [getCacheInfo] of [B] answers as before. *)
Theorem file_cache_isolation :
  forall (sha256 : string -> string) (homedir : string) (T : Type)
         (parse : string -> option (SearchCache.CacheEntry T))
         (stringify : SearchCache.CacheEntry T -> string)
         (A B : string) (ops : list (cache_op T)) (f : SearchCache.fs),
    SearchCache.hashEmail sha256 A <> SearchCache.hashEmail sha256 B ->
    let cacheA := SearchCache.new sha256 homedir A in
    let cacheB := SearchCache.new sha256 homedir B in
    let f' := List.fold_left (fun acc o => run_file_cache_op stringify cacheA o acc) ops f in
    forall q now,
      f' (SearchCache.getCacheFilePath cacheB q) = f (SearchCache.getCacheFilePath cacheB q)
      /\ SearchCache.get parse cacheB q now f' = SearchCache.get parse cacheB q now f
      /\ SearchCache.getCacheInfo parse cacheB q now f'
         = SearchCache.getCacheInfo parse cacheB q now f.
Proof.
  intros sha256 homedir T parse stringify A B ops f Hne cacheA cacheB f' q now.
  assert (Hfile : f' (SearchCache.getCacheFilePath cacheB q)
                  = f (SearchCache.getCacheFilePath cacheB q)).
  { unfold f'. clear f'. revert f.
    induction ops as [|o r IH]; intros f; simpl; [reflexivity|].
    rewrite IH. destruct o as [p d h t|[p|]]; simpl.
    - unfold SearchCache.set. apply writeFileSync_other.
      intros E. symmetry in E. revert E. now apply cache_paths_differ.
    - unfold SearchCache.clear.
      destruct (f (SearchCache.getCacheFilePath cacheA p)); [|reflexivity].
      apply writeFileSync_other.
      intros E. symmetry in E. revert E. now apply cache_paths_differ.
    - reflexivity. }
  split; [exact Hfile|].
  unfold SearchCache.get, SearchCache.getCacheInfo. rewrite Hfile. auto.
Qed.

(** X8 on two concrete users and the same query. *)
Lemma file_cache_isolation_witness :
  let stringify := fun _ : SearchCache.CacheEntry nat => "entry" in
  let parse := fun s : string =>
    if String.eqb s "entry"
    then Some {| SearchCache.data := 7%nat; SearchCache.timestamp := 0;
                 SearchCache.expiresAt := 86400000 |}
    else None in
  let smith := [("lastName", Json.JString "Smith")] in
  let f :=
    run_file_cache_op stringify (SearchCache.new Toy.sha256 "/home/u" "a@x.com")
      (CacheSet smith 7%nat 24 0) (fun _ => None) in
  SearchCache.get parse (SearchCache.new Toy.sha256 "/home/u" "b@x.com") smith 5 f = None
  /\ SearchCache.get parse (SearchCache.new Toy.sha256 "/home/u" "a@x.com") smith 5 f
     = Some 7%nat.
Proof.
  intros stringify parse smith f.
  assert (Hne : SearchCache.hashEmail Toy.sha256 "a@x.com"
                <> SearchCache.hashEmail Toy.sha256 "b@x.com")
    by (vm_compute; discriminate).
  pose proof (file_cache_isolation Toy.sha256 "/home/u" nat parse stringify
                "a@x.com" "b@x.com" [CacheSet smith 7%nat 24 0] (fun _ => None) Hne
                smith 5%Z) as (_ & H & _).
  split; [etransitivity; [exact H|reflexivity]|vm_compute; reflexivity].
Defined.

(* ------------------------------------------------------------------ *)
(** ** The registry of users: reads after writes *)
(* ------------------------------------------------------------------ *)

Section SortedReads.

Variable Doc : Type.
Variable key : Doc -> Z.

Lemma findOne_sort_desc_None (c : list Doc) :
  Mongo.findOne_sort_desc key c = None <-> c = [].
Proof.
  destruct c as [|x r]; simpl; [tauto|].
  destruct (Mongo.findOne_sort_desc key r) as [y|];
    [destruct (key x <? key y)%Z|]; split; discriminate.
Qed.

(** The document found has the greatest key of the collection. *)
Lemma findOne_sort_desc_max (c : list Doc) x :
  Mongo.findOne_sort_desc key c = Some x ->
  In x c /\ forall y, In y c -> (key y <= key x)%Z.
Proof.
  revert x. induction c as [|a r IH]; intros x; simpl; [discriminate|].
  destruct (Mongo.findOne_sort_desc key r) as [b|] eqn:E.
  - destruct (IH b eq_refl) as [Hin Hmax].
    destruct (Z.ltb_spec (key a) (key b)); intros [= <-].
    + split; [now right|]. intros y [<-|Hy]; [lia|now apply Hmax].
    + split; [now left|]. intros y [<-|Hy]; [lia|]. specialize (Hmax y Hy). lia.
  - intros [= <-]. apply findOne_sort_desc_None in E. subst r.
    split; [now left|]. intros y [<-|[]]. lia.
Qed.

Lemma insert_desc_perm x (l : list Doc) :
  Permutation (x :: l) (Mongo.insert_desc key x l).
Proof.
  induction l as [|y r IH]; simpl; [reflexivity|].
  destruct (key x <? key y)%Z; [|reflexivity].
  rewrite perm_swap. now constructor.
Qed.

Lemma find_sort_desc_perm (c : list Doc) : Permutation c (Mongo.find_sort_desc key c).
Proof.
  induction c as [|x r IH]; simpl; [constructor|].
  rewrite <- insert_desc_perm. now constructor.
Qed.

Definition newer_first (a b : Doc) : Prop := (key b <= key a)%Z.

Lemma insert_desc_sorted x (l : list Doc) :
  StronglySorted newer_first l -> StronglySorted newer_first (Mongo.insert_desc key x l).
Proof.
  induction l as [|y r IH]; simpl; intros Hs.
  - repeat constructor.
  - inversion Hs as [|? ? Hr Hall]; subst.
    destruct (Z.ltb_spec (key x) (key y)).
    + constructor; [now apply IH|].
      apply (Permutation_Forall (insert_desc_perm x r)).
      constructor; [unfold newer_first; lia|exact Hall].
    + constructor; [exact Hs|].
      constructor; [unfold newer_first; lia|].
      eapply Forall_impl; [|exact Hall]. unfold newer_first. intros; lia.
Qed.

Lemma find_sort_desc_sorted (c : list Doc) :
  StronglySorted newer_first (Mongo.find_sort_desc key c).
Proof.
  induction c as [|x r IH]; simpl; [constructor|]. now apply insert_desc_sorted.
Qed.

(** [findOne] with a sort is the head of [find] with the same sort. *)
Lemma findOne_sort_desc_head (c : list Doc) :
  Mongo.findOne_sort_desc key c = List.head (Mongo.find_sort_desc key c).
Proof.
  induction c as [|x r IH]; simpl; [reflexivity|].
  rewrite IH. destruct (Mongo.find_sort_desc key r) as [|y l]; simpl; [reflexivity|].
  destruct (key x <? key y)%Z; reflexivity.
Qed.

End SortedReads.

Section Registry.

Variable sha256 : string -> string.

Local Abbreviation User := UserManager.UserConfig.
Local Abbreviation clear := (UserManager.set_isDefault false).
Local Abbreviation hashOf := (UserManager.hashEmail sha256).

Lemma byHash_key h (u : User) :
  UserManager.byHash h u = true <-> UserManager.userHash u = h.
Proof. unfold UserManager.byHash. apply String.eqb_eq. Qed.

(** After [setDefaultUser] the user's record is the first of its handle
    and the only default. *)
Lemma mark_reads e now (coll : list User) :
  exists u,
    Mongo.findOne (UserManager.byHash (hashOf e)) (mark sha256 e now coll) = Some u
    /\ Mongo.findOne UserManager.isDefault (mark sha256 e now coll) = Some u
    /\ UserManager.isDefault u = true
    /\ UserManager.lastUsed u = now
    /\ (forall v, In v (mark sha256 e now coll) -> UserManager.isDefault v = true -> v = u)
    /\ (forall w, Mongo.findOne (UserManager.byHash (hashOf e)) coll = Some w ->
                  UserManager.email u = UserManager.email w
                  /\ UserManager.createdAt u = UserManager.createdAt w)
    /\ (Mongo.findOne (UserManager.byHash (hashOf e)) coll = None ->
        UserManager.email u = JsString.toLowerCase e
        /\ UserManager.createdAt u = now).
Proof.
  induction coll as [|x r IH]; simpl.
  - exists (fresh sha256 e now). unfold UserManager.byHash at 1. simpl.
    rewrite String.eqb_refl. repeat split; auto.
    + intros v [<-|[]] _. reflexivity.
    + discriminate.
    + discriminate.
  - destruct (UserManager.byHash (hashOf e) x) eqn:Hx.
    + exists (promote now (clear x)). simpl.
      change (UserManager.byHash (hashOf e) (promote now (clear x)))
        with (UserManager.byHash (hashOf e) x). rewrite Hx.
      repeat split; auto.
      * intros v [<-|Hv] Hd; [reflexivity|].
        apply List.in_map_iff in Hv. destruct Hv as (y & <- & _). discriminate.
      * injection H as <-. reflexivity.
      * injection H as <-. reflexivity.
      * discriminate.
      * discriminate.
    + destruct IH as (u & H1 & H2 & H3 & H4 & H5 & H6 & H7).
      exists u. simpl.
      change (UserManager.byHash (hashOf e) (clear x))
        with (UserManager.byHash (hashOf e) x). rewrite Hx.
      repeat split; auto.
      * intros v [<-|Hv] Hd; [discriminate|]. now apply H5.
      * now apply H6.
      * now apply H6.
      * now apply H7.
      * now apply H7.
Qed.

Lemma updateOne_In (f : User -> bool) (set : User -> User) (c : list User) v :
  In v (fst (Mongo.updateOne f set c)) ->
  In v c \/ exists x, In x c /\ f x = true /\ v = set x.
Proof.
  induction c as [|y r IH]; simpl; [tauto|].
  destruct (f y) eqn:E; simpl.
  - intros [<-|Hv]; [right; exists y; auto|left; now right].
  - destruct (Mongo.updateOne f set r) as [r' n]. simpl in *.
    intros [<-|Hv]; [left; now left|].
    destruct (IH Hv) as [H|(x & Hx & Hfx & ->)]; [left; now right|].
    right. exists x. auto.
Qed.

Lemma updateOne_length (f : User -> bool) (set : User -> User) (c : list User) :
  List.length (fst (Mongo.updateOne f set c)) = List.length c.
Proof.
  induction c as [|y r IH]; simpl; [reflexivity|].
  destruct (f y); simpl; [reflexivity|].
  destruct (Mongo.updateOne f set r) as [r' n]. simpl in *. now rewrite IH.
Qed.

Lemma updateOne_no_match (f : User -> bool) (set : User -> User) (c : list User) :
  (forall x, In x c -> f x = false) -> fst (Mongo.updateOne f set c) = c.
Proof.
  induction c as [|y r IH]; simpl; [reflexivity|]. intros H.
  rewrite (H y (or_introl eq_refl)).
  destruct (Mongo.updateOne f set r) as [r' n]. simpl in *.
  rewrite IH; [reflexivity|]. intros x Hx. apply H. now right.
Qed.

Lemma updateOne_unstamped (f : User -> bool) now (c : list User) :
  List.map unstamped (fst (Mongo.updateOne f (UserManager.set_lastUsed now) c))
  = List.map unstamped c.
Proof.
  induction c as [|y r IH]; simpl; [reflexivity|].
  destruct (f y); simpl; [reflexivity|].
  destruct (Mongo.updateOne f _ r) as [r' n]. simpl in *. now rewrite IH.
Qed.

Lemma getDefaultUser_unstamped now (c : list User) :
  List.map unstamped (snd (UserManager.getDefaultUser now c)) = List.map unstamped c.
Proof.
  unfold UserManager.getDefaultUser.
  destruct (Mongo.findOne UserManager.isDefault c); simpl; [|reflexivity].
  apply updateOne_unstamped.
Qed.

Lemma getMostRecentUser_None (c : list User) :
  UserManager.getMostRecentUser c = None <-> c = [].
Proof.
  unfold UserManager.getMostRecentUser.
  destruct (Mongo.findOne_sort_desc UserManager.lastUsed c) eqn:E.
  - split; [discriminate|]. intros ->. discriminate.
  - apply findOne_sort_desc_None in E. tauto.
Qed.

Lemma getMostRecentUser_Some (c : list User) e :
  UserManager.getMostRecentUser c = Some e ->
  exists u, In u c /\ UserManager.email u = e
            /\ forall v, In v c -> (UserManager.lastUsed v <= UserManager.lastUsed u)%Z.
Proof.
  unfold UserManager.getMostRecentUser.
  destruct (Mongo.findOne_sort_desc UserManager.lastUsed c) as [u|] eqn:E; [|discriminate].
  intros [= <-]. apply findOne_sort_desc_max in E. exists u. tauto.
Qed.

(** Every address of the registry is a non-empty string. *)
Definition named (c : list User) : Prop :=
  forall u, In u c -> JsString.truthy (UserManager.email u) = true.

Lemma detectUserEmail_default now (c : list User) d :
  Mongo.findOne UserManager.isDefault c = Some d ->
  JsString.truthy (UserManager.email d) = true ->
  fst (UserManager.detectUserEmail now c) = Some (UserManager.email d).
Proof.
  intros Hd Ht. unfold UserManager.detectUserEmail, UserManager.getDefaultUser.
  rewrite Hd. simpl. now rewrite Ht.
Qed.

Lemma detectUserEmail_recent now (c : list User) :
  Mongo.findOne UserManager.isDefault c = None ->
  UserManager.detectUserEmail now c
  = (if UserManager.found (UserManager.getMostRecentUser c)
     then UserManager.getMostRecentUser c else None, c).
Proof.
  intros Hd. unfold UserManager.detectUserEmail, UserManager.getDefaultUser.
  rewrite Hd. simpl. destruct (UserManager.found _); reflexivity.
Qed.

End Registry.

(** X9.  After [setDefaultUser(email)] the registry reads back that user:
    the record found under the user's handle is the default one, stamped
    with the time of the call, it is the only record with the default
    flag, and [getDefaultUser] returns its address.  A user who was
    registered keeps the stored address and creation date; a new user is
    stored under the lower-cased address. *)
Theorem default_user_reads_back :
  forall (sha256 : string -> string) (e : string) (now later : Z)
         (coll : list UserManager.UserConfig),
    let h := UserManager.hashEmail sha256 e in
    let coll' := UserManager.setDefaultUser sha256 e now coll in
    exists u,
      Mongo.findOne (UserManager.byHash h) coll' = Some u
      /\ UserManager.isDefault u = true
      /\ UserManager.lastUsed u = now
      /\ fst (UserManager.getDefaultUser later coll') = Some (UserManager.email u)
      /\ (forall v, In v coll' -> UserManager.isDefault v = true -> v = u)
      /\ (forall w, Mongo.findOne (UserManager.byHash h) coll = Some w ->
                    UserManager.email u = UserManager.email w
                    /\ UserManager.createdAt u = UserManager.createdAt w)
      /\ (Mongo.findOne (UserManager.byHash h) coll = None ->
          UserManager.email u = JsString.toLowerCase e
          /\ UserManager.createdAt u = now).
Proof.
  intros sha256 e now later coll h coll'. unfold coll'.
  rewrite setDefaultUser_is_mark.
  destruct (mark_reads sha256 e now coll) as (u & H1 & H2 & H3 & H4 & H5 & H6 & H7).
  exists u. repeat split; auto; try (now apply H6); try (now apply H7).
  unfold UserManager.getDefaultUser. rewrite H2. reflexivity.
Qed.

(** X9 on a registry where the default moves from one user to another. *)
Lemma default_user_reads_back_witness :
  fst (UserManager.getDefaultUser 9
         (UserManager.setDefaultUser Toy.sha256 "B@x.com" 5
            (UserManager.setDefaultUser Toy.sha256 "a@x.com" 1 [])))
  = Some "b@x.com".
Proof.
  destruct (default_user_reads_back Toy.sha256 "B@x.com" 5 9
              (UserManager.setDefaultUser Toy.sha256 "a@x.com" 1 []))
    as (u & _ & _ & _ & Hget & _ & _ & Hnew).
  rewrite Hget. f_equal. apply Hnew. vm_compute. reflexivity.
Defined.

(** A record of the registry after reads that only stamp [lastUsed] has
    the address of a record that was there before. *)
Lemma unstamped_member (c1 c : list UserManager.UserConfig) u1 :
  List.map unstamped c1 = List.map unstamped c ->
  In u1 c1 ->
  exists u, In u c /\ UserManager.email u = UserManager.email u1.
Proof.
  intros Hmap Hin.
  apply (List.in_map unstamped) in Hin. rewrite Hmap in Hin.
  apply List.in_map_iff in Hin. destruct Hin as (u & Hu & Hin).
  exists u. split; [exact Hin|]. unfold unstamped in Hu. congruence.
Qed.

(** What [detectUserEmail] finds: a non-empty address of the registry;
    and it finds nothing only in an empty registry or in one that holds
    an empty address. *)
Lemma detectUserEmail_result now (c : list UserManager.UserConfig) :
  match fst (UserManager.detectUserEmail now c) with
  | Some e =>
      JsString.truthy e = true /\ exists u, In u c /\ UserManager.email u = e
  | None =>
      c = [] \/ exists u, In u c /\ JsString.truthy (UserManager.email u) = false
  end.
Proof.
  pose proof (getDefaultUser_unstamped now c) as Hst.
  unfold UserManager.detectUserEmail.
  destruct (UserManager.getDefaultUser now c) as [em c1] eqn:Hg. cbn [snd] in Hst.
  assert (Hrecent :
    match (if UserManager.found (UserManager.getMostRecentUser c1)
           then UserManager.getMostRecentUser c1 else None) with
    | Some e => JsString.truthy e = true /\ exists u, In u c /\ UserManager.email u = e
    | None => c = [] \/ exists u, In u c /\ JsString.truthy (UserManager.email u) = false
    end).
  { destruct (UserManager.getMostRecentUser c1) as [e|] eqn:Hr; cbn [UserManager.found].
    - destruct (getMostRecentUser_Some c1 e Hr) as (u1 & Hin1 & He1 & _).
      destruct (unstamped_member c1 c u1 Hst Hin1) as (u & Hin & He).
      destruct (JsString.truthy e) eqn:Ht.
      + split; [first [reflexivity|exact Ht]|]. exists u. split; [exact Hin|congruence].
      + right. exists u. split; [exact Hin|]. congruence.
    - apply getMostRecentUser_None in Hr. subst c1. left.
      destruct c; [reflexivity|discriminate]. }
  unfold UserManager.getDefaultUser in Hg.
  destruct (Mongo.findOne UserManager.isDefault c) as [d|] eqn:Hd.
  - injection Hg as <- <-. cbn [UserManager.found].
    destruct (JsString.truthy (UserManager.email d)) eqn:Ht.
    + cbn [fst]. split; [exact Ht|]. exists d. split; [|reflexivity].
      apply Mongo.findOne_Some in Hd. tauto.
    + destruct (UserManager.found _); exact Hrecent.
  - injection Hg as <- <-. cbn [UserManager.found].
    destruct (UserManager.found _); exact Hrecent.
Qed.

(** X10.  [resolveUserEmail].  A given address is returned as given,
    marked as not auto-detected, and the registry changes in [lastUsed]
    stamps only: an unknown user is not added.  Without an address the
    call also changes stamps only; what it returns is marked
    auto-detected and is a non-empty address of the registry: that of the
    default user when there is one with a non-empty address, and without
    a default user that of a most recently used user.  It throws on an
    empty registry; on a registry whose addresses are all non-empty it
    throws only then.  (An empty address, which [setDefaultUser] stores
    when called with the empty string, can make it throw on a registry
    that is not empty.) *)
Theorem resolve_user_email :
  forall (sha256 : string -> string) (now : Z) (coll : list UserManager.UserConfig),
    (forall e, JsString.truthy e = true ->
       let out := CSGPortalMCPServer.resolveUserEmail sha256 (Some e) now coll in
       fst out = Ok (e, false)
       /\ List.map unstamped (snd out) = List.map unstamped coll)
    /\
    (let out := CSGPortalMCPServer.resolveUserEmail sha256 None now coll in
     List.map unstamped (snd out) = List.map unstamped coll
     /\ (coll = [] -> fst out = Throw CSGPortalMCPServer.noUserMessage)
     /\ (named coll -> fst out = Throw CSGPortalMCPServer.noUserMessage -> coll = [])
     /\ (forall e auto, fst out = Ok (e, auto) ->
           auto = true /\ JsString.truthy e = true
           /\ exists u, In u coll /\ UserManager.email u = e)
     /\ (forall d, Mongo.findOne UserManager.isDefault coll = Some d ->
                   JsString.truthy (UserManager.email d) = true ->
                   fst out = Ok (UserManager.email d, true))
     /\ (Mongo.findOne UserManager.isDefault coll = None ->
         forall e auto, fst out = Ok (e, auto) ->
           exists u, In u coll /\ UserManager.email u = e
                /\ forall v, In v coll ->
                     (UserManager.lastUsed v <= UserManager.lastUsed u)%Z)).
Proof.
  intros sha256 now coll. split.
  - intros e He. unfold CSGPortalMCPServer.resolveUserEmail. simpl. rewrite He. simpl.
    split; [reflexivity|]. apply updateOne_unstamped.
  - cbv zeta.
    assert (Hout :
      fst (CSGPortalMCPServer.resolveUserEmail sha256 None now coll)
      = match fst (UserManager.detectUserEmail now coll) with
        | Some e => if JsString.truthy e then Ok (e, true)
                    else Throw CSGPortalMCPServer.noUserMessage
        | None => Throw CSGPortalMCPServer.noUserMessage
        end).
    { unfold CSGPortalMCPServer.resolveUserEmail. cbn [UserManager.found].
      destruct (UserManager.detectUserEmail now coll) as [[e|] c1];
        cbn [UserManager.found fst]; [|reflexivity].
      destruct (JsString.truthy e); reflexivity. }
    pose proof (detectUserEmail_result now coll) as Hdet.
    rewrite Hout.
    split.
    { pose proof (getDefaultUser_unstamped now coll) as H.
      unfold CSGPortalMCPServer.resolveUserEmail, UserManager.detectUserEmail.
      cbn [UserManager.found].
      destruct (UserManager.getDefaultUser now coll) as [em c1]. cbn [snd] in H.
      destruct (UserManager.found em) eqn:E1.
      - rewrite E1. destruct em; exact H.
      - cbv zeta.
        destruct (UserManager.found (UserManager.getMostRecentUser c1)) eqn:E2.
        + rewrite E2. destruct (UserManager.getMostRecentUser c1); exact H.
        + exact H. }
    split; [|split; [|split; [|split]]].
    + intros ->. reflexivity.
    + intros Hnamed.
      destruct (fst (UserManager.detectUserEmail now coll)) as [e|].
      * destruct Hdet as [Ht _]. rewrite Ht. discriminate.
      * intros _. destruct Hdet as [Hc|(u & Hin & Hu)]; [exact Hc|].
        rewrite (Hnamed u Hin) in Hu. discriminate.
    + intros e auto.
      destruct (fst (UserManager.detectUserEmail now coll)) as [e'|]; [|discriminate].
      destruct Hdet as [Ht Hu]. rewrite Ht. intros [= <- <-]. auto.
    + intros d Hd Ht. rewrite (detectUserEmail_default now coll d Hd Ht).
      now rewrite Ht.
    + intros Hd e auto. rewrite (detectUserEmail_recent now coll Hd). cbn [fst].
      destruct (UserManager.getMostRecentUser coll) as [e'|] eqn:Hr;
        cbn [UserManager.found]; [|discriminate].
      destruct (JsString.truthy e') eqn:Ht; [|discriminate].
      rewrite Ht. intros [= <- <-]. now apply getMostRecentUser_Some.
Qed.

(** X10 on a registry of two users without a default, and on the
    registry [setDefaultUser] leaves when called with the empty string. *)
Lemma resolve_user_email_witness :
  let coll :=
    UserManager.addUser Toy.sha256 "b@x.com" false 7
      (UserManager.addUser Toy.sha256 "a@x.com" false 3 []) in
  fst (CSGPortalMCPServer.resolveUserEmail Toy.sha256 (Some "New@x.com") 9 coll)
  = Ok ("New@x.com", false)
  /\ List.length (snd (CSGPortalMCPServer.resolveUserEmail Toy.sha256 (Some "New@x.com") 9 coll))
     = 2%nat
  /\ fst (CSGPortalMCPServer.resolveUserEmail Toy.sha256 None 9 coll) = Ok ("b@x.com", true)
  /\ fst (CSGPortalMCPServer.resolveUserEmail Toy.sha256 None 9 coll)
     <> Throw CSGPortalMCPServer.noUserMessage
  /\ fst (CSGPortalMCPServer.resolveUserEmail Toy.sha256 None 9
            (UserManager.setDefaultUser Toy.sha256 EmptyString 5 []))
     = Throw CSGPortalMCPServer.noUserMessage.
Proof.
  intros coll.
  assert (Hnamed : named coll).
  { intros u [<-|[<-|[]]]; reflexivity. }
  pose proof (resolve_user_email Toy.sha256 9 coll) as [Hgiven (_ & _ & Honly & _)].
  destruct (Hgiven "New@x.com" eq_refl) as [H1 H2].
  split; [exact H1|]. split; [|split; [|split]].
  - rewrite <- (List.length_map unstamped), H2. reflexivity.
  - vm_compute. reflexivity.
  - intros Hthrow. specialize (Honly Hnamed Hthrow). discriminate.
  - vm_compute. reflexivity.
Defined.

(* ------------------------------------------------------------------ *)
(** ** The registry of users: what every write preserves *)
(* ------------------------------------------------------------------ *)

Section Preserved.

Variable Doc : Type.
Variable P : Doc -> Prop.

Lemma replaceOne_upsert_Forall (f : Doc -> bool) d (c : list Doc) :
  P d -> Forall P c -> Forall P (Mongo.replaceOne_upsert f d c).
Proof.
  intros Hd Hc. unfold Mongo.replaceOne_upsert.
  destruct (Mongo.replaceFirst f d c) as [c'|] eqn:E.
  - revert c' E. induction Hc as [|x r Hx Hr IH]; intros c'; simpl; [discriminate|].
    destruct (f x).
    + intros [= <-]. now constructor.
    + destruct (Mongo.replaceFirst f d r) as [r'|]; [|discriminate].
      intros [= <-]. constructor; [exact Hx|now apply IH].
  - apply Forall_app. split; [exact Hc|now constructor].
Qed.

Lemma updateOne_Forall (f : Doc -> bool) (set : Doc -> Doc) (c : list Doc) :
  (forall x, P x -> P (set x)) -> Forall P c -> Forall P (fst (Mongo.updateOne f set c)).
Proof.
  intros Hs Hc. induction Hc as [|x r Hx Hr IH]; simpl; [constructor|].
  destruct (f x); simpl; [constructor; auto|].
  destruct (Mongo.updateOne f set r) as [r' n]. simpl in *. now constructor.
Qed.

Lemma updateMany_Forall (f : Doc -> bool) (set : Doc -> Doc) (c : list Doc) :
  (forall x, P x -> P (set x)) -> Forall P c -> Forall P (Mongo.updateMany f set c).
Proof.
  intros Hs Hc. unfold Mongo.updateMany.
  induction Hc as [|x r Hx Hr IH]; simpl; constructor; auto.
  destruct (f x); auto.
Qed.

Lemma deleteOne_Forall (f : Doc -> bool) (c : list Doc) :
  Forall P c -> Forall P (Mongo.deleteOne f c).
Proof.
  intros Hc. induction Hc as [|x r Hx Hr IH]; simpl; [constructor|].
  destruct (f x); [exact Hr|now constructor].
Qed.

End Preserved.

Section UpsertMembers.

Variables (Doc K : Type) (key : Doc -> K).

(** After an upsert by key into a collection without duplicate keys, the
    documents are the one written and the former ones of other keys. *)
Lemma replaceOne_upsert_In (f : Doc -> bool) d (c : list Doc) v :
  (forall x, f x = true <-> key x = key d) ->
  unique_by key c ->
  In v (Mongo.replaceOne_upsert f d c) ->
  v = d \/ (In v c /\ f v = false).
Proof.
  intros Hf Hu. unfold Mongo.replaceOne_upsert.
  destruct (Mongo.replaceFirst f d c) as [c'|] eqn:E.
  - revert c' E. unfold unique_by in Hu.
    induction c as [|x r IH]; intros c'; simpl; [discriminate|].
    inversion Hu as [|? ? Hn Hr]; subst.
    destruct (f x) eqn:Hx.
    + intros [= <-] [<-|Hv]; [now left|]. right. split; [now right|].
      destruct (f v) eqn:Hfv; [|reflexivity]. exfalso. apply Hn.
      apply Hf in Hx, Hfv. rewrite Hx, <- Hfv. now apply List.in_map.
    + destruct (Mongo.replaceFirst f d r) as [r'|]; [|discriminate].
      intros [= <-] [<-|Hv]; [right; split; [now left|exact Hx]|].
      destruct (IH Hr r' eq_refl Hv) as [->|[Hin Hfv]]; [now left|].
      right. split; [now right|exact Hfv].
  - intros Hv. apply List.in_app_iff in Hv. destruct Hv as [Hv|[<-|[]]]; [|now left].
    right. split; [exact Hv|]. eapply replaceFirst_None; eauto.
Qed.

Lemma countDocuments_zero (f : Doc -> bool) (c : list Doc) :
  Mongo.countDocuments f c = 0%nat -> forall x, In x c -> f x = false.
Proof.
  unfold Mongo.countDocuments. induction c as [|y r IH]; simpl; [intros _ x []|].
  destruct (f y) eqn:E; simpl; [discriminate|].
  intros H x [<-|Hx]; [exact E|now apply IH].
Qed.

(** When one document satisfies [f], it is the one [findOne] returns. *)
Lemma the_only_one (f : Doc -> bool) (c : list Doc) d :
  Mongo.countDocuments f c = 1%nat ->
  Mongo.findOne f c = Some d ->
  forall v, In v c -> f v = true -> v = d.
Proof.
  unfold Mongo.countDocuments, Mongo.findOne.
  induction c as [|y r IH]; simpl; [discriminate|].
  destruct (f y) eqn:E; simpl.
  - intros [= H0] [= <-] v [<-|Hv] Hfv; [reflexivity|].
    pose proof (countDocuments_zero f r H0 v Hv). congruence.
  - intros H1 Hd v [<-|Hv] Hfv; [congruence|]. now apply IH.
Qed.

End UpsertMembers.

(** The operations of [UserManager] that touch the collection. *)
Inductive user_op : Type :=
| UserAdd (e : string) (isDefault : bool) (now : Z)
| UserSetDefault (e : string) (now : Z)
| UserGetDefault (now : Z)
| UserTouch (e : string) (now : Z)
| UserRemove (e : string).

Section RegistryInvariant.

Variable sha256 : string -> string.

Local Abbreviation User := UserManager.UserConfig.
Local Abbreviation clear := (UserManager.set_isDefault false).
Local Abbreviation hashOf := (UserManager.hashEmail sha256).

Definition run_user_op (o : user_op) (coll : list User) : list User :=
  match o with
  | UserAdd e d now => UserManager.addUser sha256 e d now coll
  | UserSetDefault e now => UserManager.setDefaultUser sha256 e now coll
  | UserGetDefault now => snd (UserManager.getDefaultUser now coll)
  | UserTouch e now => UserManager.updateLastUsed sha256 e now coll
  | UserRemove e => UserManager.removeUser sha256 e coll
  end.

(** A record as [addUser] writes it: the address lower-cased, the handle
    computed from it. *)
Definition consistent (u : User) : Prop :=
  UserManager.userHash u = hashOf (UserManager.email u)
  /\ JsString.toLowerCase (UserManager.email u) = UserManager.email u.

(** What the two unique indexes and [addUser] promise together. *)
Definition registry_ok (coll : list User) : Prop :=
  unique_by UserManager.userHash coll /\ Forall consistent coll.

Lemma hashOf_lowercase e : hashOf (JsString.toLowerCase e) = hashOf e.
Proof. unfold UserManager.hashEmail. now rewrite JsString.toLowerCase_idem. Qed.

Lemma addUser_ok e d now (coll : list User) :
  registry_ok coll -> registry_ok (UserManager.addUser sha256 e d now coll).
Proof.
  intros [Hu Hc]. unfold UserManager.addUser.
  set (c1 := if d then Mongo.updateMany UserManager.isDefault clear coll else coll).
  assert (Hu1 : unique_by UserManager.userHash c1).
  { unfold c1. destruct d; [|exact Hu]. unfold unique_by.
    rewrite updateMany_keys; [exact Hu|reflexivity]. }
  assert (Hc1 : Forall consistent c1).
  { unfold c1. destruct d; [|exact Hc]. apply updateMany_Forall; [|exact Hc].
    intros x Hx. exact Hx. }
  split.
  - apply unique_replaceOne_upsert; [|exact Hu1]. intros x. apply byHash_key.
  - apply replaceOne_upsert_Forall; [|exact Hc1].
    split; simpl; [now rewrite hashOf_lowercase|apply JsString.toLowerCase_idem].
Qed.

Lemma updateOne_ok (f : User -> bool) (set : User -> User) (coll : list User) :
  (forall x, UserManager.userHash (set x) = UserManager.userHash x) ->
  (forall x, UserManager.email (set x) = UserManager.email x) ->
  registry_ok coll -> registry_ok (fst (Mongo.updateOne f set coll)).
Proof.
  intros Hh He [Hu Hc]. split.
  - unfold unique_by. rewrite updateOne_keys; [exact Hu|exact Hh].
  - apply updateOne_Forall; [|exact Hc].
    intros x [H1 H2]. unfold consistent. now rewrite Hh, He.
Qed.

Lemma run_user_op_ok (o : user_op) (coll : list User) :
  registry_ok coll -> registry_ok (run_user_op o coll).
Proof.
  intros Hok. destruct o as [e d now|e now|now|e now|e]; simpl.
  - now apply addUser_ok.
  - unfold UserManager.setDefaultUser.
    set (c1 := Mongo.updateMany (fun _ => true) clear coll).
    assert (H1 : registry_ok c1).
    { destruct Hok as [Hu Hc]. split.
      - unfold unique_by, c1. rewrite updateMany_keys; [exact Hu|reflexivity].
      - apply updateMany_Forall; [|exact Hc]. intros x Hx. exact Hx. }
    pose proof (updateOne_ok (UserManager.byHash (hashOf e))
                  (fun u => UserManager.set_lastUsed now (UserManager.set_isDefault true u))
                  c1 (fun _ => eq_refl) (fun _ => eq_refl) H1) as H2.
    destruct (Mongo.updateOne _ _ c1) as [c2 n]. cbn [fst] in H2.
    destruct (n =? 0)%nat; [now apply addUser_ok|exact H2].
  - unfold UserManager.getDefaultUser.
    destruct (Mongo.findOne UserManager.isDefault coll); [|exact Hok].
    cbn [snd]. apply updateOne_ok; auto.
  - apply updateOne_ok; auto.
  - destruct Hok as [Hu Hc]. split.
    + now apply unique_deleteOne.
    + now apply deleteOne_Forall.
Qed.

Lemma emails_unique (coll : list User) :
  registry_ok coll -> NoDup (List.map UserManager.email coll).
Proof.
  intros [Hu Hc]. unfold unique_by in Hu.
  induction coll as [|x r IH]; simpl; [constructor|].
  inversion Hu as [|? ? Hn Hr]; subst. inversion Hc as [|? ? Hx Hcr]; subst.
  constructor; [|now apply IH].
  intros Hin. apply Hn. apply List.in_map_iff in Hin.
  destruct Hin as (y & Hy & Hyr). apply List.in_map_iff. exists y.
  split; [|exact Hyr].
  rewrite List.Forall_forall in Hcr. destruct (Hcr y Hyr) as [Hhy _].
  destruct Hx as [Hhx _]. now rewrite Hhy, Hhx, Hy.
Qed.

Lemma detectUserEmail_unstamped now (coll : list User) :
  List.map unstamped (snd (UserManager.detectUserEmail now coll))
  = List.map unstamped coll.
Proof.
  pose proof (getDefaultUser_unstamped now coll) as H.
  unfold UserManager.detectUserEmail.
  destruct (UserManager.getDefaultUser now coll) as [em c1]. cbn [snd] in H.
  destruct (UserManager.found em); [exact H|].
  destruct (UserManager.found (UserManager.getMostRecentUser c1)); exact H.
Qed.

Lemma resolveUserEmail_unstamped provided now (coll : list User) :
  List.map unstamped (snd (CSGPortalMCPServer.resolveUserEmail sha256 provided now coll))
  = List.map unstamped coll.
Proof.
  unfold CSGPortalMCPServer.resolveUserEmail.
  destruct (UserManager.found provided).
  - destruct provided as [e|]; [|reflexivity]. apply updateOne_unstamped.
  - pose proof (detectUserEmail_unstamped now coll) as H.
    destruct (UserManager.detectUserEmail now coll) as [d c1]. cbn [snd] in H.
    destruct (UserManager.found d); [|exact H].
    destruct d; exact H.
Qed.

End RegistryInvariant.

(** X11.  Every operation of [UserManager] keeps the registry within its
    two unique indexes: from a registry with one record per handle, each
    holding a lower-cased address and the handle computed from it, no
    sequence of [addUser], [setDefaultUser], [getDefaultUser],
    [updateLastUsed] and [removeUser] produces two records with the same
    handle or the same address; and after [removeUser] no record of that
    user is left. *)
Theorem registry_operations_keep_indexes :
  forall (sha256 : string -> string) (ops : list user_op)
         (coll : list UserManager.UserConfig),
    registry_ok sha256 coll ->
    let coll' := List.fold_left (fun acc o => run_user_op sha256 o acc) ops coll in
    NoDup (List.map UserManager.userHash coll')
    /\ NoDup (List.map UserManager.email coll')
    /\ Forall (consistent sha256) coll'
    /\ (forall e,
           Mongo.findOne (UserManager.byHash (UserManager.hashEmail sha256 e))
             (UserManager.removeUser sha256 e coll') = None).
Proof.
  intros sha256 ops coll Hok coll'.
  assert (Hok' : registry_ok sha256 coll').
  { unfold coll'. clear coll'. revert coll Hok.
    induction ops as [|o r IH]; intros coll Hok; simpl; [exact Hok|].
    apply IH. now apply run_user_op_ok. }
  split; [exact (proj1 Hok')|]. split; [now apply (emails_unique sha256)|].
  split; [exact (proj2 Hok')|].
  intros e. apply findOne_none_of.
  apply (deleteOne_removes _ _ UserManager.userHash _ (UserManager.hashEmail sha256 e));
    [|exact (proj1 Hok')].
  intros x. apply byHash_key.
Qed.

(** X11 from the empty registry. *)
Lemma registry_operations_keep_indexes_witness :
  let coll' :=
    List.fold_left (fun acc o => run_user_op Toy.sha256 o acc)
      [UserAdd "a@x.com" true 1; UserSetDefault "B@x.com" 2; UserAdd "A@X.com" false 3;
       UserGetDefault 4; UserTouch "a@x.com" 5; UserRemove "b@x.com"]
      [] in
  NoDup (List.map UserManager.email coll')
  /\ List.map UserManager.email coll' = ["a@x.com"].
Proof.
  intros coll'.
  assert (Hok : registry_ok Toy.sha256 []) by (split; constructor).
  pose proof (registry_operations_keep_indexes Toy.sha256
                [UserAdd "a@x.com" true 1; UserSetDefault "B@x.com" 2;
                 UserAdd "A@X.com" false 3; UserGetDefault 4; UserTouch "a@x.com" 5;
                 UserRemove "b@x.com"] [] Hok) as (_ & H & _).
  split; [exact H|vm_compute; reflexivity].
Defined.

(** X12.  Registration at login (the lines of [handleBrowserAuthentication]
    before the login itself).  Into an empty registry the user is written
    as the default user.  Into a registry that holds anyone, the user's
    record is overwritten with the default flag off and a new creation
    date; so when the user logging in is the default user, also when that
    user was found by auto-detection, the registry is left without a
    default user. *)
Theorem login_registration_default_flag :
  forall (sha256 : string -> string) (provided : option string) (now later : Z)
         (coll : list UserManager.UserConfig) (e : string) (auto : bool),
    fst (CSGPortalMCPServer.resolveUserEmail sha256 provided now coll) = Ok (e, auto) ->
    let out := CSGPortalMCPServer.registerForLogin sha256 provided now coll in
    fst out = Ok e
    /\ (coll = [] -> snd out = [fresh sha256 e now])
    /\ (coll <> [] ->
        unique_by UserManager.userHash coll ->
        (exists u,
            Mongo.findOne (UserManager.byHash (UserManager.hashEmail sha256 e)) (snd out)
            = Some u
            /\ UserManager.isDefault u = false
            /\ UserManager.createdAt u = now
            /\ UserManager.email u = JsString.toLowerCase e)
        /\ (forall d,
               Mongo.findOne UserManager.isDefault coll = Some d ->
               UserManager.defaults coll = 1%nat ->
               UserManager.userHash d = UserManager.hashEmail sha256 e ->
               UserManager.defaults (snd out) = 0%nat
               /\ fst (UserManager.getDefaultUser later (snd out)) = None)).
Proof.
  intros sha256 provided now later coll e auto Hres out.
  pose proof (resolveUserEmail_unstamped sha256 provided now coll) as Hst.
  unfold out, CSGPortalMCPServer.registerForLogin, bind.
  destruct (CSGPortalMCPServer.resolveUserEmail sha256 provided now coll) as [r c1].
  cbn [fst snd] in *. subst r. cbn [fst snd].
  split; [reflexivity|]. split.
  - intros ->. destruct c1; [reflexivity|discriminate].
  - intros Hne Hu.
    assert (Hlen : List.length c1 = List.length coll).
    { rewrite <- (List.length_map unstamped c1), Hst. apply List.length_map. }
    assert (Hhas : UserManager.hasUsers c1 = true).
    { unfold UserManager.hasUsers, Mongo.countDocuments.
      destruct coll; [contradiction|]. destruct c1; [discriminate|reflexivity]. }
    rewrite Hhas. cbn [negb]. unfold UserManager.addUser.
    set (cfg := {| UserManager.userHash := UserManager.hashEmail sha256 e;
                   UserManager.email := JsString.toLowerCase e;
                   UserManager.isDefault := false;
                   UserManager.createdAt := now;
                   UserManager.lastUsed := now |}).
    set (h := UserManager.hashEmail sha256 e).
    assert (Hcfg : UserManager.byHash h cfg = true) by (apply byHash_key; reflexivity).
    split.
    + exists cfg. split; [|auto].
      apply Mongo.findOne_replaceOne_upsert; auto.
    + intros d Hd Hone Hdh.
      assert (Hnone : forall v,
                In v (Mongo.replaceOne_upsert (UserManager.byHash h) cfg c1) ->
                UserManager.isDefault v = false).
      { intros v Hv.
        assert (Hu1 : unique_by UserManager.userHash c1).
        { unfold unique_by in *.
          replace (List.map UserManager.userHash c1)
            with (List.map (fun t => fst (fst (fst t))) (List.map unstamped c1))
            by (rewrite List.map_map; reflexivity).
          rewrite Hst, List.map_map. exact Hu. }
        apply (replaceOne_upsert_In _ _ UserManager.userHash) in Hv;
          [|intros x; apply byHash_key|exact Hu1].
        destruct Hv as [->|[Hv Hfv]]; [reflexivity|].
        destruct (UserManager.isDefault v) eqn:Hdv; [|reflexivity]. exfalso.
        assert (Hin : In (unstamped v) (List.map unstamped coll))
          by (rewrite <- Hst; now apply List.in_map).
        apply List.in_map_iff in Hin. destruct Hin as (x & Hxv & Hx).
        assert (Hdx : UserManager.isDefault x = true).
        { unfold unstamped in Hxv. injection Hxv as _ _ H _. congruence. }
        assert (Hhx : UserManager.userHash x = UserManager.userHash v).
        { unfold unstamped in Hxv. now injection Hxv as H _ _ _. }
        pose proof (the_only_one _ UserManager.isDefault coll d Hone Hd x Hx Hdx) as ->.
        assert (UserManager.byHash h v = true) by (apply byHash_key; congruence).
        congruence. }
      split.
      * now apply countDocuments_none_of.
      * unfold UserManager.getDefaultUser.
        now rewrite (findOne_none_of _ _ _ Hnone).
Qed.

(** X12: the default user logs in without naming herself. *)
Lemma login_registration_default_flag_witness :
  let coll := UserManager.setDefaultUser Toy.sha256 "a@x.com" 1 [] in
  let out := CSGPortalMCPServer.registerForLogin Toy.sha256 None 5 coll in
  fst out = Ok "a@x.com"
  /\ UserManager.defaults coll = 1%nat
  /\ UserManager.defaults (snd out) = 0%nat
  /\ snd (CSGPortalMCPServer.registerForLogin Toy.sha256 (Some "a@x.com") 5 [])
     = [fresh Toy.sha256 "a@x.com" 5].
Proof.
  intros coll out.
  pose proof (login_registration_default_flag Toy.sha256 None 5 9 coll "a@x.com" true
                eq_refl) as (H1 & _ & H3).
  pose proof (login_registration_default_flag Toy.sha256 (Some "a@x.com") 5 9 []
                "a@x.com" false eq_refl) as (_ & H2' & _).
  assert (Hne : coll <> []) by discriminate.
  assert (Hu : unique_by UserManager.userHash coll).
  { unfold unique_by. vm_compute. repeat constructor. simpl. tauto. }
  destruct (H3 Hne Hu) as [_ Hd].
  destruct (Hd (fresh Toy.sha256 "a@x.com" 1) eq_refl eq_refl eq_refl) as [H0 _].
  split; [exact H1|]. split; [reflexivity|]. split; [exact H0|].
  apply H2'. reflexivity.
Defined.

Section DistinctKeys.

Variable Doc : Type.
Variable key : Doc -> Z.

Lemma same_key_same_document (l : list Doc) a b :
  NoDup (List.map key l) -> In a l -> In b l -> key a = key b -> a = b.
Proof.
  induction l as [|x r IH]; simpl; [tauto|].
  intros Hnd Ha Hb Hk. inversion Hnd as [|? ? Hx Hr]; subst.
  destruct Ha as [<-|Ha], Hb as [<-|Hb]; auto.
  - exfalso. apply Hx. rewrite Hk. now apply List.in_map.
  - exfalso. apply Hx. rewrite <- Hk. now apply List.in_map.
Qed.

(** With distinct keys there is one way to list a collection greatest
    key first: whatever order a sort gives to equal keys, it returns the
    same list. *)
Lemma descending_listing_unique (l1 l2 : list Doc) :
  NoDup (List.map key l1) ->
  Permutation l1 l2 ->
  StronglySorted (newer_first Doc key) l1 ->
  StronglySorted (newer_first Doc key) l2 ->
  l1 = l2.
Proof.
  revert l2. induction l1 as [|a r1 IH]; intros l2 Hnd Hp Hs1 Hs2.
  - apply Permutation_nil in Hp. now subst.
  - destruct l2 as [|b r2]; [apply Permutation_sym, Permutation_nil in Hp; discriminate|].
    inversion Hs1 as [|? ? Hr1 Ha]; subst. inversion Hs2 as [|? ? Hr2 Hb]; subst.
    assert (Ha2 : In a (b :: r2)) by (apply (Permutation_in _ Hp); now left).
    assert (Hb1 : In b (a :: r1))
      by (apply (Permutation_in _ (Permutation_sym Hp)); now left).
    assert (Hab : key a = key b).
    { apply Z.le_antisymm.
      - destruct Ha2 as [->|Hin]; [lia|].
        rewrite Forall_forall in Hb. apply (Hb a Hin).
      - destruct Hb1 as [->|Hin]; [lia|].
        rewrite Forall_forall in Ha. apply (Ha b Hin). }
    assert (E : a = b).
    { apply (same_key_same_document (a :: r1)); auto. now left. }
    subst b. f_equal. apply IH; auto.
    + now inversion Hnd.
    + now apply Permutation_cons_inv in Hp.
Qed.

(** With distinct keys a document of greatest key is the one [findOne]
    with the sort returns. *)
Lemma greatest_is_found (c : list Doc) u :
  NoDup (List.map key c) ->
  In u c -> (forall v, In v c -> (key v <= key u)%Z) ->
  Mongo.findOne_sort_desc key c = Some u.
Proof.
  intros Hnd Hin Hmax.
  destruct (Mongo.findOne_sort_desc key c) as [x|] eqn:E.
  - apply findOne_sort_desc_max in E. destruct E as [Hx Hxmax].
    f_equal. apply (same_key_same_document c); auto.
    apply Z.le_antisymm; auto.
  - apply findOne_sort_desc_None in E. subst c. destruct Hin.
Qed.

End DistinctKeys.

(** X13.  Reads of the registry by [lastUsed], when no two records carry
    the same stamp.  Every listing of the records, each once, most
    recently used first, is the list [getAllUsers] returns; and the record
    with the latest stamp is the user [getMostRecentUser] returns and the
    first of [getAllUsers].  (MongoDB leaves the order among equal stamps
    open; with distinct stamps the answer does not depend on it.) *)
Theorem all_users_most_recent_first :
  forall (coll : list UserManager.UserConfig),
    NoDup (List.map UserManager.lastUsed coll) ->
    let row := fun u => (UserManager.email u, UserManager.isDefault u,
                         UserManager.lastUsed u) in
    (forall listing,
        Permutation coll listing ->
        StronglySorted
          (fun a b => (UserManager.lastUsed b <= UserManager.lastUsed a)%Z) listing ->
        UserManager.getAllUsers coll = List.map row listing)
    /\ (forall u,
           In u coll ->
           (forall v, In v coll -> (UserManager.lastUsed v <= UserManager.lastUsed u)%Z) ->
           UserManager.getMostRecentUser coll = Some (UserManager.email u)
           /\ List.head (UserManager.getAllUsers coll) = Some (row u)).
Proof.
  intros coll Hnd row. split.
  - intros listing Hp Hs. unfold UserManager.getAllUsers. f_equal.
    apply (descending_listing_unique _ UserManager.lastUsed).
    + apply (Permutation_NoDup
               (Permutation_map UserManager.lastUsed
                  (find_sort_desc_perm _ UserManager.lastUsed coll)) Hnd).
    + rewrite <- (find_sort_desc_perm _ UserManager.lastUsed coll). exact Hp.
    + apply find_sort_desc_sorted.
    + exact Hs.
  - intros u Hin Hmax.
    pose proof (greatest_is_found _ UserManager.lastUsed coll u Hnd Hin Hmax) as Hfound.
    unfold UserManager.getMostRecentUser, UserManager.getAllUsers.
    rewrite Hfound. split; [reflexivity|].
    rewrite findOne_sort_desc_head in Hfound.
    destruct (Mongo.find_sort_desc UserManager.lastUsed coll) as [|x l];
      [discriminate|].
    injection Hfound as ->. reflexivity.
Qed.

(** X13 on a registry of three users stored oldest first. *)
Lemma all_users_most_recent_first_witness :
  let coll :=
    UserManager.addUser Toy.sha256 "c@x.com" false 9
      (UserManager.addUser Toy.sha256 "b@x.com" true 7
         (UserManager.addUser Toy.sha256 "a@x.com" false 3 [])) in
  UserManager.getAllUsers coll
  = [("c@x.com", false, 9%Z); ("b@x.com", true, 7%Z); ("a@x.com", false, 3%Z)]
  /\ UserManager.getMostRecentUser coll = Some "c@x.com".
Proof.
  intros coll.
  assert (Hnd : NoDup (List.map UserManager.lastUsed coll)).
  { vm_compute. repeat constructor; simpl; intuition discriminate. }
  destruct (all_users_most_recent_first coll Hnd) as [Hall Hfirst].
  split.
  - rewrite (Hall (List.rev coll)).
    + vm_compute. reflexivity.
    + apply Permutation_rev.
    + vm_compute. repeat constructor; discriminate.
  - apply (Hfirst {| UserManager.userHash := UserManager.hashEmail Toy.sha256 "c@x.com";
                     UserManager.email := "c@x.com";
                     UserManager.isDefault := false;
                     UserManager.createdAt := 9;
                     UserManager.lastUsed := 9 |}).
    + vm_compute. auto.
    + intros v Hv. vm_compute in Hv.
      destruct Hv as [<-|[<-|[<-|[]]]]; vm_compute; discriminate.
Defined.

(** X14.  A call that names a registered user makes that user the one
    found by auto-detection afterwards, as long as the registry has no
    default user and the clock has moved past every stored stamp. *)
Theorem named_user_becomes_most_recent :
  forall (sha256 : string -> string) (e : string) (now later : Z)
         (coll : list UserManager.UserConfig) (u : UserManager.UserConfig),
    JsString.truthy e = true ->
    Mongo.findOne (UserManager.byHash (UserManager.hashEmail sha256 e)) coll = Some u ->
    JsString.truthy (UserManager.email u) = true ->
    Mongo.findOne UserManager.isDefault coll = None ->
    (forall v, In v coll -> (UserManager.lastUsed v < now)%Z) ->
    let coll1 := snd (CSGPortalMCPServer.resolveUserEmail sha256 (Some e) now coll) in
    fst (CSGPortalMCPServer.resolveUserEmail sha256 None later coll1)
    = Ok (UserManager.email u, true).
Proof.
  intros sha256 e now later coll u He Hu Ht Hnd Hold coll1.
  assert (Hc1 : coll1 = UserManager.updateLastUsed sha256 e now coll).
  { unfold coll1, CSGPortalMCPServer.resolveUserEmail. simpl. now rewrite He. }
  set (h := UserManager.hashEmail sha256 e) in *.
  set (u' := UserManager.set_lastUsed now u).
  assert (Hmem : In u' coll1
                 /\ forall v, In v coll1 -> v = u' \/ (UserManager.lastUsed v < now)%Z).
  { rewrite Hc1. unfold UserManager.updateLastUsed. fold h.
    clear Hc1 coll1 Hnd. unfold Mongo.findOne in Hu.
    induction coll as [|x r IH]; simpl in *; [discriminate|].
    destruct (UserManager.byHash h x) eqn:Hx.
    - injection Hu as ->. simpl. split; [now left|].
      intros v [<-|Hv]; [now left|]. right. apply Hold. now right.
    - destruct (Mongo.updateOne _ _ r) as [r' n]. simpl in *.
      destruct (IH Hu (fun v Hv => Hold v (or_intror Hv))) as [Hin Hrest].
      split; [now right|].
      intros v [<-|Hv]; [right; apply Hold; now left|now apply Hrest]. }
  destruct Hmem as [Hin Hrest].
  assert (Hnd1 : Mongo.findOne UserManager.isDefault coll1 = None).
  { apply findOne_none_of. intros v Hv.
    assert (Hin' : In (unstamped v) (List.map unstamped coll)).
    { rewrite <- (resolveUserEmail_unstamped sha256 (Some e) now coll).
      now apply List.in_map. }
    apply List.in_map_iff in Hin'. destruct Hin' as (x & Hxv & Hx).
    pose proof (Mongo.findOne_None _ _ _ Hnd x Hx) as Hdx.
    unfold unstamped in Hxv. injection Hxv as _ _ H _. congruence. }
  assert (Hrecent : UserManager.getMostRecentUser coll1 = Some (UserManager.email u)).
  { unfold UserManager.getMostRecentUser.
    destruct (Mongo.findOne_sort_desc UserManager.lastUsed coll1) as [z|] eqn:Ez.
    - apply findOne_sort_desc_max in Ez. destruct Ez as [Hz Hmax].
      destruct (Hrest z Hz) as [->|Hlt]; [reflexivity|].
      specialize (Hmax u' Hin). simpl in Hmax. lia.
    - apply findOne_sort_desc_None in Ez. rewrite Ez in Hin. destruct Hin. }
  unfold CSGPortalMCPServer.resolveUserEmail. cbn [UserManager.found].
  rewrite (detectUserEmail_recent later coll1 Hnd1), Hrecent.
  cbn [UserManager.found]. rewrite Ht. cbn [UserManager.found]. rewrite Ht.
  reflexivity.
Qed.

(** X14 on a registry of two users without a default. *)
Lemma named_user_becomes_most_recent_witness :
  let coll :=
    UserManager.addUser Toy.sha256 "b@x.com" false 7
      (UserManager.addUser Toy.sha256 "a@x.com" false 3 []) in
  fst (CSGPortalMCPServer.resolveUserEmail Toy.sha256 None 8 coll) = Ok ("b@x.com", true)
  /\ fst (CSGPortalMCPServer.resolveUserEmail Toy.sha256 None 10
            (snd (CSGPortalMCPServer.resolveUserEmail Toy.sha256 (Some "A@x.com") 9 coll)))
     = Ok ("a@x.com", true).
Proof.
  intros coll. split; [vm_compute; reflexivity|].
  apply (named_user_becomes_most_recent Toy.sha256 "A@x.com" 9 10 coll
           {| UserManager.userHash := UserManager.hashEmail Toy.sha256 "a@x.com";
              UserManager.email := "a@x.com"; UserManager.isDefault := false;
              UserManager.createdAt := 3; UserManager.lastUsed := 3 |}).
  - reflexivity.
  - vm_compute. reflexivity.
  - reflexivity.
  - vm_compute. reflexivity.
  - intros v [<-|[<-|[]]]; simpl; lia.
Defined.

(* ------------------------------------------------------------------ *)
(** ** [VeracrossAuth], latest revision: the login flow and the requests
       of one call *)
(* ------------------------------------------------------------------ *)

Section LoginFlow.

Variable P : Platform.t.
Variable baseUrl : string.

Local Abbreviation state := (VeracrossAuth.state P).
Local Abbreviation server := (VeracrossAuth.browserAuthServer P).
Local Abbreviation flows := (VeracrossAuth.flows P).
Local Abbreviation current := (VeracrossAuth.currentUserEmail P).

(** The user whose [BrowserAuthServer] a flow started for [e] runs on. *)
Definition flowUser (s : state) (e : string) : string :=
  match server s with
  | Some a => a
  | None => e
  end.

(** A method that starts no flow and leaves the flow server alone; run
    with [e] as the current user it keeps [e]. *)
Definition still_for (e : string) {A} (m : M state A) : Prop :=
  forall s, current s = Some e ->
    server (snd (m s)) = server s /\ flows (snd (m s)) = flows s
    /\ current (snd (m s)) = Some e.

(** The same, for a method that makes [e] the current user. *)
Definition still_to (e : string) {A} (m : M state A) : Prop :=
  forall s,
    server (snd (m s)) = server s /\ flows (snd (m s)) = flows s
    /\ current (snd (m s)) = Some e.

(** What a call may do about the flow: nothing, or start it once, on the
    server that exists, else on a new one for [e]. *)
Definition flow_outcome (e : string) (s s' : state) : Prop :=
  (flows s' = flows s /\ server s' = server s)
  \/ (flows s' = (flows s ++ [flowUser s e])%list /\ server s' = Some (flowUser s e)).

Definition flow_once_for (e : string) {A} (m : M state A) : Prop :=
  forall s, current s = Some e -> flow_outcome e s (snd (m s)).

Lemma still_to_for e {A} (m : M state A) : still_to e m -> still_for e m.
Proof. intros H s _. apply H. Qed.

Lemma still_for_ret e {A} (a : A) : still_for e (ret a).
Proof. intros s H. cbn. auto. Qed.

Lemma still_for_throw e {A} msg : still_for e (throw (A := A) msg).
Proof. intros s H. cbn. auto. Qed.

Lemma still_for_gets e {A} (f : state -> A) : still_for e (gets f).
Proof. intros s H. cbn. auto. Qed.

Lemma still_for_bind e {A B} (m : M state A) (k : A -> M state B) :
  still_for e m -> (forall a, still_for e (k a)) -> still_for e (bind m k).
Proof.
  intros Hm Hk s Hs. unfold bind. destruct (Hm s Hs) as (H1 & H2 & H3).
  destruct (m s) as [[a|msg] s1]; cbn [snd] in *; [|auto].
  destruct (Hk a s1 H3) as (K1 & K2 & K3). rewrite K1, K2. auto.
Qed.

Lemma still_to_bind e {A B} (m : M state A) (k : A -> M state B) :
  still_to e m -> (forall a, still_for e (k a)) -> still_to e (bind m k).
Proof.
  intros Hm Hk s. unfold bind. destruct (Hm s) as (H1 & H2 & H3).
  destruct (m s) as [[a|msg] s1]; cbn [snd] in *; [|auto].
  destruct (Hk a s1 H3) as (K1 & K2 & K3). rewrite K1, K2. auto.
Qed.

Lemma still_for_try_catch e {A} (m h : M state A) :
  still_for e m -> still_for e h -> still_for e (try_catch m h).
Proof.
  intros Hm Hh s Hs. unfold try_catch. destruct (Hm s Hs) as (H1 & H2 & H3).
  destruct (m s) as [[a|msg] s1]; cbn [snd] in *; [auto|].
  destruct (Hh s1 H3) as (K1 & K2 & K3). rewrite K1, K2. auto.
Qed.

Lemma still_for_modify e (f : state -> state) :
  (forall s, server (f s) = server s /\ flows (f s) = flows s /\ current (f s) = current s) ->
  still_for e (modify f).
Proof.
  intros Hf s Hs. cbn. destruct (Hf s) as (H1 & H2 & H3). rewrite H1, H2, H3. auto.
Qed.

Lemma flow_once_for_bind e {A B} (m : M state A) (k : A -> M state B) :
  still_for e m -> (forall a, flow_once_for e (k a)) -> flow_once_for e (bind m k).
Proof.
  intros Hm Hk s Hs. unfold bind. destruct (Hm s Hs) as (H1 & H2 & H3).
  destruct (m s) as [[a|msg] s1]; cbn [snd] in *.
  - specialize (Hk a s1 H3). unfold flow_outcome, flowUser in *.
    rewrite H1, H2 in Hk. exact Hk.
  - left. auto.
Qed.

Lemma flow_once_of_still e {A} (m : M state A) : still_for e m -> flow_once_for e m.
Proof. intros H s Hs. left. destruct (H s Hs) as (H1 & H2 & _). auto. Qed.

Lemma ensureCredentialStore_still e (s : state) :
  server (VeracrossAuth.ensureCredentialStore P e s) = server s
  /\ flows (VeracrossAuth.ensureCredentialStore P e s) = flows s
  /\ current (VeracrossAuth.ensureCredentialStore P e s) = Some e.
Proof.
  unfold VeracrossAuth.ensureCredentialStore.
  destruct (VeracrossAuth.is_none _ || VeracrossAuth.other_user P s e) eqn:E; cbn; [auto|].
  apply orb_false_iff in E. destruct E as [_ E]. unfold VeracrossAuth.other_user in E.
  destruct (current s) as [c|]; [|discriminate].
  apply negb_false_iff, String.eqb_eq in E. subst. auto.
Qed.

Lemma makeRequest_still e url options : still_for e (VeracrossAuth.makeRequest P url options).
Proof.
  intros s Hs. unfold VeracrossAuth.makeRequest.
  destruct (Platform.fetch P _ _) as [response|]; [|cbn; auto].
  cbn [VeracrossAuth.cookieJar VeracrossAuth.log_request].
  destruct (VeracrossAuth.setCookies P _ _ _ _) as [[[]|msg] j]; cbn; auto.
Qed.

Lemma probe_still e : still_for e (VeracrossAuth.probe P baseUrl).
Proof.
  unfold VeracrossAuth.probe. apply still_for_try_catch; [|apply still_for_ret].
  apply still_for_bind; [apply makeRequest_still|intros; apply still_for_ret].
Qed.

Lemma loadStoredSession_still e : still_to e (VeracrossAuth.loadStoredSession P baseUrl e).
Proof.
  intros s. pose proof (ensureCredentialStore_still e s) as H.
  unfold VeracrossAuth.loadStoredSession.
  repeat match goal with
         | |- context [match ?x with _ => _ end] => destruct x
         end; cbn; exact H.
Qed.

Lemma hasStoredSession_still e : still_to e (VeracrossAuth.hasStoredSession P e).
Proof.
  intros s. pose proof (ensureCredentialStore_still e s) as H.
  unfold VeracrossAuth.hasStoredSession.
  repeat match goal with
         | |- context [match ?x with _ => _ end] => destruct x
         end; cbn; exact H.
Qed.

Lemma saveCredentials_still e c : still_for e (VeracrossAuth.saveCredentials P c).
Proof.
  intros s Hs. unfold VeracrossAuth.saveCredentials.
  destruct (VeracrossAuth.credentialStore P s); cbn; auto.
Qed.

Lemma attemptPasswordLogin_still e pw :
  still_for e (VeracrossAuth.attemptPasswordLogin P baseUrl e pw).
Proof.
  unfold VeracrossAuth.attemptPasswordLogin.
  apply still_for_try_catch; [|apply still_for_ret].
  apply still_for_bind; [apply makeRequest_still|]. intros r1.
  destruct (negb (Http.ok r1)); [apply still_for_throw|].
  apply still_for_bind; [apply makeRequest_still|]. intros r2.
  destruct (_ && _); [|apply still_for_ret].
  destruct (Http.location r2) as [l|]; [|apply still_for_ret].
  destruct (JsString.truthy l); [|apply still_for_ret].
  apply still_for_bind; [apply makeRequest_still|]. intros r3.
  destruct (Http.ok r3); [|apply still_for_ret].
  apply still_for_bind; [apply still_for_gets|]. intros cs.
  apply still_for_bind.
  { intros s Hs. cbn. apply ensureCredentialStore_still. }
  intros _. apply still_for_bind; [apply saveCredentials_still|]. intros _.
  apply still_for_bind; [now apply still_for_modify|intros; apply still_for_ret].
Qed.

(** The tail of [authenticateWithBrowser]: with [e] current, the flow
    runs on the server that exists. *)
Lemma flow_tail e :
  flow_once_for e
    (modify (VeracrossAuth.ensureBrowserAuthServer P e) ;;;
     authResult <- VeracrossAuth.startAuthFlow P ;;
     if authResult
     then modify (VeracrossAuth.set_isAuthenticated P true) ;;; ret true
     else ret false).
Proof.
  intros s Hs. right. unfold bind, modify, flowUser.
  set (s1 := VeracrossAuth.ensureBrowserAuthServer P e s).
  assert (H1 : server s1 = Some (flowUser s e) /\ flows s1 = flows s).
  { unfold s1, VeracrossAuth.ensureBrowserAuthServer, flowUser, VeracrossAuth.other_user.
    rewrite Hs, String.eqb_refl. destruct (server s) eqn:E; cbn; rewrite ?E; auto. }
  unfold flowUser in H1. destruct H1 as [Hsrv Hfl].
  unfold VeracrossAuth.startAuthFlow. rewrite Hsrv.
  destruct (Platform.startAuthFlow P _ _) as [[|] coll]; cbn; rewrite Hfl; auto.
Qed.

Lemma authenticateWithBrowser_flow e (s : state) :
  flow_outcome e s (snd (VeracrossAuth.authenticateWithBrowser P baseUrl e s)).
Proof.
  unfold VeracrossAuth.authenticateWithBrowser.
  assert (Hsnd : forall (m : M state bool) t, snd (try_catch m (ret false) t) = snd (m t)).
  { intros m t. unfold try_catch. destruct (m t) as [[a|msg] t']; reflexivity. }
  rewrite Hsnd. unfold bind at 1.
  destruct (hasStoredSession_still e s) as (H1 & H2 & H3).
  destruct (VeracrossAuth.hasStoredSession P e s) as [[hasSession|msg] s1];
    cbn [snd] in *; [|left; auto].
  assert (Hrest : flow_outcome e s1
            (snd ((valid <- (if hasSession
                             then VeracrossAuth.loadStoredSession P baseUrl e ;;;
                                  VeracrossAuth.probe P baseUrl
                             else ret false) ;;
                   if valid
                   then modify (VeracrossAuth.set_isAuthenticated P true) ;;; ret true
                   else
                     modify (VeracrossAuth.ensureBrowserAuthServer P e) ;;;
                     authResult <- VeracrossAuth.startAuthFlow P ;;
                     if authResult
                     then modify (VeracrossAuth.set_isAuthenticated P true) ;;; ret true
                     else ret false) s1))).
  { apply flow_once_for_bind; [| |exact H3].
    - destruct hasSession; [|apply still_for_ret].
      apply still_for_bind; [apply still_to_for, loadStoredSession_still|].
      intros _. apply probe_still.
    - intros [|]; [|apply flow_tail].
      apply flow_once_of_still.
      apply still_for_bind; [now apply still_for_modify|intros; apply still_for_ret]. }
  unfold flow_outcome, flowUser in *. rewrite H1, H2 in Hrest. exact Hrest.
Qed.

Lemma ensureAuthenticated_flow e (s : state) :
  flow_outcome e s (snd (VeracrossAuth.ensureAuthenticated P baseUrl e s)).
Proof.
  unfold VeracrossAuth.ensureAuthenticated.
  destruct (VeracrossAuth.trusted_for P s e); [left; auto|].
  unfold bind at 1.
  destruct (loadStoredSession_still e s) as (H1 & H2 & H3).
  destruct (VeracrossAuth.loadStoredSession P baseUrl e s) as [[sessionLoaded|msg] s1];
    cbn [snd] in *; [|left; auto].
  assert (Hrest : flow_outcome e s1
            (snd ((valid <- (if sessionLoaded then VeracrossAuth.probe P baseUrl
                             else ret false) ;;
                   if valid then ret true
                   else VeracrossAuth.reauthenticate P baseUrl e) s1))).
  { apply flow_once_for_bind; [| |exact H3].
    - destruct sessionLoaded; [apply probe_still|apply still_for_ret].
    - intros [|]; [apply flow_once_of_still, still_for_ret|].
      unfold VeracrossAuth.reauthenticate.
      apply flow_once_for_bind.
      { intros t Ht. cbn. apply ensureCredentialStore_still. }
      intros _. apply flow_once_for_bind; [apply still_for_gets|].
      intros credentials t Ht.
      destruct credentials as [c|]; [|apply authenticateWithBrowser_flow].
      destruct (JsString.truthy (password c)); [|apply authenticateWithBrowser_flow].
      destruct (Platform.JSON_parse_session P (password c));
        [apply authenticateWithBrowser_flow|].
      destruct (Json.parses_to_null (password c));
        [apply authenticateWithBrowser_flow|].
      apply flow_once_of_still; [apply attemptPasswordLogin_still|exact Ht]. }
  unfold flow_outcome, flowUser in *. rewrite H1, H2 in Hrest. exact Hrest.
Qed.

End LoginFlow.

(** X15.  In the latest revision one call of [ensureAuthenticated] or
    [authenticateWithBrowser] starts the interactive login flow at most
    once.  The flow runs on the [BrowserAuthServer] the object already
    has: once a server exists no call replaces it, so a flow started for
    another user runs on the server, and is stored under the name, of the
    user the server was created for.  Only when no server exists is one
    created for the user asked for. *)
Theorem login_flow_at_most_once_on_first_server :
  forall (P : Platform.t) (baseUrl e : string) (s : VeracrossAuth.state P),
    let after_ensure := snd (VeracrossAuth.ensureAuthenticated P baseUrl e s) in
    let after_login := snd (VeracrossAuth.authenticateWithBrowser P baseUrl e s) in
    (forall a, VeracrossAuth.browserAuthServer P s = Some a ->
       (VeracrossAuth.browserAuthServer P after_ensure = Some a
        /\ (VeracrossAuth.flows P after_ensure = VeracrossAuth.flows P s
            \/ VeracrossAuth.flows P after_ensure = (VeracrossAuth.flows P s ++ [a])%list))
       /\ (VeracrossAuth.browserAuthServer P after_login = Some a
           /\ (VeracrossAuth.flows P after_login = VeracrossAuth.flows P s
               \/ VeracrossAuth.flows P after_login
                  = (VeracrossAuth.flows P s ++ [a])%list)))
    /\ (VeracrossAuth.browserAuthServer P s = None ->
        (VeracrossAuth.flows P after_ensure = VeracrossAuth.flows P s
         \/ VeracrossAuth.flows P after_ensure = (VeracrossAuth.flows P s ++ [e])%list)
        /\ (VeracrossAuth.flows P after_login = VeracrossAuth.flows P s
            \/ VeracrossAuth.flows P after_login = (VeracrossAuth.flows P s ++ [e])%list)).
Proof.
  intros P baseUrl e s after_ensure after_login.
  pose proof (ensureAuthenticated_flow P baseUrl e s) as He.
  pose proof (authenticateWithBrowser_flow P baseUrl e s) as Hl.
  fold after_ensure in He. fold after_login in Hl.
  unfold flow_outcome, flowUser in He, Hl.
  split.
  - intros a Ha. rewrite Ha in He, Hl.
    split.
    + destruct He as [[H1 H2]|[H1 H2]]; rewrite H1, H2; auto.
    + destruct Hl as [[H1 H2]|[H1 H2]]; rewrite H1, H2; auto.
  - intros Hn. rewrite Hn in He, Hl.
    split.
    + destruct He as [[H1 H2]|[H1 H2]]; rewrite H1; auto.
    + destruct Hl as [[H1 H2]|[H1 H2]]; rewrite H1; auto.
Qed.

(** X15 on the object [a@x.com] left behind: the login of [b@x.com], who
    has no stored session, runs the flow of [a@x.com]. *)
Lemma login_flow_at_most_once_on_first_server_witness :
  let s := servingAlice [] in
  let after_login :=
    snd (VeracrossAuth.authenticateWithBrowser calmPlatform portalBase "b@x.com" s) in
  VeracrossAuth.browserAuthServer calmPlatform after_login = Some "a@x.com"
  /\ VeracrossAuth.flows calmPlatform after_login = ["a@x.com"].
Proof.
  intros s after_login.
  destruct (login_flow_at_most_once_on_first_server calmPlatform portalBase "b@x.com" s)
    as [Hsome _].
  destruct (Hsome "a@x.com" eq_refl) as [_ [Hsrv _]].
  split; [exact Hsrv|vm_compute; reflexivity].
Defined.

Section SessionReuse.

Variable P : Platform.t.
Variable baseUrl : string.

Local Abbreviation state := (VeracrossAuth.state P).

(** A request changes the jar and the log only. *)
Lemma makeRequest_keeps_store url options (s : state) :
  let s' := snd (VeracrossAuth.makeRequest P url options s) in
  VeracrossAuth.db P s' = VeracrossAuth.db P s
  /\ VeracrossAuth.flows P s' = VeracrossAuth.flows P s
  /\ VeracrossAuth.credentialStore P s' = VeracrossAuth.credentialStore P s
  /\ VeracrossAuth.browserAuthServer P s' = VeracrossAuth.browserAuthServer P s.
Proof.
  unfold VeracrossAuth.makeRequest.
  destruct (Platform.fetch P _ _) as [response|]; [|cbn; auto].
  cbn [VeracrossAuth.cookieJar VeracrossAuth.log_request].
  destruct (VeracrossAuth.setCookies P _ _ _ _) as [[[]|e] j]; cbn; auto.
Qed.

Lemma probe_keeps_store (s : state) :
  let s' := snd (VeracrossAuth.probe P baseUrl s) in
  VeracrossAuth.db P s' = VeracrossAuth.db P s
  /\ VeracrossAuth.flows P s' = VeracrossAuth.flows P s
  /\ VeracrossAuth.credentialStore P s' = VeracrossAuth.credentialStore P s
  /\ VeracrossAuth.browserAuthServer P s' = VeracrossAuth.browserAuthServer P s.
Proof.
  pose proof (makeRequest_keeps_store (baseUrl ++ "/parent") Http.no_options s) as H.
  unfold VeracrossAuth.probe, try_catch, bind, ret.
  destruct (VeracrossAuth.makeRequest P _ _ s) as [[r|e] s']; exact H.
Qed.

Lemma ensureCredentialStore_same e cs (s : state) :
  VeracrossAuth.credentialStore P s = Some cs ->
  VeracrossAuth.currentUserEmail P s = Some e ->
  VeracrossAuth.ensureCredentialStore P e s = s.
Proof.
  intros Hcs Hcur. unfold VeracrossAuth.ensureCredentialStore, VeracrossAuth.other_user.
  now rewrite Hcs, Hcur, String.eqb_refl.
Qed.

End SessionReuse.

(** X16.  Session reuse in the latest revision.  When the stored session
    of the user hydrates and the portal accepts the probe,
    [ensureAuthenticated] returns [true] after exactly one request (the
    probe, sent with the hydrated jar), without starting the login flow
    and without writing to the credential store; the object is then
    trusted for that user, so the next call returns [true] with no
    request at all. *)
Theorem accepted_probe_reuses_session :
  forall (P : Platform.t) (baseUrl e : string) (s : VeracrossAuth.state P)
         credentials sessionData cookieString jar',
    VeracrossAuth.trusted_for P s e = false ->
    let s1 := VeracrossAuth.ensureCredentialStore P e s in
    VeracrossAuth.loadCredentials P s1 = Some credentials ->
    JsString.truthy (password credentials) = true ->
    Platform.JSON_parse_session P (password credentials) = Some sessionData ->
    cookies sessionData = Some cookieString ->
    JsString.truthy cookieString = true ->
    VeracrossAuth.setCookies P JsString.truthy (CookieString.pieces cookieString) baseUrl
      (VeracrossAuth.cookieJar P s) = (Ok tt, jar') ->
    probe_passes P baseUrl
      (VeracrossAuth.set_isAuthenticated P true (VeracrossAuth.set_cookieJar P jar' s1))
    = true ->
    let first := VeracrossAuth.ensureAuthenticated P baseUrl e s in
    let second := VeracrossAuth.ensureAuthenticated P baseUrl e (snd first) in
    fst first = Ok true
    /\ VeracrossAuth.sent P (snd first)
       = (VeracrossAuth.sent P s
          ++ [VeracrossAuth.request_of P jar' (baseUrl ++ "/parent") Http.no_options])%list
    /\ VeracrossAuth.flows P (snd first) = VeracrossAuth.flows P s
    /\ VeracrossAuth.db P (snd first) = VeracrossAuth.db P s
    /\ second = (Ok true, snd first).
Proof.
  intros P baseUrl e s credentials sessionData cookieString jar'
         Hnot s1 Hload Hpw Hparse Hc Hcs Hset Hprobe first second.
  set (s2 := VeracrossAuth.set_isAuthenticated P true (VeracrossAuth.set_cookieJar P jar' s1))
    in *.
  assert (Hfirst : first = (Ok true, snd (VeracrossAuth.probe P baseUrl s2))).
  { unfold first, VeracrossAuth.ensureAuthenticated. rewrite Hnot. unfold bind at 1.
    rewrite (loadStoredSession_merges P baseUrl e s credentials sessionData cookieString
               jar' Hload Hpw Hparse Hc Hcs Hset).
    fold s1. fold s2. unfold bind at 1.
    pose proof (probe_effect P baseUrl s2) as (Hr & _).
    destruct (VeracrossAuth.probe P baseUrl s2) as [r s3]. cbn [fst snd] in *.
    subst r. rewrite Hprobe. reflexivity. }
  pose proof (probe_effect P baseUrl s2) as (_ & Hflag & Hcur & Hsent).
  pose proof (probe_keeps_store P baseUrl s2) as (Hdb & Hflows & _ & _).
  cbv zeta in Hflag, Hcur, Hsent, Hdb, Hflows.
  assert (Hs1 : VeracrossAuth.sent P s1 = VeracrossAuth.sent P s
                /\ VeracrossAuth.flows P s1 = VeracrossAuth.flows P s
                /\ VeracrossAuth.db P s1 = VeracrossAuth.db P s
                /\ VeracrossAuth.currentUserEmail P s1 = Some e).
  { pose proof (ensureCredentialStore_still P e s) as (_ & Hf & Hc1).
    unfold s1 in *. repeat split; auto.
    - apply sent_ensureCredentialStore.
    - unfold VeracrossAuth.ensureCredentialStore. destruct (_ || _); reflexivity. }
  destruct Hs1 as (Hs1sent & Hs1flows & Hs1db & Hs1cur).
  rewrite Hfirst. cbn [fst snd].
  split; [reflexivity|]. split; [rewrite Hsent; cbn; now rewrite Hs1sent|].
  split; [rewrite Hflows; cbn; exact Hs1flows|].
  split; [rewrite Hdb; cbn; exact Hs1db|].
  unfold second. rewrite Hfirst. cbn [snd].
  unfold VeracrossAuth.ensureAuthenticated, VeracrossAuth.trusted_for,
    VeracrossAuth.other_user.
  rewrite Hflag, Hcur. cbn. rewrite Hs1cur, String.eqb_refl. reflexivity.
Qed.

(** X16 on a fresh object and a stored session the portal accepts. *)
Lemma accepted_probe_reuses_session_witness :
  let s := VeracrossAuth.new calmPlatform (Toy.storedSession "b@x.com" "tok=bob" []) in
  let first := VeracrossAuth.ensureAuthenticated calmPlatform portalBase "b@x.com" s in
  fst first = Ok true
  /\ List.map (fun r => (Http.url r, Http.header "Cookie" (Http.o_headers (Http.init r))))
       (VeracrossAuth.sent calmPlatform (snd first))
     = [("https://portals.veracross.com/csg/parent", Some "tok=bob")]
  /\ VeracrossAuth.flows calmPlatform (snd first) = [].
Proof.
  intros s first.
  pose proof (accepted_probe_reuses_session calmPlatform portalBase "b@x.com" s
                {| username := "b@x.com"; password := Toy.sessionBlob "tok=bob" |}
                {| cookies := Some "tok=bob"; userAgent := Some "agent";
                   timestamp := None; expiresAt := None |}
                "tok=bob"
                [{| Toy.c_host := "portals.veracross.com"; Toy.c_name := "tok";
                    Toy.c_value := "bob" |}]
                eq_refl eq_refl eq_refl eq_refl eq_refl eq_refl eq_refl eq_refl)
    as (H1 & H2 & H3 & _).
  fold first in H1, H2, H3.
  split; [exact H1|]. split; [rewrite H2; vm_compute; reflexivity|exact H3].
Defined.

(* ------------------------------------------------------------------ *)
(** *** How many requests one call sends *)
(* ------------------------------------------------------------------ *)

Section RequestBudget.

Variable P : Platform.t.
Variable baseUrl : string.

Local Abbreviation state := (VeracrossAuth.state P).

(** A method appends at most [n] requests to the log. *)
Definition sends_at_most (n : nat) {A} (m : M state A) : Prop :=
  forall s, exists rest,
    VeracrossAuth.sent P (snd (m s)) = (VeracrossAuth.sent P s ++ rest)%list
    /\ (List.length rest <= n)%nat.

Lemma sends_weaken n n' {A} (m : M state A) :
  (n <= n')%nat -> sends_at_most n m -> sends_at_most n' m.
Proof. intros Hle H s. destruct (H s) as (rest & H1 & H2). exists rest. split; [auto|lia]. Qed.

Lemma sends_none {A} (m : M state A) :
  (forall s, VeracrossAuth.sent P (snd (m s)) = VeracrossAuth.sent P s) ->
  sends_at_most 0 m.
Proof. intros H s. exists []. rewrite app_nil_r. split; [apply H|simpl; lia]. Qed.

Lemma sends_bind n1 n2 {A B} (m : M state A) (k : A -> M state B) :
  sends_at_most n1 m -> (forall a, sends_at_most n2 (k a)) ->
  sends_at_most (n1 + n2) (bind m k).
Proof.
  intros Hm Hk s. unfold bind. destruct (Hm s) as (r1 & H1 & L1).
  destruct (m s) as [[a|e] s1]; cbn [snd] in *.
  - destruct (Hk a s1) as (r2 & H2 & L2). exists (r1 ++ r2)%list.
    rewrite H2, H1, app_assoc, List.length_app. split; [reflexivity|lia].
  - exists r1. split; [exact H1|lia].
Qed.

Lemma sends_try_catch n {A} (m : M state A) (a : A) :
  sends_at_most n m -> sends_at_most n (try_catch m (ret a)).
Proof.
  intros Hm s. unfold try_catch. destruct (Hm s) as (r1 & H1 & L1).
  destruct (m s) as [[x|e] s1]; cbn [snd] in *; exists r1; auto.
Qed.

Lemma sends_makeRequest url options :
  sends_at_most 1 (VeracrossAuth.makeRequest P url options).
Proof.
  intros s. eexists. split; [apply (makeRequest_keeps_flags P url options s)|].
  simpl. lia.
Qed.

Lemma sends_probe : sends_at_most 1 (VeracrossAuth.probe P baseUrl).
Proof.
  unfold VeracrossAuth.probe. apply sends_try_catch.
  apply (sends_bind 1 0); [apply sends_makeRequest|].
  intros r. now apply sends_none.
Qed.

Lemma sends_loadStoredSession e :
  sends_at_most 0 (VeracrossAuth.loadStoredSession P baseUrl e).
Proof.
  apply sends_none. intros s. unfold VeracrossAuth.loadStoredSession.
  repeat match goal with
         | |- context [match ?x with _ => _ end] => destruct x
         end; cbn; apply sent_ensureCredentialStore.
Qed.

Lemma sends_hasStoredSession e : sends_at_most 0 (VeracrossAuth.hasStoredSession P e).
Proof.
  apply sends_none. intros s. unfold VeracrossAuth.hasStoredSession.
  repeat match goal with
         | |- context [match ?x with _ => _ end] => destruct x
         end; cbn; apply sent_ensureCredentialStore.
Qed.

Lemma sends_startAuthFlow : sends_at_most 0 (VeracrossAuth.startAuthFlow P).
Proof.
  apply sends_none. intros s. unfold VeracrossAuth.startAuthFlow.
  destruct (VeracrossAuth.browserAuthServer P s); [|reflexivity].
  destruct (Platform.startAuthFlow P _ _). reflexivity.
Qed.

Lemma sends_authenticateWithBrowser e :
  sends_at_most 1 (VeracrossAuth.authenticateWithBrowser P baseUrl e).
Proof.
  unfold VeracrossAuth.authenticateWithBrowser. apply sends_try_catch.
  apply (sends_bind 0 1); [apply sends_hasStoredSession|]. intros hasSession.
  apply (sends_bind 1 0).
  - destruct hasSession; [|apply (sends_weaken 0); [lia|now apply sends_none]].
    apply (sends_bind 0 1); [apply sends_loadStoredSession|intros; apply sends_probe].
  - intros [|].
    + apply (sends_bind 0 0); [now apply sends_none|intros; now apply sends_none].
    + apply (sends_bind 0 0).
      { apply sends_none. intros s. apply sent_ensureBrowserAuthServer. }
      intros _. apply (sends_bind 0 0); [apply sends_startAuthFlow|].
      intros [|]; [|now apply sends_none].
      apply (sends_bind 0 0); [now apply sends_none|intros; now apply sends_none].
Qed.

Lemma sends_attemptPasswordLogin e pw :
  sends_at_most 3 (VeracrossAuth.attemptPasswordLogin P baseUrl e pw).
Proof.
  unfold VeracrossAuth.attemptPasswordLogin. apply sends_try_catch.
  apply (sends_bind 1 2); [apply sends_makeRequest|]. intros r1.
  destruct (negb (Http.ok r1)); [apply (sends_weaken 0); [lia|now apply sends_none]|].
  apply (sends_bind 1 1); [apply sends_makeRequest|]. intros r2.
  destruct (_ && _); [|apply (sends_weaken 0); [lia|now apply sends_none]].
  destruct (Http.location r2) as [l|]; [|apply (sends_weaken 0); [lia|now apply sends_none]].
  destruct (JsString.truthy l); [|apply (sends_weaken 0); [lia|now apply sends_none]].
  apply (sends_bind 1 0); [apply sends_makeRequest|]. intros r3.
  destruct (Http.ok r3); [|now apply sends_none].
  apply (sends_bind 0 0); [now apply sends_none|]. intros cs.
  apply (sends_bind 0 0).
  { apply sends_none. intros s. apply sent_ensureCredentialStore. }
  intros _. apply (sends_bind 0 0).
  { apply sends_none. intros s. unfold VeracrossAuth.saveCredentials.
    destruct (VeracrossAuth.credentialStore P s); reflexivity. }
  intros _. apply (sends_bind 0 0); [now apply sends_none|intros; now apply sends_none].
Qed.

Lemma sends_ensureAuthenticated e :
  sends_at_most 4 (VeracrossAuth.ensureAuthenticated P baseUrl e).
Proof.
  intros s. unfold VeracrossAuth.ensureAuthenticated.
  destruct (VeracrossAuth.trusted_for P s e).
  { exists []. rewrite app_nil_r. split; [reflexivity|simpl; lia]. }
  revert s. change (sends_at_most 4
    (sessionLoaded <- VeracrossAuth.loadStoredSession P baseUrl e ;;
     valid <- (if sessionLoaded then VeracrossAuth.probe P baseUrl else ret false) ;;
     if valid then ret true else VeracrossAuth.reauthenticate P baseUrl e)).
  apply (sends_bind 0 4); [apply sends_loadStoredSession|]. intros sessionLoaded.
  apply (sends_bind 1 3).
  - destruct sessionLoaded; [apply sends_probe|].
    apply (sends_weaken 0); [lia|now apply sends_none].
  - intros [|]; [apply (sends_weaken 0); [lia|now apply sends_none]|].
    unfold VeracrossAuth.reauthenticate.
    apply (sends_bind 0 3).
    { apply sends_none. intros t. apply sent_ensureCredentialStore. }
    intros _. apply (sends_bind 0 3); [now apply sends_none|].
    assert (Hb : sends_at_most 3 (VeracrossAuth.authenticateWithBrowser P baseUrl e)).
    { apply (sends_weaken 1); [lia|apply sends_authenticateWithBrowser]. }
    intros [c|]; [|exact Hb].
    destruct (JsString.truthy (password c)); [|exact Hb].
    destruct (Platform.JSON_parse_session P (password c)); [exact Hb|].
    destruct (Json.parses_to_null (password c));
      [exact Hb|apply sends_attemptPasswordLogin].
Qed.

(** A method that appends at most [n] requests to the log and starts no
    login flow. *)
Definition quiet (n : nat) {A} (m : M state A) : Prop :=
  forall s, exists rest,
    VeracrossAuth.sent P (snd (m s)) = (VeracrossAuth.sent P s ++ rest)%list
    /\ (List.length rest <= n)%nat
    /\ VeracrossAuth.flows P (snd (m s)) = VeracrossAuth.flows P s.

(** A method that starts the login flow at most once, and appends at most
    [n] requests to the log when it starts none, at most [k] when it
    starts one. *)
Definition spends (n k : nat) {A} (m : M state A) : Prop :=
  forall s, exists rest,
    VeracrossAuth.sent P (snd (m s)) = (VeracrossAuth.sent P s ++ rest)%list
    /\ ((VeracrossAuth.flows P (snd (m s)) = VeracrossAuth.flows P s
         /\ (List.length rest <= n)%nat)
        \/ (exists a,
              VeracrossAuth.flows P (snd (m s)) = (VeracrossAuth.flows P s ++ [a])%list
              /\ (List.length rest <= k)%nat)).

Lemma quiet_of_sends n {A} (m : M state A) :
  sends_at_most n m ->
  (forall s, VeracrossAuth.flows P (snd (m s)) = VeracrossAuth.flows P s) ->
  quiet n m.
Proof.
  intros Hs Hf s. destruct (Hs s) as (rest & H1 & H2). exists rest. auto.
Qed.

Lemma quiet_weaken n n' {A} (m : M state A) : (n <= n')%nat -> quiet n m -> quiet n' m.
Proof.
  intros Hle H s. destruct (H s) as (rest & H1 & H2 & H3). exists rest.
  split; [exact H1|]. split; [lia|exact H3].
Qed.

Lemma quiet_plain {A} (m : M state A) :
  (forall s, VeracrossAuth.sent P (snd (m s)) = VeracrossAuth.sent P s) ->
  (forall s, VeracrossAuth.flows P (snd (m s)) = VeracrossAuth.flows P s) ->
  quiet 0 m.
Proof.
  intros Hs Hf s. exists []. rewrite app_nil_r. split; [apply Hs|]. split; [simpl; lia|apply Hf].
Qed.

Lemma quiet_bind n1 n2 {A B} (m : M state A) (k : A -> M state B) :
  quiet n1 m -> (forall a, quiet n2 (k a)) -> quiet (n1 + n2) (bind m k).
Proof.
  intros Hm Hk s. unfold bind. destruct (Hm s) as (r1 & H1 & L1 & F1).
  destruct (m s) as [[a|e] s1]; cbn [snd] in *.
  - destruct (Hk a s1) as (r2 & H2 & L2 & F2). exists (r1 ++ r2)%list.
    rewrite H2, H1, app_assoc, List.length_app, F2, F1.
    split; [reflexivity|]. split; [lia|reflexivity].
  - exists r1. split; [exact H1|]. split; [lia|exact F1].
Qed.

Lemma quiet_try_catch n {A} (m : M state A) (a : A) :
  quiet n m -> quiet n (try_catch m (ret a)).
Proof.
  intros Hm s. unfold try_catch. destruct (Hm s) as (r1 & H1 & L1 & F1).
  destruct (m s) as [[x|e] s1]; cbn [snd] in *; exists r1; auto.
Qed.

Lemma flows_ensureCredentialStore e (s : state) :
  VeracrossAuth.flows P (VeracrossAuth.ensureCredentialStore P e s) = VeracrossAuth.flows P s.
Proof. unfold VeracrossAuth.ensureCredentialStore. destruct (_ || _); reflexivity. Qed.

Lemma flows_ensureBrowserAuthServer e (s : state) :
  VeracrossAuth.flows P (VeracrossAuth.ensureBrowserAuthServer P e s)
  = VeracrossAuth.flows P s.
Proof. unfold VeracrossAuth.ensureBrowserAuthServer. destruct (_ || _); reflexivity. Qed.

Lemma quiet_makeRequest url options : quiet 1 (VeracrossAuth.makeRequest P url options).
Proof.
  apply quiet_of_sends; [apply sends_makeRequest|].
  intros s. apply (makeRequest_keeps_store P url options s).
Qed.

Lemma quiet_probe : quiet 1 (VeracrossAuth.probe P baseUrl).
Proof.
  apply quiet_of_sends; [apply sends_probe|].
  intros s. apply (probe_keeps_store P baseUrl s).
Qed.

Lemma quiet_loadStoredSession e : quiet 0 (VeracrossAuth.loadStoredSession P baseUrl e).
Proof.
  apply quiet_of_sends; [apply sends_loadStoredSession|].
  intros s. unfold VeracrossAuth.loadStoredSession.
  repeat match goal with
         | |- context [match ?x with _ => _ end] => destruct x
         end; cbn; apply flows_ensureCredentialStore.
Qed.

Lemma quiet_hasStoredSession e : quiet 0 (VeracrossAuth.hasStoredSession P e).
Proof.
  apply quiet_of_sends; [apply sends_hasStoredSession|].
  intros s. unfold VeracrossAuth.hasStoredSession.
  repeat match goal with
         | |- context [match ?x with _ => _ end] => destruct x
         end; cbn; apply flows_ensureCredentialStore.
Qed.

(** The password login starts no flow. *)
Lemma quiet_attemptPasswordLogin e pw :
  quiet 3 (VeracrossAuth.attemptPasswordLogin P baseUrl e pw).
Proof.
  unfold VeracrossAuth.attemptPasswordLogin. apply quiet_try_catch.
  apply (quiet_bind 1 2); [apply quiet_makeRequest|]. intros r1.
  destruct (negb (Http.ok r1)); [apply (quiet_weaken 0); [lia|now apply quiet_plain]|].
  apply (quiet_bind 1 1); [apply quiet_makeRequest|]. intros r2.
  destruct (_ && _); [|apply (quiet_weaken 0); [lia|now apply quiet_plain]].
  destruct (Http.location r2) as [l|]; [|apply (quiet_weaken 0); [lia|now apply quiet_plain]].
  destruct (JsString.truthy l); [|apply (quiet_weaken 0); [lia|now apply quiet_plain]].
  apply (quiet_bind 1 0); [apply quiet_makeRequest|]. intros r3.
  destruct (Http.ok r3); [|now apply quiet_plain].
  apply (quiet_bind 0 0); [now apply quiet_plain|]. intros cs.
  apply (quiet_bind 0 0).
  { apply quiet_plain; intros s;
      [apply sent_ensureCredentialStore|apply flows_ensureCredentialStore]. }
  intros _. apply (quiet_bind 0 0).
  { apply quiet_plain; intros s; unfold VeracrossAuth.saveCredentials;
      destruct (VeracrossAuth.credentialStore P s); reflexivity. }
  intros _. apply (quiet_bind 0 0); [now apply quiet_plain|intros; now apply quiet_plain].
Qed.

Lemma spends_of_quiet n k {A} (m : M state A) : quiet n m -> spends n k m.
Proof.
  intros H s. destruct (H s) as (rest & H1 & H2 & H3). exists rest. auto.
Qed.

Lemma spends_weaken n k n' k' {A} (m : M state A) :
  (n <= n')%nat -> (k <= k')%nat -> spends n k m -> spends n' k' m.
Proof.
  intros Hn Hk H s. destruct (H s) as (rest & H1 & [[H2 H3]|(a & H2 & H3)]);
    exists rest; (split; [exact H1|]).
  - left. split; [exact H2|lia].
  - right. exists a. split; [exact H2|lia].
Qed.

(** Requests sent before the part that may start the flow count on both
    sides. *)
Lemma spends_after_quiet n1 n2 k2 {A B} (m : M state A) (k : A -> M state B) :
  quiet n1 m -> (forall a, spends n2 k2 (k a)) -> spends (n1 + n2) (n1 + k2) (bind m k).
Proof.
  intros Hm Hk s. unfold bind. destruct (Hm s) as (r1 & H1 & L1 & F1).
  destruct (m s) as [[a|e] s1]; cbn [snd] in *.
  - destruct (Hk a s1) as (r2 & H2 & [[F2 L2]|(b & F2 & L2)]);
      exists (r1 ++ r2)%list; rewrite H2, H1, app_assoc, List.length_app, F2, F1;
      (split; [reflexivity|]).
    + left. split; [reflexivity|lia].
    + right. exists b. split; [reflexivity|lia].
  - exists r1. split; [exact H1|]. left. split; [exact F1|lia].
Qed.

(** What follows the flow sends nothing. *)
Lemma spends_then_quiet n k {A B} (m : M state A) (f : A -> M state B) :
  spends n k m -> (forall a, quiet 0 (f a)) -> spends n k (bind m f).
Proof.
  intros Hm Hf s. unfold bind. destruct (Hm s) as (r1 & H1 & Hcase).
  destruct (m s) as [[a|e] s1]; cbn [snd] in *.
  - destruct (Hf a s1) as (r2 & H2 & L2 & F2).
    assert (r2 = []) by (destruct r2; [reflexivity|simpl in L2; lia]). subst r2.
    rewrite app_nil_r in H2. exists r1. rewrite H2, F2. auto.
  - exists r1. auto.
Qed.

Lemma spends_try_catch n k {A} (m : M state A) (a : A) :
  spends n k m -> spends n k (try_catch m (ret a)).
Proof.
  intros Hm s. unfold try_catch. destruct (Hm s) as (r1 & H1 & Hcase).
  destruct (m s) as [[x|e] s1]; cbn [snd] in *; exists r1; auto.
Qed.

Lemma spends_startAuthFlow : spends 0 0 (VeracrossAuth.startAuthFlow P).
Proof.
  intros s. exists []. rewrite app_nil_r. unfold VeracrossAuth.startAuthFlow.
  destruct (VeracrossAuth.browserAuthServer P s) as [a|].
  - destruct (Platform.startAuthFlow P a (VeracrossAuth.db P s)). cbn.
    split; [reflexivity|]. right. exists a. split; [reflexivity|lia].
  - cbn. split; [reflexivity|]. left. split; [reflexivity|lia].
Qed.

(** [authenticateWithBrowser]: at most the probe, flow or no flow. *)
Lemma spends_authenticateWithBrowser e :
  spends 1 1 (VeracrossAuth.authenticateWithBrowser P baseUrl e).
Proof.
  unfold VeracrossAuth.authenticateWithBrowser. apply spends_try_catch.
  apply (spends_after_quiet 0 1 1); [apply quiet_hasStoredSession|]. intros hasSession.
  apply (spends_after_quiet 1 0 0).
  - destruct hasSession; [|apply (quiet_weaken 0); [lia|now apply quiet_plain]].
    apply (quiet_bind 0 1); [apply quiet_loadStoredSession|intros; apply quiet_probe].
  - intros [|].
    + apply spends_of_quiet.
      apply (quiet_bind 0 0); [now apply quiet_plain|intros; now apply quiet_plain].
    + apply (spends_after_quiet 0 0 0).
      { apply quiet_plain; intros s;
          [apply sent_ensureBrowserAuthServer|apply flows_ensureBrowserAuthServer]. }
      intros _. apply spends_then_quiet; [apply spends_startAuthFlow|].
      intros [|]; [|now apply quiet_plain].
      apply (quiet_bind 0 0); [now apply quiet_plain|intros; now apply quiet_plain].
Qed.

(** [ensureAuthenticated]: the probe, then either the password login
    (three requests, no flow) or [authenticateWithBrowser]. *)
Lemma spends_ensureAuthenticated e :
  spends 4 2 (VeracrossAuth.ensureAuthenticated P baseUrl e).
Proof.
  intros s. unfold VeracrossAuth.ensureAuthenticated.
  destruct (VeracrossAuth.trusted_for P s e).
  { exists []. rewrite app_nil_r. split; [reflexivity|].
    left. split; [reflexivity|simpl; lia]. }
  revert s. change (spends 4 2
    (sessionLoaded <- VeracrossAuth.loadStoredSession P baseUrl e ;;
     valid <- (if sessionLoaded then VeracrossAuth.probe P baseUrl else ret false) ;;
     if valid then ret true else VeracrossAuth.reauthenticate P baseUrl e)).
  apply (spends_after_quiet 0 4 2); [apply quiet_loadStoredSession|]. intros sessionLoaded.
  apply (spends_after_quiet 1 3 1).
  - destruct sessionLoaded; [apply quiet_probe|].
    apply (quiet_weaken 0); [lia|now apply quiet_plain].
  - intros [|]; [apply spends_of_quiet, (quiet_weaken 0); [lia|now apply quiet_plain]|].
    unfold VeracrossAuth.reauthenticate.
    apply (spends_after_quiet 0 3 1).
    { apply quiet_plain; intros t;
        [apply sent_ensureCredentialStore|apply flows_ensureCredentialStore]. }
    intros _. apply (spends_after_quiet 0 3 1); [now apply quiet_plain|].
    assert (Hb : spends 3 1 (VeracrossAuth.authenticateWithBrowser P baseUrl e)).
    { apply (spends_weaken 1 1); [lia|lia|apply spends_authenticateWithBrowser]. }
    intros [c|]; [|exact Hb].
    destruct (JsString.truthy (password c)); [|exact Hb].
    destruct (Platform.JSON_parse_session P (password c)); [exact Hb|].
    destruct (Json.parses_to_null (password c)); [exact Hb|].
    apply spends_of_quiet, quiet_attemptPasswordLogin.
Qed.

End RequestBudget.

(** X17.  The requests [VeracrossAuth] itself makes in one call, through
    [makeRequest]; what the listener of the login flow sends while a flow
    runs is not among them.  [ensureAuthenticated] starts the login flow
    at most once; it makes at most four requests when it starts none (the
    probe and the three requests of the password login) and at most two
    before it starts one (two probes).  [authenticateWithBrowser] makes at
    most one request, flow or no flow.  Requests already in the log are
    never removed.  So a call that starts no login flow sends at most
    four requests to the portal in all. *)
Theorem requests_per_call_are_bounded :
  forall (P : Platform.t) (baseUrl e : string) (s : VeracrossAuth.state P),
    (let s' := snd (VeracrossAuth.ensureAuthenticated P baseUrl e s) in
     exists rest,
       VeracrossAuth.sent P s' = (VeracrossAuth.sent P s ++ rest)%list
       /\ ((VeracrossAuth.flows P s' = VeracrossAuth.flows P s
            /\ (List.length rest <= 4)%nat)
           \/ (exists a,
                 VeracrossAuth.flows P s' = (VeracrossAuth.flows P s ++ [a])%list
                 /\ (List.length rest <= 2)%nat)))
    /\ (let s' := snd (VeracrossAuth.authenticateWithBrowser P baseUrl e s) in
        exists rest,
          VeracrossAuth.sent P s' = (VeracrossAuth.sent P s ++ rest)%list
          /\ (List.length rest <= 1)%nat
          /\ (VeracrossAuth.flows P s' = VeracrossAuth.flows P s
              \/ exists a,
                   VeracrossAuth.flows P s' = (VeracrossAuth.flows P s ++ [a])%list)).
Proof.
  intros P baseUrl e s. split.
  - apply spends_ensureAuthenticated.
  - cbv zeta. destruct (spends_authenticateWithBrowser P baseUrl e s)
      as (rest & H1 & [[H2 H3]|(a & H2 & H3)]);
      exists rest; (split; [exact H1|]); (split; [exact H3|]).
    + now left.
    + right. now exists a.
Qed.

(** X18.  [clearStoredCredentials] against [logout].  Both empty the
    cookie jar and drop the trust flag.  [logout] leaves the stored
    session where it is.  After [clearStoredCredentials], over a
    collection with one document per user, the user has no stored session
    any more, and the next [ensureAuthenticated] for that user sends no
    request and goes through the interactive login flow, whose result it
    returns. *)
Theorem cleared_credentials_force_login_flow :
  forall (P : Platform.t) (baseUrl e : string) (s : VeracrossAuth.state P),
    VeracrossAuth.credentialStore P s = Some (VeracrossAuth.newStore P e) ->
    VeracrossAuth.currentUserEmail P s = Some e ->
    unique_by MongoCredentialStore.userHash (VeracrossAuth.db P s) ->
    let out := VeracrossAuth.logout P s in
    let cleared := VeracrossAuth.clearStoredCredentials P s in
    let next := VeracrossAuth.ensureAuthenticated P baseUrl e cleared in
    (VeracrossAuth.cookieJar P out = CookieJar.empty (Platform.jarOps P)
     /\ VeracrossAuth.isAuthenticated P out = false
     /\ VeracrossAuth.db P out = VeracrossAuth.db P s
     /\ fst (VeracrossAuth.hasStoredSession P e out)
        = fst (VeracrossAuth.hasStoredSession P e s))
    /\ VeracrossAuth.cookieJar P cleared = CookieJar.empty (Platform.jarOps P)
    /\ VeracrossAuth.isAuthenticated P cleared = false
    /\ VeracrossAuth.hasStoredSession P e cleared = (Ok false, cleared)
    /\ VeracrossAuth.sent P (snd next) = VeracrossAuth.sent P s
    /\ VeracrossAuth.flows P (snd next)
       = (VeracrossAuth.flows P s ++ [flowUser P s e])%list
    /\ fst next
       = Ok (fst (Platform.startAuthFlow P (flowUser P s e) (VeracrossAuth.db P cleared))).
Proof.
  intros P baseUrl e s Hcs Hcur Hu out cleared next.
  assert (Hcleared : cleared
            = VeracrossAuth.logout P
                (VeracrossAuth.set_db P
                   (MongoCredentialStore.clearCredentials (VeracrossAuth.newStore P e)
                      (VeracrossAuth.db P s)) s)).
  { unfold cleared, VeracrossAuth.clearStoredCredentials. now rewrite Hcs. }
  assert (Hsame_out : VeracrossAuth.ensureCredentialStore P e out = out).
  { apply (ensureCredentialStore_same P e (VeracrossAuth.newStore P e)); assumption. }
  assert (Hsame_s : VeracrossAuth.ensureCredentialStore P e s = s).
  { apply (ensureCredentialStore_same P e (VeracrossAuth.newStore P e)); assumption. }
  assert (Hsame : VeracrossAuth.ensureCredentialStore P e cleared = cleared).
  { apply (ensureCredentialStore_same P e (VeracrossAuth.newStore P e));
      rewrite Hcleared; assumption. }
  assert (Hnone : VeracrossAuth.loadCredentials P cleared = None).
  { unfold VeracrossAuth.loadCredentials. rewrite Hcleared. cbn. rewrite Hcs.
    now apply loadCredentials_after_clear. }
  assert (Hhas : VeracrossAuth.hasStoredSession P e cleared = (Ok false, cleared)).
  { unfold VeracrossAuth.hasStoredSession. now rewrite Hsame, Hnone. }
  split.
  { split; [reflexivity|]. split; [reflexivity|]. split; [reflexivity|].
    unfold VeracrossAuth.hasStoredSession. rewrite Hsame_out, Hsame_s.
    assert (Hl : VeracrossAuth.loadCredentials P out = VeracrossAuth.loadCredentials P s)
      by reflexivity.
    rewrite Hl. destruct (VeracrossAuth.loadCredentials P s) as [c|]; [|reflexivity].
    destruct (JsString.truthy (password c)); [|reflexivity].
    destruct (Platform.JSON_parse_session P (password c)); reflexivity. }
  split; [rewrite Hcleared; reflexivity|]. split; [rewrite Hcleared; reflexivity|].
  split; [exact Hhas|].
  assert (Hnext : next
            = (let s1 := VeracrossAuth.ensureBrowserAuthServer P e cleared in
               let '(authResult, coll) :=
                 Platform.startAuthFlow P (flowUser P s e) (VeracrossAuth.db P s1) in
               let s2 := VeracrossAuth.set_db P coll
                           (VeracrossAuth.log_flow P (flowUser P s e) s1) in
               if authResult
               then (Ok true, VeracrossAuth.set_isAuthenticated P true s2)
               else (Ok false, s2))).
  { unfold next, VeracrossAuth.ensureAuthenticated.
    assert (Hnt : VeracrossAuth.trusted_for P cleared e = false)
      by (rewrite Hcleared; reflexivity).
    rewrite Hnt. unfold bind at 1.
    assert (Hload : VeracrossAuth.loadStoredSession P baseUrl e cleared = (Ok false, cleared)).
    { unfold VeracrossAuth.loadStoredSession. now rewrite Hsame, Hnone. }
    rewrite Hload. unfold bind at 1. unfold ret at 1.
    unfold VeracrossAuth.reauthenticate. unfold bind at 1. unfold modify at 1.
    rewrite Hsame. unfold bind at 1. unfold gets at 1. rewrite Hnone.
    unfold VeracrossAuth.authenticateWithBrowser, try_catch. unfold bind at 1.
    rewrite Hhas. unfold bind at 1. unfold ret at 1. unfold bind at 1. unfold modify at 1.
    unfold bind at 1. unfold VeracrossAuth.startAuthFlow.
    assert (Hsrv : VeracrossAuth.browserAuthServer P
                     (VeracrossAuth.ensureBrowserAuthServer P e cleared)
                   = Some (flowUser P s e)).
    { unfold VeracrossAuth.ensureBrowserAuthServer, flowUser, VeracrossAuth.other_user.
      rewrite Hcleared. cbn. rewrite Hcur, String.eqb_refl.
      destruct (VeracrossAuth.browserAuthServer P s) eqn:E; cbn; rewrite ?E; reflexivity. }
    rewrite Hsrv. cbv zeta.
    destruct (Platform.startAuthFlow P _ _) as [[|] coll]; reflexivity. }
  assert (Hs1 : let s1 := VeracrossAuth.ensureBrowserAuthServer P e cleared in
                VeracrossAuth.sent P s1 = VeracrossAuth.sent P s
                /\ VeracrossAuth.flows P s1 = VeracrossAuth.flows P s
                /\ VeracrossAuth.db P s1 = VeracrossAuth.db P cleared).
  { cbv zeta. unfold VeracrossAuth.ensureBrowserAuthServer.
    destruct (_ || _); rewrite Hcleared; cbn; auto. }
  cbv zeta in Hs1. destruct Hs1 as (Hsent & Hflows & Hdb).
  rewrite Hnext. cbv zeta. rewrite Hdb.
  destruct (Platform.startAuthFlow P _ _) as [[|] coll]; cbn [fst snd];
    cbn; rewrite Hsent, Hflows; auto.
Qed.

(** X18 on an object serving [b@x.com], whose session is stored. *)
Lemma cleared_credentials_force_login_flow_witness :
  let s := servingBob (Toy.storedSession "b@x.com" "tok=bob" []) in
  let cleared := VeracrossAuth.clearStoredCredentials calmPlatform s in
  let next := VeracrossAuth.ensureAuthenticated calmPlatform portalBase "b@x.com" cleared in
  fst (VeracrossAuth.hasStoredSession calmPlatform "b@x.com" s) = Ok true
  /\ fst (VeracrossAuth.hasStoredSession calmPlatform "b@x.com" cleared) = Ok false
  /\ VeracrossAuth.sent calmPlatform (snd next) = []
  /\ VeracrossAuth.flows calmPlatform (snd next) = ["b@x.com"]
  /\ fst next = Ok false.
Proof.
  intros s cleared next.
  assert (Hu : unique_by MongoCredentialStore.userHash (VeracrossAuth.db calmPlatform s)).
  { unfold unique_by. vm_compute. repeat constructor. simpl. tauto. }
  pose proof (cleared_credentials_force_login_flow calmPlatform portalBase "b@x.com" s
                eq_refl eq_refl Hu) as (_ & _ & _ & H1 & H2 & H3 & H4).
  fold cleared in H1, H2, H3, H4. fold next in H2, H3, H4.
  split; [vm_compute; reflexivity|]. split; [now rewrite H1|].
  split; [exact H2|]. split; [exact H3|]. rewrite H4. vm_compute. reflexivity.
Defined.

(* ------------------------------------------------------------------ *)
(** ** The browser-session revision: an expired stored session *)
(* ------------------------------------------------------------------ *)

(** X19.  In the browser-session revision a stored session whose
    [expiresAt] has passed is not used: [ensureAuthenticated] throws
    without sending a request, the cookie jar is left as it was and the
    object is not trusted. *)
Theorem expired_session_is_not_hydrated :
  forall (P : Platform.t) (baseUrl e a : string) (s : VeracrossAuth.state P)
         credentials sessionData expiry,
    VeracrossAuth.trusted_for P s e = false ->
    VeracrossAuth.browserAuthServer P (VeracrossAuthBrowser.ensureBrowserAuthServer P e s)
    = Some a ->
    MongoCredentialStore.loadCredentials (Platform.aes_decrypt P)
      (Platform.JSON_parse_credentials P)
      (MongoCredentialStore.new (Platform.sha256 P) (Platform.ENCRYPTION_MASTER_KEY P) a)
      (VeracrossAuth.db P s) = Some credentials ->
    Platform.JSON_parse_session P (password credentials) = Some sessionData ->
    expiresAt sessionData = Some expiry ->
    (expiry < Platform.now P)%Z ->
    let out := VeracrossAuthBrowser.ensureAuthenticated P baseUrl e s in
    fst out
    = Throw "Browser authentication required. Please use the authenticate_browser tool first."
    /\ VeracrossAuth.sent P (snd out) = VeracrossAuth.sent P s
    /\ VeracrossAuth.cookieJar P (snd out) = VeracrossAuth.cookieJar P s
    /\ VeracrossAuth.isAuthenticated P (snd out) = false.
Proof.
  intros P baseUrl e a s credentials sessionData expiry Hnot Hsrv Hload Hparse Hexp Hpast out.
  set (s1 := VeracrossAuthBrowser.ensureBrowserAuthServer P e s) in *.
  assert (Hs1 : VeracrossAuth.sent P s1 = VeracrossAuth.sent P s
                /\ VeracrossAuth.cookieJar P s1 = VeracrossAuth.cookieJar P s
                /\ VeracrossAuth.db P s1 = VeracrossAuth.db P s
                /\ VeracrossAuth.isAuthenticated P s1 = false).
  { unfold s1, VeracrossAuthBrowser.ensureBrowserAuthServer,
      VeracrossAuth.ensureBrowserAuthServer.
    destruct (VeracrossAuth.is_none _ || VeracrossAuth.other_user P s e) eqn:E;
      [cbn; auto|].
    repeat split. apply orb_false_iff in E. destruct E as [_ E].
    unfold VeracrossAuth.trusted_for in Hnot. rewrite E in Hnot.
    now rewrite andb_true_r in Hnot. }
  destruct Hs1 as (Hsent & Hjar & Hdb & Hflag).
  assert (Hnone : VeracrossAuthBrowser.createCookieJar P s1 = Ok None).
  { unfold VeracrossAuthBrowser.createCookieJar. rewrite Hsrv.
    unfold BrowserAuthServer.createCookieJar, BrowserAuthServer.getStoredSession.
    cbn [BrowserAuthServer.credentialStore BrowserAuthServer.db BrowserAuthServer.new].
    rewrite Hdb, Hload.
    destruct (JsString.truthy (password credentials)); [|reflexivity].
    cbn [negb]. rewrite Hparse, Hexp.
    destruct (Z.gtb_spec (Platform.now P) expiry); [reflexivity|lia]. }
  assert (Hout : out = (Throw "Browser authentication required. Please use the authenticate_browser tool first.", s1)).
  { unfold out, VeracrossAuthBrowser.ensureAuthenticated. rewrite Hnot.
    unfold bind at 1. unfold VeracrossAuthBrowser.loadStoredSession.
    fold s1. rewrite Hnone. reflexivity. }
  rewrite Hout. cbn [fst snd]. auto.
Qed.

(** A platform on which every stored session carries the expiry stamp
    500, read at clock 1000. *)
Definition expiringPlatform : Platform.t :=
  {| Platform.jarOps := Toy.jarOps;
     Platform.sha256 := Toy.sha256;
     Platform.aes_encrypt := Toy.aes_encrypt;
     Platform.aes_decrypt := Toy.aes_decrypt;
     Platform.JSON_parse_credentials := Toy.JSON_parse_credentials;
     Platform.ENCRYPTION_MASTER_KEY := None;
     Platform.JSON_parse_session :=
       (fun text =>
          match Toy.JSON_parse_session text with
          | Some sd =>
              Some {| cookies := cookies sd; userAgent := userAgent sd;
                      timestamp := Some 0%Z; expiresAt := Some 500%Z |}
          | None => None
          end);
     Platform.JSON_stringify_session := Toy.JSON_stringify_session;
     Platform.hostname := Toy.hostname;
     Platform.fetch := (fun _ req => Some (Toy.page (Http.url req) "ok"));
     Platform.startAuthFlow := (fun _ coll => (false, coll));
     Platform.encodeURIComponent := (fun s => s);
     Platform.extractHiddenFields := (fun _ => []);
     Platform.URLSearchParams_toString := (fun _ => EmptyString);
     Platform.now := 1000;
     Platform.randomBytes16 := "0123456789abcdef" |}.

(** X19 on a fresh object and a session stored long ago. *)
Lemma expired_session_is_not_hydrated_witness :
  let s := VeracrossAuth.new expiringPlatform (Toy.storedSession "b@x.com" "session=old" []) in
  let out := VeracrossAuthBrowser.ensureAuthenticated expiringPlatform portalBase "b@x.com" s in
  fst out
  = Throw "Browser authentication required. Please use the authenticate_browser tool first."
  /\ VeracrossAuth.sent expiringPlatform (snd out) = [].
Proof.
  intros s out.
  assert (Hlt : (500 < Platform.now expiringPlatform)%Z) by (cbn; lia).
  pose proof (expired_session_is_not_hydrated expiringPlatform portalBase "b@x.com" "b@x.com" s
                {| username := "b@x.com"; password := Toy.sessionBlob "session=old" |}
                {| cookies := Some "session=old"; userAgent := Some "agent";
                   timestamp := Some 0%Z; expiresAt := Some 500%Z |}
                500%Z eq_refl eq_refl eq_refl eq_refl eq_refl Hlt) as (H1 & H2 & _).
  split; [exact H1|exact H2].
Defined.

(* ------------------------------------------------------------------ *)
(** ** [BrowserAuthServer]: what a request to the listener can do *)
(* ------------------------------------------------------------------ *)

Section Capture.

Variable P : Platform.t.

Local Abbreviation state := (BrowserAuthServer.state).

(** The collection after the session captured from cookie string [c] has
    been stored. *)
Definition stored_as (s : state) (c : string) (ua : option string)
  : list MongoCredentialStore.EncryptedCredentialDocument :=
  MongoCredentialStore.saveCredentials (Platform.aes_encrypt P)
    (BrowserAuthServer.credentialStore s)
    {| username := BrowserAuthServer.userEmail s;
       password :=
         Platform.JSON_stringify_session P (BrowserAuthServer.capturedSession P c ua) |}
    (Platform.randomBytes16 P) (Platform.now P) (BrowserAuthServer.db s).

(** What one request leaves behind: the requests it sent to the portal,
    all to the login address; the collection, unchanged or with a session
    of marked cookies stored; and the promise, resolved with [true] only
    together with such a store. *)
Definition served (s s' : state) : Prop :=
  (exists rest,
      BrowserAuthServer.sent s' = (BrowserAuthServer.sent s ++ rest)%list
      /\ (List.length rest <= 2)%nat
      /\ Forall (fun r => Http.url r = BrowserAuthServer.portalUrl ++ "/login") rest)
  /\ BrowserAuthServer.userEmail s' = BrowserAuthServer.userEmail s
  /\ BrowserAuthServer.credentialStore s' = BrowserAuthServer.credentialStore s
  /\ ((BrowserAuthServer.db s' = BrowserAuthServer.db s
       /\ (BrowserAuthServer.settled s = None ->
           BrowserAuthServer.settled s' <> Some true))
      \/ exists c ua,
           BrowserAuthServer.isValidVeracrossSession c = true
           /\ BrowserAuthServer.db s' = stored_as s c ua).

Lemma served_refl (s : state) : served s s.
Proof.
  split; [exists []; rewrite app_nil_r; repeat split; [simpl; lia|constructor]|].
  split; [reflexivity|]. split; [reflexivity|].
  left. split; [reflexivity|]. intros H. rewrite H. discriminate.
Qed.

Lemma resolve_false_settled (s : state) :
  BrowserAuthServer.settled s = None ->
  BrowserAuthServer.settled (BrowserAuthServer.resolve false s) <> Some true.
Proof.
  intros H. unfold BrowserAuthServer.resolve.
  destruct (BrowserAuthServer.authResolve s); rewrite ?H; cbn; congruence.
Qed.

Lemma resolve_frame v (s : state) :
  BrowserAuthServer.sent (BrowserAuthServer.resolve v s) = BrowserAuthServer.sent s
  /\ BrowserAuthServer.db (BrowserAuthServer.resolve v s) = BrowserAuthServer.db s
  /\ BrowserAuthServer.userEmail (BrowserAuthServer.resolve v s)
     = BrowserAuthServer.userEmail s
  /\ BrowserAuthServer.credentialStore (BrowserAuthServer.resolve v s)
     = BrowserAuthServer.credentialStore s.
Proof.
  unfold BrowserAuthServer.resolve.
  destruct (BrowserAuthServer.authResolve s); [|auto].
  destruct (BrowserAuthServer.settled s); cbn; auto.
Qed.

Lemma callbackRoute_served c ua referer ok (s : state) :
  served s (snd (BrowserAuthServer.callbackRoute P c ua referer ok s)).
Proof.
  unfold BrowserAuthServer.callbackRoute, BrowserAuthServer.handleCallback, try_catch.
  destruct c as [c|]; [|apply served_refl].
  destruct (JsString.truthy c); [|apply served_refl].
  destruct (BrowserAuthServer.isValidVeracrossSession c) eqn:Hv; [|apply served_refl].
  cbn [negb]. unfold bind at 1. unfold BrowserAuthServer.saveSession.
  destruct ok.
  - unfold bind, modify, ret. cbn [fst snd].
    destruct (resolve_frame true
                (BrowserAuthServer.set_db
                   (MongoCredentialStore.saveCredentials (Platform.aes_encrypt P)
                      (BrowserAuthServer.credentialStore s)
                      {| username := BrowserAuthServer.userEmail s;
                         password := Platform.JSON_stringify_session P
                                       (BrowserAuthServer.capturedSession P c ua) |}
                      (Platform.randomBytes16 P) (Platform.now P) (BrowserAuthServer.db s)) s))
      as (R1 & R2 & R3 & R4).
    split; [|split; [|split]].
    + exists []. rewrite app_nil_r. cbn. rewrite R1. cbn.
      repeat split; [simpl; lia|constructor].
    + cbn. rewrite R3. reflexivity.
    + cbn. rewrite R4. reflexivity.
    + right. exists c, ua. split; [exact Hv|]. cbn. rewrite R2. reflexivity.
  - unfold bind, modify, ret. cbn [fst snd].
    destruct (resolve_frame false s) as (R1 & R2 & R3 & R4).
    split; [|split; [|split]].
    + exists []. rewrite app_nil_r. repeat split; [exact R1|simpl; lia|constructor].
    + exact R3.
    + exact R4.
    + left. split; [exact R2|]. apply resolve_false_settled.
Qed.

Lemma makeRequestWithJar_frame j url options (s : state) :
  let s' := snd (BrowserAuthServer.makeRequestWithJar P j url options s) in
  (exists r, BrowserAuthServer.sent s' = (BrowserAuthServer.sent s ++ [r])%list
             /\ Http.url r = url)
  /\ BrowserAuthServer.db s' = BrowserAuthServer.db s
  /\ BrowserAuthServer.settled s' = BrowserAuthServer.settled s
  /\ BrowserAuthServer.authResolve s' = BrowserAuthServer.authResolve s
  /\ BrowserAuthServer.userEmail s' = BrowserAuthServer.userEmail s
  /\ BrowserAuthServer.credentialStore s' = BrowserAuthServer.credentialStore s.
Proof.
  unfold BrowserAuthServer.makeRequestWithJar.
  destruct (Platform.fetch P _ _) as [response|].
  - destruct (BrowserAuthServer.setCookies P _ _ _); cbn;
      (split; [eexists; split; reflexivity|auto 6]).
  - cbn. split; [eexists; split; reflexivity|auto 6].
Qed.

End Capture.

Section Capture2.

Variable P : Platform.t.

Local Abbreviation state := (BrowserAuthServer.state).

Lemma snd_try_catch_ret {S A} (m : M S A) (a : A) (s : S) :
  snd (try_catch m (ret a) s) = snd (m s).
Proof. unfold try_catch, ret. destruct (m s) as [[x|e] s']; reflexivity. Qed.

(** A handler that left the collection and the promise alone after
    sending [rest] to the login address. *)
Lemma served_quiet (s s' : state) rest :
  BrowserAuthServer.sent s' = (BrowserAuthServer.sent s ++ rest)%list ->
  (List.length rest <= 2)%nat ->
  Forall (fun r => Http.url r = BrowserAuthServer.portalUrl ++ "/login") rest ->
  BrowserAuthServer.userEmail s' = BrowserAuthServer.userEmail s ->
  BrowserAuthServer.credentialStore s' = BrowserAuthServer.credentialStore s ->
  BrowserAuthServer.db s' = BrowserAuthServer.db s ->
  BrowserAuthServer.settled s' = BrowserAuthServer.settled s ->
  served P s s'.
Proof.
  intros H1 H2 H3 H4 H5 H6 H7.
  split; [exists rest; auto|]. split; [exact H4|]. split; [exact H5|].
  left. split; [exact H6|]. intros Hn. rewrite H7, Hn. discriminate.
Qed.

Lemma loginRoute_served u p ua ok (s : state) :
  served P s (snd (BrowserAuthServer.loginRoute P u p ua ok s)).
Proof.
  unfold BrowserAuthServer.loginRoute. rewrite snd_try_catch_ret.
  unfold BrowserAuthServer.handleLoginSubmission.
  destruct (negb (truthy_opt u) || negb (truthy_opt p)); [apply served_refl|].
  rewrite snd_try_catch_ret.
  set (user := match u with Some x => x | None => EmptyString end).
  set (pass := match p with Some x => x | None => EmptyString end).
  unfold bind at 1.
  pose proof (makeRequestWithJar_frame P (CookieJar.empty (Platform.jarOps P))
                (BrowserAuthServer.portalUrl ++ "/login") Http.no_options s) as F1.
  destruct (BrowserAuthServer.makeRequestWithJar P _ _ _ s) as [[[r1 jar1]|msg] s1];
    cbn [snd] in F1; destruct F1 as ((q1 & Hs1 & Hq1) & Hdb1 & Hst1 & Har1 & Hue1 & Hcs1).
  2: { cbn [snd].
       apply (served_quiet s s1 [q1]);
         first [assumption|simpl; lia|repeat constructor; assumption]. }
  unfold bind at 1.
  match goal with
  | |- context [BrowserAuthServer.makeRequestWithJar P jar1 ?url ?o s1] =>
      pose proof (makeRequestWithJar_frame P jar1 url o s1) as F2;
      destruct (BrowserAuthServer.makeRequestWithJar P jar1 url o s1)
        as [[[r2 jar2]|msg] s2]
  end;
    cbn [snd] in F2; destruct F2 as ((q2 & Hs2 & Hq2) & Hdb2 & Hst2 & Har2 & Hue2 & Hcs2).
  2: { cbn [snd]. apply (served_quiet s s2 [q1; q2]).
       - rewrite Hs2, Hs1, <- app_assoc. reflexivity.
       - simpl. lia.
       - repeat constructor; assumption.
       - congruence.
       - congruence.
       - congruence.
       - congruence. }
  assert (Hquiet : served P s s2).
  { apply (served_quiet s s2 [q1; q2]).
    - rewrite Hs2, Hs1, <- app_assoc. reflexivity.
    - simpl. lia.
    - repeat constructor; assumption.
    - congruence.
    - congruence.
    - congruence.
    - congruence. }
  destruct (negb (BrowserAuthServer.loginSuccessful r2)); [exact Hquiet|].
  set (c := CookieJar.getCookieString (Platform.jarOps P) jar2 BrowserAuthServer.portalUrl).
  destruct (negb (JsString.truthy c) || negb (BrowserAuthServer.isValidVeracrossSession c))
    eqn:Hv; [exact Hquiet|].
  apply orb_false_iff in Hv. destruct Hv as [_ Hv]. apply negb_false_iff in Hv.
  unfold bind at 1. unfold BrowserAuthServer.saveSession.
  destruct ok; [|exact Hquiet].
  set (s3 := BrowserAuthServer.set_db _ s2).
  assert (Hdb3 : BrowserAuthServer.db s3 = stored_as P s c ua).
  { unfold s3, stored_as. cbn. now rewrite Hcs2, Hcs1, Hue2, Hue1, Hdb2, Hdb1. }
  assert (Hfinal : forall s4,
            BrowserAuthServer.sent s4 = BrowserAuthServer.sent s3 ->
            BrowserAuthServer.db s4 = BrowserAuthServer.db s3 ->
            BrowserAuthServer.userEmail s4 = BrowserAuthServer.userEmail s3 ->
            BrowserAuthServer.credentialStore s4 = BrowserAuthServer.credentialStore s3 ->
            served P s s4).
  { intros s4 E1 E2 E3 E4. split; [|split; [|split]].
    - exists [q1; q2]. rewrite E1. cbn. rewrite Hs2, Hs1, <- app_assoc.
      repeat split; [simpl; lia|repeat constructor; assumption].
    - rewrite E3. cbn. congruence.
    - rewrite E4. cbn. congruence.
    - right. exists c, ua. split; [exact Hv|]. now rewrite E2. }
  unfold bind, gets, modify, ret. cbn [fst snd].
  destruct (BrowserAuthServer.authResolve s3); cbn [fst snd].
  - destruct (resolve_frame true s3) as (R1 & R2 & R3 & R4).
    apply Hfinal; cbn; auto.
  - apply Hfinal; reflexivity.
Qed.

Lemma serve_served e (s : state) : served P s (snd (BrowserAuthServer.serve P e s)).
Proof.
  destruct e as [c ua r ok|u p ua ok| |]; simpl.
  - apply callbackRoute_served.
  - apply loginRoute_served.
  - apply served_refl.
  - destruct (BrowserAuthServer.closeTimers s) eqn:E; cbn [snd]; [apply served_refl|].
    unfold BrowserAuthServer.close.
    destruct (BrowserAuthServer.server (BrowserAuthServer.set_closeTimers n s));
      apply (served_quiet s _ []); cbn; auto; try (now rewrite app_nil_r); constructor.
Qed.

End Capture2.

(** X20.  Whatever request reaches the listener of the login flow, serving
    it sends at most two requests to the portal, both to the portal's
    login address; it leaves the credentials collection unchanged unless
    it stores a captured session whose cookie string carries a session
    marker; and a pending login is reported as successful only together
    with such a store. *)
Theorem listener_stores_only_marked_sessions :
  forall (P : Platform.t) (e : BrowserAuthServer.event) (s : BrowserAuthServer.state),
    let s' := snd (BrowserAuthServer.serve P e s) in
    (exists rest,
        BrowserAuthServer.sent s' = (BrowserAuthServer.sent s ++ rest)%list
        /\ (List.length rest <= 2)%nat
        /\ Forall (fun r => Http.url r = "https://portals.veracross.com/csg/login") rest)
    /\ (BrowserAuthServer.db s' <> BrowserAuthServer.db s
        \/ (BrowserAuthServer.settled s = None
            /\ BrowserAuthServer.settled s' = Some true) ->
        exists c ua,
          BrowserAuthServer.isValidVeracrossSession c = true
          /\ BrowserAuthServer.db s' = stored_as P s c ua).
Proof.
  intros P e s s'. destruct (serve_served P e s) as (Hsent & _ & _ & Hdb).
  fold s' in Hsent, Hdb. split; [exact Hsent|].
  intros Hchange. destruct Hdb as [[Hsame Hset]|Hstored]; [|exact Hstored].
  exfalso. destruct Hchange as [Hne|[Hn Ht]]; [now apply Hne|now apply Hset].
Qed.

(** X20 on a callback whose cookies carry no marker, and on one whose
    cookies do. *)
Lemma listener_stores_only_marked_sessions_witness :
  let s := BrowserAuthServer.newPromise
             (BrowserAuthServer.new calmPlatform "b@x.com" []) in
  let marked :=
    snd (BrowserAuthServer.serve calmPlatform
           (BrowserAuthServer.GetCallback (Some "session=1") None None true) s) in
  BrowserAuthServer.db
    (snd (BrowserAuthServer.serve calmPlatform
            (BrowserAuthServer.GetCallback (Some "theme=dark") None None true) s)) = []
  /\ BrowserAuthServer.settled marked = Some true
  /\ exists c ua,
       BrowserAuthServer.isValidVeracrossSession c = true
       /\ BrowserAuthServer.db marked = stored_as calmPlatform s c ua.
Proof.
  intros s marked. split; [vm_compute; reflexivity|]. split; [vm_compute; reflexivity|].
  apply (proj2 (listener_stores_only_marked_sessions calmPlatform
                  (BrowserAuthServer.GetCallback (Some "session=1") None None true) s)).
  right. split; vm_compute; reflexivity.
Defined.

Section CaptureRoundTrip.

Variable P : Platform.t.

Local Abbreviation state := (BrowserAuthServer.state).

Lemma marked_is_nonempty c :
  BrowserAuthServer.isValidVeracrossSession c = true -> JsString.truthy c = true.
Proof. destruct c; [discriminate|reflexivity]. Qed.

(** A callback with marked cookies, when the store accepts the write. *)
Lemma callback_captures c ua referer (s : state) :
  BrowserAuthServer.isValidVeracrossSession c = true ->
  BrowserAuthServer.callbackRoute P (Some c) ua referer true s
  = (Ok (BrowserAuthServer.Page "Authentication Successful"),
     BrowserAuthServer.scheduleClose
       (BrowserAuthServer.resolve true (BrowserAuthServer.set_db (stored_as P s c ua) s))).
Proof.
  intros Hv. unfold BrowserAuthServer.callbackRoute, BrowserAuthServer.handleCallback.
  rewrite (marked_is_nonempty c Hv), Hv. reflexivity.
Qed.

Lemma awaitAuth_settled evs (s : state) v :
  BrowserAuthServer.settled s = Some v -> BrowserAuthServer.awaitAuth P evs s = (v, s).
Proof. intros H. destruct evs; simpl; now rewrite H. Qed.

End CaptureRoundTrip.

(** X21.  The login flow end to end.  When the first request to reach the
    listener is a callback whose cookies carry a session marker and the
    store accepts the write, [startAuthFlow] returns [true] whatever
    arrives afterwards, the listener is closed, no request was sent to
    the portal, and the session just stored is the one [getStoredSession]
    reads back: given a cipher that decrypts what it encrypted, [JSON.parse]
    reading back the credentials and the session written, and an expiry
    stamp that has not passed. *)
Theorem captured_session_reads_back :
  forall (P : Platform.t) (email : string)
         (coll : list MongoCredentialStore.EncryptedCredentialDocument)
         (port : nat) (c : string) (ua referer : option string)
         (rest : list BrowserAuthServer.event) (sd : SessionData),
    let blob := Platform.JSON_stringify_session P (BrowserAuthServer.capturedSession P c ua) in
    let creds := {| username := email; password := blob |} in
    let key :=
      MongoCredentialStore.encryptionKey
        (MongoCredentialStore.new (Platform.sha256 P) (Platform.ENCRYPTION_MASTER_KEY P) email) in
    BrowserAuthServer.isValidVeracrossSession c = true ->
    Platform.aes_decrypt P key (Platform.randomBytes16 P)
      (Platform.aes_encrypt P key (Platform.randomBytes16 P)
         (MongoCredentialStore.credentialsJson creds))
    = Some (MongoCredentialStore.credentialsJson creds) ->
    Platform.JSON_parse_credentials P (MongoCredentialStore.credentialsJson creds)
    = Some creds ->
    JsString.truthy blob = true ->
    Platform.JSON_parse_session P blob = Some sd ->
    (forall x, expiresAt sd = Some x -> (Platform.now P <= x)%Z) ->
    let out :=
      BrowserAuthServer.startAuthFlow P
        {| BrowserAuthServer.getPort := Some port;
           BrowserAuthServer.openOk := true;
           BrowserAuthServer.events :=
             BrowserAuthServer.GetCallback (Some c) ua referer true :: rest |}
        (BrowserAuthServer.new P email coll) in
    fst out = true
    /\ BrowserAuthServer.server (snd out) = None
    /\ BrowserAuthServer.sent (snd out) = []
    /\ BrowserAuthServer.getStoredSession P (snd out) = Some sd.
Proof.
  intros P email coll port c ua referer rest sd blob creds key Hv Hdec Hparse Hblob Hsd Hexp out.
  set (s1 := BrowserAuthServer.newPromise
               (BrowserAuthServer.set_server (Some port) (BrowserAuthServer.new P email coll))).
  set (s2 := BrowserAuthServer.scheduleClose
               (BrowserAuthServer.resolve true
                  (BrowserAuthServer.set_db (stored_as P s1 c ua) s1))).
  assert (Hout : out = (true, BrowserAuthServer.close s2)).
  { unfold out, BrowserAuthServer.startAuthFlow.
    cbn [BrowserAuthServer.getPort BrowserAuthServer.openOk BrowserAuthServer.events].
    fold s1. cbn [BrowserAuthServer.awaitAuth].
    assert (Hn : BrowserAuthServer.settled s1 = None) by reflexivity.
    rewrite Hn. cbn [BrowserAuthServer.serve].
    rewrite (callback_captures P c ua referer s1 Hv). cbn [snd]. fold s2.
    rewrite (awaitAuth_settled P rest s2 true); reflexivity. }
  rewrite Hout. cbn [fst snd].
  split; [reflexivity|]. split; [reflexivity|]. split; [reflexivity|].
  unfold BrowserAuthServer.getStoredSession.
  assert (Hdb : BrowserAuthServer.db (BrowserAuthServer.close s2) = stored_as P s1 c ua)
    by reflexivity.
  assert (Hcs : BrowserAuthServer.credentialStore (BrowserAuthServer.close s2)
                = MongoCredentialStore.new (Platform.sha256 P)
                    (Platform.ENCRYPTION_MASTER_KEY P) email) by reflexivity.
  rewrite Hdb, Hcs. unfold stored_as.
  cbn [BrowserAuthServer.credentialStore BrowserAuthServer.userEmail BrowserAuthServer.db
       BrowserAuthServer.newPromise BrowserAuthServer.set_server BrowserAuthServer.new s1].
  rewrite (load_after_save (Platform.aes_encrypt P) (Platform.aes_decrypt P)
             (Platform.JSON_parse_credentials P) _ _ _ _ _ _ eq_refl).
  fold blob. fold creds. fold key. rewrite Hdec, Hparse.
  cbn [password creds]. rewrite Hblob. cbn [negb]. rewrite Hsd.
  destruct (expiresAt sd) as [x|] eqn:Ex; [|reflexivity].
  specialize (Hexp x eq_refl).
  destruct (Z.gtb_spec (Platform.now P) x); [lia|reflexivity].
Qed.

(** X21 on a callback followed by a second, late one. *)
Lemma captured_session_reads_back_witness :
  let out :=
    BrowserAuthServer.startAuthFlow calmPlatform
      {| BrowserAuthServer.getPort := Some 3000%nat;
         BrowserAuthServer.openOk := true;
         BrowserAuthServer.events :=
           [BrowserAuthServer.GetCallback (Some "session=1; tok=bob") (Some "Firefox") None true;
            BrowserAuthServer.GetCallback (Some "session=2") None None true] |}
      (BrowserAuthServer.new calmPlatform "b@x.com" []) in
  fst out = true
  /\ BrowserAuthServer.getStoredSession calmPlatform (snd out)
     = Some {| cookies := Some "session=1; tok=bob"; userAgent := Some "Firefox";
               timestamp := None; expiresAt := None |}.
Proof.
  intros out.
  pose proof (captured_session_reads_back calmPlatform "b@x.com" [] 3000%nat
                "session=1; tok=bob" (Some "Firefox") None
                [BrowserAuthServer.GetCallback (Some "session=2") None None true]
                {| cookies := Some "session=1; tok=bob"; userAgent := Some "Firefox";
                   timestamp := None; expiresAt := None |}
                eq_refl eq_refl eq_refl eq_refl eq_refl) as H.
  assert (Hexp : forall x : Z, (None : option Z) = Some x -> (Platform.now calmPlatform <= x)%Z)
    by discriminate.
  destruct (H Hexp) as (H1 & _ & _ & H4).
  split; [exact H1|exact H4].
Defined.

(* ------------------------------------------------------------------ *)
(** ** A login for another user on the same object *)
(* ------------------------------------------------------------------ *)

(** [new BrowserAuthServer(e).startAuthFlow()] over a collection, as the
    outside world drives it: what [Platform.startAuthFlow] stands for when
    the requests that reach the listener are those of [sc]. *)
Definition flowOf (P : Platform.t) (sc : BrowserAuthServer.script) (e : string)
  (coll : list MongoCredentialStore.EncryptedCredentialDocument)
  : bool * list MongoCredentialStore.EncryptedCredentialDocument :=
  let out := BrowserAuthServer.startAuthFlow P sc (BrowserAuthServer.new P e coll) in
  (fst out, BrowserAuthServer.db (snd out)).

Section SharedObject.

Variable P : Platform.t.
Variable baseUrl : string.

(** A flow whose first request is a callback with marked cookies stores
    the captured session under the user the server was created for. *)
Lemma captured_flow_stores e coll port c ua referer rest :
  BrowserAuthServer.isValidVeracrossSession c = true ->
  flowOf P
    {| BrowserAuthServer.getPort := Some port;
       BrowserAuthServer.openOk := true;
       BrowserAuthServer.events :=
         BrowserAuthServer.GetCallback (Some c) ua referer true :: rest |} e coll
  = (true,
     MongoCredentialStore.saveCredentials (Platform.aes_encrypt P)
       (VeracrossAuth.newStore P e)
       {| username := e;
          password :=
            Platform.JSON_stringify_session P (BrowserAuthServer.capturedSession P c ua) |}
       (Platform.randomBytes16 P) (Platform.now P) coll).
Proof.
  intros Hv. unfold flowOf, BrowserAuthServer.startAuthFlow.
  cbn [BrowserAuthServer.getPort BrowserAuthServer.openOk BrowserAuthServer.events].
  set (s1 := BrowserAuthServer.newPromise
               (BrowserAuthServer.set_server (Some port) (BrowserAuthServer.new P e coll))).
  cbn [BrowserAuthServer.awaitAuth].
  assert (Hn : BrowserAuthServer.settled s1 = None) by reflexivity.
  rewrite Hn. cbn [BrowserAuthServer.serve].
  rewrite (callback_captures P c ua referer s1 Hv). cbn [snd].
  rewrite (awaitAuth_settled P rest _ true) by reflexivity.
  reflexivity.
Qed.

Lemma hasStoredSession_state e (s : VeracrossAuth.state P) :
  snd (VeracrossAuth.hasStoredSession P e s) = VeracrossAuth.ensureCredentialStore P e s.
Proof.
  unfold VeracrossAuth.hasStoredSession.
  repeat match goal with
         | |- context [match ?x with _ => _ end] => destruct x
         end; reflexivity.
Qed.

Lemma ensureCredentialStore_db e (s : VeracrossAuth.state P) :
  VeracrossAuth.db P (VeracrossAuth.ensureCredentialStore P e s) = VeracrossAuth.db P s.
Proof. unfold VeracrossAuth.ensureCredentialStore. destruct (_ || _); reflexivity. Qed.

(** A login for [B], who has no stored session, on an object that holds
    the server of [A]: the flow of [A]'s server is run over the
    collection, and the object then counts as authenticated for [B]. *)
Lemma login_on_kept_server A B (s : VeracrossAuth.state P) :
  VeracrossAuth.browserAuthServer P s = Some A ->
  fst (VeracrossAuth.hasStoredSession P B s) = Ok false ->
  fst (Platform.startAuthFlow P A (VeracrossAuth.db P s)) = true ->
  let out := VeracrossAuth.authenticateWithBrowser P baseUrl B s in
  fst out = Ok true
  /\ VeracrossAuth.currentUserEmail P (snd out) = Some B
  /\ VeracrossAuth.isAuthenticated P (snd out) = true
  /\ VeracrossAuth.flows P (snd out) = (VeracrossAuth.flows P s ++ [A])%list
  /\ VeracrossAuth.db P (snd out) = snd (Platform.startAuthFlow P A (VeracrossAuth.db P s)).
Proof.
  intros Hsrv Hhas Hflow out.
  set (s1 := VeracrossAuth.ensureCredentialStore P B s).
  assert (Hhas' : VeracrossAuth.hasStoredSession P B s = (Ok false, s1)).
  { rewrite (surjective_pairing (VeracrossAuth.hasStoredSession P B s)).
    now rewrite Hhas, hasStoredSession_state. }
  destruct (ensureCredentialStore_still P B s) as (Hsrv1 & Hflows1 & Hcur1).
  fold s1 in Hsrv1, Hflows1, Hcur1. rewrite Hsrv in Hsrv1.
  assert (Hkeep : VeracrossAuth.ensureBrowserAuthServer P B s1 = s1).
  { unfold VeracrossAuth.ensureBrowserAuthServer, VeracrossAuth.other_user.
    now rewrite Hsrv1, Hcur1, String.eqb_refl. }
  assert (Hdb1 : VeracrossAuth.db P s1 = VeracrossAuth.db P s)
    by apply ensureCredentialStore_db.
  assert (Hout : out
                 = (Ok true,
                    VeracrossAuth.set_isAuthenticated P true
                      (VeracrossAuth.set_db P
                         (snd (Platform.startAuthFlow P A (VeracrossAuth.db P s)))
                         (VeracrossAuth.log_flow P A s1)))).
  { unfold out, VeracrossAuth.authenticateWithBrowser, try_catch.
    unfold bind at 1. rewrite Hhas'. unfold bind at 1. unfold ret at 1.
    unfold bind at 1. unfold modify at 1. rewrite Hkeep.
    unfold bind at 1. unfold VeracrossAuth.startAuthFlow at 1.
    rewrite Hsrv1, Hdb1.
    destruct (Platform.startAuthFlow P A (VeracrossAuth.db P s)) as [r coll'].
    cbn [fst snd] in *. subst r. reflexivity. }
  rewrite Hout. cbn [fst snd].
  split; [reflexivity|]. split; [exact Hcur1|]. split; [reflexivity|].
  split; [cbn; now rewrite Hflows1|reflexivity].
Qed.

End SharedObject.

(** C1.  Isolation fails on a shared [VeracrossAuth] object.  Let the
    object hold the [BrowserAuthServer] created for [A], and let a login
    be asked for [B], who has no stored session.  [hasStoredSession] has
    already made [B] the current user when [ensureBrowserAuthServer]
    compares, so the server of [A] is kept and the interactive flow runs
    on it.  When the browser of [B] completes the flow, the session
    captured for [B] is saved through the store of [A]: the login returns
    [true] with [B] as the current user, a load under [A] then returns the
    session of [B], and the partition of [B] has received nothing. *)
Theorem C1_login_for_B_overwrites_session_of_A :
  forall (P : Platform.t) (baseUrl A B : string) (s : VeracrossAuth.state P)
         (port : nat) (c : string) (ua referer : option string)
         (rest : list BrowserAuthServer.event),
    let sc :=
      {| BrowserAuthServer.getPort := Some port;
         BrowserAuthServer.openOk := true;
         BrowserAuthServer.events :=
           BrowserAuthServer.GetCallback (Some c) ua referer true :: rest |} in
    let storeA := VeracrossAuth.newStore P A in
    let storeB := VeracrossAuth.newStore P B in
    let captured :=
      {| username := A;
         password :=
           Platform.JSON_stringify_session P (BrowserAuthServer.capturedSession P c ua) |} in
    VeracrossAuth.browserAuthServer P s = Some A ->
    fst (VeracrossAuth.hasStoredSession P B s) = Ok false ->
    Platform.startAuthFlow P A (VeracrossAuth.db P s)
    = flowOf P sc A (VeracrossAuth.db P s) ->
    BrowserAuthServer.isValidVeracrossSession c = true ->
    Platform.aes_decrypt P (MongoCredentialStore.encryptionKey storeA)
      (Platform.randomBytes16 P)
      (Platform.aes_encrypt P (MongoCredentialStore.encryptionKey storeA)
         (Platform.randomBytes16 P) (MongoCredentialStore.credentialsJson captured))
    = Some (MongoCredentialStore.credentialsJson captured) ->
    Platform.JSON_parse_credentials P (MongoCredentialStore.credentialsJson captured)
    = Some captured ->
    MongoCredentialStore.hashEmail (Platform.sha256 P) A
    <> MongoCredentialStore.hashEmail (Platform.sha256 P) B ->
    let out := VeracrossAuth.authenticateWithBrowser P baseUrl B s in
    fst out = Ok true
    /\ VeracrossAuth.currentUserEmail P (snd out) = Some B
    /\ VeracrossAuth.isAuthenticated P (snd out) = true
    /\ MongoCredentialStore.loadCredentials (Platform.aes_decrypt P)
         (Platform.JSON_parse_credentials P) storeA (VeracrossAuth.db P (snd out))
       = Some captured
    /\ MongoCredentialStore.loadCredentials (Platform.aes_decrypt P)
         (Platform.JSON_parse_credentials P) storeB (VeracrossAuth.db P (snd out))
       = MongoCredentialStore.loadCredentials (Platform.aes_decrypt P)
           (Platform.JSON_parse_credentials P) storeB (VeracrossAuth.db P s).
Proof.
  intros P baseUrl A B s port c ua referer rest sc storeA storeB captured
         Hsrv Hhas Hflow Hv Hdec Hparse Hne out.
  assert (Hrun : Platform.startAuthFlow P A (VeracrossAuth.db P s)
                 = (true,
                    MongoCredentialStore.saveCredentials (Platform.aes_encrypt P) storeA
                      captured (Platform.randomBytes16 P) (Platform.now P)
                      (VeracrossAuth.db P s))).
  { rewrite Hflow. unfold sc. now apply captured_flow_stores. }
  destruct (login_on_kept_server P baseUrl A B s Hsrv Hhas) as (H1 & H2 & H3 & _ & H5).
  { now rewrite Hrun. }
  fold out in H1, H2, H3, H5. rewrite Hrun in H5. cbn [snd] in H5.
  split; [exact H1|]. split; [exact H2|]. split; [exact H3|].
  rewrite H5. split.
  - rewrite (load_after_save (Platform.aes_encrypt P) (Platform.aes_decrypt P)
               (Platform.JSON_parse_credentials P) storeA storeA captured _ _ _ eq_refl).
    now rewrite Hdec, Hparse.
  - unfold storeB, storeA, VeracrossAuth.newStore.
    rewrite <- (store_load_own_rows (Platform.sha256 P) (Platform.aes_decrypt P)
                  (Platform.JSON_parse_credentials P) (Platform.ENCRYPTION_MASTER_KEY P) B
                  (MongoCredentialStore.saveCredentials _ _ _ _ _ _)).
    rewrite <- (store_load_own_rows (Platform.sha256 P) (Platform.aes_decrypt P)
                  (Platform.JSON_parse_credentials P) (Platform.ENCRYPTION_MASTER_KEY P) B
                  (VeracrossAuth.db P s)).
    f_equal.
    exact (store_op_frame (Platform.sha256 P) (Platform.aes_encrypt P)
             (Platform.ENCRYPTION_MASTER_KEY P) A B Hne
             (StoreSave captured (Platform.randomBytes16 P) (Platform.now P))
             (VeracrossAuth.db P s)).
Qed.

(** A browser completing the flow: one callback with its cookies. *)
Definition completes (cookieHeader : string) : BrowserAuthServer.script :=
  {| BrowserAuthServer.getPort := Some 3000%nat;
     BrowserAuthServer.openOk := true;
     BrowserAuthServer.events :=
       [BrowserAuthServer.GetCallback (Some cookieHeader) (Some "Firefox") None true] |}.

(** A portal that answers every request with a page, and a browser flow
    that is the listener of [browser-auth.ts]: the first flow, run while
    nothing is stored, is completed in the browser of [a@x.com], a later
    one in the browser of [b@x.com]. *)
Definition sharedPlatform : Platform.t :=
  Toy.platform (fun _ req => Some (Toy.page (Http.url req) "ok"))
    (fun e coll =>
       match coll with
       | [] => flowOf calmPlatform (completes "session=alice") e coll
       | _ => flowOf calmPlatform (completes "session=bob") e coll
       end).

(** A fresh object after the login of [a@x.com]. *)
Definition afterAlice : VeracrossAuth.state sharedPlatform :=
  snd (VeracrossAuth.authenticateWithBrowser sharedPlatform portalBase "a@x.com"
         (VeracrossAuth.new sharedPlatform [])).

(** C1 on one object and two logins, [a@x.com] then [b@x.com]: after the
    first a load under [a@x.com] returns her own session, after the second
    the session of [b@x.com], under whose identity nothing is stored. *)
Lemma C1_login_for_B_overwrites_session_of_A_witness :
  let load := fun e coll =>
    match MongoCredentialStore.loadCredentials Toy.aes_decrypt Toy.JSON_parse_credentials
            (MongoCredentialStore.new Toy.sha256 None e) coll with
    | Some credentials =>
        Some (username credentials, Toy.JSON_parse_session (password credentials))
    | None => None
    end in
  let out :=
    VeracrossAuth.authenticateWithBrowser sharedPlatform portalBase "b@x.com" afterAlice in
  load "a@x.com" (VeracrossAuth.db sharedPlatform afterAlice)
  = Some ("a@x.com",
          Some {| cookies := Some "session=alice"; userAgent := Some "Firefox";
                  timestamp := None; expiresAt := None |})
  /\ fst out = Ok true
  /\ VeracrossAuth.currentUserEmail sharedPlatform (snd out) = Some "b@x.com"
  /\ load "a@x.com" (VeracrossAuth.db sharedPlatform (snd out))
     = Some ("a@x.com",
             Some {| cookies := Some "session=bob"; userAgent := Some "Firefox";
                     timestamp := None; expiresAt := None |})
  /\ load "b@x.com" (VeracrossAuth.db sharedPlatform (snd out)) = None.
Proof.
  intros load out.
  assert (Hne : MongoCredentialStore.hashEmail (Platform.sha256 sharedPlatform) "a@x.com"
                <> MongoCredentialStore.hashEmail (Platform.sha256 sharedPlatform) "b@x.com")
    by (vm_compute; discriminate).
  destruct (C1_login_for_B_overwrites_session_of_A sharedPlatform portalBase
              "a@x.com" "b@x.com" afterAlice 3000%nat "session=bob" (Some "Firefox") None []
              eq_refl eq_refl eq_refl eq_refl eq_refl eq_refl Hne)
    as (H1 & H2 & _ & H4 & H5).
  fold out in H1, H2, H4, H5.
  split; [vm_compute; reflexivity|]. split; [exact H1|]. split; [exact H2|].
  unfold load. split.
  - change Toy.aes_decrypt with (Platform.aes_decrypt sharedPlatform).
    change Toy.JSON_parse_credentials with (Platform.JSON_parse_credentials sharedPlatform).
    change (MongoCredentialStore.new Toy.sha256 None "a@x.com")
      with (VeracrossAuth.newStore sharedPlatform "a@x.com").
    rewrite H4. vm_compute. reflexivity.
  - change Toy.aes_decrypt with (Platform.aes_decrypt sharedPlatform).
    change Toy.JSON_parse_credentials with (Platform.JSON_parse_credentials sharedPlatform).
    change (MongoCredentialStore.new Toy.sha256 None "b@x.com")
      with (VeracrossAuth.newStore sharedPlatform "b@x.com").
    rewrite H5. vm_compute. reflexivity.
Defined.

(* ------------------------------------------------------------------ *)
(** ** The file-based credential store *)
(* ------------------------------------------------------------------ *)

(** [s] holds the character [c]. *)
Fixpoint contains (c : ascii) (s : string) : bool :=
  match s with
  | EmptyString => false
  | String a r => Ascii.eqb a c || contains c r
  end.

Lemma split_without sep s : contains sep s = false -> JsString.split sep s = [s].
Proof.
  induction s as [|a r IH]; simpl; [reflexivity|].
  intros H. apply orb_false_iff in H. destruct H as [Ha Hr].
  rewrite Ha, (IH Hr). reflexivity.
Qed.

Lemma split_at sep a b :
  contains sep a = false ->
  JsString.split sep (a ++ String sep b) = a :: JsString.split sep b.
Proof.
  induction a as [|x r IH]; simpl.
  - intros _. now rewrite Ascii.eqb_refl.
  - intros H. apply orb_false_iff in H. destruct H as [Hx Hr].
    rewrite Hx, (IH Hr). reflexivity.
Qed.

Lemma hex_digit_no_colon n : Ascii.eqb (Json.hex_digit n) ":"%char = false.
Proof.
  unfold Json.hex_digit.
  do 16 (destruct n as [|n]; [reflexivity|]). reflexivity.
Qed.

Lemma hex_no_colon s : contains ":" (Encoding.hex s) = false.
Proof.
  induction s as [|c r IH]; simpl; [reflexivity|].
  now rewrite !hex_digit_no_colon, IH.
Qed.

Section FileCredentials.

Variable sha256 : string -> string.
Variable homedir : string.
Variable aes_encrypt_raw : string -> string -> string -> string.
Variable aes_decrypt_raw : string -> string -> string -> option string.
Variable JSON_parse_credentials : string -> option Credentials.

Local Abbreviation fs := SearchCache.fs.
Local Abbreviation newStore := (CredentialStore.new sha256 homedir).

Lemma store_paths_differ email :
  CredentialStore.credentialsPath (newStore email)
  <> CredentialStore.keyPath (newStore email).
Proof.
  unfold CredentialStore.new, SearchCache.join.
  cbn [CredentialStore.credentialsPath CredentialStore.keyPath].
  intros E. apply string_app_inv_head in E. discriminate.
Qed.

(** The key in use: the one on file, else the fresh one. *)
Definition keyInUse (s : CredentialStore.t) (rnd32 : string) (f : fs) : string :=
  fst (CredentialStore.getOrCreateEncryptionKey s rnd32 f).

Lemma key_persists (s : CredentialStore.t) rnd32 rnd32' (f : fs) :
  let f1 := snd (CredentialStore.getOrCreateEncryptionKey s rnd32 f) in
  f1 (CredentialStore.keyPath s) = Some (keyInUse s rnd32 f)
  /\ CredentialStore.getOrCreateEncryptionKey s rnd32' f1 = (keyInUse s rnd32 f, f1).
Proof.
  unfold keyInUse, CredentialStore.getOrCreateEncryptionKey.
  destruct (f (CredentialStore.keyPath s)) as [k|] eqn:E; cbn [fst snd].
  - rewrite E. auto.
  - rewrite writeFileSync_same. auto.
Qed.

(** What a save leaves on file, and that it loads back. *)
Lemma file_save_then_load email (c : Credentials) rnd32 rnd16 rnd32' (f : fs) :
  let s := newStore email in
  let key := keyInUse s rnd32 f in
  String.length rnd32 = 32%nat ->
  String.length rnd16 = 16%nat ->
  (forall k, f (CredentialStore.keyPath s) = Some k -> String.length k = 32%nat) ->
  aes_decrypt_raw key rnd16
    (aes_encrypt_raw key rnd16 (MongoCredentialStore.credentialsJson c))
  = Some (MongoCredentialStore.credentialsJson c) ->
  JSON_parse_credentials (MongoCredentialStore.credentialsJson c) = Some c ->
  exists f2,
    CredentialStore.saveCredentials aes_encrypt_raw s c rnd32 rnd16 f = (Ok tt, f2)
    /\ f2 (CredentialStore.keyPath s) = Some key
    /\ CredentialStore.loadCredentials aes_decrypt_raw JSON_parse_credentials s rnd32' f2
       = (Some c, f2)
    /\ CredentialStore.hasCredentials s f2 = true.
Proof.
  intros s key H32 H16 Hkey Hdec Hparse.
  assert (Hlen : String.length key = 32%nat).
  { unfold key, keyInUse, CredentialStore.getOrCreateEncryptionKey.
    destruct (f (CredentialStore.keyPath s)) as [k|] eqn:E; cbn [fst]; auto. }
  destruct (key_persists s rnd32 rnd32' f) as [Hk1 Hk2]. fold key in Hk1, Hk2.
  set (f1 := snd (CredentialStore.getOrCreateEncryptionKey s rnd32 f)) in *.
  set (text := Encoding.hex rnd16 ++ ":"
               ++ Encoding.hex (aes_encrypt_raw key rnd16
                                  (MongoCredentialStore.credentialsJson c))).
  set (f2 := SearchCache.writeFileSync (CredentialStore.credentialsPath s) text f1).
  assert (Hacc : CredentialStore.cipher_accepts key rnd16 = true).
  { unfold CredentialStore.cipher_accepts. now rewrite Hlen, H16. }
  exists f2. split; [|split; [|split]].
  - unfold CredentialStore.saveCredentials, CredentialStore.encrypt.
    fold s.
    assert (E : CredentialStore.getOrCreateEncryptionKey s rnd32 f = (key, f1)).
    { unfold key, keyInUse, f1.
      destruct (CredentialStore.getOrCreateEncryptionKey s rnd32 f); reflexivity. }
    rewrite E, Hacc. reflexivity.
  - unfold f2. rewrite writeFileSync_other; [exact Hk1|].
    intros E. symmetry in E. revert E. apply store_paths_differ.
  - assert (Hk2' : CredentialStore.getOrCreateEncryptionKey s rnd32' f2 = (key, f2)).
    { unfold CredentialStore.getOrCreateEncryptionKey.
      assert (Hf2 : f2 (CredentialStore.keyPath s) = Some key).
      { unfold f2. rewrite writeFileSync_other; [exact Hk1|].
        intros E. symmetry in E. revert E. apply store_paths_differ. }
      now rewrite Hf2. }
    unfold CredentialStore.loadCredentials, CredentialStore.decrypt.
    assert (Hread : f2 (CredentialStore.credentialsPath s) = Some text)
      by (unfold f2; apply writeFileSync_same).
    rewrite Hread, Hk2'.
    assert (Hsplit : JsString.split ":" text
                     = [Encoding.hex rnd16;
                        Encoding.hex (aes_encrypt_raw key rnd16
                                        (MongoCredentialStore.credentialsJson c))]).
    { unfold text. change (":" ++ ?x) with (String ":" x).
      rewrite split_at by apply hex_no_colon.
      rewrite split_without by apply hex_no_colon. reflexivity. }
    rewrite Hsplit. cbn [List.nth List.nth_error].
    rewrite !unhex_hex, Hacc, Hdec, Hparse. reflexivity.
  - unfold CredentialStore.hasCredentials, f2. now rewrite writeFileSync_same.
Qed.

End FileCredentials.

(** X22.  The file-based store.  Credentials saved for a user load back
    unchanged, and the load writes no file: given random values of the
    lengths asked for, a key file, if one exists, of 32 bytes, a cipher
    that decrypts what it encrypted and a [JSON.parse] that reads back
    what [JSON.stringify] wrote.  The key found on file is the one used;
    a key is drawn and written only when there is none, and it is then
    the one every later call finds. *)
Theorem file_credentials_round_trip :
  forall (sha256 : string -> string) (homedir : string)
         (enc : string -> string -> string -> string)
         (dec : string -> string -> string -> option string)
         (parse : string -> option Credentials)
         (email : string) (c : Credentials) (rnd32 rnd16 rnd32' : string)
         (f : SearchCache.fs),
    let s := CredentialStore.new sha256 homedir email in
    let key := keyInUse s rnd32 f in
    String.length rnd32 = 32%nat ->
    String.length rnd16 = 16%nat ->
    (forall k, f (CredentialStore.keyPath s) = Some k -> String.length k = 32%nat) ->
    dec key rnd16 (enc key rnd16 (MongoCredentialStore.credentialsJson c))
    = Some (MongoCredentialStore.credentialsJson c) ->
    parse (MongoCredentialStore.credentialsJson c) = Some c ->
    let out := CredentialStore.saveCredentials enc s c rnd32 rnd16 f in
    fst out = Ok tt
    /\ (forall k, f (CredentialStore.keyPath s) = Some k -> key = k)
    /\ snd out (CredentialStore.keyPath s) = Some key
    /\ CredentialStore.loadCredentials dec parse s rnd32' (snd out) = (Some c, snd out)
    /\ CredentialStore.hasCredentials s (snd out) = true.
Proof.
  intros sha256 homedir enc dec parse email c rnd32 rnd16 rnd32' f s key
         H32 H16 Hkey Hdec Hparse out.
  destruct (file_save_then_load sha256 homedir enc dec parse email c rnd32 rnd16 rnd32' f
              H32 H16 Hkey Hdec Hparse) as (f2 & Hsave & Hk & Hload & Hhas).
  fold s in Hsave, Hk, Hload, Hhas. unfold out. rewrite Hsave. cbn [fst snd].
  split; [reflexivity|]. split; [|auto].
  intros k E. unfold key, keyInUse, CredentialStore.getOrCreateEncryptionKey.
  now rewrite E.
Qed.

(** A byte-wise stand-in for the cipher: each byte is kept, the key and
    the vector are checked on the way back. *)
Definition toy_encrypt_raw (key iv text : string) : string := key ++ iv ++ text.

Definition toy_decrypt_raw (key iv cipher : string) : option string :=
  JsString.strip_prefix (key ++ iv) cipher.

(** X22 on an empty home directory. *)
Lemma file_credentials_round_trip_witness :
  let s := CredentialStore.new Toy.sha256 "/home/u" "a@x.com" in
  let c := {| username := "a@x.com"; password := "secret" |} in
  let out :=
    CredentialStore.saveCredentials toy_encrypt_raw s c
      "0123456789abcdef0123456789abcdef" "fedcba9876543210" (fun _ => None) in
  fst out = Ok tt
  /\ fst (CredentialStore.loadCredentials toy_decrypt_raw Toy.JSON_parse_credentials s
            "another key, never looked at...!" (snd out)) = Some c.
Proof.
  intros s c out.
  assert (Hnokey : forall k : string, (None : option string) = Some k -> String.length k = 32%nat)
    by discriminate.
  pose proof (file_credentials_round_trip Toy.sha256 "/home/u" toy_encrypt_raw
                toy_decrypt_raw Toy.JSON_parse_credentials "a@x.com" c
                "0123456789abcdef0123456789abcdef" "fedcba9876543210"
                "another key, never looked at...!" (fun _ => None)
                eq_refl eq_refl Hnokey eq_refl eq_refl) as (H1 & _ & _ & H4 & _).
  fold s in H1, H4. fold out in H1, H4.
  split; [exact H1|]. now rewrite H4.
Defined.

(** X23.  [clearCredentials] of the file-based store blanks the file and
    leaves it in place: afterwards [loadCredentials] returns [null], the
    empty text holding no initialisation vector, while [hasCredentials]
    still answers [true].  Without a credentials file it does nothing. *)
Theorem cleared_file_credentials_still_reported :
  forall (dec : string -> string -> string -> option string)
         (parse : string -> option Credentials)
         (s : CredentialStore.t) (rnd32 : string) (f : SearchCache.fs),
    let f' := CredentialStore.clearCredentials s f in
    (forall content,
        f (CredentialStore.credentialsPath s) = Some content ->
        f' (CredentialStore.credentialsPath s) = Some EmptyString
        /\ CredentialStore.hasCredentials s f' = true
        /\ fst (CredentialStore.loadCredentials dec parse s rnd32 f') = None)
    /\ (f (CredentialStore.credentialsPath s) = None ->
        f' = f /\ CredentialStore.hasCredentials s f' = false).
Proof.
  intros dec parse s rnd32 f f'. unfold f', CredentialStore.clearCredentials. split.
  - intros content E. rewrite E.
    assert (Hread : SearchCache.writeFileSync (CredentialStore.credentialsPath s)
                      EmptyString f (CredentialStore.credentialsPath s) = Some EmptyString)
      by apply writeFileSync_same.
    split; [exact Hread|]. split.
    + unfold CredentialStore.hasCredentials. now rewrite Hread.
    + unfold CredentialStore.loadCredentials, CredentialStore.decrypt. rewrite Hread.
      destruct (CredentialStore.getOrCreateEncryptionKey s rnd32 _) as [k g].
      cbn [JsString.split List.nth Encoding.unhex].
      unfold CredentialStore.cipher_accepts. cbn [String.length Nat.eqb].
      rewrite andb_false_r. reflexivity.
  - intros E. rewrite E. split; [reflexivity|].
    unfold CredentialStore.hasCredentials. now rewrite E.
Qed.

(** X23 after a save. *)
Lemma cleared_file_credentials_still_reported_witness :
  let s := CredentialStore.new Toy.sha256 "/home/u" "a@x.com" in
  let saved :=
    snd (CredentialStore.saveCredentials toy_encrypt_raw s
           {| username := "a@x.com"; password := "secret" |}
           "0123456789abcdef0123456789abcdef" "fedcba9876543210" (fun _ => None)) in
  let f' := CredentialStore.clearCredentials s saved in
  CredentialStore.hasCredentials s f' = true
  /\ fst (CredentialStore.loadCredentials toy_decrypt_raw Toy.JSON_parse_credentials s
            "0123456789abcdef0123456789abcdef" f') = None.
Proof.
  intros s saved f'.
  destruct (cleared_file_credentials_still_reported toy_decrypt_raw
              Toy.JSON_parse_credentials s "0123456789abcdef0123456789abcdef" saved)
    as [H _].
  destruct (H _ (writeFileSync_same _ _ _)) as (_ & H2 & H3).
  split; [exact H2|exact H3].
Defined.

(* ------------------------------------------------------------------ *)
(** ** [VeracrossAuth], password revision: requests and logins *)
(* ------------------------------------------------------------------ *)

Section LegacyAuth.

Variable P : Platform.t.
Variable baseUrl : string.
Variable homedir : string.
Variable aes_encrypt_raw : string -> string -> string -> string.
Variable aes_decrypt_raw : string -> string -> string -> option string.
Variable randomBytes32 : string.

Local Abbreviation state := (VeracrossAuthLegacy.state P).
Local Abbreviation makeRequest := (VeracrossAuthLegacy.makeRequest P).
Local Abbreviation files := (VeracrossAuthLegacy.files P).

(** A method that writes no file. *)
Definition keeps_files {A} (m : M state A) : Prop :=
  forall s, files (snd (m s)) = files s.

Lemma keeps_files_ret {A} (a : A) : keeps_files (ret a).
Proof. intros s. reflexivity. Qed.

Lemma keeps_files_throw {A} msg : keeps_files (throw (A := A) msg).
Proof. intros s. reflexivity. Qed.

Lemma keeps_files_bind {A B} (m : M state A) (k : A -> M state B) :
  keeps_files m -> (forall a, keeps_files (k a)) -> keeps_files (bind m k).
Proof.
  intros Hm Hk s. unfold bind. specialize (Hm s).
  destruct (m s) as [[a|e] s1]; cbn [snd] in *; [|exact Hm].
  now rewrite Hk.
Qed.

Lemma keeps_files_makeRequest url options : keeps_files (makeRequest url options).
Proof.
  intros s. unfold VeracrossAuthLegacy.makeRequest.
  destruct (Platform.fetch P _ _) as [response|]; [|reflexivity].
  cbn [VeracrossAuthLegacy.cookieJar VeracrossAuthLegacy.log_request].
  destruct (VeracrossAuth.setCookies P _ _ _ _) as [[[]|e] j]; reflexivity.
Qed.

(** The object holds the store of its current user. *)
Definition well_formed (s : state) : Prop :=
  forall cs c,
    VeracrossAuthLegacy.credentialStore P s = Some cs ->
    VeracrossAuthLegacy.currentUserEmail P s = Some c ->
    cs = VeracrossAuthLegacy.newStore P homedir c.

Lemma ensureCredentialStore_store e (s : state) :
  well_formed s ->
  let s1 := VeracrossAuthLegacy.ensureCredentialStore P homedir e s in
  VeracrossAuthLegacy.credentialStore P s1 = Some (VeracrossAuthLegacy.newStore P homedir e)
  /\ files s1 = files s
  /\ VeracrossAuthLegacy.sent P s1 = VeracrossAuthLegacy.sent P s.
Proof.
  intros Hwf. unfold VeracrossAuthLegacy.ensureCredentialStore.
  destruct (VeracrossAuth.is_none _ || VeracrossAuthLegacy.other_user P s e) eqn:E;
    cbn; [auto|].
  apply orb_false_iff in E. destruct E as [E1 E2].
  unfold VeracrossAuthLegacy.other_user in E2.
  destruct (VeracrossAuthLegacy.credentialStore P s) as [cs|] eqn:Hcs; [|discriminate].
  destruct (VeracrossAuthLegacy.currentUserEmail P s) as [c|] eqn:Hc; [|discriminate].
  apply negb_false_iff, String.eqb_eq in E2. subst c.
  rewrite (Hwf cs e Hcs Hc). auto.
Qed.

End LegacyAuth.

(** X24.  In the password revision [makeAuthenticatedRequest] never logs
    in.  It calls [ensureAuthenticated] without an address, and [login]
    without an address gives up before doing anything; so with a current
    user the call is exactly [makeRequest], whether or not the object is
    authenticated, and without a current user it throws and sends
    nothing. *)
Theorem legacy_authenticated_request_is_plain_request :
  forall (P : Platform.t) (baseUrl homedir : string)
         (enc : string -> string -> string -> string)
         (dec : string -> string -> string -> option string)
         (rnd32 url : string) (options : Http.Options)
         (s : VeracrossAuthLegacy.state P),
    (forall e,
        VeracrossAuthLegacy.currentUserEmail P s = Some e ->
        JsString.truthy e = true ->
        VeracrossAuthLegacy.makeAuthenticatedRequest P baseUrl homedir enc dec rnd32
          url options s
        = VeracrossAuthLegacy.makeRequest P url options s)
    /\ (VeracrossAuthLegacy.currentUserEmail P s = None ->
        VeracrossAuthLegacy.makeAuthenticatedRequest P baseUrl homedir enc dec rnd32
          url options s
        = (Throw "User email required for authentication", s)).
Proof.
  intros P baseUrl homedir enc dec rnd32 url options s. split.
  - intros e Hcur He.
    unfold VeracrossAuthLegacy.makeAuthenticatedRequest, bind,
      VeracrossAuthLegacy.ensureAuthenticated.
    rewrite Hcur. cbn [truthy_opt]. rewrite He. cbn [negb andb orb].
    rewrite orb_false_r.
    destruct (VeracrossAuthLegacy.isAuthenticated P s); reflexivity.
  - intros Hcur.
    unfold VeracrossAuthLegacy.makeAuthenticatedRequest, bind,
      VeracrossAuthLegacy.ensureAuthenticated.
    rewrite Hcur. reflexivity.
Qed.

(** A platform whose portal accepts no login. *)
Definition refusingPlatform : Platform.t :=
  Toy.platform
    (fun _ req =>
       Some {| Http.status := 200; Http.finalUrl := Http.url req; Http.location := None;
               Http.setCookie := []; Http.text := "Invalid username or password" |})
    (fun _ coll => (false, coll)).

(** X24 on an object that was logged out. *)
Lemma legacy_authenticated_request_is_plain_request_witness :
  let s : VeracrossAuthLegacy.state refusingPlatform :=
    {| VeracrossAuthLegacy.cookieJar := ([] : CookieJar.jar (Platform.jarOps refusingPlatform));
       VeracrossAuthLegacy.credentialStore :=
         Some (VeracrossAuthLegacy.newStore refusingPlatform "/home/u" "a@x.com");
       VeracrossAuthLegacy.isAuthenticated := false;
       VeracrossAuthLegacy.currentUserEmail := Some "a@x.com";
       VeracrossAuthLegacy.files := (fun _ => None);
       VeracrossAuthLegacy.sent := [] |} in
  let out :=
    VeracrossAuthLegacy.makeAuthenticatedRequest refusingPlatform portalBase "/home/u"
      toy_encrypt_raw toy_decrypt_raw "0123456789abcdef0123456789abcdef"
      "https://portals.veracross.com/csg/parent/directory/1" Http.no_options s in
  List.map Http.url (VeracrossAuthLegacy.sent refusingPlatform (snd out))
  = ["https://portals.veracross.com/csg/parent/directory/1"]
  /\ VeracrossAuthLegacy.isAuthenticated refusingPlatform (snd out) = false.
Proof.
  intros s out.
  destruct (legacy_authenticated_request_is_plain_request refusingPlatform portalBase
              "/home/u" toy_encrypt_raw toy_decrypt_raw "0123456789abcdef0123456789abcdef"
              "https://portals.veracross.com/csg/parent/directory/1" Http.no_options s)
    as [H _].
  specialize (H "a@x.com" eq_refl eq_refl). fold out in H. rewrite H.
  vm_compute. split; reflexivity.
Defined.

(** X25.  [login] with a user name and a password stores them for the
    user before it contacts the portal.  Whatever the portal answers, and
    also when the login fails or a request throws, [login] returns
    (it never throws), the credentials given are the ones that load back
    from the user's store afterwards, and only the two requests of the
    login were sent at most; when it returns [true] the object is
    authenticated. *)
Theorem legacy_login_stores_before_verifying :
  forall (P : Platform.t) (baseUrl homedir : string)
         (enc : string -> string -> string -> string)
         (dec : string -> string -> string -> option string)
         (rnd32 rnd32' u p e : string) (s : VeracrossAuthLegacy.state P),
    let store := VeracrossAuthLegacy.newStore P homedir e in
    let c := {| username := u; password := p |} in
    let key := keyInUse store rnd32 (VeracrossAuthLegacy.files P s) in
    well_formed P homedir s ->
    JsString.truthy u = true -> JsString.truthy p = true -> JsString.truthy e = true ->
    String.length rnd32 = 32%nat ->
    String.length (Platform.randomBytes16 P) = 16%nat ->
    (forall k, VeracrossAuthLegacy.files P s (CredentialStore.keyPath store) = Some k ->
               String.length k = 32%nat) ->
    dec key (Platform.randomBytes16 P)
      (enc key (Platform.randomBytes16 P) (MongoCredentialStore.credentialsJson c))
    = Some (MongoCredentialStore.credentialsJson c) ->
    Platform.JSON_parse_credentials P (MongoCredentialStore.credentialsJson c) = Some c ->
    let out :=
      VeracrossAuthLegacy.login P baseUrl homedir enc dec rnd32 (Some u) (Some p) (Some e) s in
    (exists b, fst out = Ok b
               /\ (b = true -> VeracrossAuthLegacy.isAuthenticated P (snd out) = true))
    /\ fst (CredentialStore.loadCredentials dec (Platform.JSON_parse_credentials P) store
              rnd32' (VeracrossAuthLegacy.files P (snd out))) = Some c
    /\ exists rest,
         VeracrossAuthLegacy.sent P (snd out)
         = (VeracrossAuthLegacy.sent P s ++ rest)%list
         /\ (List.length rest <= 2)%nat.
Proof.
  intros P baseUrl homedir enc dec rnd32 rnd32' u p e s store c key
         Hwf Hu Hp He H32 H16 Hkey Hdec Hparse out.
  destruct (ensureCredentialStore_store P homedir e s Hwf) as (Hcs & Hfiles & Hsent).
  set (s1 := VeracrossAuthLegacy.ensureCredentialStore P homedir e s) in *.
  destruct (file_save_then_load (Platform.sha256 P) homedir enc dec
              (Platform.JSON_parse_credentials P) e c rnd32 (Platform.randomBytes16 P)
              rnd32' (VeracrossAuthLegacy.files P s) H32 H16 Hkey Hdec Hparse)
    as (f2 & Hsave & _ & Hload & _).
  set (s2 := VeracrossAuthLegacy.set_files P f2 s1).
  set (loginPageUrl := baseUrl ++ "/login").
  set (post := fun r1 : Http.Response =>
         {| Http.o_method := Some "POST";
            Http.o_headers :=
              [("Content-Type", "application/x-www-form-urlencoded");
               ("Referer", loginPageUrl)];
            Http.o_body :=
              Some (Platform.URLSearchParams_toString P
                      (Http.spread [("username", u); ("password", p)]
                         (Platform.extractHiddenFields P (Http.text r1))));
            Http.o_redirect := Some "manual" |}).
  assert (Hout : out
            = try_catch
                (loginPageResponse <- VeracrossAuthLegacy.makeRequest P loginPageUrl
                                        Http.no_options ;;
                 loginResponse <- VeracrossAuthLegacy.makeRequest P loginPageUrl
                                    (post loginPageResponse) ;;
                 if VeracrossAuthLegacy.loginAccepted loginResponse
                 then modify (VeracrossAuthLegacy.set_isAuthenticated P true) ;;; ret true
                 else ret false)
                (ret false) s2).
  { unfold out, VeracrossAuthLegacy.login, VeracrossAuthLegacy.loginEmail.
    cbn [truthy_opt]. rewrite He, Hu, Hp. cbn [andb].
    unfold try_catch. unfold bind at 1. unfold modify at 1. fold s1.
    unfold bind at 1. unfold bind at 1.
    unfold VeracrossAuthLegacy.saveCredentials at 1. rewrite Hcs, Hfiles.
    fold store c. unfold store, VeracrossAuthLegacy.newStore in *.
    rewrite Hsave. fold s2. unfold ret at 1. reflexivity. }
  assert (Hfiles2 : VeracrossAuthLegacy.files P (snd out) = f2).
  { rewrite Hout, snd_try_catch_ret.
    rewrite (keeps_files_bind P); [reflexivity|apply keeps_files_makeRequest|].
    intros r1. apply keeps_files_bind; [apply keeps_files_makeRequest|].
    intros r2. destruct (VeracrossAuthLegacy.loginAccepted r2); [|apply keeps_files_ret].
    apply keeps_files_bind; [intros t; reflexivity|intros; apply keeps_files_ret]. }
  split; [|split].
  - rewrite Hout. unfold try_catch, bind.
    destruct (VeracrossAuthLegacy.makeRequest P loginPageUrl Http.no_options s2)
      as [[r1|msg] t1]; [|exists false; split; [reflexivity|discriminate]].
    destruct (VeracrossAuthLegacy.makeRequest P loginPageUrl (post r1) t1)
      as [[r2|msg] t2]; [|exists false; split; [reflexivity|discriminate]].
    destruct (VeracrossAuthLegacy.loginAccepted r2).
    + exists true. split; reflexivity.
    + exists false. split; [reflexivity|discriminate].
  - rewrite Hfiles2. unfold store, VeracrossAuthLegacy.newStore. now rewrite Hload.
  - rewrite Hout, snd_try_catch_ret. unfold bind.
    assert (Hreq : forall url o t,
              exists q, VeracrossAuthLegacy.sent P
                          (snd (VeracrossAuthLegacy.makeRequest P url o t))
                        = (VeracrossAuthLegacy.sent P t ++ [q])%list).
    { intros url o t. unfold VeracrossAuthLegacy.makeRequest.
      destruct (Platform.fetch P _ _) as [response|]; [|eexists; reflexivity].
      cbn [VeracrossAuthLegacy.cookieJar VeracrossAuthLegacy.log_request].
      destruct (VeracrossAuth.setCookies P _ _ _ _) as [[[]|msg] j]; eexists; reflexivity. }
    assert (Hs2 : VeracrossAuthLegacy.sent P s2 = VeracrossAuthLegacy.sent P s)
      by (unfold s2; cbn; exact Hsent).
    destruct (Hreq loginPageUrl Http.no_options s2) as [q1 H1].
    destruct (VeracrossAuthLegacy.makeRequest P loginPageUrl Http.no_options s2)
      as [[r1|msg] t1]; cbn [snd] in *.
    2: { exists [q1]. rewrite H1, Hs2. split; [reflexivity|simpl; lia]. }
    destruct (Hreq loginPageUrl (post r1) t1) as [q2 H2].
    destruct (VeracrossAuthLegacy.makeRequest P loginPageUrl (post r1) t1)
      as [[r2|msg] t2]; cbn [snd] in *.
    2: { exists [q1; q2]. rewrite H2, H1, Hs2, <- app_assoc.
         split; [reflexivity|simpl; lia]. }
    exists [q1; q2].
    destruct (VeracrossAuthLegacy.loginAccepted r2); cbn;
      rewrite H2, H1, Hs2, <- app_assoc; (split; [reflexivity|simpl; lia]).
Qed.

(** X25 on a portal that refuses the password. *)
Lemma legacy_login_stores_before_verifying_witness :
  let s := VeracrossAuthLegacy.new refusingPlatform (fun _ => None) in
  let out :=
    VeracrossAuthLegacy.login refusingPlatform portalBase "/home/u"
      toy_encrypt_raw toy_decrypt_raw "0123456789abcdef0123456789abcdef"
      (Some "a@x.com") (Some "wrong") (Some "a@x.com") s in
  fst out = Ok false
  /\ fst (CredentialStore.loadCredentials toy_decrypt_raw Toy.JSON_parse_credentials
            (CredentialStore.new Toy.sha256 "/home/u" "a@x.com")
            "0123456789abcdef0123456789abcdef"
            (VeracrossAuthLegacy.files refusingPlatform (snd out)))
     = Some {| username := "a@x.com"; password := "wrong" |}.
Proof.
  intros s out.
  assert (Hwf : well_formed refusingPlatform "/home/u" s).
  { intros cs c H. discriminate. }
  assert (Hnokey : forall k : string, (None : option string) = Some k -> String.length k = 32%nat)
    by discriminate.
  pose proof (legacy_login_stores_before_verifying refusingPlatform portalBase "/home/u"
                toy_encrypt_raw toy_decrypt_raw "0123456789abcdef0123456789abcdef"
                "0123456789abcdef0123456789abcdef" "a@x.com" "wrong" "a@x.com" s
                Hwf eq_refl eq_refl eq_refl eq_refl eq_refl Hnokey eq_refl eq_refl)
    as (_ & H2 & _).
  split; [vm_compute; reflexivity|exact H2].
Defined.

(* ------------------------------------------------------------------ *)
(** ** The directory search: address, query string, cache *)
(* ------------------------------------------------------------------ *)

Lemma contains_app c a b : contains c (a ++ b) = contains c a || contains c b.
Proof.
  induction a as [|x r IH]; simpl; [reflexivity|]. now rewrite IH, orb_assoc.
Qed.

(** The four characters that structure a query string. *)
Definition query_delimiter (c : ascii) : bool :=
  Ascii.eqb c "&" || Ascii.eqb c "=" || Ascii.eqb c "?" || Ascii.eqb c "#".

Lemma encode_byte_clean x :
  contains "&" (Uri.encode_byte x) = false
  /\ contains "=" (Uri.encode_byte x) = false
  /\ contains "?" (Uri.encode_byte x) = false
  /\ contains "#" (Uri.encode_byte x) = false.
Proof.
  destruct x as [[] [] [] [] [] [] [] []]; vm_compute; auto.
Qed.

Lemma encodeURIComponent_clean c s :
  query_delimiter c = true -> contains c (Uri.encodeURIComponent s) = false.
Proof.
  intros Hc. induction s as [|x r IH]; simpl; [reflexivity|].
  rewrite contains_app, IH, orb_false_r.
  destruct (encode_byte_clean x) as (H1 & H2 & H3 & H4).
  unfold query_delimiter in Hc.
  destruct (Ascii.eqb_spec c "&"); [subst; exact H1|].
  destruct (Ascii.eqb_spec c "="); [subst; exact H2|].
  destruct (Ascii.eqb_spec c "?"); [subst; exact H3|].
  destruct (Ascii.eqb_spec c "#"); [subst; exact H4|discriminate].
Qed.

Lemma split_join sep (l : list string) :
  l <> [] ->
  Forall (fun p => contains sep p = false) l ->
  JsString.split sep (JsString.join (String sep EmptyString) l) = l.
Proof.
  intros Hne Hl. induction Hl as [|p r Hp Hr IH]; [contradiction|].
  destruct r as [|q r'].
  - simpl. now apply split_without.
  - change (JsString.join (String sep EmptyString) (p :: q :: r'))
      with (p ++ String sep (JsString.join (String sep EmptyString) (q :: r'))).
    rewrite split_at by exact Hp. rewrite IH; [reflexivity|discriminate].
Qed.

Lemma split_pair sep a b :
  contains sep a = false -> contains sep b = false ->
  JsString.split sep (a ++ String sep b) = [a; b].
Proof. intros Ha Hb. now rewrite split_at, split_without. Qed.

(** X26.  [buildSearchUrl] cannot be made to carry another parameter.
    Whatever the search fields hold, the query string, cut at [&] and
    then at [=], is the seven intended name and value pairs, each value
    the [encodeURIComponent] of its field; and the query holds no [?] and
    no [#]. *)
Theorem search_url_parameters_are_fixed :
  forall (code : option string) (params : Json.object),
    let query := JsString.join "&" (DirectorySearch.queryParams params) in
    DirectorySearch.buildSearchUrl code params
    = ("https://portals.veracross.com/" ++ DirectorySearch.schoolCode code
       ++ "/parent/directory/1") ++ "?" ++ query
    /\ List.map (JsString.split "=") (JsString.split "&" query)
       = [["directory_entry%5Bfirst_name%5D"; DirectorySearch.encoded params "firstName"];
          ["directory_entry%5Blast_name%5D"; DirectorySearch.encoded params "lastName"];
          ["directory_entry%5Bcity%5D"; DirectorySearch.encoded params "city"];
          ["directory_entry%5Blocation%5D"; EmptyString];
          ["directory_entry%5Bpostal_code%5D"; DirectorySearch.encoded params "postalCode"];
          ["directory_entry%5Bgrade_level%5D"; DirectorySearch.encoded params "gradeLevel"];
          ["commit"; "Search"]]
    /\ contains "?" query = false
    /\ contains "#" query = false.
Proof.
  intros code params query.
  assert (Hclean : forall c k, query_delimiter c = true ->
                     contains c (DirectorySearch.encoded params k) = false).
  { intros c k Hc. now apply encodeURIComponent_clean. }
  assert (Hparts : forall c, query_delimiter c = true -> negb (Ascii.eqb c "=") = true ->
                     Forall (fun p => contains c p = false)
                       (DirectorySearch.queryParams params)).
  { intros c Hc Hne. unfold DirectorySearch.queryParams.
    repeat constructor;
      try (change (?n ++ DirectorySearch.encoded params ?k)
             with (n ++ DirectorySearch.encoded params k);
           rewrite contains_app, (Hclean c _ Hc), orb_false_r);
      unfold query_delimiter in Hc;
      repeat match goal with
             | H : _ || _ = true |- _ => apply orb_true_iff in H; destruct H as [H|H]
             end;
      try (apply Ascii.eqb_eq in Hc; subst c; try reflexivity; try discriminate). }
  split; [reflexivity|]. split; [|split].
  - unfold query. rewrite split_join; [|discriminate|apply Hparts; reflexivity].
    unfold DirectorySearch.queryParams. cbn [List.map].
    repeat match goal with
           | |- context [JsString.split "=" (?n ++ DirectorySearch.encoded params ?k)] =>
               let n' := eval vm_compute in (String.substring 0 (String.length n - 1) n) in
               change (n ++ DirectorySearch.encoded params k)
                 with (n' ++ String "=" (DirectorySearch.encoded params k));
               rewrite (split_pair "=" n' (DirectorySearch.encoded params k));
               [|reflexivity|apply Hclean; reflexivity]
           end.
    reflexivity.
  - unfold query.
    assert (H := Hparts "?"%char eq_refl eq_refl).
    clear Hparts. revert H. generalize (DirectorySearch.queryParams params).
    intros l Hl. induction Hl as [|p r Hp Hr IH]; [reflexivity|].
    destruct r; [exact Hp|].
    change (JsString.join "&" (p :: s :: r)) with (p ++ "&" ++ JsString.join "&" (s :: r)).
    rewrite contains_app, Hp. simpl. exact IH.
  - unfold query.
    assert (H := Hparts "#"%char eq_refl eq_refl).
    clear Hparts. revert H. generalize (DirectorySearch.queryParams params).
    intros l Hl. induction Hl as [|p r Hp Hr IH]; [reflexivity|].
    destruct r; [exact Hp|].
    change (JsString.join "&" (p :: s :: r)) with (p ++ "&" ++ JsString.join "&" (s :: r)).
    rewrite contains_app, Hp. simpl. exact IH.
Qed.

(** *** Addresses *)

(** [s] holds an ASCII white-space character. *)
Fixpoint has_space (s : string) : bool :=
  match s with
  | EmptyString => false
  | String c r => CookieString.is_space c || has_space r
  end.

(** How often [c] occurs in [s]. *)
Fixpoint count_char (c : ascii) (s : string) : nat :=
  match s with
  | EmptyString => 0
  | String a r => (if Ascii.eqb a c then 1 else 0) + count_char c r
  end.

Lemma split_length sep s : List.length (JsString.split sep s) = S (count_char sep s).
Proof.
  induction s as [|a r IH]; simpl; [reflexivity|].
  destruct (Ascii.eqb a sep); simpl; [now rewrite IH|].
  destruct (JsString.split sep r) as [|x l]; simpl in *; [discriminate|exact IH].
Qed.

Lemma has_space_blank s : has_space s = false -> contains " " s = false.
Proof.
  induction s as [|c r IH]; simpl; [reflexivity|].
  intros H. apply orb_false_iff in H. destruct H as [Hc Hr]. rewrite (IH Hr), orb_false_r.
  destruct (Ascii.eqb_spec c " "); [subst; discriminate|reflexivity].
Qed.

Lemma trim_end_solid s :
  has_space s = false -> CookieString.trim_end s = s.
Proof.
  induction s as [|c r IH]; simpl; [reflexivity|].
  intros H. apply orb_false_iff in H. destruct H as [Hc Hr].
  rewrite (IH Hr), Hc. destruct r; reflexivity.
Qed.

Lemma trim_end_app a b :
  b <> EmptyString -> CookieString.trim_end b = b ->
  CookieString.trim_end (a ++ b) = a ++ b.
Proof.
  intros Hne Hb. induction a as [|c r IH]; simpl; [exact Hb|].
  rewrite IH. destruct (r ++ b) eqn:E; [|reflexivity].
  destruct r; simpl in E; [contradiction|discriminate].
Qed.

(** A leading blank does not change what [trim] returns. *)
Lemma trim_blank s : CookieString.trim (String " " s) = CookieString.trim s.
Proof. reflexivity. Qed.

Lemma trim_solid_pair a b :
  a <> EmptyString -> b <> EmptyString ->
  has_space a = false -> has_space b = false ->
  CookieString.trim (a ++ String " " b) = a ++ String " " b.
Proof.
  intros Ha Hb Hsa Hsb. unfold CookieString.trim.
  assert (Hstart : CookieString.trim_start (a ++ String " " b) = a ++ String " " b).
  { destruct a as [|c r]; [contradiction|]. simpl in *.
    apply orb_false_iff in Hsa. destruct Hsa as [Hc _]. now rewrite Hc. }
  rewrite Hstart.
  change (a ++ String " " b) with (a ++ (String " " EmptyString ++ b)).
  rewrite <- string_app_assoc.
  apply trim_end_app; [exact Hb|now apply trim_end_solid].
Qed.

(** Every byte of [s] is an ASCII character, so that the white space
    [trim] removes is the white space of the model. *)
Fixpoint ascii_text (s : string) : bool :=
  match s with
  | EmptyString => true
  | String c r => (nat_of_ascii c <? 128)%nat && ascii_text r
  end.

(** X27.  [parseAddress] on the layout the directory uses,
    [street, city, ST zip], in ASCII text: when the street and the city
    hold no comma and no outer white space, and the state and the postal
    code are non-empty and hold no comma and no white space, the four
    parts are returned as they are, the postal code without its first
    hyphen.  A non-empty text with fewer than two commas is returned
    whole as the street. *)
Theorem parseAddress_reads_the_directory_layout :
  forall (street city st zip : string),
    ascii_text (street ++ city ++ st ++ zip) = true ->
    contains "," street = false -> contains "," city = false ->
    contains "," st = false -> contains "," zip = false ->
    CookieString.trim street = street -> CookieString.trim city = city ->
    st <> EmptyString -> zip <> EmptyString ->
    has_space st = false -> has_space zip = false ->
    DirectorySearch.parseAddress (street ++ ", " ++ city ++ ", " ++ st ++ " " ++ zip)
    = {| DirectorySearch.street := Some street;
         DirectorySearch.city := Some city;
         DirectorySearch.state := Some st;
         DirectorySearch.postalCode := Some (JsString.remove_first "-" zip) |}
    /\ (forall text,
           JsString.truthy text = true ->
           (count_char "," text < 2)%nat ->
           DirectorySearch.parseAddress text
           = {| DirectorySearch.street := Some text;
                DirectorySearch.city := None;
                DirectorySearch.state := None;
                DirectorySearch.postalCode := None |}).
Proof.
  intros street city st zip _ Hc1 Hc2 Hc3 Hc4 Ht1 Ht2 Hst Hzip Hs3 Hs4. split.
  - unfold DirectorySearch.parseAddress.
    assert (Htruthy : JsString.truthy (street ++ ", " ++ city ++ ", " ++ st ++ " " ++ zip)
                      = true) by (destruct street; reflexivity).
    rewrite Htruthy. cbn [negb].
    assert (Hsplit : JsString.split "," (street ++ ", " ++ city ++ ", " ++ st ++ " " ++ zip)
                     = [street; String " " city; String " " (st ++ String " " zip)]).
    { change (street ++ ", " ++ city ++ ", " ++ st ++ " " ++ zip)
        with (street ++ String "," (String " " city
                ++ String "," (String " " (st ++ String " " zip)))).
      rewrite split_at by exact Hc1.
      rewrite split_at by (simpl; exact Hc2).
      rewrite split_without; [reflexivity|].
      simpl. rewrite contains_app, Hc3. simpl. exact Hc4. }
    rewrite Hsplit. cbn [List.map List.length Nat.leb List.nth].
    rewrite !trim_blank, Ht1, Ht2, (trim_solid_pair st zip Hst Hzip Hs3 Hs4).
    rewrite (split_pair " " st zip (has_space_blank st Hs3) (has_space_blank zip Hs4)).
    cbn [List.nth List.skipn JsString.join]. reflexivity.
  - intros text Htext Hcount. unfold DirectorySearch.parseAddress.
    rewrite Htext. cbn [negb]. rewrite List.length_map, split_length.
    destruct (Nat.leb_spec 3 (S (count_char "," text))); [lia|reflexivity].
Qed.

(** X27 on the address of the source's comment. *)
Lemma parseAddress_reads_the_directory_layout_witness :
  DirectorySearch.parseAddress "5511 Steele Court, New Albany, OH 43054-8225"
  = {| DirectorySearch.street := Some "5511 Steele Court";
       DirectorySearch.city := Some "New Albany";
       DirectorySearch.state := Some "OH";
       DirectorySearch.postalCode := Some "430548225" |}
  /\ DirectorySearch.parseAddress " 12 Main St, Bexley"
     = {| DirectorySearch.street := Some " 12 Main St, Bexley";
          DirectorySearch.city := None;
          DirectorySearch.state := None;
          DirectorySearch.postalCode := None |}.
Proof.
  assert (Hst : "OH" <> EmptyString) by discriminate.
  assert (Hzip : "43054-8225" <> EmptyString) by discriminate.
  destruct (parseAddress_reads_the_directory_layout "5511 Steele Court" "New Albany" "OH"
              "43054-8225" eq_refl eq_refl eq_refl eq_refl eq_refl eq_refl eq_refl Hst Hzip
              eq_refl eq_refl) as [H1 H2].
  split; [exact H1|]. apply H2; [reflexivity|simpl; lia].
Defined.

(** *** The cache of the search *)

(** A row written by [set] is what [get] returns for every query with the
    same key, until the row expires. *)
Lemma set_then_get_same_key (sha256 : string -> string) (T : Type)
    (c : MongoSearchCache.t) (params params' : Json.object) (d : T) (h now now' : Z)
    (coll : list (MongoSearchCache.CacheEntry T)) :
  MongoSearchCache.getCacheKey sha256 params' = MongoSearchCache.getCacheKey sha256 params ->
  (now' < now + h * 60 * 60 * 1000)%Z ->
  MongoSearchCache.get sha256 c params' now'
    (MongoSearchCache.set sha256 c params d h now coll) = Some d.
Proof.
  intros Hkey Hlive. unfold MongoSearchCache.get, MongoSearchCache.set.
  rewrite Hkey. rewrite Mongo.findOne_replaceOne_upsert; [reflexivity| |].
  - intros x Hx. unfold MongoSearchCache.bySlotLive in Hx.
    now apply andb_true_iff in Hx.
  - unfold MongoSearchCache.bySlotLive, MongoSearchCache.bySlot. simpl.
    rewrite !String.eqb_refl. simpl. now apply Z.ltb_lt.
Qed.

Section DirectoryCache.

Variable P : Platform.t.
Variable baseUrl : string.
Variable VERACROSS_SCHOOL_CODE : option string.
Variable DirectoryEntry : Type.
Variable parseDirectoryResults : string -> list DirectoryEntry.

Local Abbreviation instance := (DirectorySearch.instance P DirectoryEntry).
Local Abbreviation search :=
  (DirectorySearch.search P baseUrl VERACROSS_SCHOOL_CODE DirectoryEntry
     parseDirectoryResults).

(** A step of [search] that leaves the cache fields and the cache
    collection alone. *)
Definition beside_cache {A} (m : M instance A) : Prop :=
  forall s,
    DirectorySearch.cache (snd (m s)) = DirectorySearch.cache s
    /\ DirectorySearch.currentUserEmail (snd (m s)) = DirectorySearch.currentUserEmail s
    /\ DirectorySearch.rows (snd (m s)) = DirectorySearch.rows s.

Lemma onAuth_beside_cache {A} (m : M (VeracrossAuth.state P) A) :
  beside_cache (DirectorySearch.onAuth P DirectoryEntry m).
Proof.
  intros s. unfold DirectorySearch.onAuth.
  destruct (m (DirectorySearch.auth s)) as [r a]. cbn. auto.
Qed.

Lemma ensureCache_effect e (s : instance) :
  let s1 := DirectorySearch.ensureCache P DirectoryEntry e s in
  (exists c, DirectorySearch.cache s1 = Some c)
  /\ DirectorySearch.currentUserEmail s1 = Some e
  /\ DirectorySearch.rows s1 = DirectorySearch.rows s
  /\ DirectorySearch.auth s1 = DirectorySearch.auth s.
Proof.
  unfold DirectorySearch.ensureCache.
  destruct (VeracrossAuth.is_none _ || DirectorySearch.other_user P DirectoryEntry s e) eqn:E.
  - cbn. split; [eexists; reflexivity|auto].
  - apply orb_false_iff in E. destruct E as [E1 E2].
    unfold DirectorySearch.other_user in E2.
    destruct (DirectorySearch.cache s) as [c|] eqn:Hc; [|discriminate].
    destruct (DirectorySearch.currentUserEmail s) as [u|] eqn:Hu; [|discriminate].
    apply negb_false_iff, String.eqb_eq in E2. subst u.
    split; [eexists; reflexivity|auto].
Qed.

Lemma ensureCache_same e c (s : instance) :
  DirectorySearch.cache s = Some c ->
  DirectorySearch.currentUserEmail s = Some e ->
  DirectorySearch.ensureCache P DirectoryEntry e s = s.
Proof.
  intros Hc Hu. unfold DirectorySearch.ensureCache, DirectorySearch.other_user.
  now rewrite Hc, Hu, String.eqb_refl.
Qed.

(** What the part of [search] behind the cache leaves, started at [s1]
    with the cache collection of [s]: the results it returns are the row
    of the query, and a failure writes nothing. *)
Definition fetched (e : string) (c : MongoSearchCache.t) (params : Json.object) (now : Z)
    (s : instance) (o : result (list DirectoryEntry) * instance) : Prop :=
  DirectorySearch.cache (snd o) = Some c
  /\ DirectorySearch.currentUserEmail (snd o) = Some e
  /\ match fst o with
     | Throw _ => DirectorySearch.rows (snd o) = DirectorySearch.rows s
     | Ok results =>
         DirectorySearch.rows (snd o)
         = MongoSearchCache.set (Platform.sha256 P) c params results 24 now
             (DirectorySearch.rows s)
     end.

(** What a call of [search] for user [e] leaves: nothing new in the
    cache, unless it returns results it fetched, which are then the row of
    the query. *)
Definition searched (e : string) (c : MongoSearchCache.t) (params : Json.object) (now : Z)
    (s : instance) (o : result (list DirectoryEntry) * instance) : Prop :=
  DirectorySearch.cache (snd o) = Some c
  /\ DirectorySearch.currentUserEmail (snd o) = Some e
  /\ match fst o with
     | Throw _ => DirectorySearch.rows (snd o) = DirectorySearch.rows s
     | Ok results =>
         (DirectorySearch.truthy (Json.get params "refresh") = false
          /\ MongoSearchCache.get (Platform.sha256 P) c params now (DirectorySearch.rows s)
             = Some results)
         \/ DirectorySearch.rows (snd o)
            = MongoSearchCache.set (Platform.sha256 P) c params results 24 now
                (DirectorySearch.rows s)
     end.

Lemma fetched_searched e c params now s o :
  fetched e c params now s o -> searched e c params now s o.
Proof.
  unfold fetched, searched. intros (H1 & H2 & H3). split; [exact H1|]. split; [exact H2|].
  destruct (fst o); [right|]; exact H3.
Qed.

Lemma fetch_outcome params now e c (s s1 : instance) :
  DirectorySearch.cache s1 = Some c ->
  DirectorySearch.currentUserEmail s1 = Some e ->
  DirectorySearch.rows s1 = DirectorySearch.rows s ->
  fetched e c params now s
    ((DirectorySearch.onAuth P DirectoryEntry
        (VeracrossAuth.ensureAuthenticated P baseUrl e) ;;;
      response <-
        DirectorySearch.onAuth P DirectoryEntry
          (VeracrossAuth.makeAuthenticatedRequest P baseUrl
             (DirectorySearch.buildSearchUrl VERACROSS_SCHOOL_CODE
                (Json.delete "userEmail" (Json.delete "refresh" params)))
             Http.no_options) ;;
      if negb (Http.ok response) then throw "Directory search request failed"
      else
        DirectorySearch.cacheSet P DirectoryEntry params
          (parseDirectoryResults (Http.text response)) now ;;;
        ret (parseDirectoryResults (Http.text response))) s1).
Proof.
  intros Hc Hu Hrows. unfold bind at 1.
  generalize (onAuth_beside_cache (VeracrossAuth.ensureAuthenticated P baseUrl e) s1).
  destruct (DirectorySearch.onAuth P DirectoryEntry
              (VeracrossAuth.ensureAuthenticated P baseUrl e) s1) as [[okb|msg] s2];
    intros (A1 & A2 & A3); cbn [fst snd] in *;
    [|unfold fetched; cbn [fst snd]; repeat split; congruence].
  unfold bind at 1.
  match goal with
  | |- context [DirectorySearch.onAuth P DirectoryEntry ?m s2] =>
      generalize (onAuth_beside_cache m s2);
      destruct (DirectorySearch.onAuth P DirectoryEntry m s2) as [[response|msg] s3]
  end; intros (B1 & B2 & B3); cbn [fst snd] in *;
    [|unfold fetched; cbn [fst snd]; repeat split; congruence].
  destruct (negb (Http.ok response));
    [unfold fetched; cbn; repeat split; congruence|].
  unfold bind, DirectorySearch.cacheSet.
  assert (Hc3 : DirectorySearch.cache s3 = Some c) by congruence.
  rewrite Hc3. unfold fetched. cbn. repeat split; congruence.
Qed.

Lemma search_outcome params now e (s : instance) :
  DirectorySearch.userEmailOf params = Some e ->
  exists c, searched e c params now s (search params now s).
Proof.
  intros He. unfold DirectorySearch.search. rewrite He.
  unfold bind at 1. unfold modify at 1.
  destruct (ensureCache_effect e s) as ((c & Hc) & Hu & Hrows & Hauth).
  set (s1 := DirectorySearch.ensureCache P DirectoryEntry e s) in *.
  exists c. unfold bind at 1.
  destruct (DirectorySearch.truthy (Json.get params "refresh")) eqn:Hr.
  - unfold ret at 1. apply fetched_searched, fetch_outcome; assumption.
  - unfold DirectorySearch.cacheGet at 1. rewrite Hc.
    destruct (MongoSearchCache.get (Platform.sha256 P) c params now
                (DirectorySearch.rows s1)) as [cached|] eqn:Hget.
    + unfold searched. cbn. split; [exact Hc|]. split; [exact Hu|]. left.
      split; [exact Hr|]. now rewrite <- Hrows.
    + apply fetched_searched, fetch_outcome; assumption.
Qed.

End DirectoryCache.

(** X28.  The cache of the directory search.  A search that throws (no
    address, a failed or refused request, a response that is not [ok])
    leaves the cache collection as it was: errors are not cached.  The
    results of a search with [refresh] are cached under the query, so the
    same query repeated by the same user without [refresh] within 24
    hours returns them from the cache: the instance is left exactly as it
    was, no request is sent and no login is attempted. *)
Theorem directory_search_caches_results_only :
  forall (P : Platform.t) (baseUrl : string) (code : option string)
         (Entry : Type) (parse : string -> list Entry)
         (params : Json.object) (now : Z) (s : DirectorySearch.instance P Entry),
    let out := DirectorySearch.search P baseUrl code Entry parse params now s in
    (forall msg, fst out = Throw msg ->
                 DirectorySearch.rows (snd out) = DirectorySearch.rows s)
    /\ (forall e results params' now',
           DirectorySearch.userEmailOf params = Some e ->
           DirectorySearch.truthy (Json.get params "refresh") = true ->
           fst out = Ok results ->
           DirectorySearch.userEmailOf params' = Some e ->
           DirectorySearch.truthy (Json.get params' "refresh") = false ->
           MongoSearchCache.getCacheKey (Platform.sha256 P) params'
           = MongoSearchCache.getCacheKey (Platform.sha256 P) params ->
           (now' < now + 24 * 60 * 60 * 1000)%Z ->
           DirectorySearch.search P baseUrl code Entry parse params' now' (snd out)
           = (Ok results, snd out)).
Proof.
  intros P baseUrl code Entry parse params now s out. split.
  - intros msg Hthrow.
    destruct (DirectorySearch.userEmailOf params) as [e|] eqn:He.
    + destruct (search_outcome P baseUrl code Entry parse params now e s He)
        as (c & _ & _ & H).
      fold out in H. rewrite Hthrow in H. exact H.
    + unfold out, DirectorySearch.search. rewrite He. reflexivity.
  - intros e results params' now' He Hr Hok He' Hr' Hkey Hlive.
    destruct (search_outcome P baseUrl code Entry parse params now e s He)
      as (c & Hc & Hu & H).
    fold out in Hc, Hu, H. rewrite Hok in H.
    destruct H as [(Hr0 & _)|Hrows]; [congruence|].
    unfold DirectorySearch.search. rewrite He'.
    unfold bind at 1. unfold modify at 1.
    rewrite (ensureCache_same P Entry e c (snd out) Hc Hu).
    unfold bind at 1. rewrite Hr'. unfold DirectorySearch.cacheGet. rewrite Hc, Hrows.
    rewrite (set_then_get_same_key (Platform.sha256 P) (list Entry) c params params' results
               24 now now' (DirectorySearch.rows s) Hkey Hlive).
    reflexivity.
Qed.

(** X28 on a fresh search object whose user has a stored session the
    portal accepts: the refreshed search fetches, the repeated query (its
    properties in another order) is answered from the cache. *)
Lemma directory_search_caches_results_only_witness :
  let s :=
    DirectorySearch.mkInstance calmPlatform string
      (VeracrossAuth.new calmPlatform (Toy.storedSession "b@x.com" "tok=bob" []))
      None None [] in
  let parse := fun html : string => [html] in
  let out :=
    DirectorySearch.search calmPlatform portalBase None string parse
      [("lastName", Json.JString "Smith"); ("userEmail", Json.JString "b@x.com");
       ("refresh", Json.JBool true)] 1000 s in
  fst out = Ok ["ok"]
  /\ DirectorySearch.search calmPlatform portalBase None string parse
       [("userEmail", Json.JString "b@x.com"); ("lastName", Json.JString "Smith")]
       5000 (snd out)
     = (Ok ["ok"], snd out).
Proof.
  intros s parse out.
  assert (Hok : fst out = Ok ["ok"]) by (vm_compute; reflexivity).
  split; [exact Hok|].
  apply (proj2 (directory_search_caches_results_only calmPlatform portalBase None string
                  parse
                  [("lastName", Json.JString "Smith"); ("userEmail", Json.JString "b@x.com");
                   ("refresh", Json.JBool true)] 1000 s) "b@x.com");
    first [exact Hok | reflexivity | lia].
Defined.
